(** * SplatTools: frame sampling, sharpness scoring and selection

    A shallow embedding of the analysis and selection core of the
    SplatTools editors: the planar editor hook ([useEditor]), the 360
    editor hook ([useEditor360]), the two editor pages that compute the
    frames to export, and the detection / view-generation helpers of
    [lib/video360.ts].

    Numbers.  A JavaScript [number] is an IEEE-754 binary64 value.  Two
    embeddings are used, chosen by what the embedded function does with
    its numbers:

    - [JS.number] keeps the special values [NaN], [+Infinity] and
      [-Infinity] and represents every finite value by an exact rational
      (kept in lowest terms).  Rounding and the sign of zero are not
      modelled.  All state of the editors (times, variances, thresholds,
      angles, progress) uses this type, so that statements quantified
      over every sample, range or duration can be proved.
    - [detect360Video] only divides, subtracts and compares two pixel
      dimensions; it is embedded on the kernel's binary64 [float], which
      evaluates it bit for bit as the JavaScript engine does.
    - Which samples an analysis run takes depends on the rounding of
      [1 / fps], [i * interval] and [duration * fps]; the two runs are
      therefore embedded a second time on binary64 ([Editor64],
      [MultiView64]), and the statements about the sample schedule are
      made there.

    React state.  [setState (prev => ...)] is a pure function from the
    previous state to the next; every updater is embedded as such a
    function.  The asynchronous analysis runs thread a [World] (editor
    state, video element, console) through a small state-and-exception
    monad, with [try]/[catch]/[finally] as a combinator.

    Components.  A component is embedded as a function from an event
    and the state (the editor's and the component's own) to the next
    state, a gesture as a list of events.  What the browser does for
    the export (completing a seek, drawing and encoding a frame,
    packing the archive) and the printing of a number are Section
    variables.  The archive is embedded as JSZip keeps it: files under
    their full names, [file] adding a name or replacing the data of a
    name that is already there. *)

From Stdlib Require Import QArith Qround Qminmax ZArith List Bool Ascii String Lia Lqa.
From Stdlib Require Import DecimalString.
From Stdlib Require PrimFloat Uint63 FloatOps FloatAxioms SpecFloat Qabs.
From Stdlib Require DecimalNat DecimalFacts.
Import ListNotations.

Local Open Scope Q_scope.

(* ================================================================== *)
(** * JavaScript numbers *)
(* ================================================================== *)

Module JS.

Inductive number : Type :=
| NaN
| NegInf
| Fin (q : Q)
| PosInf.

(** A finite result, always stored in lowest terms. *)
Definition fin (q : Q) : number := Fin (Qred q).

Definition ofZ (z : Z) : number := Fin (inject_Z z).
Definition ofNat (n : nat) : number := ofZ (Z.of_nat n).

Definition Qltb (x y : Q) : bool :=
  match x ?= y with Lt => true | _ => false end.

(** Truncation toward zero. *)
Definition Qtrunc (q : Q) : Z := Z.quot (Qnum q) (Zpos (Qden q)).

(** ** Relational operators: every comparison with [NaN] is false. *)

Definition ltb (a b : number) : bool :=
  match a, b with
  | NaN, _ | _, NaN => false
  | _, NegInf => false
  | NegInf, _ => true
  | PosInf, _ => false
  | Fin _, PosInf => true
  | Fin x, Fin y => Qltb x y
  end.

Definition leb (a b : number) : bool :=
  match a, b with
  | NaN, _ | _, NaN => false
  | NegInf, _ => true
  | _, PosInf => true
  | Fin x, Fin y => Qle_bool x y
  | _, _ => false
  end.

Definition gtb (a b : number) : bool := ltb b a.
Definition geb (a b : number) : bool := leb b a.

(** Strict equality [===] on numbers. *)
Definition eqb (a b : number) : bool :=
  match a, b with
  | Fin x, Fin y => Qeq_bool x y
  | PosInf, PosInf | NegInf, NegInf => true
  | _, _ => false
  end.

(** ** Arithmetic *)

Definition neg (a : number) : number :=
  match a with
  | NaN => NaN
  | NegInf => PosInf
  | PosInf => NegInf
  | Fin q => fin (- q)
  end.

Definition add (a b : number) : number :=
  match a, b with
  | NaN, _ | _, NaN => NaN
  | PosInf, NegInf | NegInf, PosInf => NaN
  | PosInf, _ | _, PosInf => PosInf
  | NegInf, _ | _, NegInf => NegInf
  | Fin x, Fin y => fin (x + y)
  end.

Definition sub (a b : number) : number := add a (neg b).

(** [+Infinity] or [-Infinity] times a finite factor. *)
Definition scaleInf (positive : bool) (q : Q) : number :=
  match q ?= 0 with
  | Eq => NaN
  | Gt => if positive then PosInf else NegInf
  | Lt => if positive then NegInf else PosInf
  end.

Definition mul (a b : number) : number :=
  match a, b with
  | NaN, _ | _, NaN => NaN
  | Fin x, Fin y => fin (x * y)
  | PosInf, Fin y => scaleInf true y
  | Fin x, PosInf => scaleInf true x
  | NegInf, Fin y => scaleInf false y
  | Fin x, NegInf => scaleInf false x
  | PosInf, PosInf | NegInf, NegInf => PosInf
  | _, _ => NegInf
  end.

Definition div (a b : number) : number :=
  match a, b with
  | NaN, _ | _, NaN => NaN
  | Fin x, Fin y =>
      if Qeq_bool y 0
      then match x ?= 0 with Eq => NaN | Gt => PosInf | Lt => NegInf end
      else fin (x / y)
  | Fin _, _ => Fin 0
  | PosInf, Fin y => if Qltb y 0 then NegInf else PosInf
  | NegInf, Fin y => if Qltb y 0 then PosInf else NegInf
  | _, _ => NaN
  end.

(** The remainder operator [%]: the result takes the sign of the
    dividend. *)
Definition rem (a b : number) : number :=
  match a, b with
  | Fin x, Fin y =>
      if Qeq_bool y 0 then NaN
      else fin (x - y * inject_Z (Qtrunc (x / y)))
  | Fin x, (PosInf | NegInf) => Fin x
  | _, _ => NaN
  end.

(** [Math.pow(x, 2)]. *)
Definition pow2 (a : number) : number := mul a a.

Definition floor (a : number) : number :=
  match a with
  | Fin q => ofZ (Qfloor q)
  | _ => a
  end.

(** [Math.round]: to the nearest integer, halves upward. *)
Definition round (a : number) : number :=
  match a with
  | Fin q => ofZ (Qfloor (q + (1 # 2)))
  | _ => a
  end.

Definition min (a b : number) : number :=
  match a, b with
  | NaN, _ | _, NaN => NaN
  | _, _ => if ltb b a then b else a
  end.

Definition max (a b : number) : number :=
  match a, b with
  | NaN, _ | _, NaN => NaN
  | _, _ => if ltb a b then b else a
  end.

(** ** Truthiness and [||] on numbers: [0] and [NaN] are falsy. *)

Definition truthy (a : number) : bool :=
  match a with
  | NaN => false
  | Fin q => negb (Qeq_bool q 0)
  | _ => true
  end.

Definition or (a b : number) : number := if truthy a then a else b.

(** ** Conversions performed by typed arrays and canvas sizes *)

(** Storing into a [Uint8Array]: truncate, wrap modulo 256; [NaN] and
    the infinities store 0. *)
Definition toUint8 (a : number) : Z :=
  match a with
  | Fin q => (Qtrunc q) mod 256
  | _ => 0%Z
  end.

(** An integer-valued size as a natural number (0 when it is not a
    finite non-negative value). *)
Definition toNat (a : number) : nat :=
  match a with
  | Fin q => Z.to_nat (Qtrunc q)
  | _ => O
  end.

Definition isFinite (a : number) : bool :=
  match a with Fin _ => true | _ => false end.

Definition isNaN (a : number) : bool :=
  match a with NaN => true | _ => false end.

End JS.

Declare Scope js_scope.
Delimit Scope js_scope with js.
Notation "a + b" := (JS.add a b) : js_scope.
Notation "a - b" := (JS.sub a b) : js_scope.
Notation "a * b" := (JS.mul a b) : js_scope.
Notation "a / b" := (JS.div a b) : js_scope.
Notation "a <? b" := (JS.ltb a b) : js_scope.
Notation "a <=? b" := (JS.leb a b) : js_scope.
Notation "a >? b" := (JS.gtb a b) (at level 70) : js_scope.
Notation "a >=? b" := (JS.geb a b) (at level 70) : js_scope.

(** Integer and decimal literals of the source. *)
Definition num (z : Z) : JS.number := JS.ofZ z.
Definition dec (q : Q) : JS.number := JS.fin q.

(** Printing a counter inside a template literal. *)
Definition showNat (n : nat) : string := NilZero.string_of_uint (Nat.to_uint n).

(* ================================================================== *)
(** * lib/video360.ts *)
(* ================================================================== *)

Module Video360.
Import PrimFloat.
Import JS.

Inductive CubemapFace : Type := px | nx | py | ny | pz | nz.

Record CubemapFaceInfo : Type := {
  face : CubemapFace;
  name : string;
  yaw : number;
  pitch : number
}.

Definition CUBEMAP_FACES : list CubemapFaceInfo :=
  [ {| face := pz; name := "Front"; yaw := num 0; pitch := num 0 |};
    {| face := px; name := "Right"; yaw := num 90; pitch := num 0 |};
    {| face := nz; name := "Back"; yaw := num 180; pitch := num 0 |};
    {| face := nx; name := "Left"; yaw := num 270; pitch := num 0 |};
    {| face := py; name := "Top"; yaw := num 0; pitch := num 90 |};
    {| face := ny; name := "Bottom"; yaw := num 0; pitch := num (-90) |} ].

Definition faceTag (f : CubemapFace) : string :=
  match f with
  | px => "px" | nx => "nx" | py => "py" | ny => "ny" | pz => "pz" | nz => "nz"
  end.

Definition faceTagUpper (f : CubemapFace) : string :=
  match f with
  | px => "PX" | nx => "NX" | py => "PY" | ny => "NY" | pz => "PZ" | nz => "NZ"
  end.

(** ** Detection *)

Inductive Confidence : Type := high | medium | low.

Record Detection360Result : Type := {
  is360 : bool;
  confidence : Confidence;
  reason : string
}.

(** [videoWidth] and [videoHeight] are unsigned 32-bit integers; their
    conversion to binary64 is exact. *)
Definition toFloat (z : Z) : PrimFloat.float :=
  PrimFloat.of_uint63 (Uint63.of_Z z).

Definition common360Widths : list PrimFloat.float :=
  List.map toFloat [7680; 5760; 4096; 3840; 2880; 2048; 1920]%Z.

#[warnings="-inexact-float"]
Definition is2to1 (aspectRatio : PrimFloat.float) : bool :=
  PrimFloat.ltb (PrimFloat.abs (PrimFloat.sub aspectRatio 2.0%float)) 0.05%float.

Definition isCommon360Resolution (width height : PrimFloat.float) : bool :=
  existsb
    (fun w =>
       PrimFloat.ltb (PrimFloat.abs (PrimFloat.sub width w)) 100%float
       && PrimFloat.ltb (PrimFloat.abs (PrimFloat.sub height (PrimFloat.div w 2%float))) 50%float)
    common360Widths.

#[warnings="-inexact-float"]
Definition isNear2to1 (aspectRatio : PrimFloat.float) : bool :=
  PrimFloat.leb 1.9%float aspectRatio && PrimFloat.leb aspectRatio 2.1%float.

Definition detect360Video (videoWidth videoHeight : Z) : Detection360Result :=
  let width := toFloat videoWidth in
  let height := toFloat videoHeight in
  let aspectRatio := PrimFloat.div width height in
  if is2to1 aspectRatio && isCommon360Resolution width height then
    {| is360 := true; confidence := high;
       reason := "2:1 aspect ratio with common 360 resolution" |}
  else if is2to1 aspectRatio then
    {| is360 := true; confidence := medium;
       reason := "2:1 aspect ratio detected" |}
  else if isNear2to1 aspectRatio then
    {| is360 := true; confidence := low;
       reason := "Near 2:1 aspect ratio" |}
  else
    {| is360 := false; confidence := high;
       reason := "Non-equirectangular aspect ratio" |}.

(** ** Custom views *)

Record View : Type := {
  v_name : string;
  v_yaw : number;
  v_pitch : number;
  v_fov : number
}.

(** The body of [for (let i = 0; i < frameCount; i++)].  [None] when
    the fuel runs out before the loop condition fails. *)
Fixpoint generateCustomViews_loop (fuel i : nat)
         (frameCount rigPitch startAngle fov angleStep : number)
         (views : list View) : option (list View) :=
  match fuel with
  | O => None
  | S fuel' =>
      if (ofNat i <? frameCount)%js then
        let yaw := rem (startAngle + ofNat i * angleStep)%js (num 360) in
        generateCustomViews_loop fuel' (S i) frameCount rigPitch startAngle fov angleStep
          (views ++ [ {| v_name := "View " ++ showNat (i + 1);
                         v_yaw := yaw;
                         v_pitch := rigPitch;
                         v_fov := fov |} ])
      else Some views
  end.

Definition generateCustomViews (fuel : nat)
           (frameCount rigPitch startAngle fov : number) : option (list View) :=
  let angleStep := (num 360 / frameCount)%js in
  generateCustomViews_loop fuel 0 frameCount rigPitch startAngle fov angleStep [].

End Video360.

(* ================================================================== *)
(** * Exceptions and the canvas read-back *)
(* ================================================================== *)

Inductive exn : Type :=
| Error (message : string)
| DOMException (name : string).

Inductive result (A : Type) : Type :=
| Ok (a : A)
| Throw (e : exn).
Arguments Ok {A} a.
Arguments Throw {A} e.

Module DOM.

(** A 2D canvas with its bitmap, one RGBA quadruple per pixel. *)
Record Canvas : Type := {
  c_width : nat;
  c_height : nat;
  c_pixel : nat -> nat -> Z * Z * Z * Z
}.

(** A channel holds 8 bits. *)
Definition channel (z : Z) : Z := Z.max 0 (Z.min 255 z).

Definition rgbaAt (c : Canvas) (x y : nat) : list Z :=
  if (x <? c_width c)%nat && (y <? c_height c)%nat then
    let '(r, g, b, a) := c_pixel c x y in
    [channel r; channel g; channel b; channel a]
  else [0; 0; 0; 0]%Z.

(** [ctx.getImageData(0, 0, sw, sh).data]: the rectangle in row-major
    RGBA order; pixels outside the bitmap are transparent black; a
    zero width or height raises [IndexSizeError]. *)
Definition getImageData (c : Canvas) (sw sh : nat) : result (list Z) :=
  if (sw =? 0)%nat || (sh =? 0)%nat then Throw (DOMException "IndexSizeError")
  else Ok (flat_map (fun y => flat_map (fun x => rgbaAt c x y) (seq 0 sw)) (seq 0 sh)).

End DOM.

(* ================================================================== *)
(** * The sharpness scorer (both hooks define it identically) *)
(* ================================================================== *)

Module Scorer.
Import JS.

Fixpoint update {A : Type} (l : list A) (n : nat) (v : A) : list A :=
  match l, n with
  | [], _ => []
  | _ :: t, O => v :: t
  | h :: t, S n' => h :: update t n' v
  end.

(** Reading a byte array: an index outside the array reads
    [undefined], which arithmetic turns into [NaN]. *)
Definition getU8 (arr : list Z) (i : Z) : number :=
  if (i <? 0)%Z then NaN
  else match nth_error arr (Z.to_nat i) with
       | Some v => ofZ v
       | None => NaN
       end.

(** Writing a [Uint8Array]: out-of-range writes are ignored. *)
Definition setU8 (arr : list Z) (i : Z) (v : number) : list Z :=
  if (i <? 0)%Z then arr else update arr (Z.to_nat i) (toUint8 v).

(** A [Float32Array]; the values stored here are small integers, which
    single precision holds exactly. *)
Definition getF32 (arr : list number) (i : Z) : number :=
  if (i <? 0)%Z then NaN else nth (Z.to_nat i) arr NaN.

Definition setF32 (arr : list number) (i : Z) (v : number) : list number :=
  if (i <? 0)%Z then arr else update arr (Z.to_nat i) v.

(** [for (let i = 0; i < data.length; i += 4)], iteration [k]
    ([i = 4k]). *)
Definition grayStep (data : list Z) (grayData : list Z) (k : nat) : list Z :=
  let i := (4 * Z.of_nat k)%Z in
  setU8 grayData (i / 4)%Z
    (dec (299 # 1000) * getU8 data i
     + dec (587 # 1000) * getU8 data (i + 1)
     + dec (114 # 1000) * getU8 data (i + 2))%js.

Definition toGray (data : list Z) (width height : nat) : list Z :=
  fold_left (grayStep data)
            (seq 0 (Nat.div (List.length data + 3) 4))
            (repeat 0%Z (width * height)).

Record Laplacian : Type := {
  laplacianData : list number;
  sum : number;
  count : nat
}.

Definition laplacianStep (grayData : list Z) (width y : nat)
           (acc : Laplacian) (x : nat) : Laplacian :=
  let i := Z.of_nat (y * width + x) in
  let north := getU8 grayData (i - Z.of_nat width) in
  let south := getU8 grayData (i + Z.of_nat width) in
  let west := getU8 grayData (i - 1) in
  let east := getU8 grayData (i + 1) in
  let center := getU8 grayData i in
  let val := (north + south + west + east - num 4 * center)%js in
  {| laplacianData := setF32 (laplacianData acc) i val;
     sum := (sum acc + val)%js;
     count := S (count acc) |}.

(** The interior pixels: [y] from 1 while [y < height - 1], [x] from 1
    while [x < width - 1]. *)
Definition interior (n : nat) : list nat := seq 1 (n - 2).

Definition laplacianPass (grayData : list Z) (width height : nat) : Laplacian :=
  fold_left
    (fun acc y => fold_left (laplacianStep grayData width y) (interior width) acc)
    (interior height)
    {| laplacianData := repeat (num 0) (width * height);
       sum := num 0;
       count := 0 |}.

Definition varianceStep (lap : list number) (mean : number) (width y : nat)
           (varianceSum : number) (x : nat) : number :=
  let i := Z.of_nat (y * width + x) in
  (varianceSum + pow2 (getF32 lap i - mean))%js.

Definition variancePass (lap : list number) (mean : number)
           (width height : nat) : number :=
  fold_left
    (fun acc y => fold_left (varianceStep lap mean width y) (interior width) acc)
    (interior height)
    (num 0).

Definition computeLaplacianVariance (ctx : DOM.Canvas) (width height : nat)
  : result number :=
  match DOM.getImageData ctx width height with
  | Throw e => Throw e
  | Ok data =>
      let grayData := toGray data width height in
      let l := laplacianPass grayData width height in
      let mean := (sum l / ofNat (count l))%js in
      let varianceSum := variancePass (laplacianData l) mean width height in
      Ok (varianceSum / ofNat (count l))%js
  end.

End Scorer.

(* ================================================================== *)
(** * Shared interfaces of the two hooks *)
(* ================================================================== *)

Module FrameData.
Record t : Type := { time : JS.number; variance : JS.number }.
End FrameData.

Inductive RangeActionTag : Type := exclude | mask_generation | highlight.

(** ['exclude' | 'mask_generation' | 'highlight' | null]. *)
Definition RangeAction : Type := option RangeActionTag.

Definition RangeAction_eqb (a b : RangeAction) : bool :=
  match a, b with
  | None, None => true
  | Some exclude, Some exclude => true
  | Some mask_generation, Some mask_generation => true
  | Some highlight, Some highlight => true
  | _, _ => false
  end.

Module TimelineRange.
Record t : Type := {
  id : string;
  start : JS.number;
  end_ : JS.number;
  action : RangeAction;
  maskPrompt : option string
}.

(** [Partial<Omit<TimelineRange, 'id'>>]: [None] is an absent key. *)
Record updates : Type := {
  u_start : option JS.number;
  u_end : option JS.number;
  u_action : option RangeAction;
  u_maskPrompt : option (option string)
}.

Definition override {A : Type} (old : A) (new : option A) : A :=
  match new with Some v => v | None => old end.

(** [{ ...range, ...updates }]. *)
Definition spread (range : t) (u : updates) : t :=
  {| id := id range;
     start := override (start range) (u_start u);
     end_ := override (end_ range) (u_end u);
     action := override (action range) (u_action u);
     maskPrompt := override (maskPrompt range) (u_maskPrompt u) |}.

Definition withAction (range : t) (a : RangeAction) : t :=
  {| id := id range; start := start range; end_ := end_ range;
     action := a; maskPrompt := maskPrompt range |}.
End TimelineRange.

(** The video element, as far as the hooks use it. *)
Module Video.
Record t : Type := {
  duration : JS.number;
  videoWidth : nat;
  videoHeight : nat;
  currentTime : JS.number;
  paused : bool
}.

Definition setCurrentTime (time : JS.number) (v : t) : t :=
  {| duration := duration v; videoWidth := videoWidth v; videoHeight := videoHeight v;
     currentTime := time; paused := paused v |}.

Definition pause (v : t) : t :=
  {| duration := duration v; videoWidth := videoWidth v; videoHeight := videoHeight v;
     currentTime := currentTime v; paused := true |}.
End Video.

(* ================================================================== *)
(** * Asynchronous runs: state, exceptions, fuel *)
(* ================================================================== *)

Module Run.

(** A computation over a world [W]: [None] when it never settles (the
    fuel of a loop runs out, or an awaited event never comes),
    otherwise a value or a thrown exception together with the world
    reached. *)
Definition M (W A : Type) : Type := W -> option (result A * W).

Definition ret {W A : Type} (a : A) : M W A := fun w => Some (Ok a, w).

Definition bind {W A B : Type} (m : M W A) (k : A -> M W B) : M W B :=
  fun w =>
    match m w with
    | None => None
    | Some (Throw e, w') => Some (Throw e, w')
    | Some (Ok a, w') => k a w'
    end.

Definition throw {W A : Type} (e : exn) : M W A := fun w => Some (Throw e, w).

Definition outOfFuel {W A : Type} : M W A := fun _ => None.

(** An awaited event that never comes: the computation does not
    settle either. *)
Definition pending {W A : Type} : M W A := fun _ => None.

Definition lift {W A : Type} (r : result A) : M W A :=
  match r with Ok a => ret a | Throw e => throw e end.

Definition modify {W : Type} (f : W -> W) : M W unit := fun w => Some (Ok tt, f w).

(** [try { body } catch (error) { handler } finally { cleanup }]. *)
Definition tryCatchFinally {W : Type}
           (body : M W unit) (handler : exn -> M W unit) (cleanup : M W unit)
  : M W unit :=
  fun w =>
    match body w with
    | None => None
    | Some (Ok tt, w1) => cleanup w1
    | Some (Throw e, w1) =>
        match handler e w1 with
        | None => None
        | Some (Ok tt, w2) => cleanup w2
        | Some (Throw e', w2) =>
            match cleanup w2 with
            | Some (Ok tt, w3) => Some (Throw e', w3)
            | other => other
            end
        end
    end.

End Run.

Declare Scope run_scope.
Delimit Scope run_scope with run.
Notation "x <- m ;; k" := (Run.bind m (fun x => k))
  (at level 61, m at next level, right associativity) : run_scope.
Notation "m ;; k" := (Run.bind m (fun _ => k))
  (at level 61, right associativity) : run_scope.

(** Sizes of the analysis canvas: a frame whose longer edge exceeds
    1080 pixels is scaled down, keeping the aspect ratio. *)
Definition analysisSize (videoWidth videoHeight : nat) : nat * nat :=
  let width := JS.ofNat videoWidth in
  let height := JS.ofNat videoHeight in
  let maxDim := num 1080 in
  if (width >? maxDim)%js || (height >? maxDim)%js then
    let ratio := JS.min (maxDim / width)%js (maxDim / height)%js in
    (JS.toNat (JS.round (width * ratio)%js), JS.toNat (JS.round (height * ratio)%js))
  else (videoWidth, videoHeight).

(* ================================================================== *)
(** * hooks/useEditor: the planar editor *)
(* ================================================================== *)

Module Editor.
Import JS.

Record EditorState : Type := {
  (* Video *)
  videoSrc : option string;
  videoFileName : string;
  videoDuration : number;
  videoWidth : number;
  videoHeight : number;
  (* Playback *)
  isPlaying : bool;
  currentTime : number;
  (* Timeline *)
  timelineZoom : number;
  ranges : list TimelineRange.t;
  selectedRangeId : option string;
  (* Analysis *)
  isProcessing : bool;
  progress : number;
  frameData : list FrameData.t;
  fps : number;
  exportFps : number;
  threshold : number;
  (* HDR *)
  hdrSupport : string;
  hdrDisplay : bool;
  hdrCanvasSupported : bool
}.

Definition initialState : EditorState :=
  {| videoSrc := None; videoFileName := "video";
     videoDuration := num 0; videoWidth := num 0; videoHeight := num 0;
     isPlaying := false; currentTime := num 0;
     timelineZoom := num 1; ranges := []; selectedRangeId := None;
     isProcessing := false; progress := num 0; frameData := [];
     fps := num 6; exportFps := num 6; threshold := num 300;
     hdrSupport := "Unknown"; hdrDisplay := false; hdrCanvasSupported := false |}.

(** [{ ...prev, field: value }], one function per field written. *)

Definition withCurrentTime (v : number) (prev : EditorState) : EditorState :=
  {| videoSrc := videoSrc prev; videoFileName := videoFileName prev;
     videoDuration := videoDuration prev; videoWidth := videoWidth prev;
     videoHeight := videoHeight prev; isPlaying := isPlaying prev;
     currentTime := v;
     timelineZoom := timelineZoom prev; ranges := ranges prev;
     selectedRangeId := selectedRangeId prev; isProcessing := isProcessing prev;
     progress := progress prev; frameData := frameData prev; fps := fps prev;
     exportFps := exportFps prev; threshold := threshold prev;
     hdrSupport := hdrSupport prev; hdrDisplay := hdrDisplay prev;
     hdrCanvasSupported := hdrCanvasSupported prev |}.

Definition withRanges (rs : list TimelineRange.t) (sel : option string)
           (prev : EditorState) : EditorState :=
  {| videoSrc := videoSrc prev; videoFileName := videoFileName prev;
     videoDuration := videoDuration prev; videoWidth := videoWidth prev;
     videoHeight := videoHeight prev; isPlaying := isPlaying prev;
     currentTime := currentTime prev;
     timelineZoom := timelineZoom prev; ranges := rs;
     selectedRangeId := sel; isProcessing := isProcessing prev;
     progress := progress prev; frameData := frameData prev; fps := fps prev;
     exportFps := exportFps prev; threshold := threshold prev;
     hdrSupport := hdrSupport prev; hdrDisplay := hdrDisplay prev;
     hdrCanvasSupported := hdrCanvasSupported prev |}.

Definition withAnalysis (processing : bool) (prog : number) (fd : list FrameData.t)
           (prev : EditorState) : EditorState :=
  {| videoSrc := videoSrc prev; videoFileName := videoFileName prev;
     videoDuration := videoDuration prev; videoWidth := videoWidth prev;
     videoHeight := videoHeight prev; isPlaying := isPlaying prev;
     currentTime := currentTime prev;
     timelineZoom := timelineZoom prev; ranges := ranges prev;
     selectedRangeId := selectedRangeId prev; isProcessing := processing;
     progress := prog; frameData := fd; fps := fps prev;
     exportFps := exportFps prev; threshold := threshold prev;
     hdrSupport := hdrSupport prev; hdrDisplay := hdrDisplay prev;
     hdrCanvasSupported := hdrCanvasSupported prev |}.

Definition withSettings (f t : number) (prev : EditorState) : EditorState :=
  {| videoSrc := videoSrc prev; videoFileName := videoFileName prev;
     videoDuration := videoDuration prev; videoWidth := videoWidth prev;
     videoHeight := videoHeight prev; isPlaying := isPlaying prev;
     currentTime := currentTime prev;
     timelineZoom := timelineZoom prev; ranges := ranges prev;
     selectedRangeId := selectedRangeId prev; isProcessing := isProcessing prev;
     progress := progress prev; frameData := frameData prev; fps := f;
     exportFps := exportFps prev; threshold := t;
     hdrSupport := hdrSupport prev; hdrDisplay := hdrDisplay prev;
     hdrCanvasSupported := hdrCanvasSupported prev |}.

Definition onVideoLoaded (video : Video.t) (prev : EditorState) : EditorState :=
  {| videoSrc := videoSrc prev; videoFileName := videoFileName prev;
     videoDuration := Video.duration video;
     videoWidth := ofNat (Video.videoWidth video);
     videoHeight := ofNat (Video.videoHeight video);
     isPlaying := isPlaying prev; currentTime := currentTime prev;
     timelineZoom := timelineZoom prev; ranges := ranges prev;
     selectedRangeId := selectedRangeId prev; isProcessing := isProcessing prev;
     progress := progress prev; frameData := frameData prev; fps := fps prev;
     exportFps := exportFps prev; threshold := threshold prev;
     hdrSupport := hdrSupport prev; hdrDisplay := hdrDisplay prev;
     hdrCanvasSupported := hdrCanvasSupported prev |}.

(** ** Playback and settings *)

Definition seek (time : number) (prev : EditorState) : EditorState :=
  withCurrentTime (max (num 0) (min time (videoDuration prev))) prev.

Definition setCurrentTime (time : number) (prev : EditorState) : EditorState :=
  withCurrentTime time prev.

Definition setFps (f : number) (prev : EditorState) : EditorState :=
  withSettings f (threshold prev) prev.

Definition setThreshold (t : number) (prev : EditorState) : EditorState :=
  withSettings (fps prev) t prev.

(** ** Range management.  The identifier of a new range is drawn from
    the clock and the random generator; here it is an argument. *)

Definition addRange (newId : string) (start end_ : number) (action : RangeAction)
           (prev : EditorState) : EditorState :=
  let newRange :=
    {| TimelineRange.id := newId;
       TimelineRange.start := min start end_;
       TimelineRange.end_ := max start end_;
       TimelineRange.action := action;
       TimelineRange.maskPrompt := None |} in
  withRanges (ranges prev ++ [newRange]) (Some newId) prev.

Definition updateRange (id : string) (updates : TimelineRange.updates)
           (prev : EditorState) : EditorState :=
  withRanges
    (map (fun range =>
            if String.eqb (TimelineRange.id range) id
            then TimelineRange.spread range updates else range)
         (ranges prev))
    (selectedRangeId prev) prev.

Definition removeRange (id : string) (prev : EditorState) : EditorState :=
  withRanges
    (filter (fun range => negb (String.eqb (TimelineRange.id range) id)) (ranges prev))
    (match selectedRangeId prev with
     | Some sel => if String.eqb sel id then None else Some sel
     | None => None
     end)
    prev.

Definition selectRange (id : option string) (prev : EditorState) : EditorState :=
  withRanges (ranges prev) id prev.

Definition setRangeAction (id : string) (action : RangeAction)
           (prev : EditorState) : EditorState :=
  withRanges
    (map (fun range =>
            if String.eqb (TimelineRange.id range) id
            then TimelineRange.withAction range action else range)
         (ranges prev))
    (selectedRangeId prev) prev.

Definition clearAllRanges (prev : EditorState) : EditorState :=
  withRanges [] None prev.

(** ** Processing state *)

Definition setProgress (p : number) (prev : EditorState) : EditorState :=
  withAnalysis (isProcessing prev) p (frameData prev) prev.

Definition setFrameData (fd : list FrameData.t) (prev : EditorState) : EditorState :=
  withAnalysis (isProcessing prev) (progress prev) fd prev.

Definition setIsProcessing (b : bool) (prev : EditorState) : EditorState :=
  withAnalysis b (progress prev) (frameData prev) prev.

(** ** The analysis run *)

Record World : Type := {
  state : EditorState;
  videoRef : option Video.t;
  canvasRef : bool;
  console : list string
}.

Definition onState (f : EditorState -> EditorState) (w : World) : World :=
  {| state := f (state w); videoRef := videoRef w;
     canvasRef := canvasRef w; console := console w |}.

Definition onVideo (f : Video.t -> Video.t) (w : World) : World :=
  {| state := state w; videoRef := option_map f (videoRef w);
     canvasRef := canvasRef w; console := console w |}.

Definition consoleError (msg : string) (w : World) : World :=
  {| state := state w; videoRef := videoRef w;
     canvasRef := canvasRef w; console := console w ++ [msg] |}.

Section Analysis.
Local Open Scope run_scope.

(** The decoder: after the seek to [time] has completed, obtain the
    2D context of the analysis canvas sized [width] x [height] and
    draw the current frame into it.  It throws when the context
    cannot be obtained ("Failed to get canvas context") or the frame
    cannot be drawn. *)
Variable drawFrame : number -> nat -> nat -> result DOM.Canvas.

Variables (video : Video.t) (interval totalFrames : number).

Fixpoint runAnalysis_loop (fuel i : nat) (results : list FrameData.t)
  : Run.M World unit :=
  match fuel with
  | O => Run.outOfFuel
  | S fuel' =>
      if (ofNat i <=? totalFrames)%js then
        let time := (ofNat i * interval)%js in
        if (time >? Video.duration video)%js then Run.ret tt
        else
          Run.modify (onVideo (Video.setCurrentTime time)) ;;
          let (width, height) :=
            analysisSize (Video.videoWidth video) (Video.videoHeight video) in
          ctx <- Run.lift (drawFrame time width height) ;;
          variance <- Run.lift (Scorer.computeLaplacianVariance ctx width height) ;;
          let results' :=
            results ++ [ {| FrameData.time := time; FrameData.variance := variance |} ] in
          Run.modify (onState (setFrameData results')) ;;
          Run.modify (onState (setProgress
             (round ((ofNat (i + 1) / totalFrames) * num 100)%js))) ;;
          runAnalysis_loop fuel' (S i) results'
      else Run.ret tt
  end.

End Analysis.

Definition runAnalysis (drawFrame : number -> nat -> nat -> result DOM.Canvas)
           (fuel : nat) : Run.M World unit :=
  fun w =>
    match videoRef w, canvasRef w with
    | Some video, true =>
        (Run.modify (onState (setIsProcessing true)) ;;
         Run.modify (onState (setFrameData [])) ;;
         Run.modify (onState (setProgress (num 0))) ;;
         let duration := Video.duration video in
         let interval := (num 1 / fps (state w))%js in
         let totalFrames := floor (duration * fps (state w))%js in
         let originalTime := Video.currentTime video in
         Run.modify (onVideo Video.pause) ;;
         Run.tryCatchFinally
           (runAnalysis_loop drawFrame video interval totalFrames fuel 0 [])
           (fun error => Run.modify (consoleError "Error processing video:"))
           (Run.modify (onState (setIsProcessing false)) ;;
            Run.modify (onVideo (Video.setCurrentTime originalTime))))%run w
    | _, _ => Run.ret tt w
    end.

End Editor.

(* ================================================================== *)
(** * hooks/useEditor360: the 360 editor *)
(* ================================================================== *)

Module FrameView.
Record t : Type := {
  id : string;
  name : string;
  face : option Video360.CubemapFace;   (* present in skybox mode *)
  yaw : JS.number;
  pitch : JS.number;
  fov : JS.number;
  frameData : list FrameData.t;
  threshold : JS.number;
  ranges : list TimelineRange.t
}.

(** [Partial<Omit<FrameView, 'id'>>]. *)
Record updates : Type := {
  u_name : option string;
  u_face : option (option Video360.CubemapFace);
  u_yaw : option JS.number;
  u_pitch : option JS.number;
  u_fov : option JS.number;
  u_frameData : option (list FrameData.t);
  u_threshold : option JS.number;
  u_ranges : option (list TimelineRange.t)
}.

(** [{ ...v, ...updates }]. *)
Definition spread (v : t) (u : updates) : t :=
  {| id := id v;
     name := TimelineRange.override (name v) (u_name u);
     face := TimelineRange.override (face v) (u_face u);
     yaw := TimelineRange.override (yaw v) (u_yaw u);
     pitch := TimelineRange.override (pitch v) (u_pitch u);
     fov := TimelineRange.override (fov v) (u_fov u);
     frameData := TimelineRange.override (frameData v) (u_frameData u);
     threshold := TimelineRange.override (threshold v) (u_threshold u);
     ranges := TimelineRange.override (ranges v) (u_ranges u) |}.

Definition withFrameData (fd : list FrameData.t) (v : t) : t :=
  spread v {| u_name := None; u_face := None; u_yaw := None; u_pitch := None;
              u_fov := None; u_frameData := Some fd; u_threshold := None;
              u_ranges := None |}.

Definition withRanges (rs : list TimelineRange.t) (v : t) : t :=
  spread v {| u_name := None; u_face := None; u_yaw := None; u_pitch := None;
              u_fov := None; u_frameData := None; u_threshold := None;
              u_ranges := Some rs |}.

End FrameView.

Module CustomConfig.
Record t : Type := {
  frameCount : JS.number;
  rigPitch : JS.number;
  startAngle : JS.number;
  fov : JS.number
}.

(** [Partial<CustomConfig>]. *)
Record partial : Type := {
  p_frameCount : option JS.number;
  p_rigPitch : option JS.number;
  p_startAngle : option JS.number;
  p_fov : option JS.number
}.

(** [{ ...config, ...partial }]. *)
Definition spread (c : t) (p : partial) : t :=
  {| frameCount := TimelineRange.override (frameCount c) (p_frameCount p);
     rigPitch := TimelineRange.override (rigPitch c) (p_rigPitch p);
     startAngle := TimelineRange.override (startAngle c) (p_startAngle p);
     fov := TimelineRange.override (fov c) (p_fov p) |}.
End CustomConfig.

Module Editor360.
Import JS.

Inductive EditorMode : Type := skybox | custom.

Record Editor360State : Type := {
  (* Video *)
  videoSrc : option string;
  videoFileName : string;
  videoDuration : number;
  videoWidth : number;
  videoHeight : number;
  (* 360 Detection *)
  is360Detected : bool;
  detection360Result : option Video360.Detection360Result;
  is360ModeEnabled : bool;
  (* Editor Mode *)
  editorMode : EditorMode;
  (* Frame Views *)
  frameViews : list FrameView.t;
  activeFrameViewId : option string;
  (* Custom mode configuration *)
  customConfig : CustomConfig.t;
  (* Interactive sphere view angle *)
  sphereViewAngle : number * number;
  (* Playback *)
  isPlaying : bool;
  currentTime : number;
  (* Timeline *)
  timelineZoom : number;
  (* Processing *)
  isProcessing : bool;
  progress : number;
  (* Analysis *)
  fps : number;
  exportFps : number
}.

Definition DEFAULT_CUSTOM_CONFIG : CustomConfig.t :=
  {| CustomConfig.frameCount := num 4; CustomConfig.rigPitch := num 0;
     CustomConfig.startAngle := num 0; CustomConfig.fov := num 90 |}.

Definition createSkyboxFrameViews : list FrameView.t :=
  map (fun c =>
         {| FrameView.id := "skybox_" ++ Video360.faceTag (Video360.face c);
            FrameView.name :=
              Video360.faceTagUpper (Video360.face c) ++ " (" ++ Video360.name c ++ ")";
            FrameView.face := Some (Video360.face c);
            FrameView.yaw := Video360.yaw c;
            FrameView.pitch := Video360.pitch c;
            FrameView.fov := num 90;
            FrameView.frameData := [];
            FrameView.threshold := num 300;
            FrameView.ranges := [] |})
      Video360.CUBEMAP_FACES.

(** [views.map((v, i) => ...)], from index [i] on. *)
Fixpoint customFrameViewsFrom (i : nat) (views : list Video360.View) : list FrameView.t :=
  match views with
  | [] => []
  | v :: rest =>
      {| FrameView.id := "custom_" ++ showNat i;
         FrameView.name := Video360.v_name v;
         FrameView.face := None;
         FrameView.yaw := Video360.v_yaw v;
         FrameView.pitch := Video360.v_pitch v;
         FrameView.fov := Video360.v_fov v;
         FrameView.frameData := [];
         FrameView.threshold := num 300;
         FrameView.ranges := [] |} :: customFrameViewsFrom (S i) rest
  end.

Definition createCustomFrameViews (fuel : nat) (config : CustomConfig.t)
  : option (list FrameView.t) :=
  match Video360.generateCustomViews fuel
          (CustomConfig.frameCount config) (CustomConfig.rigPitch config)
          (CustomConfig.startAngle config) (CustomConfig.fov config) with
  | Some views => Some (customFrameViewsFrom 0 views)
  | None => None
  end.

Definition initialState : Editor360State :=
  {| videoSrc := None; videoFileName := "video";
     videoDuration := num 0; videoWidth := num 0; videoHeight := num 0;
     is360Detected := false; detection360Result := None; is360ModeEnabled := true;
     editorMode := skybox;
     frameViews := createSkyboxFrameViews;
     activeFrameViewId := Some "skybox_pz"%string;
     customConfig := DEFAULT_CUSTOM_CONFIG;
     sphereViewAngle := (num 0, num 0);
     isPlaying := false; currentTime := num 0; timelineZoom := num 1;
     isProcessing := false; progress := num 0;
     fps := num 6; exportFps := num 6 |}.

(** [{ ...prev, field: value }]. *)

Definition withViews (mode : EditorMode) (views : list FrameView.t)
           (active : option string) (config : CustomConfig.t)
           (prev : Editor360State) : Editor360State :=
  {| videoSrc := videoSrc prev; videoFileName := videoFileName prev;
     videoDuration := videoDuration prev; videoWidth := videoWidth prev;
     videoHeight := videoHeight prev; is360Detected := is360Detected prev;
     detection360Result := detection360Result prev;
     is360ModeEnabled := is360ModeEnabled prev;
     editorMode := mode; frameViews := views; activeFrameViewId := active;
     customConfig := config;
     sphereViewAngle := sphereViewAngle prev; isPlaying := isPlaying prev;
     currentTime := currentTime prev; timelineZoom := timelineZoom prev;
     isProcessing := isProcessing prev; progress := progress prev;
     fps := fps prev; exportFps := exportFps prev |}.

Definition withFrameViews (views : list FrameView.t) (prev : Editor360State)
  : Editor360State :=
  withViews (editorMode prev) views (activeFrameViewId prev) (customConfig prev) prev.

Definition withPlayback (time : number) (processing : bool) (prog : number)
           (prev : Editor360State) : Editor360State :=
  {| videoSrc := videoSrc prev; videoFileName := videoFileName prev;
     videoDuration := videoDuration prev; videoWidth := videoWidth prev;
     videoHeight := videoHeight prev; is360Detected := is360Detected prev;
     detection360Result := detection360Result prev;
     is360ModeEnabled := is360ModeEnabled prev;
     editorMode := editorMode prev; frameViews := frameViews prev;
     activeFrameViewId := activeFrameViewId prev;
     customConfig := customConfig prev;
     sphereViewAngle := sphereViewAngle prev; isPlaying := isPlaying prev;
     currentTime := time; timelineZoom := timelineZoom prev;
     isProcessing := processing; progress := prog;
     fps := fps prev; exportFps := exportFps prev |}.

Definition onVideoLoaded (video : Video.t) (prev : Editor360State) : Editor360State :=
  let detectionResult :=
    Video360.detect360Video (Z.of_nat (Video.videoWidth video))
                            (Z.of_nat (Video.videoHeight video)) in
  {| videoSrc := videoSrc prev; videoFileName := videoFileName prev;
     videoDuration := Video.duration video;
     videoWidth := ofNat (Video.videoWidth video);
     videoHeight := ofNat (Video.videoHeight video);
     is360Detected := Video360.is360 detectionResult;
     detection360Result := Some detectionResult;
     is360ModeEnabled := Video360.is360 detectionResult;
     editorMode := editorMode prev; frameViews := frameViews prev;
     activeFrameViewId := activeFrameViewId prev;
     customConfig := customConfig prev;
     sphereViewAngle := sphereViewAngle prev; isPlaying := isPlaying prev;
     currentTime := currentTime prev; timelineZoom := timelineZoom prev;
     isProcessing := isProcessing prev; progress := progress prev;
     fps := fps prev; exportFps := exportFps prev |}.

(** [views[0]?.id || fallback]: the empty string is falsy as well. *)
Definition firstIdOr (views : list FrameView.t) (fallback : option string)
  : option string :=
  match views with
  | v :: _ => if String.eqb (FrameView.id v) "" then fallback else Some (FrameView.id v)
  | [] => fallback
  end.

(** ** Mode and configuration *)

Definition setEditorMode (fuel : nat) (mode : EditorMode) (prev : Editor360State)
  : option Editor360State :=
  match (match mode with
         | skybox => Some createSkyboxFrameViews
         | custom => createCustomFrameViews fuel (customConfig prev)
         end) with
  | Some newFrameViews =>
      Some (withViews mode newFrameViews (firstIdOr newFrameViews None)
                      (customConfig prev) prev)
  | None => None
  end.

Definition setCustomConfig (fuel : nat) (config : CustomConfig.partial)
           (prev : Editor360State) : option Editor360State :=
  let newConfig := CustomConfig.spread (customConfig prev) config in
  match (match editorMode prev with
         | custom => createCustomFrameViews fuel newConfig
         | skybox => Some (frameViews prev)
         end) with
  | Some newFrameViews =>
      Some (withViews (editorMode prev) newFrameViews
                      (firstIdOr newFrameViews (activeFrameViewId prev))
                      newConfig prev)
  | None => None
  end.

(** ** Frame view management *)

Definition updateFrameView (id : string) (updates : FrameView.updates)
           (prev : Editor360State) : Editor360State :=
  withFrameViews
    (map (fun v => if String.eqb (FrameView.id v) id then FrameView.spread v updates else v)
         (frameViews prev))
    prev.

Definition setThreshold (viewId : string) (threshold : number)
           (prev : Editor360State) : Editor360State :=
  updateFrameView viewId
    {| FrameView.u_name := None; FrameView.u_face := None; FrameView.u_yaw := None;
       FrameView.u_pitch := None; FrameView.u_fov := None;
       FrameView.u_frameData := None; FrameView.u_threshold := Some threshold;
       FrameView.u_ranges := None |} prev.

(** ** Playback *)

Definition seek (time : number) (prev : Editor360State) : Editor360State :=
  withPlayback (max (num 0) (min time (videoDuration prev)))
               (isProcessing prev) (progress prev) prev.

(** ** Range management *)

Definition onView (viewId : string) (f : FrameView.t -> FrameView.t)
           (prev : Editor360State) : Editor360State :=
  withFrameViews
    (map (fun v => if String.eqb (FrameView.id v) viewId then f v else v)
         (frameViews prev))
    prev.

Definition addRange (rangeId : string) (viewId : string) (start end_ : number)
           (action : RangeAction) (prev : Editor360State) : Editor360State :=
  let newRange :=
    {| TimelineRange.id := rangeId;
       TimelineRange.start := min start end_;
       TimelineRange.end_ := max start end_;
       TimelineRange.action := action;
       TimelineRange.maskPrompt := None |} in
  onView viewId
    (fun v => FrameView.withRanges (FrameView.ranges v ++ [newRange]) v) prev.

Definition updateRange (viewId rangeId : string) (updates : TimelineRange.updates)
           (prev : Editor360State) : Editor360State :=
  onView viewId
    (fun v => FrameView.withRanges
                (map (fun r => if String.eqb (TimelineRange.id r) rangeId
                               then TimelineRange.spread r updates else r)
                     (FrameView.ranges v)) v)
    prev.

Definition removeRange (viewId rangeId : string) (prev : Editor360State)
  : Editor360State :=
  onView viewId
    (fun v => FrameView.withRanges
                (filter (fun r => negb (String.eqb (TimelineRange.id r) rangeId))
                        (FrameView.ranges v)) v)
    prev.

Definition clearAllRanges (viewId : string) (prev : Editor360State) : Editor360State :=
  updateFrameView viewId
    {| FrameView.u_name := None; FrameView.u_face := None; FrameView.u_yaw := None;
       FrameView.u_pitch := None; FrameView.u_fov := None;
       FrameView.u_frameData := None; FrameView.u_threshold := None;
       FrameView.u_ranges := Some [] |} prev.

(** ** Processing state *)

Definition setProgress (p : number) (prev : Editor360State) : Editor360State :=
  withPlayback (currentTime prev) (isProcessing prev) p prev.

Definition setIsProcessing (b : bool) (prev : Editor360State) : Editor360State :=
  withPlayback (currentTime prev) b (progress prev) prev.

(** ** The multi-view analysis run *)

Record World : Type := {
  state : Editor360State;
  videoRef : option Video.t;
  canvasRef : bool;
  console : list string
}.

Definition onState (f : Editor360State -> Editor360State) (w : World) : World :=
  {| state := f (state w); videoRef := videoRef w;
     canvasRef := canvasRef w; console := console w |}.

Definition onVideo (f : Video.t -> Video.t) (w : World) : World :=
  {| state := state w; videoRef := option_map f (videoRef w);
     canvasRef := canvasRef w; console := console w |}.

Definition consoleError (msg : string) (w : World) : World :=
  {| state := state w; videoRef := videoRef w;
     canvasRef := canvasRef w; console := console w ++ [msg] |}.

(** Size for each extracted face. *)
Definition faceSize : nat := 512.

(** [frameViews.map(v => v.id === view.id
      ? { ...v, frameData: [...v.frameData, { time, variance }] } : v)]. *)
Definition appendSample (viewId : string) (sample : FrameData.t)
           (prev : Editor360State) : Editor360State :=
  onView viewId
    (fun v => FrameView.withFrameData (FrameView.frameData v ++ [sample]) v) prev.

Definition resetFrameData (prev : Editor360State) : Editor360State :=
  withFrameViews (map (FrameView.withFrameData []) (frameViews prev)) prev.

Section MultiView.
Local Open Scope run_scope.

(** The decoder and the projection engine.  [drawSource time]: after
    the seek to [time] has completed, draw the full frame to the
    source canvas.  The two extractions resample the source into a
    face or a perspective view; they use trigonometry on binary64
    and are kept abstract. *)
Variable drawSource : number -> result DOM.Canvas.
Variable extractCubemapFace :
  DOM.Canvas -> Video360.CubemapFace -> nat -> result DOM.Canvas.
Variable extractPerspectiveView :
  DOM.Canvas -> number -> number -> number -> nat -> nat -> result DOM.Canvas.

Variables (video : Video.t) (interval totalFrames totalOperations : number).

(** [for (const view of state.frameViews)]; returns the operation
    count reached. *)
Fixpoint analyseViews (time : number) (sourceCtx : DOM.Canvas)
         (views : list FrameView.t) (operationCount : nat) : Run.M World nat :=
  match views with
  | [] => Run.ret operationCount
  | view :: rest =>
      viewCanvas <- Run.lift
        (match FrameView.face view with
         | Some face => extractCubemapFace sourceCtx face faceSize
         | None => extractPerspectiveView sourceCtx
                     (FrameView.yaw view) (FrameView.pitch view) (FrameView.fov view)
                     faceSize faceSize
         end) ;;
      variance <- Run.lift (Scorer.computeLaplacianVariance viewCanvas faceSize faceSize) ;;
      Run.modify (onState (appendSample (FrameView.id view)
         {| FrameData.time := time; FrameData.variance := variance |})) ;;
      let operationCount' := S operationCount in
      Run.modify (onState (setProgress
         (round ((ofNat operationCount' / totalOperations) * num 100)%js))) ;;
      analyseViews time sourceCtx rest operationCount'
  end.

Fixpoint runMultiViewAnalysis_loop (views : list FrameView.t)
         (fuel frameIdx operationCount : nat) : Run.M World unit :=
  match fuel with
  | O => Run.outOfFuel
  | S fuel' =>
      if (ofNat frameIdx <=? totalFrames)%js then
        let time := (ofNat frameIdx * interval)%js in
        if (time >? Video.duration video)%js then Run.ret tt
        else
          Run.modify (onVideo (Video.setCurrentTime time)) ;;
          sourceCtx <- Run.lift (drawSource time) ;;
          operationCount' <- analyseViews time sourceCtx views operationCount ;;
          runMultiViewAnalysis_loop views fuel' (S frameIdx) operationCount'
      else Run.ret tt
  end.

End MultiView.

Definition runMultiViewAnalysis
           (drawSource : number -> result DOM.Canvas)
           (extractCubemapFace :
              DOM.Canvas -> Video360.CubemapFace -> nat -> result DOM.Canvas)
           (extractPerspectiveView :
              DOM.Canvas -> number -> number -> number -> nat -> nat -> result DOM.Canvas)
           (fuel : nat) : Run.M World unit :=
  fun w =>
    match videoRef w, canvasRef w with
    | Some video, true =>
        (Run.modify (onState (setIsProcessing true)) ;;
         Run.modify (onState (setProgress (num 0))) ;;
         Run.modify (onState resetFrameData) ;;
         let duration := Video.duration video in
         let interval := (num 1 / fps (state w))%js in
         let totalFrames := floor (duration * fps (state w))%js in
         let totalOperations :=
           (totalFrames * ofNat (List.length (frameViews (state w))))%js in
         let originalTime := Video.currentTime video in
         Run.modify (onVideo Video.pause) ;;
         Run.tryCatchFinally
           (runMultiViewAnalysis_loop drawSource extractCubemapFace extractPerspectiveView
              video interval totalFrames totalOperations
              (frameViews (state w)) fuel 0 0)
           (fun error => Run.modify (consoleError "Error during multi-view analysis:"))
           (Run.modify (onState (setIsProcessing false)) ;;
            Run.modify (onVideo (Video.setCurrentTime originalTime))))%run w
    | _, _ => Run.ret tt w
    end.

End Editor360.

(* ================================================================== *)
(** * The selection: threshold and ranges *)
(* ================================================================== *)

(** [frameData.reduce((max, item) => Math.max(max, item.variance), 0) || 1],
    computed alike by both timelines and the planar page. *)
Definition maxVarianceOf (frameData : list FrameData.t) : JS.number :=
  JS.or (fold_left (fun max item => JS.max max (FrameData.variance item)) frameData (num 0))
        (num 1).

(** components/editor/Timeline: the planar timeline, from its props. *)
Module Timeline.
Import JS.

Definition maxVariance (frameData : list FrameData.t) : number :=
  maxVarianceOf frameData.

Definition effectiveThreshold (frameData : list FrameData.t) (threshold : number)
  : number :=
  min threshold (maxVariance frameData).

End Timeline.

(** app/editor/page: the planar editor page. *)
Module EditorPage.
Import JS.

Definition maxVariance (state : Editor.EditorState) : number :=
  maxVarianceOf (Editor.frameData state).

Definition effectiveThreshold (state : Editor.EditorState) : number :=
  min (Editor.threshold state) (maxVariance state).

Definition framesAboveThreshold (state : Editor.EditorState) : nat :=
  List.length
    (filter (fun f => FrameData.variance f >=? effectiveThreshold state)%js
            (Editor.frameData state)).

(** [handleDownload]: the frames to export. *)

Definition excludedRanges (state : Editor.EditorState) : list TimelineRange.t :=
  filter (fun r => RangeAction_eqb (TimelineRange.action r) (Some exclude))
         (Editor.ranges state).

Definition isTimeExcluded (state : Editor.EditorState) (time : number) : bool :=
  existsb
    (fun range => (time >=? TimelineRange.start range)%js
                  && (time <=? TimelineRange.end_ range)%js)
    (excludedRanges state).

Definition sharpFrames (state : Editor.EditorState) : list FrameData.t :=
  filter
    (fun f => (FrameData.variance f >=? effectiveThreshold state)%js
              && negb (isTimeExcluded state (FrameData.time f)))
    (Editor.frameData state).

Inductive Selection : Type :=
| Nothing                                (* returns at once *)
| Alert (message : string)
| Export (frames : list FrameData.t).

Definition handleDownload_selection (w : Editor.World) : Selection :=
  match Editor.videoRef w, Editor.canvasRef w, Editor.frameData (Editor.state w) with
  | Some _, true, _ :: _ =>
      match sharpFrames (Editor.state w) with
      | [] => Alert "No frames meet the criteria (above threshold and not excluded)."
      | frames => Export frames
      end
  | _, _, _ => Nothing
  end.
End EditorPage.

(** components/editor360/Timeline360: the 360 timeline, for the active
    view. *)
Module Timeline360.
Import JS.

Definition activeView (frameViews : list FrameView.t) (activeFrameViewId : option string)
  : option FrameView.t :=
  match activeFrameViewId with
  | Some a => find (fun v => String.eqb (FrameView.id v) a) frameViews
  | None => None
  end.

Definition frameData (v : option FrameView.t) : list FrameData.t :=
  match v with Some a => FrameView.frameData a | None => [] end.

Definition threshold (v : option FrameView.t) : number :=
  match v with Some a => JS.or (FrameView.threshold a) (num 300) | None => num 300 end.

Definition effectiveThreshold (v : option FrameView.t) : number :=
  min (threshold v) (maxVarianceOf (frameData v)).

Definition framesAboveThreshold (v : option FrameView.t) : nat :=
  List.length
    (filter (fun f => FrameData.variance f >=? effectiveThreshold v)%js (frameData v)).

End Timeline360.

(* ================================================================== *)
(** * app/editor360/page: URL configuration and the 360 export *)
(* ================================================================== *)

Module Editor360Page.
Import JS.

(** ** [parseInt(s, 10)] and [parseFloat(s)] *)

Definition isWhiteSpace (c : ascii) : bool :=
  match nat_of_ascii c with
  | 9 | 10 | 11 | 12 | 13 | 32 => true
  | _ => false
  end%nat.

Fixpoint trimStart (s : string) : string :=
  match s with
  | String c rest => if isWhiteSpace c then trimStart rest else s
  | EmptyString => s
  end.

Definition digitOf (c : ascii) : option Z :=
  let n := nat_of_ascii c in
  if (48 <=? n)%nat && (n <=? 57)%nat then Some (Z.of_nat (n - 48)) else None.

(** The longest prefix of decimal digits: its value, its length and
    the rest of the string. *)
Fixpoint readDigits (s : string) (acc : Z) (n : nat) : Z * nat * string :=
  match s with
  | String c rest =>
      match digitOf c with
      | Some d => readDigits rest (10 * acc + d)%Z (S n)
      | None => (acc, n, s)
      end
  | EmptyString => (acc, n, s)
  end.

Definition readSign (s : string) : Z * string :=
  match s with
  | String "-" rest => ((-1)%Z, rest)
  | String "+" rest => (1%Z, rest)
  | _ => (1%Z, s)
  end.

Definition parseInt (s : string) : number :=
  let '(sign, body) := readSign (trimStart s) in
  match readDigits body 0 0 with
  | (_, O, _) => NaN
  | (n, _, _) => ofZ (sign * n)
  end.

Definition pow10 (e : Z) : Q :=
  if (e <? 0)%Z then 1 / inject_Z (10 ^ (- e)) else inject_Z (10 ^ e).

(** An exponent part counts only when at least one digit follows. *)
Definition readExponent (s : string) : Z :=
  match s with
  | String c rest =>
      if Ascii.eqb c "e" || Ascii.eqb c "E" then
        let '(sign, body) := readSign rest in
        match readDigits body 0 0 with
        | (_, O, _) => 0%Z
        | (e, _, _) => (sign * e)%Z
        end
      else 0%Z
  | EmptyString => 0%Z
  end.

Definition parseFloat (s : string) : number :=
  let '(sign, body) := readSign (trimStart s) in
  if String.prefix "Infinity" body then
    (if (sign <? 0)%Z then NegInf else PosInf)
  else
    let '(ip, ni, afterInt) := readDigits body 0 0 in
    let '(fp, nf, afterFrac) :=
      match afterInt with
      | String "." rest => readDigits rest 0 0
      | _ => (0%Z, O, afterInt)
      end in
    match ni, nf with
    | O, O => NaN
    | _, _ =>
        fin (inject_Z sign
             * (inject_Z ip + inject_Z fp / inject_Z (10 ^ Z.of_nat nf))
             * pow10 (readExponent afterFrac))
    end.

(** ** [parseUrlConfig] *)

(** [URLSearchParams]: the decoded pairs in order; [get] returns the
    first value of a name, or [null]. *)
Definition URLSearchParams : Type := list (string * string).

Definition get (searchParams : URLSearchParams) (name : string) : option string :=
  match find (fun kv => String.eqb (fst kv) name) searchParams with
  | Some kv => Some (snd kv)
  | None => None
  end.

(** A string or [null] in a condition: [null] and [""] are falsy. *)
Definition present (s : option string) : bool :=
  match s with
  | Some v => negb (String.eqb v "")
  | None => false
  end.

Definition parsed (parse : string -> number) (s : option string) : option number :=
  match s with
  | Some v => if String.eqb v "" then None else Some (parse v)
  | None => None
  end.

Record UrlConfig : Type := {
  mode : option Editor360.EditorMode;
  config : option CustomConfig.partial
}.

Definition parseUrlConfig (searchParams : URLSearchParams) : UrlConfig :=
  let mode :=
    match get searchParams "mode" with
    | Some m =>
        if String.eqb m "skybox" then Some Editor360.skybox
        else if String.eqb m "custom" then Some Editor360.custom
        else None
    | None => None
    end in
  let frameCount := get searchParams "frames" in
  let rigPitch := get searchParams "pitch" in
  let startAngle := get searchParams "angle" in
  let fov := get searchParams "fov" in
  {| mode := mode;
     config :=
       if present frameCount || present rigPitch || present startAngle || present fov
       then Some {| CustomConfig.p_frameCount := parsed parseInt frameCount;
                    CustomConfig.p_rigPitch := parsed parseFloat rigPitch;
                    CustomConfig.p_startAngle := parsed parseFloat startAngle;
                    CustomConfig.p_fov := parsed parseFloat fov |}
       else None |}.

(** The effect run once on mount: initialise the editor from the URL. *)
Definition initializeFromUrl (fuel : nat) (searchParams : URLSearchParams)
           (prev : Editor360.Editor360State) : option Editor360.Editor360State :=
  let urlConfig := parseUrlConfig searchParams in
  match (match mode urlConfig with
         | Some m => Editor360.setEditorMode fuel m prev
         | None => Some prev
         end) with
  | Some st =>
      match config urlConfig with
      | Some c => Editor360.setCustomConfig fuel c st
      | None => Some st
      end
  | None => None
  end.

(** ** [handleDownload]: the frames to export, from the active view *)

Definition excludedRanges (activeView : FrameView.t) : list TimelineRange.t :=
  filter (fun r => RangeAction_eqb (TimelineRange.action r) (Some exclude))
         (FrameView.ranges activeView).

Definition isTimeExcluded (activeView : FrameView.t) (time : number) : bool :=
  existsb
    (fun range => (time >=? TimelineRange.start range)%js
                  && (time <=? TimelineRange.end_ range)%js)
    (excludedRanges activeView).

Definition sharpFrames (activeView : FrameView.t) : list FrameData.t :=
  filter
    (fun f => (FrameData.variance f >=? FrameView.threshold activeView)%js
              && negb (isTimeExcluded activeView (FrameData.time f)))
    (FrameView.frameData activeView).

Definition handleDownload_selection (w : Editor360.World) : EditorPage.Selection :=
  match Editor360.videoRef w, Editor360.canvasRef w with
  | Some _, true =>
      match Timeline360.activeView (Editor360.frameViews (Editor360.state w))
              (Editor360.activeFrameViewId (Editor360.state w)) with
      | Some activeView =>
          match FrameView.frameData activeView with
          | [] => EditorPage.Alert "No frame data available. Please run analysis first."
          | _ :: _ =>
              match sharpFrames activeView with
              | [] => EditorPage.Alert "No frames meet the criteria."
              | frames => EditorPage.Export frames
              end
          end
      | None => EditorPage.Alert "No frame data available. Please run analysis first."
      end
  | _, _ => EditorPage.Nothing
  end.

End Editor360Page.

(* ================================================================== *)
(** * The properties, in the words of the specification *)
(* ================================================================== *)

Module Spec.
Import PrimFloat.
Import JS.

(** ** 360 detection: the ordered policy *)

(** The canonical 360 resolutions, each width paired with half of it. *)
Definition presets : list (Z * Z) :=
  [ (7680, 3840); (5760, 2880); (4096, 2048); (3840, 1920);
    (2880, 1440); (2048, 1024); (1920, 960) ]%Z.

Definition within (bound : PrimFloat.float) (a b : PrimFloat.float) : bool :=
  PrimFloat.ltb (PrimFloat.abs (PrimFloat.sub a b)) bound.

Definition nearPreset (videoWidth videoHeight : Z) : bool :=
  existsb
    (fun p => within (Video360.toFloat 100) (Video360.toFloat videoWidth) (Video360.toFloat (fst p))
              && within (Video360.toFloat 50) (Video360.toFloat videoHeight) (Video360.toFloat (snd p)))
    presets.

Definition aspect (videoWidth videoHeight : Z) : PrimFloat.float :=
  PrimFloat.div (Video360.toFloat videoWidth) (Video360.toFloat videoHeight).

(** [lo <= a <= hi]. *)
Definition between (lo hi a : PrimFloat.float) : bool :=
  PrimFloat.leb lo a && PrimFloat.leb a hi.

(** The tolerance around 2.0 and the ends of the wider band. *)
#[warnings="-inexact-float"]
Definition tolerance : PrimFloat.float := 0.05%float.
#[warnings="-inexact-float"]
Definition bandLow : PrimFloat.float := 1.9%float.
#[warnings="-inexact-float"]
Definition bandHigh : PrimFloat.float := 2.1%float.

(** First match wins: [|aspect - 2.0| < 0.05] and a preset nearby,
    else [|aspect - 2.0| < 0.05], else [aspect] in [[1.9, 2.1]]. *)
Definition detectPolicy (videoWidth videoHeight : Z) : bool * Video360.Confidence :=
  let a := aspect videoWidth videoHeight in
  if within tolerance a 2.0%float && nearPreset videoWidth videoHeight
  then (true, Video360.high)
  else if within tolerance a 2.0%float then (true, Video360.medium)
  else if between bandLow bandHigh a then (true, Video360.low)
  else (false, Video360.high).

(** ** Detection in exact arithmetic *)

(** The same policy with the aspect ratio, its distance from 2 and the
    ends of the bands as exact rationals. *)
Definition exactAspect (videoWidth videoHeight : Z) : Q :=
  inject_Z videoWidth / inject_Z videoHeight.

Definition withinExact (bound a b : Q) : bool := Qltb (Qabs.Qabs (a - b)) bound.

Definition nearPresetExact (videoWidth videoHeight : Z) : bool :=
  existsb
    (fun p => (Z.abs (videoWidth - fst p) <? 100)%Z
              && (Z.abs (videoHeight - snd p) <? 50)%Z)
    presets.

Definition betweenExact (lo hi a : Q) : bool := Qle_bool lo a && Qle_bool a hi.

Definition detectPolicyExact (videoWidth videoHeight : Z) : bool * Video360.Confidence :=
  let a := exactAspect videoWidth videoHeight in
  if withinExact (5 # 100) a 2 && nearPresetExact videoWidth videoHeight
  then (true, Video360.high)
  else if withinExact (5 # 100) a 2 then (true, Video360.medium)
  else if betweenExact (19 # 10) (21 # 10) a then (true, Video360.low)
  else (false, Video360.high).

(** What the code answers for a frame, and whether that is the answer
    of the exact policy or the frame has the aspect 2.05 (41 : 20). *)
Definition answer (videoWidth videoHeight : Z) : bool * Video360.Confidence :=
  (Video360.is360 (Video360.detect360Video videoWidth videoHeight),
   Video360.confidence (Video360.detect360Video videoWidth videoHeight)).

Definition sameAnswer (x y : bool * Video360.Confidence) : bool :=
  Bool.eqb (fst x) (fst y)
  && match snd x, snd y with
     | Video360.high, Video360.high
     | Video360.medium, Video360.medium
     | Video360.low, Video360.low => true
     | _, _ => false
     end.

Definition agrees (videoWidth videoHeight : Z) : bool :=
  sameAnswer (answer videoWidth videoHeight) (detectPolicyExact videoWidth videoHeight)
  || (20 * videoWidth =? 41 * videoHeight)%Z.

(** [f 1 && ... && f n]. *)
Fixpoint upTo (f : Z -> bool) (n : nat) : bool :=
  match n with
  | O => true
  | S m => f (Z.of_nat n) && upTo f m
  end.

(** The heights of some common frames: of the presets 1920 x 960,
    2880 x 1440 and 3840 x 1920, of 1920 x 1080, and of the frames
    3000 x 1500 and 4100 x 2000. *)
Definition heights : list Z := [960; 1080; 1440; 1500; 1920; 2000]%Z.

(** ** Ranges *)

(** Membership of a time in a range, inclusive at both ends. *)
Definition covers (r : TimelineRange.t) (time : number) : Prop :=
  (TimelineRange.start r <=? time)%js = true
  /\ (time <=? TimelineRange.end_ r)%js = true.

Definition excluded (ranges : list TimelineRange.t) (time : number) : Prop :=
  exists r, In r ranges /\ TimelineRange.action r = Some exclude /\ covers r time.

(** [r] spans the two times [s] and [e]: each of its ends is one of
    them, it starts at or before both and ends at or after both. *)
Definition spans (r : TimelineRange.t) (s e : number) : Prop :=
  (TimelineRange.start r = s \/ TimelineRange.start r = e)
  /\ (TimelineRange.end_ r = s \/ TimelineRange.end_ r = e)
  /\ (TimelineRange.start r <=? s)%js = true
  /\ (TimelineRange.start r <=? e)%js = true
  /\ (s <=? TimelineRange.end_ r)%js = true
  /\ (e <=? TimelineRange.end_ r)%js = true.

(** [start <= end]. *)
Definition ordered (r : TimelineRange.t) : Prop :=
  (TimelineRange.start r <=? TimelineRange.end_ r)%js = true.

Definition allOrdered (ranges : list TimelineRange.t) : Prop :=
  Forall ordered ranges.

(** The same, for the ranges of every view of the 360 editor. *)
Definition viewsOrdered (views : list FrameView.t) : Prop :=
  Forall (fun v => allOrdered (FrameView.ranges v)) views.

(** ** Scoring *)

(** The first pass of the scorer keeps its buffer and its sum finite. *)
Definition lapOk (width height : nat) (acc : Scorer.Laplacian) : Prop :=
  Forall (fun x => isFinite x = true) (Scorer.laplacianData acc)
  /\ List.length (Scorer.laplacianData acc) = (width * height)%nat
  /\ isFinite (Scorer.sum acc) = true.

(** ** Thresholds *)

(** The maximum variance observed in a view's frame data. *)
Definition maxVarianceObserved (frameData : list FrameData.t) : number :=
  fold_left (fun m item => max m (FrameData.variance item)) frameData (num 0).

(** [min(configuredThreshold, maxVarianceObserved)]. *)
Definition effectiveThreshold (configured : number) (frameData : list FrameData.t)
  : number :=
  min configured (maxVarianceObserved frameData).

Definition sample (t v : Z) : FrameData.t :=
  {| FrameData.time := num t; FrameData.variance := num v |}.

(** ** Custom views: view [i] of a rig *)

(** The mathematical [a mod m], in [[0, m)] for a positive [m]. *)
Definition modulo (a m : number) : number :=
  match a, m with
  | Fin x, Fin y =>
      if Qeq_bool y 0 then NaN else fin (x - y * inject_Z (Qfloor (x / y)))
  | _, _ => NaN
  end.

(** [yaw = (startAngle + i * angleStep) mod 360], with
    [angleStep = 360 / frameCount]. *)
Definition yawOf (frameCount startAngle : number) (i : nat) : number :=
  modulo (startAngle + ofNat i * (num 360 / frameCount))%js (num 360).


Definition customView (frameCount rigPitch startAngle fov : number) (i : nat)
  : Video360.View :=
  {| Video360.v_name := "View " ++ showNat (i + 1);
     Video360.v_yaw :=
       rem (startAngle + ofNat i * (num 360 / frameCount))%js (num 360);
     Video360.v_pitch := rigPitch;
     Video360.v_fov := fov |}.

End Spec.

(* ================================================================== *)
(** * What an analysis run is expected to leave behind *)
(* ================================================================== *)

Module Sampling.
Import JS.

(** The time of sample [i]: [i * interval], with [interval = 1 / fps]. *)
Definition sampleTime (fps : number) (i : nat) : number :=
  (ofNat i * (num 1 / fps))%js.

(** [floor(duration * fps)], as an index. *)
Definition lastIndex (duration fps : number) : nat :=
  toNat (floor (duration * fps)%js).

Definition valueOf (r : result number) : number :=
  match r with Ok v => v | Throw _ => NaN end.

(** The progress shown once [done] steps out of [total] are reported;
    nothing is reported before the first step. *)
Definition progressReport (total : number) (done : nat) : number :=
  match done with
  | O => num 0
  | S _ => round ((ofNat done / total) * num 100)%js
  end.

(** ** Planar editor *)

(** Decoding and scoring the frame at [time]. *)
Definition planarScore (drawFrame : number -> nat -> nat -> result DOM.Canvas)
           (video : Video.t) (time : number) : result number :=
  let (width, height) := analysisSize (Video.videoWidth video) (Video.videoHeight video) in
  match drawFrame time width height with
  | Ok ctx => Scorer.computeLaplacianVariance ctx width height
  | Throw e => Throw e
  end.

(** The first [n] samples. *)
Definition planarSamples (drawFrame : number -> nat -> nat -> result DOM.Canvas)
           (video : Video.t) (fps : number) (n : nat) : list FrameData.t :=
  map (fun i => {| FrameData.time := sampleTime fps i;
                   FrameData.variance :=
                     valueOf (planarScore drawFrame video (sampleTime fps i)) |})
      (seq 0 n).

(** ** 360 editor *)

Definition extractView
           (extractCubemapFace :
              DOM.Canvas -> Video360.CubemapFace -> nat -> result DOM.Canvas)
           (extractPerspectiveView :
              DOM.Canvas -> number -> number -> number -> nat -> nat -> result DOM.Canvas)
           (sourceCtx : DOM.Canvas) (view : FrameView.t) : result DOM.Canvas :=
  match FrameView.face view with
  | Some face => extractCubemapFace sourceCtx face Editor360.faceSize
  | None => extractPerspectiveView sourceCtx
              (FrameView.yaw view) (FrameView.pitch view) (FrameView.fov view)
              Editor360.faceSize Editor360.faceSize
  end.

(** Extracting and scoring one view of a decoded source frame. *)
Definition viewScore
           (extractCubemapFace :
              DOM.Canvas -> Video360.CubemapFace -> nat -> result DOM.Canvas)
           (extractPerspectiveView :
              DOM.Canvas -> number -> number -> number -> nat -> nat -> result DOM.Canvas)
           (sourceCtx : DOM.Canvas) (view : FrameView.t) : result number :=
  match extractView extractCubemapFace extractPerspectiveView sourceCtx view with
  | Ok viewCanvas =>
      Scorer.computeLaplacianVariance viewCanvas Editor360.faceSize Editor360.faceSize
  | Throw e => Throw e
  end.

(** The variance of a view at [time], [NaN] standing for a failed step. *)
Definition viewVariance
           (drawSource : number -> result DOM.Canvas)
           (extractCubemapFace :
              DOM.Canvas -> Video360.CubemapFace -> nat -> result DOM.Canvas)
           (extractPerspectiveView :
              DOM.Canvas -> number -> number -> number -> nat -> nat -> result DOM.Canvas)
           (view : FrameView.t) (time : number) : number :=
  match drawSource time with
  | Ok sourceCtx =>
      valueOf (viewScore extractCubemapFace extractPerspectiveView sourceCtx view)
  | Throw _ => NaN
  end.

(** The first [n] samples of a view. *)
Definition viewSamples
           (drawSource : number -> result DOM.Canvas)
           (extractCubemapFace :
              DOM.Canvas -> Video360.CubemapFace -> nat -> result DOM.Canvas)
           (extractPerspectiveView :
              DOM.Canvas -> number -> number -> number -> nat -> nat -> result DOM.Canvas)
           (fps : number) (n : nat) (view : FrameView.t) : list FrameData.t :=
  map (fun i => {| FrameData.time := sampleTime fps i;
                   FrameData.variance :=
                     viewVariance drawSource extractCubemapFace extractPerspectiveView
                                  view (sampleTime fps i) |})
      (seq 0 n).

(** ** The worlds a run goes through *)

Definition planarWorld (st : Editor.EditorState) (v : Video.t) (c : bool)
           (con : list string) : Editor.World :=
  {| Editor.state := st; Editor.videoRef := Some v;
     Editor.canvasRef := c; Editor.console := con |}.

Definition world360 (st : Editor360.Editor360State) (v : Video.t) (c : bool)
           (con : list string) : Editor360.World :=
  {| Editor360.state := st; Editor360.videoRef := Some v;
     Editor360.canvasRef := c; Editor360.console := con |}.

(** The video element once [n] samples have been sought. *)
Definition videoAfter (fps : number) (v0 : Video.t) (n : nat) : Video.t :=
  match n with
  | O => v0
  | S k => Video.setCurrentTime (sampleTime fps k) v0
  end.

(** The state of the 360 editor with its views, its processing flag and
    its progress replaced. *)
Definition analysed360 (processing : bool) (progress : number)
           (views : list FrameView.t) (st0 : Editor360.Editor360State)
  : Editor360.Editor360State :=
  Editor360.withPlayback (Editor360.currentTime st0) processing progress
                         (Editor360.withFrameViews views st0).

End Sampling.

(* ================================================================== *)
(** * Concrete sessions used in the examples *)
(* ================================================================== *)

Module Examples.
Import JS.

(** A ten-second equirectangular video, paused at its start. *)
Definition clip : Video.t :=
  {| Video.duration := num 10; Video.videoWidth := 3840; Video.videoHeight := 1920;
     Video.currentTime := num 0; Video.paused := true |}.

Definition loaded : Editor.EditorState := Editor.onVideoLoaded clip Editor.initialState.
Definition loaded360 : Editor360.Editor360State :=
  Editor360.onVideoLoaded clip Editor360.initialState.

(** Variances [100, 400, 250, 500] at times [0, 1, 2, 3]. *)
Definition fourSamples : list FrameData.t :=
  [ Spec.sample 0 100; Spec.sample 1 400; Spec.sample 2 250; Spec.sample 3 500 ].

(** The planar editor with the four samples, the threshold at 300 and
    one exclude range [0.5, 1.5]. *)
Definition planarSelection : Editor.EditorState :=
  Editor.addRange "range_1" (dec (1 # 2)) (dec (3 # 2)) (Some exclude)
    (Editor.setThreshold (num 300) (Editor.setFrameData fourSamples loaded)).

(** The same selection on a view of the 360 editor. *)
Definition view360 (frameData : list FrameData.t) (threshold : number)
           (ranges : list TimelineRange.t) : FrameView.t :=
  {| FrameView.id := "skybox_pz"; FrameView.name := "PZ (Front)";
     FrameView.face := Some Video360.pz;
     FrameView.yaw := num 0; FrameView.pitch := num 0; FrameView.fov := num 90;
     FrameView.frameData := frameData; FrameView.threshold := threshold;
     FrameView.ranges := ranges |}.

Definition excludeHalfToOneAndHalf : TimelineRange.t :=
  {| TimelineRange.id := "range_1";
     TimelineRange.start := dec (1 # 2); TimelineRange.end_ := dec (3 # 2);
     TimelineRange.action := Some exclude; TimelineRange.maskPrompt := None |}.

Definition viewSelection : FrameView.t :=
  view360 fourSamples (num 300) [excludeHalfToOneAndHalf].

(** One range [1, 2] without an action, and an update that moves its
    start to 5. *)
Definition oneRange : Editor.EditorState :=
  Editor.addRange "range_1" (num 1) (num 2) None loaded.

Definition oneRange360 : Editor360.Editor360State :=
  Editor360.addRange "range_1" "skybox_pz" (num 1) (num 2) None loaded360.

Definition moveStartTo5 : TimelineRange.updates :=
  {| TimelineRange.u_start := Some (num 5); TimelineRange.u_end := None;
     TimelineRange.u_action := None; TimelineRange.u_maskPrompt := None |}.

Definition clearPrompt : TimelineRange.updates :=
  {| TimelineRange.u_start := None; TimelineRange.u_end := None;
     TimelineRange.u_action := None; TimelineRange.u_maskPrompt := Some None |}.

(** An [n] x [n] checkerboard of white and black pixels. *)
Definition checker (n : nat) : DOM.Canvas :=
  {| DOM.c_width := n; DOM.c_height := n;
     DOM.c_pixel := fun x y =>
       if Nat.even (x + y) then (255, 255, 255, 255)%Z else (0, 0, 0, 255)%Z |}.


(** A view whose sharpest frame (variance 200) is below its threshold
    of 300, with no range. *)
Definition softView : FrameView.t :=
  view360 [Spec.sample 0 100; Spec.sample 1 200] (num 300) [].






(** A decoder that always delivers the checkerboard, and one that fails
    at a given time. *)
Definition steady : number -> nat -> nat -> result DOM.Canvas :=
  fun _ _ _ => Ok (checker 4).


Definition steadySource : number -> result DOM.Canvas :=
  fun _ => Ok (checker 4).


(** A projection engine that resamples nothing. *)
Definition sameFace : DOM.Canvas -> Video360.CubemapFace -> nat -> result DOM.Canvas :=
  fun src _ _ => Ok src.

Definition samePerspective
  : DOM.Canvas -> number -> number -> number -> nat -> nat -> result DOM.Canvas :=
  fun src _ _ _ _ _ => Ok src.




Definition frames (n : Z) : CustomConfig.partial :=
  {| CustomConfig.p_frameCount := Some (num n); CustomConfig.p_rigPitch := None;
     CustomConfig.p_startAngle := None; CustomConfig.p_fov := None |}.







End Examples.

(* ================================================================== *)
(** * hooks/useEditor: loading, playback and display settings *)
(* ================================================================== *)

Module EditorHook.
Import JS.

(** ** [file.name.replace(/\.[^/.]+$/, '')]

    A file name is a string of bytes; the bytes of a character outside
    ASCII are never those of [.] or [/]. *)

(** The class [[^/.]]. *)
Definition notSlashOrDot (c : ascii) : bool :=
  negb (Ascii.eqb c "/" || Ascii.eqb c ".").

Fixpoint allOf (p : ascii -> bool) (s : string) : bool :=
  match s with
  | String c rest => p c && allOf p rest
  | EmptyString => true
  end.

(** Whether [\.[^/.]+$] matches at the first character of [s]: a dot,
    then one or more characters of the class, up to the end of the
    input. *)
Definition matchesExtension (s : string) : bool :=
  match s with
  | String c rest =>
      Ascii.eqb c "." && negb (String.eqb rest "") && allOf notSlashOrDot rest
  | EmptyString => false
  end.

(** The leftmost match is replaced by the empty string; the match, when
    there is one, runs to the end of the input. *)
Fixpoint removeExtension (s : string) : string :=
  if matchesExtension s then EmptyString
  else match s with
       | String c rest => String c (removeExtension rest)
       | EmptyString => EmptyString
       end.

(** ** State updates *)

(** [loadVideo(file)], with [url] the object URL created for the file.
    The keys [splits] and [selectedRange] that the source also writes
    are not fields of the state. *)
Definition loadVideo (url fileName : string) (prev : Editor.EditorState)
  : Editor.EditorState :=
  {| Editor.videoSrc := Some url;
     Editor.videoFileName := removeExtension fileName;
     Editor.videoDuration := Editor.videoDuration prev;
     Editor.videoWidth := Editor.videoWidth prev;
     Editor.videoHeight := Editor.videoHeight prev;
     Editor.isPlaying := Editor.isPlaying prev;
     Editor.currentTime := num 0;
     Editor.timelineZoom := Editor.timelineZoom prev;
     Editor.ranges := Editor.ranges prev;
     Editor.selectedRangeId := Editor.selectedRangeId prev;
     Editor.isProcessing := Editor.isProcessing prev;
     Editor.progress := num 0;
     Editor.frameData := [];
     Editor.fps := Editor.fps prev;
     Editor.exportFps := Editor.exportFps prev;
     Editor.threshold := Editor.threshold prev;
     Editor.hdrSupport := Editor.hdrSupport prev;
     Editor.hdrDisplay := Editor.hdrDisplay prev;
     Editor.hdrCanvasSupported := Editor.hdrCanvasSupported prev |}.

(** [{ ...prev, isPlaying, timelineZoom, exportFps }]. *)
Definition withDisplay (playing : bool) (zoom exportFps : number)
           (prev : Editor.EditorState) : Editor.EditorState :=
  {| Editor.videoSrc := Editor.videoSrc prev;
     Editor.videoFileName := Editor.videoFileName prev;
     Editor.videoDuration := Editor.videoDuration prev;
     Editor.videoWidth := Editor.videoWidth prev;
     Editor.videoHeight := Editor.videoHeight prev;
     Editor.isPlaying := playing;
     Editor.currentTime := Editor.currentTime prev;
     Editor.timelineZoom := zoom;
     Editor.ranges := Editor.ranges prev;
     Editor.selectedRangeId := Editor.selectedRangeId prev;
     Editor.isProcessing := Editor.isProcessing prev;
     Editor.progress := Editor.progress prev;
     Editor.frameData := Editor.frameData prev;
     Editor.fps := Editor.fps prev;
     Editor.exportFps := exportFps;
     Editor.threshold := Editor.threshold prev;
     Editor.hdrSupport := Editor.hdrSupport prev;
     Editor.hdrDisplay := Editor.hdrDisplay prev;
     Editor.hdrCanvasSupported := Editor.hdrCanvasSupported prev |}.

Definition togglePlay (prev : Editor.EditorState) : Editor.EditorState :=
  withDisplay (negb (Editor.isPlaying prev))
              (Editor.timelineZoom prev) (Editor.exportFps prev) prev.

Definition setTimelineZoom (zoom : number) (prev : Editor.EditorState)
  : Editor.EditorState :=
  withDisplay (Editor.isPlaying prev)
              (max (dec (1 # 10)) (min (num 10) zoom))
              (Editor.exportFps prev) prev.

Definition setExportFps (exportFps : number) (prev : Editor.EditorState)
  : Editor.EditorState :=
  withDisplay (Editor.isPlaying prev) (Editor.timelineZoom prev)
              (max (num 1) (min (num 60) exportFps)) prev.

End EditorHook.

(* ================================================================== *)
(** * hooks/useEditor360: loading, views, playback and display settings *)
(* ================================================================== *)

Module Editor360Hook.
Import JS.

(** [{ ...prev, videoSrc, videoFileName, is360ModeEnabled,
      sphereViewAngle, isPlaying, timelineZoom, fps, exportFps }]. *)
Definition withSession (src : option string) (fileName : string) (enabled : bool)
           (angle : number * number) (playing : bool) (zoom fps exportFps : number)
           (prev : Editor360.Editor360State) : Editor360.Editor360State :=
  {| Editor360.videoSrc := src;
     Editor360.videoFileName := fileName;
     Editor360.videoDuration := Editor360.videoDuration prev;
     Editor360.videoWidth := Editor360.videoWidth prev;
     Editor360.videoHeight := Editor360.videoHeight prev;
     Editor360.is360Detected := Editor360.is360Detected prev;
     Editor360.detection360Result := Editor360.detection360Result prev;
     Editor360.is360ModeEnabled := enabled;
     Editor360.editorMode := Editor360.editorMode prev;
     Editor360.frameViews := Editor360.frameViews prev;
     Editor360.activeFrameViewId := Editor360.activeFrameViewId prev;
     Editor360.customConfig := Editor360.customConfig prev;
     Editor360.sphereViewAngle := angle;
     Editor360.isPlaying := playing;
     Editor360.currentTime := Editor360.currentTime prev;
     Editor360.timelineZoom := zoom;
     Editor360.isProcessing := Editor360.isProcessing prev;
     Editor360.progress := Editor360.progress prev;
     Editor360.fps := fps;
     Editor360.exportFps := exportFps |}.

(** ** Video loading *)

(** [{ ...v, frameData: [], ranges: [] }]. *)
Definition cleared (v : FrameView.t) : FrameView.t :=
  FrameView.spread v
    {| FrameView.u_name := None; FrameView.u_face := None; FrameView.u_yaw := None;
       FrameView.u_pitch := None; FrameView.u_fov := None;
       FrameView.u_frameData := Some []; FrameView.u_threshold := None;
       FrameView.u_ranges := Some [] |}.

(** [loadVideo(file)], with [url] the object URL created for the file. *)
Definition loadVideo (url fileName : string) (prev : Editor360.Editor360State)
  : Editor360.Editor360State :=
  Editor360.withPlayback (num 0) (Editor360.isProcessing prev) (num 0)
    (Editor360.withFrameViews (map cleared (Editor360.frameViews prev))
       (withSession (Some url) (EditorHook.removeExtension fileName)
                    (Editor360.is360ModeEnabled prev) (Editor360.sphereViewAngle prev)
                    (Editor360.isPlaying prev) (Editor360.timelineZoom prev)
                    (Editor360.fps prev) (Editor360.exportFps prev) prev)).

(** ** Mode and views *)

Definition set360ModeEnabled (enabled : bool) (prev : Editor360.Editor360State)
  : Editor360.Editor360State :=
  withSession (Editor360.videoSrc prev) (Editor360.videoFileName prev) enabled
              (Editor360.sphereViewAngle prev) (Editor360.isPlaying prev)
              (Editor360.timelineZoom prev) (Editor360.fps prev)
              (Editor360.exportFps prev) prev.

Definition setActiveFrameView (id : option string) (prev : Editor360.Editor360State)
  : Editor360.Editor360State :=
  Editor360.withViews (Editor360.editorMode prev) (Editor360.frameViews prev) id
                      (Editor360.customConfig prev) prev.

Definition renameFrameView (id name : string) (prev : Editor360.Editor360State)
  : Editor360.Editor360State :=
  Editor360.updateFrameView id
    {| FrameView.u_name := Some name; FrameView.u_face := None; FrameView.u_yaw := None;
       FrameView.u_pitch := None; FrameView.u_fov := None;
       FrameView.u_frameData := None; FrameView.u_threshold := None;
       FrameView.u_ranges := None |} prev.

(** ** Sphere interaction *)

Definition setSphereViewAngle (yaw pitch : number) (prev : Editor360.Editor360State)
  : Editor360.Editor360State :=
  withSession (Editor360.videoSrc prev) (Editor360.videoFileName prev)
              (Editor360.is360ModeEnabled prev) (yaw, pitch)
              (Editor360.isPlaying prev) (Editor360.timelineZoom prev)
              (Editor360.fps prev) (Editor360.exportFps prev) prev.

(** [{ ...v, yaw, pitch }]. *)
Definition turned (yaw pitch : number) (v : FrameView.t) : FrameView.t :=
  FrameView.spread v
    {| FrameView.u_name := None; FrameView.u_face := None;
       FrameView.u_yaw := Some yaw; FrameView.u_pitch := Some pitch;
       FrameView.u_fov := None; FrameView.u_frameData := None;
       FrameView.u_threshold := None; FrameView.u_ranges := None |}.

(** The guard [!prev.activeFrameViewId || prev.editorMode !== 'custom']:
    [null] and the empty string are falsy. *)
Definition updateActiveFrameViewAngle (yaw pitch : number)
           (prev : Editor360.Editor360State) : Editor360.Editor360State :=
  match Editor360.activeFrameViewId prev, Editor360.editorMode prev with
  | Some active, Editor360.custom =>
      if String.eqb active "" then prev
      else Editor360.withFrameViews
             (map (fun v => if String.eqb (FrameView.id v) active
                            then turned yaw pitch v else v)
                  (Editor360.frameViews prev))
             prev
  | _, _ => prev
  end.

(** ** Playback and display settings *)

Definition withPlaying (playing : bool) (prev : Editor360.Editor360State)
  : Editor360.Editor360State :=
  withSession (Editor360.videoSrc prev) (Editor360.videoFileName prev)
              (Editor360.is360ModeEnabled prev) (Editor360.sphereViewAngle prev)
              playing (Editor360.timelineZoom prev)
              (Editor360.fps prev) (Editor360.exportFps prev) prev.

Definition play (prev : Editor360.Editor360State) : Editor360.Editor360State :=
  withPlaying true prev.

Definition pause (prev : Editor360.Editor360State) : Editor360.Editor360State :=
  withPlaying false prev.

Definition togglePlay (prev : Editor360.Editor360State) : Editor360.Editor360State :=
  withPlaying (negb (Editor360.isPlaying prev)) prev.

Definition setCurrentTime (time : number) (prev : Editor360.Editor360State)
  : Editor360.Editor360State :=
  Editor360.withPlayback time (Editor360.isProcessing prev) (Editor360.progress prev) prev.

Definition setTimelineZoom (zoom : number) (prev : Editor360.Editor360State)
  : Editor360.Editor360State :=
  withSession (Editor360.videoSrc prev) (Editor360.videoFileName prev)
              (Editor360.is360ModeEnabled prev) (Editor360.sphereViewAngle prev)
              (Editor360.isPlaying prev)
              (max (dec (1 # 10)) (min (num 10) zoom))
              (Editor360.fps prev) (Editor360.exportFps prev) prev.

Definition setFps (fps : number) (prev : Editor360.Editor360State)
  : Editor360.Editor360State :=
  withSession (Editor360.videoSrc prev) (Editor360.videoFileName prev)
              (Editor360.is360ModeEnabled prev) (Editor360.sphereViewAngle prev)
              (Editor360.isPlaying prev) (Editor360.timelineZoom prev)
              fps (Editor360.exportFps prev) prev.

Definition setExportFps (exportFps : number) (prev : Editor360.Editor360State)
  : Editor360.Editor360State :=
  withSession (Editor360.videoSrc prev) (Editor360.videoFileName prev)
              (Editor360.is360ModeEnabled prev) (Editor360.sphereViewAngle prev)
              (Editor360.isPlaying prev) (Editor360.timelineZoom prev)
              (Editor360.fps prev)
              (max (num 1) (min (num 60) exportFps)) prev.

End Editor360Hook.

(* ================================================================== *)
(** * Text and geometry shared by the components *)
(* ================================================================== *)

(** [s.padStart(2, '0')]. *)
Definition padStart2 (s : string) : string :=
  match String.length s with
  | O => "00"
  | S O => String "0" s
  | _ => s
  end.

(** [element.getBoundingClientRect()]. *)
Module DOMRect.
Record t : Type := {
  left : JS.number;
  top : JS.number;
  width : JS.number;
  height : JS.number
}.
End DOMRect.

(* ================================================================== *)
(** * components/editor/Timeline and components/editor360/Timeline360:
      geometry, labels and ticks (both define them identically) *)
(* ================================================================== *)

Module TimelineGeometry.
Import JS.

(** [trackRef.current] is [null] until the track is mounted. *)
Definition positionToTime (trackRef : option DOMRect.t) (duration clientX : number)
  : number :=
  match trackRef with
  | None => num 0
  | Some rect =>
      if negb (truthy duration) then num 0
      else
        let x := (clientX - DOMRect.left rect)%js in
        let percentage := max (num 0) (min (num 1) (x / DOMRect.width rect)%js) in
        (percentage * duration)%js
  end.

(** The share of the track height above the pointer, as the threshold
    drag computes it. *)
Definition thresholdShare (rect : DOMRect.t) (clientY : number) : number :=
  let relativeY := (clientY - DOMRect.top rect)%js in
  (num 1 - max (num 0) (min (num 1) (relativeY / DOMRect.height rect)%js))%js.

Section Labels.

(** The conversion of a number to a string in a template literal and
    by [toString()]. *)
Variable toString : number -> string.

Definition formatTime (seconds : number) : string :=
  let mins := floor (seconds / num 60)%js in
  let secs := floor (rem seconds (num 60)) in
  toString mins ++ ":" ++ padStart2 (toString secs).

End Labels.

Definition niceIntervals : list number :=
  [ dec (1 # 2); num 1; num 2; num 5; num 10; num 15; num 30; num 60;
    num 120; num 300; num 600 ].

(** [niceIntervals.find(i => i >= interval) || 600]. *)
Definition niceIntervalFor (interval : number) : number :=
  match find (fun i => (i >=? interval)%js) niceIntervals with
  | Some i => JS.or i (num 600)
  | None => num 600
  end.

(** [for (let t = 0; t <= duration; t += niceInterval) ticks.push(t)];
    [None] when the fuel runs out before the loop condition fails. *)
Fixpoint generateTicks_loop (fuel : nat) (duration niceInterval t : number)
         (ticks : list number) : option (list number) :=
  match fuel with
  | O => None
  | S fuel' =>
      if (t <=? duration)%js
      then generateTicks_loop fuel' duration niceInterval (t + niceInterval)%js
                              (ticks ++ [t])
      else Some ticks
  end.

(** [clientWidth] is that of the mounted container, if any. *)
Definition generateTicks (fuel : nat) (clientWidth : option number)
           (duration zoom : number) : option (list number) :=
  if negb (truthy duration) then Some []
  else
    let minTickSpacing := num 80 in
    let containerWidth :=
      match clientWidth with
      | Some w => JS.or w (num 800)
      | None => num 800
      end in
    let totalWidth := (containerWidth * zoom)%js in
    let tickCount := max (num 2) (floor (totalWidth / minTickSpacing)%js) in
    let interval := (duration / tickCount)%js in
    let niceInterval := niceIntervalFor interval in
    generateTicks_loop fuel duration niceInterval (num 0) [].

End TimelineGeometry.

(* ================================================================== *)
(** * components/editor/PlayerControls *)
(* ================================================================== *)

Module PlayerControls.
Import JS.

(** ** [parseInt(s)], the radix left out: a [0x] or [0X] prefix selects
    base sixteen, every other input is read in base ten. *)

Definition hexDigitOf (c : ascii) : option Z :=
  let n := nat_of_ascii c in
  if (48 <=? n)%nat && (n <=? 57)%nat then Some (Z.of_nat (n - 48))
  else if (97 <=? n)%nat && (n <=? 102)%nat then Some (Z.of_nat (n - 87))
  else if (65 <=? n)%nat && (n <=? 70)%nat then Some (Z.of_nat (n - 55))
  else None.

Fixpoint readHexDigits (s : string) (acc : Z) (n : nat) : Z * nat :=
  match s with
  | String c rest =>
      match hexDigitOf c with
      | Some d => readHexDigits rest (16 * acc + d)%Z (S n)
      | None => (acc, n)
      end
  | EmptyString => (acc, n)
  end.

Definition hasHexPrefix (s : string) : option string :=
  match s with
  | String "0" (String c rest) =>
      if Ascii.eqb c "x" || Ascii.eqb c "X" then Some rest else None
  | _ => None
  end.

Definition parseInt (s : string) : number :=
  let '(sign, body) := Editor360Page.readSign (Editor360Page.trimStart s) in
  match hasHexPrefix body with
  | Some digits =>
      match readHexDigits digits 0 0 with
      | (_, O) => NaN
      | (n, _) => ofZ (sign * n)
      end
  | None =>
      match Editor360Page.readDigits body 0 0 with
      | (_, O, _) => NaN
      | (n, _, _) => ofZ (sign * n)
      end
  end.

(** The export rate field:
    [onChange={(e) => onExportFpsChange(parseInt(e.target.value) || 1)}],
    with [onExportFpsChange] the [setExportFps] of the planar hook. *)
Definition exportFpsChanged (value : string) (prev : Editor.EditorState)
  : Editor.EditorState :=
  EditorHook.setExportFps (JS.or (parseInt value) (num 1)) prev.

End PlayerControls.

(* ================================================================== *)
(** * Keyboard shortcuts of the two editor pages *)
(* ================================================================== *)

Module Keyboard.
Import JS.

Inductive Code : Type := Space | ArrowLeft | ArrowRight | Home | End_ | OtherKey.

Record KeyboardEvent : Type := {
  code : Code;
  shiftKey : bool;
  (* [e.target instanceof HTMLInputElement || ... HTMLTextAreaElement] *)
  targetIsField : bool
}.

(** The step of an arrow key: [e.shiftKey ? 5 : 1 / 30]. *)
Definition arrowStep (e : KeyboardEvent) : number :=
  if shiftKey e then num 5 else (num 1 / num 30)%js.

(** app/editor/page: [handleKeyDown]. *)
Definition handleKeyDown (e : KeyboardEvent) (state : Editor.EditorState)
  : Editor.EditorState :=
  if targetIsField e then state
  else match code e with
       | Space => EditorHook.togglePlay state
       | ArrowLeft => Editor.seek (Editor.currentTime state - arrowStep e)%js state
       | ArrowRight => Editor.seek (Editor.currentTime state + arrowStep e)%js state
       | Home => Editor.seek (num 0) state
       | End_ => Editor.seek (Editor.videoDuration state) state
       | OtherKey => state
       end.

(** app/editor360/page: [handleKeyDown]. *)
Definition handleKeyDown360 (e : KeyboardEvent) (state : Editor360.Editor360State)
  : Editor360.Editor360State :=
  if targetIsField e then state
  else match code e with
       | Space => Editor360Hook.togglePlay state
       | ArrowLeft => Editor360.seek (Editor360.currentTime state - arrowStep e)%js state
       | ArrowRight => Editor360.seek (Editor360.currentTime state + arrowStep e)%js state
       | Home => Editor360.seek (num 0) state
       | End_ => Editor360.seek (Editor360.videoDuration state) state
       | OtherKey => state
       end.

End Keyboard.

(* ================================================================== *)
(** * components/editor360/CanvasPlayer360: turning the sphere *)
(* ================================================================== *)

Module CanvasPlayer360.
Import JS.

(** [dragStartRef.current]. *)
Record DragStart : Type := {
  x : number;
  y : number;
  yaw : number;
  pitch : number
}.

(** [((newYaw % 360) + 360) % 360]. *)
Definition wrapYaw (newYaw : number) : number :=
  rem (rem newYaw (num 360) + num 360)%js (num 360).

(** [Math.max(-90, Math.min(90, newPitch))]. *)
Definition clampPitch (newPitch : number) : number :=
  max (num (-90)) (min (num 90) newPitch).

(** [handleMouseMove] while dragging: the page passes
    [setSphereViewAngle] as [onSphereRotate] and
    [updateActiveFrameViewAngle] as [onUpdateActiveFrameView]. *)
Definition handleMouseMove (dragStart : option DragStart) (clientX clientY : number)
           (state : Editor360.Editor360State) : Editor360.Editor360State :=
  match dragStart with
  | None => state
  | Some start =>
      let dx := (clientX - x start)%js in
      let dy := (clientY - y start)%js in
      let sensitivity := dec (1 # 2) in
      let newYaw := wrapYaw (yaw start + dx * sensitivity)%js in
      let newPitch := clampPitch (pitch start - dy * sensitivity)%js in
      let rotated := Editor360Hook.setSphereViewAngle newYaw newPitch state in
      match Editor360.editorMode state with
      | Editor360.custom => Editor360Hook.updateActiveFrameViewAngle newYaw newPitch rotated
      | Editor360.skybox => rotated
      end
  end.

End CanvasPlayer360.

(* ================================================================== *)
(** * The state updates the 360 hook hands out *)
(* ================================================================== *)

Module Editor360Api.
Import JS.

(** One call of a function returned by [useEditor360] that updates the
    state.  [addRange] carries the identifier it draws. *)
Inductive Call : Type :=
| LoadVideo (url fileName : string)
| OnVideoLoaded (video : Video.t)
| SetEditorMode (mode : Editor360.EditorMode)
| Set360ModeEnabled (enabled : bool)
| SetCustomConfig (config : CustomConfig.partial)
| SetActiveFrameView (id : option string)
| UpdateFrameView (id : string) (updates : FrameView.updates)
| RenameFrameView (id name : string)
| SetSphereViewAngle (yaw pitch : number)
| UpdateActiveFrameViewAngle (yaw pitch : number)
| Play
| Pause
| TogglePlay
| Seek (time : number)
| SetCurrentTime (time : number)
| SetTimelineZoom (zoom : number)
| SetFps (fps : number)
| SetExportFps (exportFps : number)
| SetThreshold (viewId : string) (threshold : number)
| AddRange (rangeId viewId : string) (start end_ : number) (action : RangeAction)
| UpdateRange (viewId rangeId : string) (updates : TimelineRange.updates)
| RemoveRange (viewId rangeId : string)
| ClearAllRanges (viewId : string)
| SetProgress (progress : number)
| SetIsProcessing (isProcessing : bool).

(** The state after the call; [None] when generating the custom views
    runs out of fuel. *)
Definition call (fuel : nat) (c : Call) (prev : Editor360.Editor360State)
  : option Editor360.Editor360State :=
  match c with
  | LoadVideo url fileName => Some (Editor360Hook.loadVideo url fileName prev)
  | OnVideoLoaded video => Some (Editor360.onVideoLoaded video prev)
  | SetEditorMode mode => Editor360.setEditorMode fuel mode prev
  | Set360ModeEnabled enabled => Some (Editor360Hook.set360ModeEnabled enabled prev)
  | SetCustomConfig config => Editor360.setCustomConfig fuel config prev
  | SetActiveFrameView id => Some (Editor360Hook.setActiveFrameView id prev)
  | UpdateFrameView id updates => Some (Editor360.updateFrameView id updates prev)
  | RenameFrameView id name => Some (Editor360Hook.renameFrameView id name prev)
  | SetSphereViewAngle yaw pitch => Some (Editor360Hook.setSphereViewAngle yaw pitch prev)
  | UpdateActiveFrameViewAngle yaw pitch =>
      Some (Editor360Hook.updateActiveFrameViewAngle yaw pitch prev)
  | Play => Some (Editor360Hook.play prev)
  | Pause => Some (Editor360Hook.pause prev)
  | TogglePlay => Some (Editor360Hook.togglePlay prev)
  | Seek time => Some (Editor360.seek time prev)
  | SetCurrentTime time => Some (Editor360Hook.setCurrentTime time prev)
  | SetTimelineZoom zoom => Some (Editor360Hook.setTimelineZoom zoom prev)
  | SetFps fps => Some (Editor360Hook.setFps fps prev)
  | SetExportFps exportFps => Some (Editor360Hook.setExportFps exportFps prev)
  | SetThreshold viewId threshold => Some (Editor360.setThreshold viewId threshold prev)
  | AddRange rangeId viewId start end_ action =>
      Some (Editor360.addRange rangeId viewId start end_ action prev)
  | UpdateRange viewId rangeId updates =>
      Some (Editor360.updateRange viewId rangeId updates prev)
  | RemoveRange viewId rangeId => Some (Editor360.removeRange viewId rangeId prev)
  | ClearAllRanges viewId => Some (Editor360.clearAllRanges viewId prev)
  | SetProgress progress => Some (Editor360.setProgress progress prev)
  | SetIsProcessing isProcessing => Some (Editor360.setIsProcessing isProcessing prev)
  end.

(** A sequence of calls, in order. *)
Fixpoint calls (fuel : nat) (cs : list Call) (prev : Editor360.Editor360State)
  : option Editor360.Editor360State :=
  match cs with
  | [] => Some prev
  | c :: rest =>
      match call fuel c prev with
      | Some st => calls fuel rest st
      | None => None
      end
  end.

(** The identifiers of the views, in order. *)
Definition viewIds (st : Editor360.Editor360State) : list string :=
  map FrameView.id (Editor360.frameViews st).

End Editor360Api.

(* ================================================================== *)
(** * components/editor/Timeline: the gestures of the planar timeline *)
(* ================================================================== *)

Module TimelineComponent.
Import JS.

(** The state the component keeps for itself. *)
Record Local : Type := {
  isDraggingPlayhead : bool;
  isDraggingThreshold : bool;
  isCreatingRange : bool;
  rangeCreationStart : option number;
  tempRangeEnd : option number;
  showMaskModal : bool
}.

Definition initialLocal : Local :=
  {| isDraggingPlayhead := false; isDraggingThreshold := false;
     isCreatingRange := false; rangeCreationStart := None; tempRangeEnd := None;
     showMaskModal := false |}.

(** What the user does.  A mouse event carries the rectangle of the
    track at that moment ([None] while the track is not mounted);
    releasing the button carries the identifier [addRange] would
    draw. *)
Inductive Event : Type :=
| TrackMouseDown (button : Z) (onRange : bool) (clientX : number)
| PlayheadMouseDown
| ThresholdMouseDown
| MouseMove (clientX clientY : number)
| MouseUp (newRangeId : string)
| RangeClick (id : string)
| ActionClick (value : RangeActionTag)
| DeleteClick
| ClearAllClick
| ZoomOutClick
| ZoomInClick.

(** [ranges.find(r => r.id === selectedRangeId)]. *)
Definition selectedRange (state : Editor.EditorState) : option TimelineRange.t :=
  match Editor.selectedRangeId state with
  | Some sel => find (fun r => String.eqb (TimelineRange.id r) sel) (Editor.ranges state)
  | None => None
  end.

(** The window listeners for moving and releasing are installed while
    one of the three gestures is under way. *)
Definition listening (l : Local) : bool :=
  isDraggingPlayhead l || isCreatingRange l || isDraggingThreshold l.

Definition handleMouseDown (trackRef : option DOMRect.t) (button : Z) (onRange : bool)
           (clientX : number) (state : Editor.EditorState) (l : Local)
  : Editor.EditorState * Local :=
  if negb (button =? 0)%Z then (state, l)
  else if onRange then (state, l)
  else
    (* a selected range without an action is removed *)
    let state1 :=
      match Editor.selectedRangeId state with
      | Some sel =>
          if String.eqb sel "" then state
          else match find (fun r => String.eqb (TimelineRange.id r) sel)
                          (Editor.ranges state) with
               | Some current =>
                   match TimelineRange.action current with
                   | None => Editor.removeRange sel state
                   | Some _ => state
                   end
               | None => state
               end
      | None => state
      end in
    let time :=
      TimelineGeometry.positionToTime trackRef (Editor.videoDuration state) clientX in
    (Editor.selectRange None state1,
     {| isDraggingPlayhead := isDraggingPlayhead l;
        isDraggingThreshold := isDraggingThreshold l;
        isCreatingRange := true;
        rangeCreationStart := Some time;
        tempRangeEnd := Some time;
        showMaskModal := showMaskModal l |}).

Definition handleMouseMove (trackRef : option DOMRect.t) (clientX clientY : number)
           (state : Editor.EditorState) (l : Local) : Editor.EditorState * Local :=
  let state1 :=
    if isDraggingPlayhead l
    then Editor.seek
           (TimelineGeometry.positionToTime trackRef (Editor.videoDuration state) clientX)
           state
    else state in
  let l1 :=
    match isCreatingRange l, rangeCreationStart l with
    | true, Some _ =>
        {| isDraggingPlayhead := isDraggingPlayhead l;
           isDraggingThreshold := isDraggingThreshold l;
           isCreatingRange := isCreatingRange l;
           rangeCreationStart := rangeCreationStart l;
           tempRangeEnd :=
             Some (TimelineGeometry.positionToTime trackRef
                     (Editor.videoDuration state) clientX);
           showMaskModal := showMaskModal l |}
    | _, _ => l
    end in
  let state2 :=
    match isDraggingThreshold l, trackRef with
    | true, Some rect =>
        let percentage := TimelineGeometry.thresholdShare rect clientY in
        Editor.setThreshold
          (percentage * Timeline.maxVariance (Editor.frameData state))%js state1
    | _, _ => state1
    end in
  (state2, l1).

Definition handleMouseUp (newRangeId : string) (state : Editor.EditorState) (l : Local)
  : Editor.EditorState * Local :=
  let state1 :=
    match isCreatingRange l, rangeCreationStart l, tempRangeEnd l with
    | true, Some a, Some b =>
        let start := min a b in
        let end_ := max a b in
        (* only create range if it's at least 0.1 seconds *)
        if ((end_ - start) >? dec (1 # 10))%js
        then Editor.addRange newRangeId start end_ None state
        else state
    | _, _, _ => state
    end in
  (state1,
   {| isDraggingPlayhead := false; isDraggingThreshold := false;
      isCreatingRange := false; rangeCreationStart := None; tempRangeEnd := None;
      showMaskModal := showMaskModal l |}).

(** [{ maskPrompt: undefined }]. *)
Definition dropPrompt : TimelineRange.updates :=
  {| TimelineRange.u_start := None; TimelineRange.u_end := None;
     TimelineRange.u_action := None; TimelineRange.u_maskPrompt := Some None |}.

Definition withModal (l : Local) : Local :=
  {| isDraggingPlayhead := isDraggingPlayhead l;
     isDraggingThreshold := isDraggingThreshold l;
     isCreatingRange := isCreatingRange l;
     rangeCreationStart := rangeCreationStart l;
     tempRangeEnd := tempRangeEnd l;
     showMaskModal := true |}.

Definition withDragging (playhead threshold : bool) (l : Local) : Local :=
  {| isDraggingPlayhead := playhead;
     isDraggingThreshold := threshold;
     isCreatingRange := isCreatingRange l;
     rangeCreationStart := rangeCreationStart l;
     tempRangeEnd := tempRangeEnd l;
     showMaskModal := showMaskModal l |}.

(** One event.  A control that is not rendered, or is disabled, takes
    no event. *)
Definition handle (trackRef : option DOMRect.t) (e : Event)
           (state : Editor.EditorState) (l : Local) : Editor.EditorState * Local :=
  match e with
  | TrackMouseDown button onRange clientX =>
      handleMouseDown trackRef button onRange clientX state l
  | PlayheadMouseDown => (state, withDragging true (isDraggingThreshold l) l)
  | ThresholdMouseDown =>
      match Editor.frameData state with
      | [] => (state, l)
      | _ :: _ => (state, withDragging (isDraggingPlayhead l) true l)
      end
  | MouseMove clientX clientY =>
      if listening l then handleMouseMove trackRef clientX clientY state l
      else (state, l)
  | MouseUp newRangeId =>
      if listening l then handleMouseUp newRangeId state l else (state, l)
  | RangeClick id =>
      if existsb (fun r => String.eqb (TimelineRange.id r) id) (Editor.ranges state)
      then
        let isSelected :=
          match Editor.selectedRangeId state with
          | Some sel => String.eqb id sel
          | None => false
          end in
        (Editor.selectRange (if isSelected then None else Some id) state, l)
      else (state, l)
  | ActionClick value =>
      match selectedRange state with
      | Some sel =>
          match value with
          | mask_generation => (state, withModal l)
          | _ =>
              (Editor.updateRange (TimelineRange.id sel) dropPrompt
                 (Editor.setRangeAction (TimelineRange.id sel) (Some value) state), l)
          end
      | None => (state, l)
      end
  | DeleteClick =>
      match selectedRange state with
      | Some sel => (Editor.removeRange (TimelineRange.id sel) state, l)
      | None => (state, l)
      end
  | ClearAllClick =>
      match selectedRange state, Editor.ranges state with
      | None, _ :: _ => (Editor.clearAllRanges state, l)
      | _, _ => (state, l)
      end
  | ZoomOutClick =>
      if (Editor.timelineZoom state <=? dec (2 # 10))%js then (state, l)
      else (EditorHook.setTimelineZoom (Editor.timelineZoom state / dec (15 # 10))%js state, l)
  | ZoomInClick =>
      if (Editor.timelineZoom state >=? num 10)%js then (state, l)
      else (EditorHook.setTimelineZoom (Editor.timelineZoom state * dec (15 # 10))%js state, l)
  end.

(** A sequence of events, each with the rectangle of the track at its
    moment. *)
Fixpoint handleAll (es : list (option DOMRect.t * Event))
         (state : Editor.EditorState) (l : Local) : Editor.EditorState * Local :=
  match es with
  | [] => (state, l)
  | (trackRef, e) :: rest =>
      let '(state', l') := handle trackRef e state l in
      handleAll rest state' l'
  end.

End TimelineComponent.

(* ================================================================== *)
(** * components/editor360/Timeline360: the gestures of the 360 timeline *)
(* ================================================================== *)

Module Timeline360Component.
Import JS.

Record Local : Type := {
  isDraggingPlayhead : bool;
  isDraggingThreshold : bool;
  editingViewId : option string
}.

Definition initialLocal : Local :=
  {| isDraggingPlayhead := false; isDraggingThreshold := false;
     editingViewId := None |}.

Definition withDragging (playhead threshold : bool) (l : Local) : Local :=
  {| isDraggingPlayhead := playhead; isDraggingThreshold := threshold;
     editingViewId := editingViewId l |}.

Inductive Event : Type :=
| TrackMouseDown (button : Z) (clientX : number)
| PlayheadMouseDown
| ThresholdMouseDown
| MouseMove (clientX clientY : number)
| MouseUp
| TabClick (id : string)
| TabDoubleClick (id : string)
| RenameSubmit (trimmedName : string)
| ZoomOutClick
| ZoomInClick.

(** The view of the active tab and the highest score of its samples,
    as the component derives them from its props. *)
Definition activeView (state : Editor360.Editor360State) : option FrameView.t :=
  Timeline360.activeView (Editor360.frameViews state) (Editor360.activeFrameViewId state).

Definition maxVariance (state : Editor360.Editor360State) : number :=
  maxVarianceOf (Timeline360.frameData (activeView state)).

Definition listening (l : Local) : bool :=
  isDraggingPlayhead l || isDraggingThreshold l.

Definition handleMouseDown (trackRef : option DOMRect.t) (button : Z) (clientX : number)
           (state : Editor360.Editor360State) (l : Local)
  : Editor360.Editor360State * Local :=
  if negb (button =? 0)%Z then (state, l)
  else
    (Editor360.seek
       (TimelineGeometry.positionToTime trackRef (Editor360.videoDuration state) clientX)
       state,
     withDragging true (isDraggingThreshold l) l).

Definition handleMouseMove (trackRef : option DOMRect.t) (clientX clientY : number)
           (state : Editor360.Editor360State) (l : Local) : Editor360.Editor360State :=
  let state1 :=
    if isDraggingPlayhead l
    then Editor360.seek
           (TimelineGeometry.positionToTime trackRef (Editor360.videoDuration state) clientX)
           state
    else state in
  match isDraggingThreshold l, trackRef, Editor360.activeFrameViewId state with
  | true, Some rect, Some active =>
      if String.eqb active "" then state1
      else
        let percentage := TimelineGeometry.thresholdShare rect clientY in
        Editor360.setThreshold active (percentage * maxVariance state)%js state1
  | _, _, _ => state1
  end.

Definition handleMouseUp (l : Local) : Local := withDragging false false l.

(** [handleRenameSubmit]; the event carries [editName.trim()]. *)
Definition handleRenameSubmit (trimmedName : string)
           (state : Editor360.Editor360State) (l : Local)
  : Editor360.Editor360State * Local :=
  let state1 :=
    match editingViewId l with
    | Some id =>
        if String.eqb id "" || String.eqb trimmedName "" then state
        else Editor360Hook.renameFrameView id trimmedName state
    | None => state
    end in
  (state1, {| isDraggingPlayhead := isDraggingPlayhead l;
              isDraggingThreshold := isDraggingThreshold l;
              editingViewId := None |}).

(** One event.  The threshold handle is rendered only when the active
    view has samples; a disabled zoom button takes no click. *)
Definition handle (trackRef : option DOMRect.t) (e : Event)
           (state : Editor360.Editor360State) (l : Local)
  : Editor360.Editor360State * Local :=
  match e with
  | TrackMouseDown button clientX => handleMouseDown trackRef button clientX state l
  | PlayheadMouseDown => (state, withDragging true (isDraggingThreshold l) l)
  | ThresholdMouseDown =>
      match Timeline360.frameData (activeView state) with
      | [] => (state, l)
      | _ :: _ => (state, withDragging (isDraggingPlayhead l) true l)
      end
  | MouseMove clientX clientY =>
      if listening l then (handleMouseMove trackRef clientX clientY state l, l)
      else (state, l)
  | MouseUp => if listening l then (state, handleMouseUp l) else (state, l)
  | TabClick id =>
      if existsb (fun v => String.eqb (FrameView.id v) id) (Editor360.frameViews state)
      then (Editor360Hook.setActiveFrameView (Some id) state, l)
      else (state, l)
  | TabDoubleClick id =>
      if existsb (fun v => String.eqb (FrameView.id v) id) (Editor360.frameViews state)
      then (state, {| isDraggingPlayhead := isDraggingPlayhead l;
                      isDraggingThreshold := isDraggingThreshold l;
                      editingViewId := Some id |})
      else (state, l)
  | RenameSubmit trimmedName => handleRenameSubmit trimmedName state l
  | ZoomOutClick =>
      if (Editor360.timelineZoom state <=? dec (2 # 10))%js then (state, l)
      else (Editor360Hook.setTimelineZoom
              (Editor360.timelineZoom state / dec (15 # 10))%js state, l)
  | ZoomInClick =>
      if (Editor360.timelineZoom state >=? num 10)%js then (state, l)
      else (Editor360Hook.setTimelineZoom
              (Editor360.timelineZoom state * dec (15 # 10))%js state, l)
  end.

Fixpoint handleAll (es : list (option DOMRect.t * Event))
         (state : Editor360.Editor360State) (l : Local)
  : Editor360.Editor360State * Local :=
  match es with
  | [] => (state, l)
  | (trackRef, e) :: rest =>
      let '(state', l') := handle trackRef e state l in
      handleAll rest state' l'
  end.

(** The "Above threshold" count of the info bar and of the handle. *)
Definition framesAboveThreshold (state : Editor360.Editor360State) : nat :=
  Timeline360.framesAboveThreshold (activeView state).

End Timeline360Component.

(* ================================================================== *)
(** * The export: [handleDownload] of both editor pages             *)
(* ================================================================== *)

Module Download.

(** The archive, as JSZip keeps it: its files under their full names,
    in the order in which the names were first added.  The directory
    entries JSZip adds for the folders are not listed. *)
Definition Archive (Blob : Type) : Type := list (string * Blob).

Fixpoint endsWithSlash (path : string) : bool :=
  match path with
  | EmptyString => false
  | String c EmptyString => Ascii.eqb c "/"
  | String _ rest => endsWithSlash rest
  end.

(** A folder name ends in one slash. *)
Definition forceTrailingSlash (path : string) : string :=
  if endsWithSlash path then path else String.append path "/".

(** [folder(name)] on an object rooted at [root]: the root of the
    object it returns, which is the object itself for an empty name. *)
Definition folder (root name : string) : string :=
  if String.eqb name "" then root else forceTrailingSlash (String.append root name).

(** Storing [data] under a full name: a file of that name has its data
    replaced, and keeps its place; otherwise the file is added. *)
Fixpoint put {Blob : Type} (fullName : string) (data : Blob) (zip : Archive Blob)
  : Archive Blob :=
  match zip with
  | [] => [(fullName, data)]
  | (n, d) :: rest =>
      if String.eqb n fullName then (n, data) :: rest
      else (n, d) :: put fullName data rest
  end.

(** [file(name, data)] on an object rooted at [root]. *)
Definition file {Blob : Type} (root name : string) (data : Blob) (zip : Archive Blob)
  : Archive Blob :=
  put (String.append root name) data zip.

(** The page around the editor [W]: the alert boxes shown and the
    files handed to [saveAs]. *)
Record Page (W Blob : Type) : Type := {
  editor : W;
  alerts : list string;
  saved : list (string * Blob)
}.
Arguments editor {W Blob} _.
Arguments alerts {W Blob} _.
Arguments saved {W Blob} _.

Definition onEditor {W Blob : Type} (f : W -> W) (p : Page W Blob) : Page W Blob :=
  {| editor := f (editor p); alerts := alerts p; saved := saved p |}.

Definition alert {W Blob : Type} (message : string) (p : Page W Blob) : Page W Blob :=
  {| editor := editor p; alerts := alerts p ++ [message]; saved := saved p |}.

Definition saveAs {W Blob : Type} (content : Blob) (name : string) (p : Page W Blob)
  : Page W Blob :=
  {| editor := editor p; alerts := alerts p; saved := saved p ++ [(name, content)] |}.

(** [s.replace(':', '-')]: the first colon only. *)
Fixpoint replaceColon (s : string) : string :=
  match s with
  | EmptyString => EmptyString
  | String c rest =>
      if Ascii.eqb c ":" then String "-" rest else String c (replaceColon rest)
  end.

End Download.

(* ------------------------------------------------------------------ *)
(** ** app/editor/page: [handleDownload]                              *)
(* ------------------------------------------------------------------ *)

Module EditorDownload.
Import JS.
Import Download.

Section Exporting.
Local Open Scope run_scope.
Local Open Scope string_scope.

Variable Blob : Type.

(** The conversion of a number to a string in a template literal. *)
Variable toString : number -> string.

(** The browser.  [seeked time]: the [seeked] event comes after
    [video.currentTime = time]; the export waits for it without a
    limit.  [drawFrame time width height]: size the canvas, obtain its
    2D context ([None] when there is none) and draw the current frame.
    [toBlob canvas quality] and [toDataURL canvas quality] encode the
    canvas as JPEG; [toBlob] may give [null].  [generateAsync] builds
    the archive. *)
Variable seeked : number -> bool.
Variable drawFrame : number -> nat -> nat -> result (option DOM.Canvas).
Variable toBlob : DOM.Canvas -> number -> result (option Blob).
Variable toDataURL : DOM.Canvas -> number -> result string.
Variable generateAsync : Archive Blob -> result Blob.

Definition maskRanges (state : Editor.EditorState) : list TimelineRange.t :=
  filter (fun r =>
            RangeAction_eqb (TimelineRange.action r) (Some mask_generation)
            && match TimelineRange.maskPrompt r with
               | Some prompt => negb (String.eqb prompt "")
               | None => false
               end)
         (Editor.ranges state).

Definition getMaskPromptForTime (state : Editor.EditorState) (time : number)
  : option string :=
  match find (fun r => (time >=? TimelineRange.start r)%js
                       && (time <=? TimelineRange.end_ r)%js)
             (maskRanges state) with
  | Some range =>
      match TimelineRange.maskPrompt range with
      | Some prompt => if String.eqb prompt "" then None else Some prompt
      | None => None
      end
  | None => None
  end.

Definition baseFileName (frame : FrameData.t) : string :=
  "frame_"
  ++ replaceColon (TimelineGeometry.formatTime toString (FrameData.time frame))
  ++ "_" ++ toString (round (FrameData.variance frame)).

Definition World : Type := Page Editor.World Blob.

(** [for (const frame of sharpFrames)]; [total] is
    [sharpFrames.length].  Returns the archive. *)
Fixpoint handleDownload_loop (video : Video.t) (state : Editor.EditorState) (total : nat)
         (frames : list FrameData.t) (processedCount : nat) (zip : Archive Blob)
  : Run.M World (Archive Blob) :=
  match frames with
  | [] => Run.ret zip
  | frame :: rest =>
      Run.modify (onEditor (Editor.onVideo (Video.setCurrentTime (FrameData.time frame)))) ;;
      (if seeked (FrameData.time frame) then Run.ret tt else Run.pending) ;;
      ctx <- Run.lift (drawFrame (FrameData.time frame)
                                 (Video.videoWidth video) (Video.videoHeight video)) ;;
      match ctx with
      | None => handleDownload_loop video state total rest processedCount zip
      | Some canvas =>
          blob <- Run.lift (toBlob canvas (num 1)) ;;
          let zip' :=
            match blob with
            | Some b => file "" (baseFileName frame ++ ".jpg") b zip
            | None => zip
            end in
          match getMaskPromptForTime state (FrameData.time frame) with
          | Some _ =>
              match toDataURL canvas (dec (8 # 10)) with
              | Ok _ => Run.ret tt
              | Throw _ =>
                  Run.modify
                    (onEditor (Editor.consoleError
                       ("Failed to generate mask for frame at "
                        ++ toString (FrameData.time frame) ++ ":")))
              end
          | None => Run.ret tt
          end ;;
          Run.modify (onEditor (Editor.onState (Editor.setProgress
            (round ((ofNat (S processedCount) / ofNat total) * num 100)%js)))) ;;
          handleDownload_loop video state total rest (S processedCount) zip'
      end
  end.

Definition handleDownload : Run.M World unit :=
  fun p =>
    let w := editor p in
    match EditorPage.handleDownload_selection w, Editor.videoRef w with
    | EditorPage.Export sharpFrames, Some video =>
        (Run.modify (onEditor (Editor.onState (Editor.setIsProcessing true))) ;;
         let originalTime := Video.currentTime video in
         Run.modify (onEditor (Editor.onVideo Video.pause)) ;;
         Run.tryCatchFinally
           (zip <- handleDownload_loop video (Editor.state w) (List.length sharpFrames)
                                       sharpFrames 0 [] ;;
            content <- Run.lift (generateAsync zip) ;;
            Run.modify (saveAs content (Editor.videoFileName (Editor.state w)
                                        ++ "_frames.zip")))
           (fun error =>
              Run.modify (onEditor (Editor.consoleError "Error creating zip:")) ;;
              Run.modify (alert "Failed to create zip file."))
           (Run.modify (onEditor (Editor.onState (Editor.setIsProcessing false))) ;;
            Run.modify (onEditor (Editor.onVideo (Video.setCurrentTime originalTime))) ;;
            Run.modify (onEditor (Editor.onState (Editor.setProgress (num 0))))))%run p
    | EditorPage.Alert message, _ => Run.ret tt (alert message p)
    | _, _ => Run.ret tt p
    end.

End Exporting.
End EditorDownload.

(* ------------------------------------------------------------------ *)
(** ** app/editor360/page: [handleDownload]                           *)
(* ------------------------------------------------------------------ *)

Module Editor360Download.
Import JS.
Import Download.

(** The export extracts faces and views of this size. *)
Definition faceSize : nat := 1024.

Section Exporting.
Local Open Scope run_scope.
Local Open Scope string_scope.

Variable Blob : Type.
Variable toString : number -> string.

(** The browser and the projection engine, as in the analysis;
    [seeked time]: the [seeked] event comes. *)
Variable seeked : number -> bool.
Variable drawSource : number -> result DOM.Canvas.
Variable extractCubemapFace :
  DOM.Canvas -> Video360.CubemapFace -> nat -> result DOM.Canvas.
Variable extractPerspectiveView :
  DOM.Canvas -> number -> number -> number -> nat -> nat -> result DOM.Canvas.
Variable toBlob : DOM.Canvas -> number -> result (option Blob).
Variable generateAsync : Archive Blob -> result Blob.

Definition formatTime (seconds : number) : string :=
  let mins := floor (seconds / num 60)%js in
  let secs := floor (rem seconds (num 60)) in
  toString mins ++ "-" ++ padStart2 (toString secs).

Definition World : Type := Page Editor360.World Blob.

(** [for (const { face } of CUBEMAP_FACES)], on the folder rooted at
    [frameFolder]. *)
Fixpoint exportFaces (sourceCtx : DOM.Canvas) (frameFolder : string)
         (faces : list Video360.CubemapFaceInfo) (zip : Archive Blob)
  : Run.M World (Archive Blob) :=
  match faces with
  | [] => Run.ret zip
  | info :: rest =>
      faceCanvas <- Run.lift (extractCubemapFace sourceCtx (Video360.face info) faceSize) ;;
      blob <- Run.lift (toBlob faceCanvas (dec (95 # 100))) ;;
      exportFaces sourceCtx frameFolder rest
        (match blob with
         | Some b =>
             file frameFolder (Video360.faceTag (Video360.face info) ++ ".jpg") b zip
         | None => zip
         end)
  end.

(** [for (const view of state.frameViews)]. *)
Fixpoint exportViews (sourceCtx : DOM.Canvas) (timeStr : string) (frame : FrameData.t)
         (views : list FrameView.t) (zip : Archive Blob)
  : Run.M World (Archive Blob) :=
  match views with
  | [] => Run.ret zip
  | view :: rest =>
      let viewFolder := folder "" (FrameView.name view) in
      viewCanvas <- Run.lift
        (extractPerspectiveView sourceCtx (FrameView.yaw view) (FrameView.pitch view)
                                (FrameView.fov view) faceSize faceSize) ;;
      blob <- Run.lift (toBlob viewCanvas (dec (95 # 100))) ;;
      exportViews sourceCtx timeStr frame rest
        (match blob with
         | Some b =>
             file viewFolder
                  ("frame_" ++ timeStr ++ "_"
                   ++ toString (round (FrameData.variance frame)) ++ ".jpg") b zip
         | None => zip
         end)
  end.

(** [for (const frame of sharpFrames)]. *)
Fixpoint handleDownload_loop (state : Editor360.Editor360State) (total : nat)
         (frames : list FrameData.t) (processedCount : nat) (zip : Archive Blob)
  : Run.M World (Archive Blob) :=
  match frames with
  | [] => Run.ret zip
  | frame :: rest =>
      Run.modify (onEditor (Editor360.onVideo
                              (Video.setCurrentTime (FrameData.time frame)))) ;;
      (if seeked (FrameData.time frame) then Run.ret tt else Run.pending) ;;
      sourceCtx <- Run.lift (drawSource (FrameData.time frame)) ;;
      let timeStr := formatTime (FrameData.time frame) in
      zip' <- match Editor360.editorMode state with
              | Editor360.skybox =>
                  exportFaces sourceCtx (folder "" ("frame_" ++ timeStr))
                              Video360.CUBEMAP_FACES zip
              | Editor360.custom =>
                  exportViews sourceCtx timeStr frame (Editor360.frameViews state) zip
              end ;;
      Run.modify (onEditor (Editor360.onState (Editor360.setProgress
        (round ((ofNat (S processedCount) / ofNat total) * num 100)%js)))) ;;
      handleDownload_loop state total rest (S processedCount) zip'
  end.

Definition handleDownload : Run.M World unit :=
  fun p =>
    let w := editor p in
    let state := Editor360.state w in
    match Editor360.videoRef w, Editor360.canvasRef w with
    | Some video, true =>
        match Timeline360.activeView (Editor360.frameViews state)
                (Editor360.activeFrameViewId state) with
        | Some activeView =>
            match FrameView.frameData activeView with
            | [] =>
                Run.ret tt (alert "No frame data available. Please run analysis first." p)
            | _ :: _ =>
                (Run.modify (onEditor (Editor360.onState (Editor360.setIsProcessing true))) ;;
                 Run.tryCatchFinally
                   (match Editor360Page.sharpFrames activeView with
                    | [] =>
                        Run.modify (alert "No frames meet the criteria.") ;;
                        Run.modify (onEditor (Editor360.onState
                                                (Editor360.setIsProcessing false)))
                    | sharpFrames =>
                        zip <- handleDownload_loop state (List.length sharpFrames)
                                                   sharpFrames 0 [] ;;
                        content <- Run.lift (generateAsync zip) ;;
                        Run.modify (saveAs content (Editor360.videoFileName state
                                                    ++ "_360_frames.zip"))
                    end)
                   (fun error =>
                      Run.modify (onEditor (Editor360.consoleError "Error creating zip:")) ;;
                      Run.modify (alert "Failed to create zip file."))
                   (Run.modify (onEditor (Editor360.onState
                                            (Editor360.setIsProcessing false))) ;;
                    Run.modify (onEditor (Editor360.onState
                                            (Editor360.setProgress (num 0))))))%run p
            end
        | None =>
            Run.ret tt (alert "No frame data available. Please run analysis first." p)
        end
    | _, _ => Run.ret tt p
    end.

End Exporting.
End Editor360Download.

(* ================================================================== *)
(** * app/editor360/page: the configuration written to the URL       *)
(* ================================================================== *)

Module Editor360Url.
Import JS.
Import Editor360Page.

(** [URLSearchParams.set(name, value)]: the first pair of that name takes the
    value and later ones go; a new name is appended. *)
Definition URLSearchParams_set (params : URLSearchParams) (name value : string) : URLSearchParams :=
  if existsb (fun kv => String.eqb (fst kv) name) params
  then
    (fix go (ps : URLSearchParams) (seen : bool) : URLSearchParams :=
       match ps with
       | [] => []
       | kv :: rest =>
           if String.eqb (fst kv) name
           then if seen then go rest true else (name, value) :: go rest true
           else kv :: go rest seen
       end) params false
  else params ++ [(name, value)].

Definition modeName (mode : Editor360.EditorMode) : string :=
  match mode with
  | Editor360.skybox => "skybox"
  | Editor360.custom => "custom"
  end.

Section Url.

(** [Number.prototype.toString()]. *)
Variable toString : number -> string.

(** The pairs [generateUrlParams] sets; the page serialises them into
    the query string and the router hands them back parsed. *)
Definition generateUrlParams (mode : Editor360.EditorMode) (config : CustomConfig.t)
  : URLSearchParams :=
  let params := URLSearchParams_set [] "mode" (modeName mode) in
  match mode with
  | Editor360.custom =>
      let params1 :=
        URLSearchParams_set params "frames" (toString (CustomConfig.frameCount config)) in
      let params2 :=
        URLSearchParams_set params1 "pitch" (toString (CustomConfig.rigPitch config)) in
      let params3 :=
        URLSearchParams_set params2 "angle" (toString (CustomConfig.startAngle config)) in
      URLSearchParams_set params3 "fov" (toString (CustomConfig.fov config))
  | Editor360.skybox => params
  end.

End Url.

(** A whole number in decimal notation, as [toString] prints those
    below 10^21 in absolute value. *)
Definition showZ (z : Z) : string :=
  if (z <? 0)%Z then String "-" (showNat (Z.to_nat (- z))) else showNat (Z.to_nat z).

End Editor360Url.

(* ================================================================== *)
(** * What the timeline keeps: times and ranges inside the video      *)
(* ================================================================== *)

Module Within.
Import JS.

(** A time of a video of duration [d]: inside [0, d], or [NaN] when
    the pointer position was not a number. *)
Definition timeOk (d t : number) : Prop :=
  isNaN t = true \/ ((num 0 <=? t)%js = true /\ (t <=? d)%js = true).

(** A range inside a video of duration [d] that is longer than a tenth
    of a second. *)
Definition rangeOk (d : number) (r : TimelineRange.t) : Prop :=
  (num 0 <=? TimelineRange.start r)%js = true
  /\ (TimelineRange.end_ r <=? d)%js = true
  /\ ((TimelineRange.end_ r - TimelineRange.start r) >? dec (1 # 10))%js = true.

(** The ends of the range being drawn are times of the video. *)
Definition localOk (d : number) (l : TimelineComponent.Local) : Prop :=
  (forall t, TimelineComponent.rangeCreationStart l = Some t -> timeOk d t)
  /\ (forall t, TimelineComponent.tempRangeEnd l = Some t -> timeOk d t).

(** The [i]-th multiple of the tick interval [s], as the loop of the
    time ruler reaches it by repeated addition. *)
Definition tick (s : Q) (i : nat) : number := Fin (Qred (inject_Z (Z.of_nat i) * s)).

End Within.

(* ================================================================== *)
(** * Notions used to state what the analysis and the export keep    *)
(* ================================================================== *)

Module Facts.
Import JS.

(** The gray value of pixel [k] of a buffer. *)
Definition grayOf (data : list Z) (k : nat) : Z :=
  toUint8 (dec (299 # 1000) * Scorer.getU8 data (4 * Z.of_nat k)
           + dec (587 # 1000) * Scorer.getU8 data (4 * Z.of_nat k + 1)
           + dec (114 # 1000) * Scorer.getU8 data (4 * Z.of_nat k + 2))%js.

(** Two editors that differ at most in the progress, the position of
    the video and the console; two pages with such editors and the
    same alerts and saved files. *)
Definition alikeEditor (w w' : Editor.World) : Prop :=
  Editor.canvasRef w' = Editor.canvasRef w
  /\ Editor.setProgress (num 0) (Editor.state w')
     = Editor.setProgress (num 0) (Editor.state w)
  /\ option_map (Video.setCurrentTime (num 0)) (Editor.videoRef w')
     = option_map (Video.setCurrentTime (num 0)) (Editor.videoRef w).

Definition alike {Blob : Type} (p p' : Download.Page Editor.World Blob) : Prop :=
  Download.alerts p' = Download.alerts p /\ Download.saved p' = Download.saved p
  /\ alikeEditor (Download.editor p) (Download.editor p').

(** Two 360 editors that differ at most in the progress, the position
    of the video and the console. *)
Definition alike360 (w w' : Editor360.World) : Prop :=
  Editor360.canvasRef w' = Editor360.canvasRef w
  /\ Editor360.setProgress (num 0) (Editor360.state w')
     = Editor360.setProgress (num 0) (Editor360.state w).

(** The video element after seeking to each of the frames in turn. *)
Definition soughtThrough (frames : list FrameData.t) (v : option Video.t)
  : option Video.t :=
  fold_left (fun v f => option_map (Video.setCurrentTime (FrameData.time f)) v) frames v.

(** Every one of the frames has its [seeked] event. *)
Definition allSought (seeked : number -> bool) (frames : list FrameData.t) : bool :=
  forallb (fun frame => seeked (FrameData.time frame)) frames.

(** The archive after storing data under full names, call by call, and
    the archive that such calls make of an empty one. *)
Definition store {Blob : Type} (calls : list (string * Blob))
           (zip : Download.Archive Blob) : Download.Archive Blob :=
  fold_left (fun z call => Download.put (fst call) (snd call) z) calls zip.

Definition pack {Blob : Type} (calls : list (string * Blob)) : Download.Archive Blob :=
  store calls [].

(** The data found under a full name: those of the first pair of that
    name. *)
Fixpoint get {Blob : Type} (fullName : string) (files : list (string * Blob))
  : option Blob :=
  match files with
  | [] => None
  | (n, d) :: rest => if String.eqb n fullName then Some d else get fullName rest
  end.

(** The full name of the picture of a frame in the planar export, and
    the full names the 360 export gives the pictures of one frame: the
    six faces in the folder of the frame, or one picture in the folder
    of each view. *)
Definition frameFile (toString : number -> string) (frame : FrameData.t) : string :=
  EditorDownload.baseFileName toString frame ++ ".jpg".

Definition faceFile (toString : number -> string) (frame : FrameData.t)
           (info : Video360.CubemapFaceInfo) : string :=
  Download.folder "" ("frame_" ++ Editor360Download.formatTime toString
                                    (FrameData.time frame))
  ++ Video360.faceTag (Video360.face info) ++ ".jpg".

Definition viewFile (toString : number -> string) (frame : FrameData.t)
           (view : FrameView.t) : string :=
  Download.folder "" (FrameView.name view)
  ++ "frame_" ++ Editor360Download.formatTime toString (FrameData.time frame)
  ++ "_" ++ toString (round (FrameData.variance frame)) ++ ".jpg".

Definition frameCalls {Blob : Type} (toString : number -> string)
           (state : Editor360.Editor360State)
           (facePicture : FrameData.t -> Video360.CubemapFaceInfo -> Blob)
           (viewPicture : FrameData.t -> FrameView.t -> Blob)
           (frame : FrameData.t) : list (string * Blob) :=
  match Editor360.editorMode state with
  | Editor360.skybox =>
      map (fun info => (faceFile toString frame info, facePicture frame info))
          Video360.CUBEMAP_FACES
  | Editor360.custom =>
      map (fun view => (viewFile toString frame view, viewPicture frame view))
          (Editor360.frameViews state)
  end.

End Facts.

(* ================================================================== *)
(** * Scenes used as examples                                         *)
(* ================================================================== *)

Module Scenes.
Import JS.

(** A track one thousand pixels wide and eighty high at the origin. *)
Definition track : DOMRect.t :=
  {| DOMRect.left := num 0; DOMRect.top := num 0;
     DOMRect.width := num 1000; DOMRect.height := num 80 |}.

(** Pressing the button at [x1], moving to [x2] and releasing. *)
Definition drag (x1 x2 y : number) (id : string)
  : list (option DOMRect.t * TimelineComponent.Event) :=
  [ (Some track, TimelineComponent.TrackMouseDown 0 false x1);
    (Some track, TimelineComponent.MouseMove x2 y);
    (Some track, TimelineComponent.MouseUp id) ].

(** The 360 editor after an analysis that gave the front view the
    four samples of the examples. *)
Definition scored360 : Editor360.Editor360State :=
  Editor360.updateFrameView "skybox_pz"
    {| FrameView.u_name := None; FrameView.u_face := None; FrameView.u_yaw := None;
       FrameView.u_pitch := None; FrameView.u_fov := None;
       FrameView.u_frameData := Some Examples.fourSamples;
       FrameView.u_threshold := None; FrameView.u_ranges := None |}
    Examples.loaded360.

(** Printing, for the examples: whole numbers that are not negative
    in decimal, and the three special values. *)
Definition showNumber (a : number) : string :=
  match a with
  | NaN => "NaN"
  | PosInf => "Infinity"
  | NegInf => "-Infinity"
  | Fin q => showNat (Z.to_nat (Qfloor q))
  end.

(** A video without a picture. *)
Definition noPicture : Video.t :=
  {| Video.duration := num 2; Video.videoWidth := 0; Video.videoHeight := 0;
     Video.currentTime := num 1; Video.paused := false |}.

(** A canvas of one flat grey. *)
Definition grey (n : nat) : DOM.Canvas :=
  {| DOM.c_width := n; DOM.c_height := n;
     DOM.c_pixel := fun _ _ => (128, 128, 128, 255)%Z |}.

(** A browser that seeks, draws, encodes and packs without fail; blobs
    are stood for by strings.  The picture drawn at a time is as wide
    as that time has thirds of a second, and its encoding tells the
    width, so that the pictures of different frames differ. *)
Definition everySeek : number -> bool := fun _ => true.

Definition thirds (time : number) : nat :=
  match time with
  | Fin q => Z.to_nat (Qfloor (q * 3))
  | _ => 0
  end.

Definition drawFrame : number -> nat -> nat -> result (option DOM.Canvas) :=
  fun time _ _ => Ok (Some (grey (thirds time))).

Definition drawSource : number -> result DOM.Canvas :=
  fun time => Ok (grey (thirds time)).

Definition toBlob : DOM.Canvas -> number -> result (option string) :=
  fun canvas _ => Ok (Some ("jpeg" ++ showNat (DOM.c_width canvas))%string).

Definition picture (frame : FrameData.t) : string :=
  ("jpeg" ++ showNat (thirds (FrameData.time frame)))%string.

Definition toDataURL : DOM.Canvas -> number -> result string :=
  fun _ _ => Ok "data:image/jpeg"%string.

Definition generateAsync : Download.Archive string -> result string :=
  fun _ => Ok "zip"%string.

(** A browser in which the seek to time [t] never completes. *)
Definition stalledAt (t : number) : number -> bool := fun time => negb (eqb time t).

(** Three sharp samples, the first two within the same second and with
    the same rounded score, and the planar and the 360 page that have
    them, ready to export. *)
Definition burst : list FrameData.t :=
  [ {| FrameData.time := num 1; FrameData.variance := dec (4002 # 10) |};
    {| FrameData.time := dec (4 # 3); FrameData.variance := dec (4004 # 10) |};
    {| FrameData.time := num 3; FrameData.variance := num 500 |} ].

Definition burstPage : Download.Page Editor.World string :=
  {| Download.editor :=
       {| Editor.state := Editor.setFrameData burst Examples.loaded;
          Editor.videoRef := Some Examples.clip;
          Editor.canvasRef := true; Editor.console := [] |};
     Download.alerts := []; Download.saved := [] |}.

Definition burstPage360 : Download.Page Editor360.World string :=
  {| Download.editor :=
       {| Editor360.state :=
            Editor360.updateFrameView "skybox_pz"
              {| FrameView.u_name := None; FrameView.u_face := None;
                 FrameView.u_yaw := None; FrameView.u_pitch := None;
                 FrameView.u_fov := None; FrameView.u_frameData := Some burst;
                 FrameView.u_threshold := None; FrameView.u_ranges := None |}
              Examples.loaded360;
          Editor360.videoRef := Some Examples.clip;
          Editor360.canvasRef := true; Editor360.console := [] |};
     Download.alerts := []; Download.saved := [] |}.

End Scenes.

(* ================================================================== *)
(** * Numbers on binary64                                             *)
(* ================================================================== *)

Module Binary64.
Import PrimFloat.

(** A loop counter, or a length, as a number: exact below [2^53]. *)
Definition ofNat (n : nat) : float := of_uint63 (Uint63.of_Z (Z.of_nat n)).

(** A whole number of magnitude at most [2^53], where the conversion
    is exact. *)
Definition ofZ (z : Z) : float :=
  if (z <? 0)%Z then (- of_uint63 (Uint63.of_Z (- z)))%float
  else of_uint63 (Uint63.of_Z z).

(** [Math.floor]: a finite value [m * 2^e] with [e >= 0] is a whole
    number; otherwise the mantissa is shifted, which is exact. *)
Definition floor (x : float) : float :=
  match FloatOps.Prim2SF x with
  | SpecFloat.S754_finite s m e =>
      if (0 <=? e)%Z then x
      else
        let q := Z.shiftr (Zpos m) (- e) in
        if s then
          (if (Z.shiftl q (- e) =? Zpos m)%Z then ofZ (- q) else ofZ (- (q + 1)))
        else ofZ q
  | _ => x
  end.

(** [Math.round]: the nearest whole number, halves upward, computed
    on the exact value [n / 2^k]. *)
Definition round (x : float) : float :=
  match FloatOps.Prim2SF x with
  | SpecFloat.S754_finite s m e =>
      if (0 <=? e)%Z then x
      else
        let k := (- e)%Z in
        let n := if s then (- Zpos m)%Z else Zpos m in
        ofZ ((2 * n + Z.shiftl 1 k) / Z.shiftl 1 (k + 1))
  | _ => x
  end.

(** The exact value of a binary64 number. *)
Definition toNumber (x : float) : JS.number :=
  match FloatOps.Prim2SF x with
  | SpecFloat.S754_zero _ => JS.Fin 0
  | SpecFloat.S754_infinity s => if s then JS.NegInf else JS.PosInf
  | SpecFloat.S754_nan => JS.NaN
  | SpecFloat.S754_finite s m e =>
      JS.fin (inject_Z (if s then Zneg m else Zpos m) * Qpower 2 e)
  end.

Definition valueOf (r : result float) : float :=
  match r with Ok v => v | Throw _ => nan end.

End Binary64.

(* ================================================================== *)
(** * The analysis runs on binary64                                   *)
(* ================================================================== *)

(** The number of samples a run takes is decided by the rounding of
    [duration * fps] and of [i * interval].  The two runs are embedded
    here once more, on the kernel's binary64, with only the state they
    read or write; decoding and scoring a frame are Section
    variables. *)

Module FrameData64.
Record t : Type := { time : PrimFloat.float; variance : PrimFloat.float }.
End FrameData64.

Module Video64.
Record t : Type := {
  duration : PrimFloat.float;
  currentTime : PrimFloat.float;
  paused : bool
}.

Definition setCurrentTime (time : PrimFloat.float) (v : t) : t :=
  {| duration := duration v; currentTime := time; paused := paused v |}.

Definition pause (v : t) : t :=
  {| duration := duration v; currentTime := currentTime v; paused := true |}.
End Video64.

(** ** hooks/useEditor: [runAnalysis] *)

Module Editor64.
Import PrimFloat.
Import Binary64.

(** The fields of [EditorState] the run reads or writes. *)
Record EditorState : Type := {
  fps : float;
  isProcessing : bool;
  progress : float;
  frameData : list FrameData64.t
}.

Definition setIsProcessing (b : bool) (prev : EditorState) : EditorState :=
  {| fps := fps prev; isProcessing := b; progress := progress prev;
     frameData := frameData prev |}.

Definition setFrameData (fd : list FrameData64.t) (prev : EditorState) : EditorState :=
  {| fps := fps prev; isProcessing := isProcessing prev; progress := progress prev;
     frameData := fd |}.

Definition setProgress (p : float) (prev : EditorState) : EditorState :=
  {| fps := fps prev; isProcessing := isProcessing prev; progress := p;
     frameData := frameData prev |}.

Record World : Type := {
  state : EditorState;
  videoRef : option Video64.t;
  canvasRef : bool;
  console : list string
}.

Definition onState (f : EditorState -> EditorState) (w : World) : World :=
  {| state := f (state w); videoRef := videoRef w;
     canvasRef := canvasRef w; console := console w |}.

Definition onVideo (f : Video64.t -> Video64.t) (w : World) : World :=
  {| state := state w; videoRef := option_map f (videoRef w);
     canvasRef := canvasRef w; console := console w |}.

Definition consoleError (msg : string) (w : World) : World :=
  {| state := state w; videoRef := videoRef w;
     canvasRef := canvasRef w; console := console w ++ [msg] |}.

Section Analysis.
Local Open Scope run_scope.

(** The browser.  [seeked time]: the [seeked] event comes after
    [video.currentTime = time]; the run waits for it without a limit.
    [analyseFrame time]: sizing the canvas, obtaining its context,
    drawing the frame and [computeLaplacianVariance]; it throws when
    there is no context or the frame cannot be read. *)
Variable seeked : float -> bool.
Variable analyseFrame : float -> result float.

Variables (video : Video64.t) (interval totalFrames : float).

Fixpoint runAnalysis_loop (fuel i : nat) (results : list FrameData64.t)
  : Run.M World unit :=
  match fuel with
  | O => Run.outOfFuel
  | S fuel' =>
      if (ofNat i <=? totalFrames)%float then
        let time := (ofNat i * interval)%float in
        if (Video64.duration video <? time)%float then Run.ret tt
        else
          Run.modify (onVideo (Video64.setCurrentTime time)) ;;
          (if seeked time then Run.ret tt else Run.pending) ;;
          variance <- Run.lift (analyseFrame time) ;;
          let results' :=
            results ++ [ {| FrameData64.time := time;
                            FrameData64.variance := variance |} ] in
          Run.modify (onState (setFrameData results')) ;;
          Run.modify (onState (setProgress
             (round ((ofNat (i + 1) / totalFrames) * 100)%float))) ;;
          runAnalysis_loop fuel' (S i) results'
      else Run.ret tt
  end.

End Analysis.

Definition runAnalysis (seeked : float -> bool) (analyseFrame : float -> result float)
           (fuel : nat) : Run.M World unit :=
  fun w =>
    match videoRef w, canvasRef w with
    | Some video, true =>
        (Run.modify (onState (setIsProcessing true)) ;;
         Run.modify (onState (setFrameData [])) ;;
         Run.modify (onState (setProgress 0%float)) ;;
         let duration := Video64.duration video in
         let interval := (1 / fps (state w))%float in
         let totalFrames := floor (duration * fps (state w))%float in
         let originalTime := Video64.currentTime video in
         Run.modify (onVideo Video64.pause) ;;
         Run.tryCatchFinally
           (runAnalysis_loop seeked analyseFrame video interval totalFrames fuel 0 [])
           (fun error => Run.modify (consoleError "Error processing video:"))
           (Run.modify (onState (setIsProcessing false)) ;;
            Run.modify (onVideo (Video64.setCurrentTime originalTime))))%run w
    | _, _ => Run.ret tt w
    end.

End Editor64.

(** ** hooks/useEditor360: [runMultiViewAnalysis] *)

Module MultiView64.
Import PrimFloat.
Import Binary64.

(** A view: its identifier, what the extraction reads of it, and its
    samples. *)
Record FrameView : Type := {
  id : string;
  face : option Video360.CubemapFace;
  yaw : float;
  pitch : float;
  fov : float;
  frameData : list FrameData64.t
}.

Definition withFrameData (fd : list FrameData64.t) (v : FrameView) : FrameView :=
  {| id := id v; face := face v; yaw := yaw v; pitch := pitch v; fov := fov v;
     frameData := fd |}.

(** The fields of [Editor360State] the run reads or writes. *)
Record Editor360State : Type := {
  fps : float;
  isProcessing : bool;
  progress : float;
  frameViews : list FrameView
}.

Definition setIsProcessing (b : bool) (prev : Editor360State) : Editor360State :=
  {| fps := fps prev; isProcessing := b; progress := progress prev;
     frameViews := frameViews prev |}.

Definition setProgress (p : float) (prev : Editor360State) : Editor360State :=
  {| fps := fps prev; isProcessing := isProcessing prev; progress := p;
     frameViews := frameViews prev |}.

Definition withFrameViews (views : list FrameView) (prev : Editor360State)
  : Editor360State :=
  {| fps := fps prev; isProcessing := isProcessing prev; progress := progress prev;
     frameViews := views |}.

(** [frameViews.map(v => ({ ...v, frameData: [] }))]. *)
Definition resetFrameData (prev : Editor360State) : Editor360State :=
  withFrameViews (map (withFrameData []) (frameViews prev)) prev.

(** [frameViews.map(v => v.id === view.id
      ? { ...v, frameData: [...v.frameData, { time, variance }] } : v)]. *)
Definition appendSample (viewId : string) (sample : FrameData64.t)
           (prev : Editor360State) : Editor360State :=
  withFrameViews
    (map (fun v => if String.eqb (id v) viewId
                   then withFrameData (frameData v ++ [sample]) v else v)
         (frameViews prev))
    prev.

Record World : Type := {
  state : Editor360State;
  videoRef : option Video64.t;
  canvasRef : bool;
  console : list string
}.

Definition onState (f : Editor360State -> Editor360State) (w : World) : World :=
  {| state := f (state w); videoRef := videoRef w;
     canvasRef := canvasRef w; console := console w |}.

Definition onVideo (f : Video64.t -> Video64.t) (w : World) : World :=
  {| state := state w; videoRef := option_map f (videoRef w);
     canvasRef := canvasRef w; console := console w |}.

Definition consoleError (msg : string) (w : World) : World :=
  {| state := state w; videoRef := videoRef w;
     canvasRef := canvasRef w; console := console w ++ [msg] |}.

Section MultiView.
Local Open Scope run_scope.

(** The browser and the projection engine.  [seeked time]: the
    [seeked] event comes.  [drawSource time]: the full frame drawn to
    the source canvas.  [viewVariance source view]: the extraction of
    the face or of the perspective view at 512 x 512 and
    [computeLaplacianVariance] of it. *)
Variable seeked : float -> bool.
Variable drawSource : float -> result DOM.Canvas.
Variable viewVariance : DOM.Canvas -> FrameView -> result float.

Variables (video : Video64.t) (interval totalFrames totalOperations : float).

(** [for (const view of state.frameViews)]; returns the operation
    count reached. *)
Fixpoint analyseViews (time : float) (sourceCtx : DOM.Canvas)
         (views : list FrameView) (operationCount : nat) : Run.M World nat :=
  match views with
  | [] => Run.ret operationCount
  | view :: rest =>
      variance <- Run.lift (viewVariance sourceCtx view) ;;
      Run.modify (onState (appendSample (id view)
         {| FrameData64.time := time; FrameData64.variance := variance |})) ;;
      let operationCount' := S operationCount in
      Run.modify (onState (setProgress
         (round ((ofNat operationCount' / totalOperations) * 100)%float))) ;;
      analyseViews time sourceCtx rest operationCount'
  end.

Fixpoint runMultiViewAnalysis_loop (views : list FrameView)
         (fuel frameIdx operationCount : nat) : Run.M World unit :=
  match fuel with
  | O => Run.outOfFuel
  | S fuel' =>
      if (ofNat frameIdx <=? totalFrames)%float then
        let time := (ofNat frameIdx * interval)%float in
        if (Video64.duration video <? time)%float then Run.ret tt
        else
          Run.modify (onVideo (Video64.setCurrentTime time)) ;;
          (if seeked time then Run.ret tt else Run.pending) ;;
          sourceCtx <- Run.lift (drawSource time) ;;
          operationCount' <- analyseViews time sourceCtx views operationCount ;;
          runMultiViewAnalysis_loop views fuel' (S frameIdx) operationCount'
      else Run.ret tt
  end.

End MultiView.

Definition runMultiViewAnalysis (seeked : float -> bool)
           (drawSource : float -> result DOM.Canvas)
           (viewVariance : DOM.Canvas -> FrameView -> result float)
           (fuel : nat) : Run.M World unit :=
  fun w =>
    match videoRef w, canvasRef w with
    | Some video, true =>
        (Run.modify (onState (setIsProcessing true)) ;;
         Run.modify (onState (setProgress 0%float)) ;;
         Run.modify (onState resetFrameData) ;;
         let duration := Video64.duration video in
         let interval := (1 / fps (state w))%float in
         let totalFrames := floor (duration * fps (state w))%float in
         let totalOperations :=
           (totalFrames * ofNat (List.length (frameViews (state w))))%float in
         let originalTime := Video64.currentTime video in
         Run.modify (onVideo Video64.pause) ;;
         Run.tryCatchFinally
           (runMultiViewAnalysis_loop seeked drawSource viewVariance
              video interval totalFrames totalOperations
              (frameViews (state w)) fuel 0 0)
           (fun error => Run.modify (consoleError "Error during multi-view analysis:"))
           (Run.modify (onState (setIsProcessing false)) ;;
            Run.modify (onVideo (Video64.setCurrentTime originalTime))))%run w
    | _, _ => Run.ret tt w
    end.

End MultiView64.

(** ** What a run on binary64 is expected to leave behind *)

Module Sampling64.
Import PrimFloat.
Import Binary64.

(** The time of sample [i]: [i * interval], with [interval = 1 / fps]. *)
Definition sampleTime (fps : float) (i : nat) : float :=
  (ofNat i * (1 / fps))%float.

(** [Math.floor(duration * fps)]. *)
Definition totalFrames (duration fps : float) : float :=
  floor (duration * fps)%float.

(** The two tests iteration [i] passes before it takes a sample:
    [i <= totalFrames], and not [time > duration]. *)
Definition taken (duration fps : float) (i : nat) : bool :=
  (ofNat i <=? totalFrames duration fps)%float
  && negb (duration <? sampleTime fps i)%float.

(** The loop ends at index [k]: every index below is taken, [k] is
    not. *)
Definition stopsAt (duration fps : float) (k : nat) : Prop :=
  (forall j, (j < k)%nat -> taken duration fps j = true)
  /\ taken duration fps k = false.

(** The progress shown once [done] steps out of [total] are reported. *)
Definition progressReport (total : float) (done : nat) : float :=
  match done with
  | O => 0%float
  | S _ => round ((ofNat done / total) * 100)%float
  end.

(** The first [n] samples of the planar editor. *)
Definition planarSamples (analyseFrame : float -> result float) (fps : float) (n : nat)
  : list FrameData64.t :=
  map (fun i => {| FrameData64.time := sampleTime fps i;
                   FrameData64.variance := valueOf (analyseFrame (sampleTime fps i)) |})
      (seq 0 n).

(** The variance of a view at [time], [NaN] standing for a failed
    step, and the first [n] samples of a view. *)
Definition varianceAt (drawSource : float -> result DOM.Canvas)
           (viewVariance : DOM.Canvas -> MultiView64.FrameView -> result float)
           (view : MultiView64.FrameView) (time : float) : float :=
  match drawSource time with
  | Ok sourceCtx => valueOf (viewVariance sourceCtx view)
  | Throw _ => nan
  end.

Definition viewSamples (drawSource : float -> result DOM.Canvas)
           (viewVariance : DOM.Canvas -> MultiView64.FrameView -> result float)
           (fps : float) (n : nat) (view : MultiView64.FrameView) : list FrameData64.t :=
  map (fun i => {| FrameData64.time := sampleTime fps i;
                   FrameData64.variance :=
                     varianceAt drawSource viewVariance view (sampleTime fps i) |})
      (seq 0 n).

(** Samples in strictly increasing time order. *)
Fixpoint increasing (frameData : list FrameData64.t) : Prop :=
  match frameData with
  | [] => True
  | f :: rest =>
      match rest with
      | [] => True
      | g :: _ => (FrameData64.time f <? FrameData64.time g)%float = true
      end /\ increasing rest
  end.

(** The video element once [n] samples have been sought. *)
Definition videoAfter (fps : float) (v0 : Video64.t) (n : nat) : Video64.t :=
  match n with
  | O => v0
  | S k => Video64.setCurrentTime (sampleTime fps k) v0
  end.

(** ** The worlds a run goes through *)

(** The planar editor with its processing flag, its progress and its
    frame data replaced. *)
Definition analysed (processing : bool) (progress : float)
           (frameData : list FrameData64.t) (st0 : Editor64.EditorState)
  : Editor64.EditorState :=
  {| Editor64.fps := Editor64.fps st0; Editor64.isProcessing := processing;
     Editor64.progress := progress; Editor64.frameData := frameData |}.

Definition planarWorld (st : Editor64.EditorState) (v : Video64.t) (c : bool)
           (con : list string) : Editor64.World :=
  {| Editor64.state := st; Editor64.videoRef := Some v;
     Editor64.canvasRef := c; Editor64.console := con |}.

(** The 360 editor with its processing flag, its progress and its
    views replaced. *)
Definition analysed360 (processing : bool) (progress : float)
           (views : list MultiView64.FrameView) (st0 : MultiView64.Editor360State)
  : MultiView64.Editor360State :=
  {| MultiView64.fps := MultiView64.fps st0; MultiView64.isProcessing := processing;
     MultiView64.progress := progress; MultiView64.frameViews := views |}.

Definition world360 (st : MultiView64.Editor360State) (v : Video64.t) (c : bool)
           (con : list string) : MultiView64.World :=
  {| MultiView64.state := st; MultiView64.videoRef := Some v;
     MultiView64.canvasRef := c; MultiView64.console := con |}.

(** The sample rates the panels offer, a day in seconds, and the
    first index whose time at rate [r] is past a day. *)
Definition menu : list nat := [3; 6; 12]%nat.
Definition day : float := 86400%float.
Definition pastDay (r : nat) : nat := Z.to_nat (86400 * Z.of_nat r + 1).

(** A check by evaluation: the times of the [fuel] indices from [z]
    on are each below the next. *)
Definition timeOf (fps : float) (z : Z) : float :=
  (of_uint63 (Uint63.of_Z z) * (1 / fps))%float.

Fixpoint increasingFrom (fuel : nat) (fps : float) (z : Z) : bool :=
  match fuel with
  | O => true
  | S fuel' =>
      if (timeOf fps z <? timeOf fps (z + 1))%float
      then increasingFrom fuel' fps (z + 1)
      else false
  end.

End Sampling64.

(** ** Sessions on binary64 used in the examples *)

Module Scenes64.
Import PrimFloat.
Import Binary64.

(** A clip of the given duration, and the planar editor at 6 samples
    per second with stale frame data from an earlier run. *)
Definition clip (duration : float) : Video64.t :=
  {| Video64.duration := duration; Video64.currentTime := 1%float;
     Video64.paused := false |}.

Definition stale : list FrameData64.t :=
  [ {| FrameData64.time := 0%float; FrameData64.variance := 7%float |} ].

Definition session (duration : float) : Editor64.World :=
  Sampling64.planarWorld
    {| Editor64.fps := 6%float; Editor64.isProcessing := false;
       Editor64.progress := 0%float; Editor64.frameData := stale |}
    (clip duration) true [].

(** Two views of the 360 editor, one of them with stale frame data. *)
Definition twoViews : list MultiView64.FrameView :=
  [ {| MultiView64.id := "skybox_pz"; MultiView64.face := Some Video360.pz;
       MultiView64.yaw := 0%float; MultiView64.pitch := 0%float;
       MultiView64.fov := 90%float; MultiView64.frameData := stale |};
    {| MultiView64.id := "skybox_px"; MultiView64.face := Some Video360.px;
       MultiView64.yaw := 90%float; MultiView64.pitch := 0%float;
       MultiView64.fov := 90%float; MultiView64.frameData := [] |} ].

Definition session360 (duration : float) : MultiView64.World :=
  Sampling64.world360
    {| MultiView64.fps := 6%float; MultiView64.isProcessing := false;
       MultiView64.progress := 0%float; MultiView64.frameViews := twoViews |}
    (clip duration) true [].

(** A browser in which every seek completes and every frame is
    decoded and scored. *)
Definition everySeek : float -> bool := fun _ => true.
Definition steadyScore : float -> result float := fun _ => Ok 1040400%float.
Definition steadySource : float -> result DOM.Canvas := fun _ => Ok (Examples.checker 4).
Definition steadyView : DOM.Canvas -> MultiView64.FrameView -> result float :=
  fun _ _ => Ok 1040400%float.

(** The number of samples a planar run leaves, and the numbers a 360
    run leaves in its views. *)
Definition sampleCount (r : option (result unit * Editor64.World)) : option nat :=
  option_map (fun rw => List.length (Editor64.frameData (Editor64.state (snd rw)))) r.

Definition sampleCounts (r : option (result unit * MultiView64.World))
  : option (list nat) :=
  option_map
    (fun rw => map (fun v => List.length (MultiView64.frameData v))
                   (MultiView64.frameViews (MultiView64.state (snd rw))))
    r.

End Scenes64.

(* ================================================================== *)
(** * Facts about numbers *)
(* ================================================================== *)

Section NumberFacts.
Import JS.

Lemma Qltb_lt (x y : Q) : Qltb x y = true <-> x < y.
Proof.
  unfold Qltb. rewrite Qlt_alt.
  destruct (x ?= y); split; intro H; try reflexivity; try discriminate.
Qed.

Lemma Qltb_ge (x y : Q) : Qltb x y = false <-> y <= x.
Proof.
  split; intro H.
  - apply Qnot_lt_le. intro L. apply Qltb_lt in L. congruence.
  - destruct (Qltb x y) eqn:E; [|reflexivity].
    apply Qltb_lt in E. exfalso. apply (Qlt_not_le _ _ E H).
Qed.

Lemma leb_Fin (x y : Q) : (Fin x <=? Fin y)%js = true <-> x <= y.
Proof. simpl. apply Qle_bool_iff. Qed.

Lemma ltb_Fin (x y : Q) : (Fin x <? Fin y)%js = true <-> x < y.
Proof. simpl. apply Qltb_lt. Qed.


Lemma ltb_not_NaN (a b : number) :
  (a <? b)%js = true -> isNaN a = false /\ isNaN b = false.
Proof. destruct a, b; simpl; intros H; try discriminate; auto. Qed.

Lemma leb_refl (a : number) : isNaN a = false -> (a <=? a)%js = true.
Proof.
  destruct a; simpl; intros H; try discriminate; try reflexivity.
  apply Qle_bool_iff. apply Qle_refl.
Qed.

(** Without [NaN] the order is total. *)
Lemma ltb_false_leb (a b : number) :
  isNaN a = false -> isNaN b = false -> (a <? b)%js = false -> (b <=? a)%js = true.
Proof.
  destruct a, b; simpl; intros Ha Hb H; try discriminate; try reflexivity.
  apply Qle_bool_iff. apply Qltb_ge. exact H.
Qed.

Lemma ltb_leb (a b : number) : (a <? b)%js = true -> (a <=? b)%js = true.
Proof.
  destruct a, b; simpl; intros H; try discriminate; try reflexivity.
  apply Qle_bool_iff. apply Qlt_le_weak. apply Qltb_lt. exact H.
Qed.

Lemma ltb_leb_false (a b : number) : (a <=? b)%js = true -> (b <? a)%js = false.
Proof.
  destruct a, b; simpl; intros H; try discriminate; try reflexivity.
  apply Qltb_ge. apply Qle_bool_iff. exact H.
Qed.

Lemma leb_trans (a b c : number) :
  (a <=? b)%js = true -> (b <=? c)%js = true -> (a <=? c)%js = true.
Proof.
  destruct a, b, c; simpl; intros H1 H2; try discriminate; try reflexivity.
  apply Qle_bool_iff. apply Qle_bool_iff in H1, H2. eapply Qle_trans; eauto.
Qed.

(** [Math.min] and [Math.max] return one of their arguments, or [NaN]
    when an argument is [NaN]. *)
Lemma min_le_max (a b : number) :
  isNaN a = false -> isNaN b = false -> (min a b <=? max a b)%js = true.
Proof.
  intros Ha Hb. unfold min, max.
  destruct a, b; simpl in *; try discriminate; try reflexivity.
  destruct (Qltb q0 q) eqn:E1, (Qltb q q0) eqn:E2; simpl; apply Qle_bool_iff.
  - apply Qle_refl.
  - apply Qlt_le_weak. apply Qltb_lt. exact E1.
  - apply Qlt_le_weak. apply Qltb_lt. exact E2.
  - apply Qle_refl.
Qed.

Lemma min_Fin (x y : Q) : min (Fin x) (Fin y) = Fin (Qmin x y).
Proof.
  unfold min, ltb, Qltb, Qmin, GenericMinMax.gmin.
  rewrite <- (Qcompare_antisym x y). destruct (x ?= y); reflexivity.
Qed.

Lemma max_Fin (x y : Q) : max (Fin x) (Fin y) = Fin (Qmax x y).
Proof.
  unfold max, ltb, Qltb, Qmax, GenericMinMax.gmax.
  destruct (x ?= y); reflexivity.
Qed.

End NumberFacts.

(* ================================================================== *)
(** * 360 detection *)
(* ================================================================== *)

Section Detection.
Import PrimFloat.
Import Video360.

Lemma existsb_map {A B : Type} (f : B -> bool) (g : A -> B) (l : list A) :
  existsb f (map g l) = existsb (fun a => f (g a)) l.
Proof. induction l as [|a l IH]; simpl; [reflexivity | now rewrite IH]. Qed.

(** Halving a canonical width in binary64 gives the paired height. *)
Lemma presets_halved :
  map (fun p => (toFloat (fst p), toFloat (snd p))) Spec.presets
  = map (fun w => (w, PrimFloat.div w 2%float)) common360Widths.
Proof. vm_compute. reflexivity. Qed.

Lemma isCommon360Resolution_nearPreset (w h : Z) :
  isCommon360Resolution (toFloat w) (toFloat h) = Spec.nearPreset w h.
Proof.
  unfold isCommon360Resolution, Spec.nearPreset, Spec.within.
  change (existsb
            (fun w0 => PrimFloat.ltb (PrimFloat.abs (PrimFloat.sub (toFloat w) w0)) 100%float
                       && PrimFloat.ltb (PrimFloat.abs (PrimFloat.sub (toFloat h)
                                                          (PrimFloat.div w0 2%float))) 50%float)
            common360Widths)
    with (existsb
            (fun w0 => (fun q => PrimFloat.ltb (PrimFloat.abs (PrimFloat.sub (toFloat w) (fst q))) 100%float
                       && PrimFloat.ltb (PrimFloat.abs (PrimFloat.sub (toFloat h) (snd q))) 50%float)
                       (w0, PrimFloat.div w0 2%float))
            common360Widths).
  rewrite <- (existsb_map
                (fun q => PrimFloat.ltb (PrimFloat.abs (PrimFloat.sub (toFloat w) (fst q))) 100%float
                          && PrimFloat.ltb (PrimFloat.abs (PrimFloat.sub (toFloat h) (snd q))) 50%float)
                (fun w0 => (w0, PrimFloat.div w0 2%float))).
  rewrite <- presets_halved. rewrite existsb_map. reflexivity.
Qed.

(** The two tests on the aspect ratio are those of the specification:
    [|aspect - 2.0| < 0.05] and [1.9 <= aspect <= 2.1]. *)
Lemma is2to1_within (a : PrimFloat.float) :
  is2to1 a = Spec.within Spec.tolerance a 2.0%float.
Proof. reflexivity. Qed.

Lemma isNear2to1_between (a : PrimFloat.float) :
  isNear2to1 a = Spec.between Spec.bandLow Spec.bandHigh a.
Proof. reflexivity. Qed.

Lemma upTo_spec (f : Z -> bool) (n : nat) :
  Spec.upTo f n = true -> forall k : Z, (1 <= k <= Z.of_nat n)%Z -> f k = true.
Proof.
  induction n as [|m IH]; intros H k Hk; [lia|].
  cbn [Spec.upTo] in H. apply andb_true_iff in H. destruct H as [H1 H2].
  destruct (Z.eq_dec k (Z.of_nat (S m))) as [->|Hne]; [exact H1|].
  apply IH; [exact H2 | lia].
Qed.

Lemma sameAnswer_eq (x y : bool * Confidence) : Spec.sameAnswer x y = true -> x = y.
Proof.
  destruct x as [b c], y as [b' c']. unfold Spec.sameAnswer. cbn [fst snd].
  intro H. apply andb_true_iff in H. destruct H as [H1 H2].
  apply Bool.eqb_prop in H1. subst b'.
  destruct c, c'; try discriminate H2; reflexivity.
Qed.

(** At the six heights, every width up to 4500 is answered as the
    exact policy answers it, or the aspect is 2.05. *)
Lemma agrees_at_heights :
  forallb (fun h => Spec.upTo (fun w => Spec.agrees w h) 4500) Spec.heights = true.
Proof. vm_compute. reflexivity. Qed.

(** Counterexample to C7: the frames 3075 x 1500 and 4100 x 2000, of
    aspect 2.05.  The distance of the aspect from 2.0 is 0.05, not
    less, so that the policy gives (true, low) for both; the code
    answers (true, medium) for the first and, the second being near
    the preset 4096 x 2048, (true, high) for the second: in binary64
    the difference [aspect - 2.0] rounds below 0.05.  The frame
    2925 x 1500, of aspect 1.95 and so at the same distance from 2.0,
    is answered (true, low) by the code. *)
Lemma band_edge_rounding :
  Spec.answer 3075 1500 = (true, medium)
  /\ Spec.detectPolicyExact 3075 1500 = (true, low)
  /\ Spec.answer 4100 2000 = (true, high)
  /\ Spec.detectPolicyExact 4100 2000 = (true, low)
  /\ Spec.answer 2925 1500 = (true, low)
  /\ Spec.detectPolicyExact 2925 1500 = (true, low)
  /\ Qabs.Qabs (Spec.exactAspect 3075 1500 - 2) == 5 # 100
  /\ Qabs.Qabs (Spec.exactAspect 2925 1500 - 2) == 5 # 100.
Proof. repeat split; vm_compute; reflexivity. Qed.

(** C7, amended.  [detect360Video] depends on the width and the height
    only and follows the ordered first-match policy: aspect within
    0.05 of 2.0 and dimensions near a canonical preset give (true,
    high); else aspect within 0.05 of 2.0 gives (true, medium); else
    aspect in [1.9, 2.1] gives (true, low); else (false, high) -- the
    quotient, the difference and the comparisons being those of
    binary64.  So (3840, 1920) is 360 with high confidence,
    (1920, 1080) is not 360 with high confidence, and (3000, 1500) is
    360 with medium confidence.  Each branch is reached, and one pixel
    decides at the ends of the two bands: at a height of 1500 the
    widths 2926 to 3074 are medium, 2924 and 3076 are low, as are 2850
    and 3150 (aspect 1.9 and 2.1), while 2849 and 3151 are not 360; a
    frame of 4100 x 2000, near the preset 4096 x 2048, is high.  At
    the very end of the inner band the aspect 2.05 (3075 x 1500) is
    still medium, its difference from 2.0 rounding below 0.05, while
    1.95 (2925 x 1500) is low.  At the heights 960, 1080, 1440, 1500,
    1920 and 2000, for every width up to 4500 other than the one of
    aspect 2.05, the answer is that of the same policy in exact
    arithmetic. *)
Theorem detect360Video_policy :
  (forall w h : Z,
      (is360 (detect360Video w h), confidence (detect360Video w h))
      = Spec.detectPolicy w h)
  /\ (is360 (detect360Video 3840 1920), confidence (detect360Video 3840 1920))
     = (true, high)
  /\ (is360 (detect360Video 1920 1080), confidence (detect360Video 1920 1080))
     = (false, high)
  /\ (is360 (detect360Video 3000 1500), confidence (detect360Video 3000 1500))
     = (true, medium)
  /\ map (fun w => (is360 (detect360Video w 1500), confidence (detect360Video w 1500)))
         [2849; 2850; 2924; 2926; 3074; 3076; 3150; 3151]%Z
     = [ (false, high); (true, low); (true, low); (true, medium);
         (true, medium); (true, low); (true, low); (false, high) ]
  /\ (is360 (detect360Video 4100 2000), confidence (detect360Video 4100 2000))
     = (true, high)
  /\ map (fun w => (is360 (detect360Video w 1500), confidence (detect360Video w 1500)))
         [2925; 3075]%Z
     = [ (true, low); (true, medium) ]
  /\ (forall w h : Z,
        In h [960; 1080; 1440; 1500; 1920; 2000]%Z -> (1 <= w <= 4500)%Z ->
        (20 * w <> 41 * h)%Z ->
        (is360 (detect360Video w h), confidence (detect360Video w h))
        = Spec.detectPolicyExact w h).
Proof.
  split.
  { intros w h. unfold detect360Video, Spec.detectPolicy, Spec.aspect.
    rewrite isCommon360Resolution_nearPreset, is2to1_within, isNear2to1_between.
    destruct (Spec.within Spec.tolerance (PrimFloat.div (toFloat w) (toFloat h)) 2.0%float);
      simpl.
    - destruct (Spec.nearPreset w h); reflexivity.
    - destruct (Spec.between Spec.bandLow Spec.bandHigh
                             (PrimFloat.div (toFloat w) (toFloat h))); reflexivity. }
  do 6 (split; [vm_compute; reflexivity|]).
  - intros w h Hh Hw Hedge.
    pose proof agrees_at_heights as G. rewrite forallb_forall in G.
    pose proof (upTo_spec _ _ (G h Hh) w Hw) as A. cbv beta in A.
    unfold Spec.agrees in A. apply orb_true_iff in A. destruct A as [A|A].
    + apply sameAnswer_eq. exact A.
    + apply Z.eqb_eq in A. contradiction.
Qed.

End Detection.

(* ================================================================== *)
(** * Seeking *)
(* ================================================================== *)

Section Seeking.
Import JS.

(** [Math.max(0, Math.min(time, duration))]. *)
Lemma clamp_within (t d : number) :
  (d <? num 0)%js = false ->
  (max (num 0) (min t d) <? num 0)%js = false
  /\ (max (num 0) (min t d) >? d)%js = false.
Proof.
  intros Hd. unfold gtb.
  assert (H0 : forall y, (Fin y <? num 0)%js = false -> 0 <= y)
    by (intros y H; apply Qltb_ge; exact H).
  destruct t as [| |x|], d as [| |y|]; try (simpl in Hd; discriminate Hd);
    try (split; reflexivity).
  all: try rewrite min_Fin.
  all: cbn [min ltb]; change (num 0) with (Fin 0); try rewrite max_Fin; cbn [max ltb].
  all: split; try reflexivity; apply Qltb_ge.
  - exact (H0 _ Hd).
  - apply Q.le_max_l.
  - apply Q.max_lub; [exact (H0 _ Hd) | apply Q.le_min_r].
  - apply Q.le_max_l.
  - apply Q.le_max_l.
  - apply Q.max_lub; [exact (H0 _ Hd) | apply Qle_refl].
Qed.

Lemma clamp_finite (x d : Q) :
  0 <= d ->
  max (num 0) (min (Fin x) (Fin d)) = Fin (Qmax 0 (Qmin x d))
  /\ 0 <= Qmax 0 (Qmin x d) <= d.
Proof.
  intros Hd. rewrite min_Fin. change (num 0) with (Fin 0). rewrite max_Fin.
  split; [reflexivity|]. split; [apply Q.le_max_l|].
  apply Q.max_lub; [exact Hd | apply Q.le_min_r].
Qed.

(** C10.  In both editors [seek t] sets the playback cursor to
    [max(0, min(t, videoDuration))]; for every [t] -- negative, past
    the end, infinite or [NaN] -- the new cursor is neither below 0
    nor beyond the duration of the loaded video (a duration is never
    negative), and for finite [t] and duration it lies in
    [0, videoDuration]. *)
Theorem seek_clamps (t : number)
        (st : Editor.EditorState) (st360 : Editor360.Editor360State)
        (Hd : (Editor.videoDuration st <? num 0)%js = false)
        (Hd360 : (Editor360.videoDuration st360 <? num 0)%js = false) :
  (Editor.currentTime (Editor.seek t st)
     = max (num 0) (min t (Editor.videoDuration st))
   /\ (Editor.currentTime (Editor.seek t st) <? num 0)%js = false
   /\ (Editor.currentTime (Editor.seek t st) >? Editor.videoDuration st)%js = false
   /\ (forall x d, t = Fin x -> Editor.videoDuration st = Fin d ->
         Editor.currentTime (Editor.seek t st) = Fin (Qmax 0 (Qmin x d))
         /\ 0 <= Qmax 0 (Qmin x d) <= d))
  /\
  (Editor360.currentTime (Editor360.seek t st360)
     = max (num 0) (min t (Editor360.videoDuration st360))
   /\ (Editor360.currentTime (Editor360.seek t st360) <? num 0)%js = false
   /\ (Editor360.currentTime (Editor360.seek t st360)
        >? Editor360.videoDuration st360)%js = false
   /\ (forall x d, t = Fin x -> Editor360.videoDuration st360 = Fin d ->
         Editor360.currentTime (Editor360.seek t st360) = Fin (Qmax 0 (Qmin x d))
         /\ 0 <= Qmax 0 (Qmin x d) <= d)).
Proof.
  split.
  - simpl. split; [reflexivity|].
    destruct (clamp_within t _ Hd) as [H1 H2].
    split; [exact H1|]. split; [exact H2|].
    intros x d -> Hv. rewrite Hv in *. apply clamp_finite.
    apply Qltb_ge. exact Hd.
  - simpl. split; [reflexivity|].
    destruct (clamp_within t _ Hd360) as [H1 H2].
    split; [exact H1|]. split; [exact H2|].
    intros x d -> Hv. rewrite Hv in *. apply clamp_finite.
    apply Qltb_ge. exact Hd360.
Qed.

Lemma seek_clamps_witness :
  Editor.currentTime (Editor.seek (num 25) Examples.loaded) = num 10
  /\ Editor360.currentTime (Editor360.seek (num (-3)) Examples.loaded360) = num 0.
Proof.
  destruct (seek_clamps (num 25) Examples.loaded Examples.loaded360 eq_refl eq_refl)
    as [[H _] _].
  destruct (seek_clamps (num (-3)) Examples.loaded Examples.loaded360 eq_refl eq_refl)
    as [_ [H' _]].
  split; [exact H | exact H'].
Defined.

End Seeking.

(* ================================================================== *)
(** * Eligibility of a sample *)
(* ================================================================== *)

Section Eligibility.
Import JS.

Lemma RangeAction_eqb_exclude (a : RangeAction) :
  RangeAction_eqb a (Some exclude) = true <-> a = Some exclude.
Proof.
  destruct a as [[| |]|]; simpl; split; intro H;
    try reflexivity; try discriminate.
Qed.

(** The test of [isTimeExcluded] over the exclude ranges is coverage by
    some exclude range. *)
Lemma existsb_excluded (ranges : list TimelineRange.t) (time : number) :
  existsb
    (fun range => (time >=? TimelineRange.start range)%js
                  && (time <=? TimelineRange.end_ range)%js)
    (filter (fun r => RangeAction_eqb (TimelineRange.action r) (Some exclude)) ranges)
  = true
  <-> Spec.excluded ranges time.
Proof.
  rewrite existsb_exists. unfold Spec.excluded, Spec.covers, geb. split.
  - intros [r [Hin Hc]]. apply filter_In in Hin. destruct Hin as [Hin Ha].
    apply RangeAction_eqb_exclude in Ha. apply andb_true_iff in Hc.
    exists r. tauto.
  - intros [r [Hin [Ha [H1 H2]]]]. exists r. split.
    + apply filter_In. split; [exact Hin|]. apply RangeAction_eqb_exclude. exact Ha.
    + apply andb_true_iff. split; assumption.
Qed.

Lemma not_true_excluded (ranges : list TimelineRange.t) (time : number) (b : bool) :
  (b = true <-> Spec.excluded ranges time) ->
  (negb b = true <-> ~ Spec.excluded ranges time).
Proof.
  intros H. destruct b; simpl; split; intro G.
  - discriminate.
  - exfalso. apply G. apply H. reflexivity.
  - intro E. apply H in E. discriminate.
  - reflexivity.
Qed.

(** The planar export selects the samples that reach
    [effectiveThreshold] and that no exclude range covers. *)
Lemma planar_sharpFrames_iff (st : Editor.EditorState) (f : FrameData.t) :
  In f (EditorPage.sharpFrames st)
  <-> In f (Editor.frameData st)
      /\ (FrameData.variance f >=? EditorPage.effectiveThreshold st)%js = true
      /\ ~ Spec.excluded (Editor.ranges st) (FrameData.time f).
Proof.
  unfold EditorPage.sharpFrames.
  rewrite filter_In, andb_true_iff.
  unfold EditorPage.isTimeExcluded, EditorPage.excludedRanges.
  rewrite (not_true_excluded _ _ _ (existsb_excluded (Editor.ranges st) (FrameData.time f))).
  tauto.
Qed.

(** The 360 export selects the samples that reach the threshold
    configured on the view and that no exclude range covers. *)
Lemma view_sharpFrames_iff (v : FrameView.t) (f : FrameData.t) :
  In f (Editor360Page.sharpFrames v)
  <-> In f (FrameView.frameData v)
      /\ (FrameData.variance f >=? FrameView.threshold v)%js = true
      /\ ~ Spec.excluded (FrameView.ranges v) (FrameData.time f).
Proof.
  unfold Editor360Page.sharpFrames.
  rewrite filter_In, andb_true_iff.
  unfold Editor360Page.isTimeExcluded, Editor360Page.excludedRanges.
  rewrite (not_true_excluded _ _ _ (existsb_excluded (FrameView.ranges v) (FrameData.time f))).
  tauto.
Qed.

(** C1.  The planar export selects a sample if and only if its variance
    is at least the effective threshold and no exclude range of the
    view covers its time, inclusively at both ends.  The 360 export
    applies the same range test but compares the variance with the
    threshold configured on the view.  In both, the variances
    [100, 400, 250, 500] at times [0, 1, 2, 3] with threshold 300 and
    one exclude range [0.5, 1.5] leave exactly the sample at time 3.
    For a view with variances [100, 200], threshold 300 and no range,
    the effective threshold is 200 and the timeline of the view applies
    it; the sample at time 1 reaches it and is covered by no range, yet
    the 360 export selects nothing. *)
Theorem sharpFrames_selection :
  (forall (st : Editor.EditorState) (f : FrameData.t),
      In f (EditorPage.sharpFrames st)
      <-> In f (Editor.frameData st)
          /\ (FrameData.variance f >=? EditorPage.effectiveThreshold st)%js = true
          /\ ~ Spec.excluded (Editor.ranges st) (FrameData.time f))
  /\ (forall (v : FrameView.t) (f : FrameData.t),
      In f (Editor360Page.sharpFrames v)
      <-> In f (FrameView.frameData v)
          /\ (FrameData.variance f >=? FrameView.threshold v)%js = true
          /\ ~ Spec.excluded (FrameView.ranges v) (FrameData.time f))
  /\ EditorPage.sharpFrames Examples.planarSelection = [Spec.sample 3 500]
  /\ Editor360Page.sharpFrames Examples.viewSelection = [Spec.sample 3 500]
  /\ (In (Spec.sample 1 200) (FrameView.frameData Examples.softView)
      /\ Spec.effectiveThreshold (FrameView.threshold Examples.softView)
                                 (FrameView.frameData Examples.softView) = num 200
      /\ Timeline360.effectiveThreshold (Some Examples.softView) = num 200
      /\ (FrameData.variance (Spec.sample 1 200) >=? num 200)%js = true
      /\ ~ Spec.excluded (FrameView.ranges Examples.softView)
                         (FrameData.time (Spec.sample 1 200))
      /\ Editor360Page.sharpFrames Examples.softView = []).
Proof.
  split; [exact planar_sharpFrames_iff|].
  split; [exact view_sharpFrames_iff|].
  split; [vm_compute; reflexivity|].
  split; [vm_compute; reflexivity|].
  split; [right; left; reflexivity|].
  split; [vm_compute; reflexivity|].
  split; [vm_compute; reflexivity|].
  split; [vm_compute; reflexivity|].
  split; [|vm_compute; reflexivity].
  intros [r [Hin _]]. exact Hin.
Qed.

End Eligibility.

(* ================================================================== *)
(** * Ranges keep [start <= end] *)
(* ================================================================== *)

Section RangeOrder.
Import JS.

Lemma Forall_map_if {A : Type} (P : A -> Prop) (c : A -> bool) (f : A -> A) (l : list A) :
  Forall P l ->
  (forall a, In a l -> c a = true -> P (f a)) ->
  Forall P (map (fun a => if c a then f a else a) l).
Proof.
  intros HP Hf. apply Forall_forall. intros b Hb.
  apply in_map_iff in Hb. destruct Hb as [a [Hab Ha]]. subst b.
  destruct (c a) eqn:E.
  - apply Hf; assumption.
  - rewrite Forall_forall in HP. apply HP. exact Ha.
Qed.

Lemma Forall_filter {A : Type} (P : A -> Prop) (c : A -> bool) (l : list A) :
  Forall P l -> Forall P (filter c l).
Proof.
  intros HP. apply Forall_forall. intros a Ha. apply filter_In in Ha.
  rewrite Forall_forall in HP. apply HP. tauto.
Qed.

(** The range built by [addRange]. *)
Lemma new_range_ordered (id : string) (s e : number) (a : RangeAction) :
  isNaN s = false -> isNaN e = false ->
  Spec.ordered {| TimelineRange.id := id;
                  TimelineRange.start := min s e; TimelineRange.end_ := max s e;
                  TimelineRange.action := a; TimelineRange.maskPrompt := None |}.
Proof. intros Hs He. unfold Spec.ordered. simpl. apply min_le_max; assumption. Qed.

(** The range built by [addRange] from two times in either order
    starts at the smaller and ends at the larger. *)
Lemma new_range_spans (id : string) (s e : number) (a : RangeAction) :
  isNaN s = false -> isNaN e = false ->
  Spec.spans {| TimelineRange.id := id;
                TimelineRange.start := min s e; TimelineRange.end_ := max s e;
                TimelineRange.action := a; TimelineRange.maskPrompt := None |} s e.
Proof.
  intros Hs He. unfold Spec.spans. cbn [TimelineRange.start TimelineRange.end_].
  assert (Hmin : min s e = if ltb e s then e else s)
    by (unfold min; destruct s, e; try discriminate; reflexivity).
  assert (Hmax : max s e = if ltb s e then e else s)
    by (unfold max; destruct s, e; try discriminate; reflexivity).
  rewrite Hmin, Hmax.
  destruct (ltb e s) eqn:E1; destruct (ltb s e) eqn:E2;
    repeat split; auto using leb_refl, ltb_leb, ltb_false_leb.
Qed.

(** With a time that is [NaN] both ends of the new range are [NaN],
    and the range is not ordered. *)
Lemma new_range_NaN (id : string) (s e : number) (a : RangeAction) :
  isNaN s = true \/ isNaN e = true ->
  min s e = NaN /\ max s e = NaN
  /\ ~ Spec.ordered {| TimelineRange.id := id;
                       TimelineRange.start := min s e; TimelineRange.end_ := max s e;
                       TimelineRange.action := a; TimelineRange.maskPrompt := None |}.
Proof.
  intros H.
  assert (Hmin : min s e = NaN)
    by (destruct H as [H | H]; destruct s, e; try discriminate H; reflexivity).
  assert (Hmax : max s e = NaN)
    by (destruct H as [H | H]; destruct s, e; try discriminate H; reflexivity).
  split; [exact Hmin|]. split; [exact Hmax|].
  unfold Spec.ordered. cbn [TimelineRange.start TimelineRange.end_].
  rewrite Hmin. discriminate.
Qed.

(** An update that names neither [start] nor [end] keeps both. *)
Lemma spread_keeps_order (r : TimelineRange.t) (u : TimelineRange.updates) :
  TimelineRange.u_start u = None -> TimelineRange.u_end u = None ->
  Spec.ordered r -> Spec.ordered (TimelineRange.spread r u).
Proof.
  intros Hs He Hr. unfold Spec.ordered, TimelineRange.spread. simpl.
  rewrite Hs, He. exact Hr.
Qed.

(** Counterexample to C9: with the range [1, 2] stored, the update
    [{ start: 5 }] leaves the range with start 5 and end 2, in the
    planar editor and in the 360 editor alike. *)
Lemma updateRange_breaks_order :
  Spec.allOrdered (Editor.ranges Examples.oneRange)
  /\ ~ Spec.allOrdered
       (Editor.ranges (Editor.updateRange "range_1" Examples.moveStartTo5 Examples.oneRange))
  /\ Spec.viewsOrdered (Editor360.frameViews Examples.oneRange360)
  /\ ~ Spec.viewsOrdered
       (Editor360.frameViews
          (Editor360.updateRange "skybox_pz" "range_1" Examples.moveStartTo5
                                 Examples.oneRange360)).
Proof.
  split; [|split; [|split]].
  - repeat constructor.
  - intro H. inversion H as [|r l Hr Hl]. vm_compute in Hr. discriminate Hr.
  - repeat constructor.
  - intro H. inversion H as [|v l Hv Hl]. inversion Hv as [|r l' Hr Hl'].
    vm_compute in Hr. discriminate Hr.
Qed.

Lemma onView_ordered (viewId : string) (f : FrameView.t -> FrameView.t)
      (st : Editor360.Editor360State) :
  Spec.viewsOrdered (Editor360.frameViews st) ->
  (forall v, In v (Editor360.frameViews st) ->
             Spec.allOrdered (FrameView.ranges v) ->
             Spec.allOrdered (FrameView.ranges (f v))) ->
  Spec.viewsOrdered (Editor360.frameViews (Editor360.onView viewId f st)).
Proof.
  intros Hst Hf. unfold Editor360.onView. simpl.
  apply (Forall_map_if (fun v => Spec.allOrdered (FrameView.ranges v))); [exact Hst|].
  intros v Hv _. apply Hf; [exact Hv|].
  unfold Spec.viewsOrdered in Hst. rewrite Forall_forall in Hst. apply Hst. exact Hv.
Qed.

(** C9, amended.  [addRange], called with two times that are not
    [NaN] in either order, appends one range that stores their minimum
    as start and their maximum as end -- each end is one of the two
    times, the start at or before both, the end at or after both --
    and so keeps every stored range with [start <= end]; with a time
    that is [NaN] both ends of the new range are [NaN] and
    [start <= end] fails for it.  [removeRange], [setRangeAction] and
    [clearAllRanges] keep [start <= end] as well.  [updateRange]
    merges the given fields as they are: it keeps [start <= end] when
    the merged range has it, in particular when the update names
    neither start nor end. *)
Theorem range_operations_order :
  (* what [addRange] stores, in the planar editor and in a view *)
  (forall (st : Editor.EditorState) id s e a,
     exists r,
       Editor.ranges (Editor.addRange id s e a st) = Editor.ranges st ++ [r]
       /\ TimelineRange.id r = id /\ TimelineRange.action r = a
       /\ TimelineRange.start r = min s e /\ TimelineRange.end_ r = max s e
       /\ (isNaN s = false -> isNaN e = false -> Spec.spans r s e /\ Spec.ordered r)
       /\ (isNaN s = true \/ isNaN e = true ->
           TimelineRange.start r = NaN /\ TimelineRange.end_ r = NaN
           /\ ~ Spec.ordered r))
  /\
  (forall (st : Editor360.Editor360State) rid vid s e a,
     exists r,
       Editor360.frameViews (Editor360.addRange rid vid s e a st)
       = map (fun v => if String.eqb (FrameView.id v) vid
                       then FrameView.withRanges (FrameView.ranges v ++ [r]) v
                       else v)
             (Editor360.frameViews st)
       /\ TimelineRange.id r = rid /\ TimelineRange.action r = a
       /\ TimelineRange.start r = min s e /\ TimelineRange.end_ r = max s e
       /\ (isNaN s = false -> isNaN e = false -> Spec.spans r s e /\ Spec.ordered r)
       /\ (isNaN s = true \/ isNaN e = true ->
           TimelineRange.start r = NaN /\ TimelineRange.end_ r = NaN
           /\ ~ Spec.ordered r))
  /\
  (* the planar editor *)
  (forall (st : Editor.EditorState), Spec.allOrdered (Editor.ranges st) ->
     (forall id s e a, isNaN s = false -> isNaN e = false ->
        Spec.allOrdered (Editor.ranges (Editor.addRange id s e a st)))
     /\ (forall id u,
           (forall r, In r (Editor.ranges st) -> TimelineRange.id r = id ->
                      Spec.ordered (TimelineRange.spread r u)) ->
           Spec.allOrdered (Editor.ranges (Editor.updateRange id u st)))
     /\ (forall id u, TimelineRange.u_start u = None -> TimelineRange.u_end u = None ->
           Spec.allOrdered (Editor.ranges (Editor.updateRange id u st)))
     /\ (forall id, Spec.allOrdered (Editor.ranges (Editor.removeRange id st)))
     /\ (forall id a, Spec.allOrdered (Editor.ranges (Editor.setRangeAction id a st)))
     /\ Spec.allOrdered (Editor.ranges (Editor.clearAllRanges st)))
  /\
  (* the 360 editor *)
  (forall (st : Editor360.Editor360State),
     Spec.viewsOrdered (Editor360.frameViews st) ->
     (forall rid vid s e a, isNaN s = false -> isNaN e = false ->
        Spec.viewsOrdered (Editor360.frameViews (Editor360.addRange rid vid s e a st)))
     /\ (forall vid rid u,
           (forall v r, In v (Editor360.frameViews st) -> FrameView.id v = vid ->
                        In r (FrameView.ranges v) -> TimelineRange.id r = rid ->
                        Spec.ordered (TimelineRange.spread r u)) ->
           Spec.viewsOrdered (Editor360.frameViews (Editor360.updateRange vid rid u st)))
     /\ (forall vid rid u,
           TimelineRange.u_start u = None -> TimelineRange.u_end u = None ->
           Spec.viewsOrdered (Editor360.frameViews (Editor360.updateRange vid rid u st)))
     /\ (forall vid rid,
           Spec.viewsOrdered (Editor360.frameViews (Editor360.removeRange vid rid st)))
     /\ (forall vid,
           Spec.viewsOrdered (Editor360.frameViews (Editor360.clearAllRanges vid st)))).
Proof.
  split; [|split; [|split]].
  - intros st id s e a. eexists. split; [reflexivity|].
    cbn [TimelineRange.id TimelineRange.action TimelineRange.start TimelineRange.end_].
    split; [reflexivity|]. split; [reflexivity|].
    split; [reflexivity|]. split; [reflexivity|]. split.
    + intros Hs He. split; [apply new_range_spans | apply new_range_ordered]; assumption.
    + intros H. apply (new_range_NaN id s e a H).
  - intros st rid vid s e a. eexists. split; [reflexivity|].
    cbn [TimelineRange.id TimelineRange.action TimelineRange.start TimelineRange.end_].
    split; [reflexivity|]. split; [reflexivity|].
    split; [reflexivity|]. split; [reflexivity|]. split.
    + intros Hs He. split; [apply new_range_spans | apply new_range_ordered]; assumption.
    + intros H. apply (new_range_NaN rid s e a H).
  - intros st Hst. repeat split.
    + intros id s e a Hs He. unfold Editor.addRange. simpl.
      apply Forall_app. split; [exact Hst|].
      constructor; [|constructor]. apply new_range_ordered; assumption.
    + intros id u Hu. unfold Editor.updateRange. simpl.
      apply (Forall_map_if Spec.ordered); [exact Hst|].
      intros r Hr Hid. apply Hu; [exact Hr|]. apply String.eqb_eq. exact Hid.
    + intros id u Hs He. unfold Editor.updateRange. simpl.
      apply (Forall_map_if Spec.ordered); [exact Hst|].
      intros r Hr _. apply spread_keeps_order; try assumption.
      unfold Spec.allOrdered in Hst. rewrite Forall_forall in Hst. apply Hst. exact Hr.
    + intros id. unfold Editor.removeRange. simpl. apply Forall_filter. exact Hst.
    + intros id a. unfold Editor.setRangeAction. simpl.
      apply (Forall_map_if Spec.ordered); [exact Hst|].
      intros r Hr _. unfold Spec.allOrdered in Hst. rewrite Forall_forall in Hst.
      apply (Hst r Hr).
    + constructor.
  - intros st Hst. repeat split.
    + intros rid vid s e a Hs He. unfold Editor360.addRange.
      apply onView_ordered; [exact Hst|]. intros v Hv Hr. simpl.
      apply Forall_app. split; [exact Hr|].
      constructor; [|constructor]. apply new_range_ordered; assumption.
    + intros vid rid u Hu. unfold Editor360.updateRange, Editor360.onView. simpl.
      apply (Forall_map_if (fun v => Spec.allOrdered (FrameView.ranges v))); [exact Hst|].
      intros v Hv Hid. simpl.
      assert (Hr : Spec.allOrdered (FrameView.ranges v)).
      { unfold Spec.viewsOrdered in Hst. rewrite Forall_forall in Hst. apply Hst. exact Hv. }
      apply (Forall_map_if Spec.ordered); [exact Hr|].
      intros r Hin Hrid. apply (Hu v r); try assumption; apply String.eqb_eq; assumption.
    + intros vid rid u Hs He. unfold Editor360.updateRange.
      apply onView_ordered; [exact Hst|]. intros v Hv Hr. simpl.
      apply (Forall_map_if Spec.ordered); [exact Hr|].
      intros r Hin _. apply spread_keeps_order; try assumption.
      unfold Spec.allOrdered in Hr. rewrite Forall_forall in Hr. apply Hr. exact Hin.
    + intros vid rid. unfold Editor360.removeRange.
      apply onView_ordered; [exact Hst|]. intros v Hv Hr. simpl.
      apply Forall_filter. exact Hr.
    + intros vid. unfold Editor360.clearAllRanges, Editor360.updateFrameView. simpl.
      apply (Forall_map_if (fun v => Spec.allOrdered (FrameView.ranges v))); [exact Hst|].
      intros v Hv _. simpl. constructor.
Qed.

Lemma range_operations_order_witness :
  (exists r,
      Editor.ranges (Editor.addRange "range_2" (num 7) (num 4) (Some highlight)
                                     Examples.oneRange)
      = Editor.ranges Examples.oneRange ++ [r]
      /\ TimelineRange.start r = num 4 /\ TimelineRange.end_ r = num 7
      /\ Spec.spans r (num 7) (num 4))
  /\ Spec.allOrdered
       (Editor.ranges (Editor.addRange "range_2" (num 7) (num 4) (Some highlight)
                                       Examples.oneRange))
  /\ Spec.allOrdered
       (Editor.ranges (Editor.updateRange "range_1" Examples.clearPrompt Examples.oneRange))
  /\ Spec.viewsOrdered
       (Editor360.frameViews
          (Editor360.addRange "range_2" "skybox_px" (num 7) (num 4) None
                              Examples.oneRange360)).
Proof.
  assert (H1 : Spec.allOrdered (Editor.ranges Examples.oneRange))
    by (repeat constructor).
  assert (H2 : Spec.viewsOrdered (Editor360.frameViews Examples.oneRange360))
    by (repeat constructor).
  destruct range_operations_order as [A [_ [P Q]]].
  destruct (P Examples.oneRange H1) as [Padd [_ [Pupd _]]].
  destruct (Q Examples.oneRange360 H2) as [Qadd _].
  split; [|split; [|split]].
  - destruct (A Examples.oneRange "range_2"%string (num 7) (num 4) (Some highlight))
      as [r [Hr [_ [_ [Hs [He [Hspan _]]]]]]].
    exists r. split; [exact Hr|]. split; [exact Hs|]. split; [exact He|].
    apply Hspan; reflexivity.
  - apply Padd; reflexivity.
  - apply Pupd; reflexivity.
  - apply Qadd; reflexivity.
Defined.

End RangeOrder.

(* ================================================================== *)
(** * Custom views *)
(* ================================================================== *)

Section CustomViews.
Import JS.

Lemma ofNat_ltb_ofZ (i : nat) (n : Z) :
  (ofNat i <? ofZ n)%js = (Z.of_nat i <? n)%Z.
Proof.
  unfold ofNat, ofZ, ltb, Qltb, Qcompare. simpl.
  rewrite !Z.mul_1_r. unfold Z.ltb. reflexivity.
Qed.

(** The loop of [generateCustomViews] pushes view [i], [i+1], ... as
    long as the index is below the frame count. *)
Lemma generateCustomViews_loop_runs (n : Z) (p s f : number) :
  forall (fuel i : nat) (views : list Video360.View),
    (Z.to_nat n - i < fuel)%nat ->
    Video360.generateCustomViews_loop fuel i (ofZ n) p s f (num 360 / ofZ n)%js views
    = Some (views ++ map (Spec.customView (ofZ n) p s f) (seq i (Z.to_nat n - i))).
Proof.
  induction fuel as [|fuel IH]; intros i views Hf; [lia|].
  cbn [Video360.generateCustomViews_loop]. rewrite ofNat_ltb_ofZ.
  destruct (Z.of_nat i <? n)%Z eqn:E.
  - apply Z.ltb_lt in E. rewrite IH by lia.
    replace (Z.to_nat n - i)%nat with (S (Z.to_nat n - S i)) by lia.
    cbn [seq map]. rewrite <- app_assoc. reflexivity.
  - apply Z.ltb_ge in E. replace (Z.to_nat n - i)%nat with O by lia.
    simpl. rewrite app_nil_r. reflexivity.
Qed.

Lemma generateCustomViews_runs (n : Z) (p s f : number) (extra : nat) :
  Video360.generateCustomViews (S (Z.to_nat n) + extra) (ofZ n) p s f
  = Some (map (Spec.customView (ofZ n) p s f) (seq 0 (Z.to_nat n))).
Proof.
  unfold Video360.generateCustomViews.
  rewrite generateCustomViews_loop_runs by lia.
  rewrite Nat.sub_0_r. reflexivity.
Qed.

Lemma Qtrunc_floor (q : Q) : 0 <= q -> Qtrunc q = Qfloor q.
Proof.
  intros H. destruct q as [a b]. unfold Qtrunc, Qfloor. simpl.
  apply Z.quot_div_nonneg; [|reflexivity].
  unfold Qle in H. simpl in H. lia.
Qed.

(** The remainder of a non-negative dividend lies in [0, m) and
    differs from the dividend by a multiple of [m]. *)
Lemma rem_nonneg (x m : Q) :
  0 <= x -> 0 < m ->
  exists y, rem (Fin x) (Fin m) = Fin y /\ 0 <= y /\ y < m
            /\ exists k : Z, x == y + m * inject_Z k.
Proof.
  intros Hx Hm. unfold rem.
  assert (Hm0 : Qeq_bool m 0 = false).
  { destruct (Qeq_bool m 0) eqn:E; [|reflexivity].
    apply Qeq_bool_iff in E. rewrite E in Hm. discriminate Hm. }
  rewrite Hm0. unfold fin.
  assert (Hq : 0 <= x / m).
  { apply Qle_shift_div_l; [exact Hm|]. rewrite Qmult_0_l. exact Hx. }
  rewrite (Qtrunc_floor _ Hq).
  pose proof (Qfloor_le (x / m)) as Hlo.
  pose proof (Qlt_floor (x / m)) as Hhi.
  set (k := Qfloor (x / m)) in *.
  assert (Hx' : x == (x / m) * m) by (field; intro E; rewrite E in Hm; discriminate Hm).
  rewrite inject_Z_plus in Hhi. change (inject_Z 1) with 1 in Hhi.
  set (q := x / m) in *. clearbody q k.
  assert (Hlo' : m * inject_Z k <= x) by nra.
  assert (Hhi' : x < m * inject_Z k + m) by nra.
  exists (Qred (x - m * inject_Z k)). split; [reflexivity|].
  rewrite !Qred_correct. split; [lra|]. split; [lra|].
  exists k. rewrite Qred_correct. lra.
Qed.

(** The angle of view [i] before the reduction modulo 360, for a
    finite start angle and a positive frame count. *)
Lemma view_angle_finite (q : Q) (n i : nat) :
  (0 < n)%nat ->
  exists a, (Fin q + ofNat i * (num 360 / ofNat n))%js = Fin a
            /\ a == q + inject_Z (Z.of_nat i) * (360 / inject_Z (Z.of_nat n)).
Proof.
  intros Hn. unfold ofNat, ofZ, num, ofZ. cbn [div].
  assert (Hz : Qeq_bool (inject_Z (Z.of_nat n)) 0 = false).
  { destruct (Qeq_bool (inject_Z (Z.of_nat n)) 0) eqn:E; [|reflexivity].
    apply Qeq_bool_iff in E. unfold Qeq in E. simpl in E. lia. }
  rewrite Hz. unfold fin. cbn [mul add]. unfold fin.
  eexists. split; [reflexivity|].
  rewrite !Qred_correct. reflexivity.
Qed.

(** For a dividend that is not negative the remainder [%] is the
    mathematical modulo. *)
Lemma rem_modulo (x m : Q) :
  0 <= x -> 0 < m -> rem (Fin x) (Fin m) = Spec.modulo (Fin x) (Fin m).
Proof.
  intros Hx Hm. unfold rem, Spec.modulo.
  assert (Hq : 0 <= x / m).
  { apply Qle_shift_div_l; [exact Hm|]. rewrite Qmult_0_l. exact Hx. }
  rewrite (Qtrunc_floor _ Hq). reflexivity.
Qed.

(** Counterexample to C8: a rig of four views started at -90 degrees.
    The code gives the yaws [-90, 0, 90, 180]; the first is negative,
    where [(startAngle + i * angleStep) mod 360] is 270. *)
Lemma negative_start_angle_yaw :
  option_map (map Video360.v_yaw)
    (Video360.generateCustomViews 5 (num 4) (num 0) (num (-90)) (num 90))
  = Some [num (-90); num 0; num 90; num 180]
  /\ map (Spec.yawOf (num 4) (num (-90))) [0; 1; 2; 3]%nat
     = [num 270; num 0; num 90; num 180].
Proof. split; vm_compute; reflexivity. Qed.

(** C8, amended.  For every whole frame count [n],
    [generateCustomViews] returns exactly [n] views, and view [i] has
    yaw [(startAngle + i * (360 / n)) % 360] -- the JavaScript
    remainder, which takes the sign of the dividend --, pitch
    [rigPitch] and field of view [fov]; the result is a function of
    the four arguments.  For a start angle that is not negative the
    yaw is the mathematical [(startAngle + i * (360 / n)) mod 360]: it
    lies in [0, 360) and is congruent to [startAngle + i * 360 / n]
    modulo 360.  [generateCustomViews(4, 0, 0, 90)] yields the yaws
    [0, 90, 180, 270], each with pitch 0 and fov 90. *)
Theorem generateCustomViews_views (n extra : nat) (rigPitch startAngle fov : number) :
  (exists views,
      Video360.generateCustomViews (S n + extra) (ofNat n) rigPitch startAngle fov
      = Some views
      /\ List.length views = n
      /\ forall i, (i < n)%nat ->
           exists v, nth_error views i = Some v
             /\ Video360.v_yaw v
                = rem (startAngle + ofNat i * (num 360 / ofNat n))%js (num 360)
             /\ Video360.v_pitch v = rigPitch
             /\ Video360.v_fov v = fov
             /\ forall q, startAngle = Fin q -> 0 <= q ->
                  Video360.v_yaw v = Spec.yawOf (ofNat n) startAngle i
                  /\ exists y, Video360.v_yaw v = Fin y /\ 0 <= y /\ y < 360
                    /\ exists k : Z,
                        q + inject_Z (Z.of_nat i) * (360 / inject_Z (Z.of_nat n))
                        == y + 360 * inject_Z k)
  /\ option_map (map (fun v => (Video360.v_yaw v, Video360.v_pitch v, Video360.v_fov v)))
       (Video360.generateCustomViews 5 (num 4) (num 0) (num 0) (num 90))
     = Some [ (num 0, num 0, num 90); (num 90, num 0, num 90);
              (num 180, num 0, num 90); (num 270, num 0, num 90) ].
Proof.
  split; [|vm_compute; reflexivity].
  exists (map (Spec.customView (ofNat n) rigPitch startAngle fov) (seq 0 n)).
  split; [|split].
  - pose proof (generateCustomViews_runs (Z.of_nat n) rigPitch startAngle fov extra) as H.
    rewrite Nat2Z.id in H. exact H.
  - rewrite length_map, length_seq. reflexivity.
  - intros i Hi.
    exists (Spec.customView (ofNat n) rigPitch startAngle fov i).
    split.
    { rewrite nth_error_map, nth_error_seq.
      apply Nat.ltb_lt in Hi. rewrite Hi. reflexivity. }
    split; [reflexivity|]. split; [reflexivity|]. split; [reflexivity|].
    intros q -> Hq. cbn [Spec.customView Video360.v_yaw].
    destruct (view_angle_finite q n i) as [a [Ha Hav]]; [lia|].
    rewrite Ha.
    assert (Ha0 : 0 <= a).
    { rewrite Hav.
      assert (0 <= inject_Z (Z.of_nat i) * (360 / inject_Z (Z.of_nat n))).
      { apply Qmult_le_0_compat.
        - change 0 with (inject_Z 0). rewrite <- Zle_Qle. lia.
        - apply Qle_shift_div_l.
          + change 0 with (inject_Z 0). rewrite <- Zlt_Qlt. lia.
          + rewrite Qmult_0_l. discriminate. }
      lra. }
    destruct (rem_nonneg a 360 Ha0 eq_refl) as [y [Hy [Hy0 [Hy1 [k Hk]]]]].
    split.
    { unfold Spec.yawOf. rewrite Ha. change (num 360) with (Fin 360).
      apply rem_modulo; [exact Ha0 | reflexivity]. }
    exists y. change (num 360) with (Fin 360). split; [exact Hy|].
    split; [exact Hy0|]. split; [exact Hy1|].
    exists k. rewrite <- Hav. exact Hk.
Qed.

End CustomViews.

(* ================================================================== *)
(** * Applying a custom configuration *)
(* ================================================================== *)

Section Configuration.
Import JS.



Lemma createCustomFrameViews_runs (config : CustomConfig.t) (n : Z) (extra : nat) :
  CustomConfig.frameCount config = ofZ n ->
  Editor360.createCustomFrameViews (S (Z.to_nat n) + extra) config
  = Some (Editor360.customFrameViewsFrom 0
            (map (Spec.customView (ofZ n) (CustomConfig.rigPitch config)
                                  (CustomConfig.startAngle config)
                                  (CustomConfig.fov config))
                 (seq 0 (Z.to_nat n)))).
Proof.
  intros H. unfold Editor360.createCustomFrameViews.
  rewrite H, generateCustomViews_runs. reflexivity.
Qed.









End Configuration.

(* ================================================================== *)
(** * The threshold that is applied *)
(* ================================================================== *)

Section Threshold.
Import JS.

Lemma max_cases (a b : number) : max a b = NaN \/ max a b = a \/ max a b = b.
Proof.
  unfold max. destruct a, b; auto; destruct (ltb _ _); auto.
Qed.














End Threshold.

(* ================================================================== *)
(** * The sharpness score *)
(* ================================================================== *)

Section Sharpness.
Import JS.
Import Scorer.

Lemma fold_left_invariant {S A : Type} (P : S -> Prop) (f : S -> A -> S) (l : list A) :
  (forall s a, In a l -> P s -> P (f s a)) ->
  forall init, P init -> P (fold_left f l init).
Proof.
  induction l as [|a l IH]; intros Hf init Hi; simpl; [exact Hi|].
  apply IH.
  - intros s b Hb. apply Hf. right. exact Hb.
  - apply Hf; [left; reflexivity | exact Hi].
Qed.

Lemma Qsquare_nonneg (d : Q) : 0 <= d * d.
Proof.
  destruct (Qlt_le_dec d 0) as [H | H].
  - assert (E : d * d == (- d) * (- d)) by ring. rewrite E.
    apply Qmult_le_0_compat; lra.
  - apply Qmult_le_0_compat; exact H.
Qed.

Lemma in_interior (n x : nat) : In x (interior n) <-> (1 <= x /\ x + 1 < n)%nat.
Proof. unfold interior. rewrite in_seq. lia. Qed.

Lemma add_finite (a b : number) :
  isFinite a = true -> isFinite b = true -> isFinite (a + b)%js = true.
Proof. destruct a, b; simpl; intros; try discriminate; reflexivity. Qed.

Lemma sub_finite (a b : number) :
  isFinite a = true -> isFinite b = true -> isFinite (a - b)%js = true.
Proof. destruct a, b; simpl; intros; try discriminate; reflexivity. Qed.

Lemma mul_finite (a b : number) :
  isFinite a = true -> isFinite b = true -> isFinite (a * b)%js = true.
Proof. destruct a, b; simpl; intros; try discriminate; reflexivity. Qed.

Lemma length_update {A : Type} (l : list A) (v : A) :
  forall n, List.length (update l n v) = List.length l.
Proof.
  induction l as [|h t IH]; intros [|n]; simpl; try reflexivity.
  rewrite IH. reflexivity.
Qed.

Lemma Forall_update {A : Type} (P : A -> Prop) (l : list A) (v : A) :
  Forall P l -> P v -> forall n, Forall P (update l n v).
Proof.
  intros Hl Hv. induction Hl as [|h t Hh Ht IH]; intros [|n]; simpl;
    constructor; auto.
Qed.

Lemma getU8_finite (arr : list Z) (i : Z) :
  (0 <= i < Z.of_nat (List.length arr))%Z -> isFinite (getU8 arr i) = true.
Proof.
  intros Hi. unfold getU8.
  destruct (i <? 0)%Z eqn:E; [apply Z.ltb_lt in E; lia|].
  destruct (nth_error arr (Z.to_nat i)) eqn:N; [reflexivity|].
  apply nth_error_None in N. lia.
Qed.

Lemma getF32_finite (arr : list number) (i : Z) :
  Forall (fun x => isFinite x = true) arr ->
  (0 <= i < Z.of_nat (List.length arr))%Z -> isFinite (getF32 arr i) = true.
Proof.
  intros Ha Hi. unfold getF32.
  destruct (i <? 0)%Z eqn:E; [apply Z.ltb_lt in E; lia|].
  rewrite Forall_forall in Ha. apply Ha. apply nth_In. lia.
Qed.

Lemma length_toGray (data : list Z) (width height : nat) :
  List.length (toGray data width height) = (width * height)%nat.
Proof.
  unfold toGray.
  apply (fold_left_invariant (fun g => List.length g = (width * height)%nat)).
  - intros g k _ Hg. unfold grayStep, setU8.
    destruct (_ <? 0)%Z; [exact Hg|]. rewrite length_update. exact Hg.
  - apply repeat_length.
Qed.

(** The indices read around an interior pixel lie inside the image. *)
Lemma interior_index (width height y x : nat) :
  In y (interior height) -> In x (interior width) ->
  let i := Z.of_nat (y * width + x) in
  (0 <= i - Z.of_nat width /\ i + Z.of_nat width < Z.of_nat (width * height)
   /\ 0 <= i - 1 /\ i + 1 < Z.of_nat (width * height))%Z.
Proof.
  intros Hy Hx i. apply in_interior in Hy, Hx. subst i. nia.
Qed.

Lemma laplacianPass_ok (grayData : list Z) (width height : nat) :
  List.length grayData = (width * height)%nat ->
  Spec.lapOk width height (laplacianPass grayData width height).
Proof.
  intros Hg. unfold laplacianPass.
  apply (fold_left_invariant (Spec.lapOk width height)).
  - intros acc y Hy Hacc.
    apply (fold_left_invariant (Spec.lapOk width height)); [|exact Hacc].
    intros a x Hx [Ha1 [Ha2 Ha3]].
    pose proof (interior_index width height y x Hy Hx) as Hi. cbv zeta in Hi.
    assert (Hval : isFinite
              (getU8 grayData (Z.of_nat (y * width + x) - Z.of_nat width)
               + getU8 grayData (Z.of_nat (y * width + x) + Z.of_nat width)
               + getU8 grayData (Z.of_nat (y * width + x) - 1)
               + getU8 grayData (Z.of_nat (y * width + x) + 1)
               - num 4 * getU8 grayData (Z.of_nat (y * width + x)))%js = true).
    { apply sub_finite; [repeat apply add_finite | apply mul_finite; [reflexivity|]];
        apply getU8_finite; rewrite Hg; lia. }
    unfold Spec.lapOk, laplacianStep. cbn [laplacianData sum].
    split; [|split].
    + unfold setF32. destruct (_ <? 0)%Z; [exact Ha1|].
      apply Forall_update; assumption.
    + unfold setF32. destruct (_ <? 0)%Z; [exact Ha2|].
      rewrite length_update. exact Ha2.
    + apply add_finite; assumption.
  - unfold Spec.lapOk. cbn [laplacianData sum]. split; [|split].
    + apply Forall_forall. intros x Hx. apply repeat_spec in Hx. subst x. reflexivity.
    + apply repeat_length.
    + reflexivity.
Qed.

Lemma count_inner (grayData : list Z) (width y : nat) (xs : list nat) :
  forall acc, count (fold_left (laplacianStep grayData width y) xs acc)
              = (count acc + List.length xs)%nat.
Proof.
  induction xs as [|x xs IH]; intros acc; simpl; [lia|].
  rewrite IH. simpl. lia.
Qed.

Lemma count_laplacianPass (grayData : list Z) (width height : nat) :
  count (laplacianPass grayData width height) = ((height - 2) * (width - 2))%nat.
Proof.
  unfold laplacianPass.
  assert (H : forall ys acc,
             count (fold_left
                      (fun acc y => fold_left (laplacianStep grayData width y)
                                              (interior width) acc) ys acc)
             = (count acc + List.length ys * (width - 2))%nat).
  { induction ys as [|y ys IH]; intros acc; simpl; [lia|].
    rewrite IH, count_inner. unfold interior. rewrite length_seq. lia. }
  rewrite H. unfold interior. rewrite length_seq. simpl. reflexivity.
Qed.

Lemma variancePass_nonneg (lap : list number) (m : Q) (width height : nat) :
  Forall (fun x => isFinite x = true) lap ->
  List.length lap = (width * height)%nat ->
  exists v, variancePass lap (Fin m) width height = Fin v /\ 0 <= v.
Proof.
  intros Hl Hlen. unfold variancePass.
  apply (fold_left_invariant (fun acc => exists v, acc = Fin v /\ 0 <= v)).
  - intros acc y Hy Hacc.
    apply (fold_left_invariant (fun acc => exists v, acc = Fin v /\ 0 <= v)); [|exact Hacc].
    intros a x Hx [v [-> Hv]].
    pose proof (interior_index width height y x Hy Hx) as Hi. cbv zeta in Hi.
    unfold varianceStep.
    assert (Hr : isFinite (getF32 lap (Z.of_nat (y * width + x))) = true)
      by (apply getF32_finite; [exact Hl | rewrite Hlen; lia]).
    destruct (getF32 lap (Z.of_nat (y * width + x))) as [| |r|]; try discriminate Hr.
    unfold pow2. cbn [sub neg add mul]. unfold fin.
    eexists. split; [reflexivity|].
    rewrite !Qred_correct.
    pose proof (Qsquare_nonneg (r + - m)). lra.
  - exists 0. split; [reflexivity | apply Qle_refl].
Qed.

Lemma fold_left_const {S A : Type} (l : list A) (s : S) :
  fold_left (fun acc _ => acc) l s = s.
Proof. induction l; simpl; auto. Qed.

Lemma div_count_nonneg (v : Q) (c : nat) :
  0 <= v -> (0 < c)%nat -> exists r, (Fin v / ofNat c)%js = Fin r /\ 0 <= r.
Proof.
  intros Hv Hc. unfold ofNat, ofZ. cbn [div].
  assert (Hpos : 0 < inject_Z (Z.of_nat c)).
  { change 0 with (inject_Z 0). rewrite <- Zlt_Qlt. lia. }
  assert (Hz : Qeq_bool (inject_Z (Z.of_nat c)) 0 = false).
  { destruct (Qeq_bool (inject_Z (Z.of_nat c)) 0) eqn:E; [|reflexivity].
    apply Qeq_bool_iff in E. rewrite E in Hpos. discriminate Hpos. }
  rewrite Hz. unfold fin. eexists. split; [reflexivity|].
  rewrite Qred_correct. apply Qle_shift_div_l; [exact Hpos|]. lra.
Qed.

Lemma div_count_finite (s : number) (c : nat) :
  isFinite s = true -> (0 < c)%nat -> exists m, (s / ofNat c)%js = Fin m.
Proof.
  intros Hs Hc. destruct s as [| |q|]; try discriminate Hs.
  unfold ofNat, ofZ. cbn [div].
  assert (Hz : Qeq_bool (inject_Z (Z.of_nat c)) 0 = false).
  { destruct (Qeq_bool (inject_Z (Z.of_nat c)) 0) eqn:E; [|reflexivity].
    apply Qeq_bool_iff in E. unfold Qeq in E. simpl in E. lia. }
  rewrite Hz. eexists. reflexivity.
Qed.

(** Counterexample to C4: a 2 x 2 frame, and a 5 x 2 one, are scored
    [NaN] (0 / 0) and no error is signalled. *)
Lemma tiny_frame_scores_NaN :
  computeLaplacianVariance (Examples.checker 2) 2 2 = Ok NaN
  /\ computeLaplacianVariance (Examples.checker 5) 5 2 = Ok NaN.
Proof. split; vm_compute; reflexivity. Qed.

(** C4, amended.  [computeLaplacianVariance] checks no dimension.  For
    a width or height of 1 or 2 it returns [NaN] (the mean of no
    interior pixel, 0 / 0) and signals nothing; only a width or height
    of 0 fails, with the [IndexSizeError] that the canvas read-back
    raises.  For every input whose dimensions are both at least 3 it
    returns a finite value [>= 0]. *)
Theorem computeLaplacianVariance_total (ctx : DOM.Canvas) (width height : nat) :
  ((width = 0 \/ height = 0)%nat ->
     computeLaplacianVariance ctx width height = Throw (DOMException "IndexSizeError"))
  /\ ((0 < width)%nat -> (0 < height)%nat -> (width < 3 \/ height < 3)%nat ->
        computeLaplacianVariance ctx width height = Ok NaN)
  /\ ((3 <= width)%nat -> (3 <= height)%nat ->
        exists v, computeLaplacianVariance ctx width height = Ok (Fin v) /\ 0 <= v).
Proof.
  unfold computeLaplacianVariance, DOM.getImageData.
  split; [|split].
  - intros [-> | ->]; [reflexivity|].
    rewrite Nat.eqb_refl, orb_true_r. reflexivity.
  - intros Hw Hh Hsmall.
    destruct width as [|w]; [lia|]. destruct height as [|h]; [lia|].
    cbn [Nat.eqb orb].
    match goal with |- context [toGray ?d _ _] => generalize d end. intros data.
    assert (Hl : laplacianPass (toGray data (S w) (S h)) (S w) (S h)
                 = {| laplacianData := repeat (num 0) (S w * S h);
                      sum := num 0; count := 0 |}).
    { unfold laplacianPass. destruct Hsmall as [Hs | Hs].
      - replace (interior (S w)) with (@nil nat)
          by (unfold interior; replace (S w - 2)%nat with O by lia; reflexivity).
        cbn [fold_left]. apply fold_left_const.
      - replace (interior (S h)) with (@nil nat)
          by (unfold interior; replace (S h - 2)%nat with O by lia; reflexivity).
        reflexivity. }
    rewrite Hl. cbn [laplacianData sum count].
    assert (Hv : forall lap mean, variancePass lap mean (S w) (S h) = num 0).
    { intros lap mean. unfold variancePass. destruct Hsmall as [Hs | Hs].
      - replace (interior (S w)) with (@nil nat)
          by (unfold interior; replace (S w - 2)%nat with O by lia; reflexivity).
        cbn [fold_left]. apply fold_left_const.
      - replace (interior (S h)) with (@nil nat)
          by (unfold interior; replace (S h - 2)%nat with O by lia; reflexivity).
        reflexivity. }
    rewrite Hv. reflexivity.
  - intros Hw Hh.
    destruct width as [|w]; [lia|]. destruct height as [|h]; [lia|].
    cbn [Nat.eqb orb].
    match goal with |- context [toGray ?d _ _] => generalize d end. intros data.
    pose proof (laplacianPass_ok (toGray data (S w) (S h)) (S w) (S h)
                  (length_toGray data (S w) (S h))) as [Hfin [Hlen Hsum]].
    pose proof (count_laplacianPass (toGray data (S w) (S h)) (S w) (S h)) as Hc.
    assert (Hpos : (0 < count (laplacianPass (toGray data (S w) (S h)) (S w) (S h)))%nat)
      by (rewrite Hc; nia).
    cbv zeta.
    destruct (div_count_finite _ _ Hsum Hpos) as [m Hm]. rewrite Hm.
    destruct (variancePass_nonneg _ m (S w) (S h) Hfin Hlen) as [v [Hv Hv0]].
    rewrite Hv.
    destruct (div_count_nonneg v _ Hv0 Hpos) as [r [Hr Hr0]].
    exists r. rewrite Hr. split; [reflexivity | exact Hr0].
Qed.

Lemma computeLaplacianVariance_total_witness :
  (exists v, computeLaplacianVariance (Examples.checker 4) 4 4 = Ok (Fin v) /\ 0 <= v)
  /\ computeLaplacianVariance (Examples.checker 3) 3 1 = Ok NaN.
Proof.
  split.
  - destruct (computeLaplacianVariance_total (Examples.checker 4) 4 4) as [_ [_ H]].
    apply H; repeat constructor.
  - destruct (computeLaplacianVariance_total (Examples.checker 3) 3 1) as [_ [H _]].
    apply H; [repeat constructor | repeat constructor | right; repeat constructor].
Defined.

End Sharpness.

(* ================================================================== *)
(** * The analysis runs *)
(* ================================================================== *)

Section SampleTimes.
Import JS.
Import Sampling.

Variables (d f : Q).
Hypothesis Hd : 0 <= d.
Hypothesis Hf : 0 < f.

Lemma fps_nonzero : Qeq_bool f 0 = false.
Proof.
  destruct (Qeq_bool f 0) eqn:E; [|reflexivity].
  apply Qeq_bool_iff in E. rewrite E in Hf. discriminate Hf.
Qed.

Lemma totalFrames_value :
  floor (Fin d * Fin f)%js = ofZ (Qfloor (d * f)).
Proof.
  cbn [mul floor]. unfold fin. cbn [floor]. rewrite Qred_correct. reflexivity.
Qed.

Lemma lastIndex_value : lastIndex (Fin d) (Fin f) = Z.to_nat (Qfloor (d * f)).
Proof.
  unfold lastIndex. rewrite totalFrames_value. unfold toNat, ofZ, Qtrunc. simpl.
  rewrite Z.quot_1_r. reflexivity.
Qed.

Lemma Qfloor_nonneg : (0 <= Qfloor (d * f))%Z.
Proof.
  change 0%Z with (Qfloor 0). apply Qfloor_resp_le. nra.
Qed.

Lemma sampleTime_value (i : nat) :
  exists t, sampleTime (Fin f) i = Fin t /\ t == inject_Z (Z.of_nat i) / f.
Proof.
  unfold sampleTime, num, ofNat, ofZ. cbn [div]. rewrite fps_nonzero.
  unfold fin. cbn [mul]. unfold fin. eexists. split; [reflexivity|].
  rewrite !Qred_correct. field. intro E. rewrite E in Hf. discriminate Hf.
Qed.

Lemma guard_in (i : nat) :
  (i <= lastIndex (Fin d) (Fin f))%nat ->
  (ofNat i <=? floor (Fin d * Fin f)%js)%js = true.
Proof.
  rewrite lastIndex_value, totalFrames_value. intros Hi.
  unfold ofNat, ofZ. cbn [leb]. apply Qle_bool_iff. rewrite <- Zle_Qle.
  pose proof Qfloor_nonneg. lia.
Qed.

Lemma sampleTime_within (i : nat) :
  (i <= lastIndex (Fin d) (Fin f))%nat ->
  (sampleTime (Fin f) i <=? Fin d)%js = true.
Proof.
  rewrite lastIndex_value. intros Hi.
  destruct (sampleTime_value i) as [t [-> Ht]].
  cbn [leb]. apply Qle_bool_iff. rewrite Ht.
  apply Qle_shift_div_r; [exact Hf|].
  pose proof (Qfloor_le (d * f)) as Hfl.
  assert (inject_Z (Z.of_nat i) <= inject_Z (Qfloor (d * f))).
  { rewrite <- Zle_Qle. pose proof Qfloor_nonneg. lia. }
  lra.
Qed.

Lemma sampleTime_not_past (i : nat) :
  (i <= lastIndex (Fin d) (Fin f))%nat ->
  (sampleTime (Fin f) i >? Fin d)%js = false.
Proof.
  intros Hi. unfold gtb. apply ltb_leb_false. apply sampleTime_within. exact Hi.
Qed.

End SampleTimes.

Section PlanarRun.
Import JS.
Import Sampling.

Variable drawFrame : number -> nat -> nat -> result DOM.Canvas.
Variable video : Video.t.
Variables (d f : Q).
Hypothesis Hdur : Video.duration video = Fin d.
Hypothesis Hd : 0 <= d.
Hypothesis Hf : 0 < f.

Let interval : number := (num 1 / Fin f)%js.
Let total : number := floor (Fin d * Fin f)%js.
Let N : nat := lastIndex (Fin d) (Fin f).

(** The world while the loop runs, [n] samples taken. *)
Let running (b : bool) (st0 : Editor.EditorState) (v0 : Video.t) (c : bool)
    (con : list string) (n : nat) : Editor.World :=
  planarWorld
    (Editor.withAnalysis b (progressReport total n)
                         (planarSamples drawFrame video (Fin f) n) st0)
    (videoAfter (Fin f) v0 n) c con.

Lemma planarSamples_S (n : nat) :
  planarSamples drawFrame video (Fin f) (S n)
  = planarSamples drawFrame video (Fin f) n
    ++ [ {| FrameData.time := sampleTime (Fin f) n;
            FrameData.variance :=
              valueOf (planarScore drawFrame video (sampleTime (Fin f) n)) |} ].
Proof.
  unfold planarSamples. rewrite seq_S, map_app. reflexivity.
Qed.

(** One iteration whose frame is decoded and scored. *)
Lemma runAnalysis_loop_step (fuel i : nat) (v : number) (b : bool)
      (st0 : Editor.EditorState) (v0 : Video.t) (c : bool) (con : list string) :
  (i <= N)%nat ->
  planarScore drawFrame video (sampleTime (Fin f) i) = Ok v ->
  Editor.runAnalysis_loop drawFrame video interval total (S fuel) i
    (planarSamples drawFrame video (Fin f) i) (running b st0 v0 c con i)
  = Editor.runAnalysis_loop drawFrame video interval total fuel (S i)
      (planarSamples drawFrame video (Fin f) (S i)) (running b st0 v0 c con (S i)).
Proof.
  intros Hi Hscore. unfold running.
  cbn [Editor.runAnalysis_loop].
  unfold total at 1. rewrite (guard_in d f Hd Hf i Hi).
  change (ofNat i * interval)%js with (sampleTime (Fin f) i).
  rewrite Hdur, (sampleTime_not_past d f Hd Hf i Hi).
  rewrite !planarSamples_S, Hscore. cbn [valueOf].
  unfold planarScore in Hscore.
  destruct (analysisSize (Video.videoWidth video) (Video.videoHeight video)) as [wd ht].
  cbv beta iota.
  destruct (drawFrame (sampleTime (Fin f) i) wd ht) as [ctx|e]; [|discriminate Hscore].
  unfold Run.bind, Run.modify, Run.lift, Run.ret. cbv beta iota.
  rewrite Hscore. cbv beta iota.
  rewrite Nat.add_1_r. destruct i; reflexivity.
Qed.

(** One iteration whose frame cannot be decoded or scored. *)
Lemma runAnalysis_loop_throw (fuel i : nat) (e : exn) (b : bool)
      (st0 : Editor.EditorState) (v0 : Video.t) (c : bool) (con : list string) :
  (i <= N)%nat ->
  planarScore drawFrame video (sampleTime (Fin f) i) = Throw e ->
  Editor.runAnalysis_loop drawFrame video interval total (S fuel) i
    (planarSamples drawFrame video (Fin f) i) (running b st0 v0 c con i)
  = Some (Throw e,
          planarWorld
            (Editor.withAnalysis b (progressReport total i)
                                 (planarSamples drawFrame video (Fin f) i) st0)
            (videoAfter (Fin f) v0 (S i)) c con).
Proof.
  intros Hi Hscore.
  cbn [Editor.runAnalysis_loop].
  unfold total at 1. rewrite (guard_in d f Hd Hf i Hi).
  change (ofNat i * interval)%js with (sampleTime (Fin f) i).
  rewrite Hdur, (sampleTime_not_past d f Hd Hf i Hi).
  unfold planarScore in Hscore.
  destruct (analysisSize (Video.videoWidth video) (Video.videoHeight video)) as [wd ht].
  cbv beta iota.
  unfold Run.bind, Run.modify, Run.lift, Run.ret, Run.throw.
  destruct (drawFrame (sampleTime (Fin f) i) wd ht) as [ctx|e']; cbv beta iota.
  - rewrite Hscore. cbv beta iota. destruct i; reflexivity.
  - injection Hscore as ->. destruct i; reflexivity.
Qed.

(** The frame of sample [k] fails after [k] good samples: the loop
    stops with the exception and keeps what it has. *)
Lemma runAnalysis_loop_aborts (e : exn) (b : bool)
      (st0 : Editor.EditorState) (v0 : Video.t) (c : bool) (con : list string) (k : nat) :
  (k <= N)%nat ->
  planarScore drawFrame video (sampleTime (Fin f) k) = Throw e ->
  forall (n i fuel : nat),
    (i + n = k)%nat -> (n < fuel)%nat ->
    (forall j, (i <= j < k)%nat ->
               exists v, planarScore drawFrame video (sampleTime (Fin f) j) = Ok v) ->
    Editor.runAnalysis_loop drawFrame video interval total fuel i
      (planarSamples drawFrame video (Fin f) i) (running b st0 v0 c con i)
    = Some (Throw e,
            planarWorld
              (Editor.withAnalysis b (progressReport total k)
                                   (planarSamples drawFrame video (Fin f) k) st0)
              (videoAfter (Fin f) v0 (S k)) c con).
Proof.
  intros Hk Hfail.
  induction n as [|n IH]; intros i fuel Hin Hfuel Hok.
  - destruct fuel as [|fuel]; [lia|].
    assert (i = k) by lia. subst i.
    apply runAnalysis_loop_throw; assumption.
  - destruct fuel as [|fuel]; [lia|].
    destruct (Hok i) as [v Hv]; [lia|].
    rewrite (runAnalysis_loop_step fuel i v) by (try assumption; lia).
    apply IH; [lia | lia |]. intros j Hj. apply Hok. lia.
Qed.

(** The run up to its loop. *)
Lemma runAnalysis_unfold (st : Editor.EditorState) (con : list string) (fuel : nat) :
  Editor.fps st = Fin f ->
  Editor.runAnalysis drawFrame fuel (planarWorld st video true con)
  = Run.tryCatchFinally
      (Editor.runAnalysis_loop drawFrame video interval total fuel 0
         (planarSamples drawFrame video (Fin f) 0))
      (fun _ => Run.modify (Editor.consoleError "Error processing video:"))
      (Run.bind (Run.modify (Editor.onState (Editor.setIsProcessing false)))
                (fun _ => Run.modify (Editor.onVideo
                                        (Video.setCurrentTime (Video.currentTime video)))))
      (running true st (Video.pause video) true con 0).
Proof.
  intros Hfps. unfold Editor.runAnalysis, planarWorld. cbn [Editor.videoRef Editor.canvasRef].
  cbn [Editor.state]. rewrite Hfps, Hdur. reflexivity.
Qed.

Lemma runAnalysis_aborts (st : Editor.EditorState) (con : list string) (extra : nat)
      (k : nat) (e : exn) :
  Editor.fps st = Fin f ->
  (k <= N)%nat ->
  planarScore drawFrame video (sampleTime (Fin f) k) = Throw e ->
  (forall j, (j < k)%nat ->
             exists v, planarScore drawFrame video (sampleTime (Fin f) j) = Ok v) ->
  Editor.runAnalysis drawFrame (k + 1 + extra) (planarWorld st video true con)
  = Some (Ok tt,
          planarWorld
            (Editor.withAnalysis false (progressReport total k)
                                 (planarSamples drawFrame video (Fin f) k) st)
            (Video.setCurrentTime (Video.currentTime video) (Video.pause video))
            true (con ++ ["Error processing video:"%string])).
Proof.
  intros Hfps Hk Hfail Hok. rewrite (runAnalysis_unfold st con _ Hfps).
  unfold Run.tryCatchFinally.
  rewrite (runAnalysis_loop_aborts e true st (Video.pause video) true con k Hk Hfail k 0)
    by (try lia; intros j Hj; apply Hok; lia).
  reflexivity.
Qed.

End PlanarRun.

Section MultiViewRun.
Import JS.
Import Sampling.

Variable drawSource : number -> result DOM.Canvas.
Variable extractCubemapFace :
  DOM.Canvas -> Video360.CubemapFace -> nat -> result DOM.Canvas.
Variable extractPerspectiveView :
  DOM.Canvas -> number -> number -> number -> nat -> nat -> result DOM.Canvas.
Variable video : Video.t.
Variables (d f : Q).
Hypothesis Hdur : Video.duration video = Fin d.
Hypothesis Hd : 0 <= d.
Hypothesis Hf : 0 < f.
Variable views0 : list FrameView.t.
Hypothesis Hids : NoDup (map FrameView.id views0).

Let interval : number := (num 1 / Fin f)%js.
Let total : number := floor (Fin d * Fin f)%js.
Let totalOperations : number := (total * ofNat (List.length views0))%js.
Let N : nat := lastIndex (Fin d) (Fin f).

(** A view with its first [n] samples. *)
Let sampled (n : nat) (view : FrameView.t) : FrameView.t :=
  FrameView.withFrameData
    (viewSamples drawSource extractCubemapFace extractPerspectiveView (Fin f) n view) view.

Let score := viewScore extractCubemapFace extractPerspectiveView.




(** The world while the loop runs, [n] frames analysed. *)
Let running (b : bool) (st0 : Editor360.Editor360State) (v0 : Video.t) (c : bool)
    (con : list string) (n : nat) : Editor360.World :=
  world360
    (analysed360 b (progressReport totalOperations (n * List.length views0))
                 (map (sampled n) views0) st0)
    (videoAfter (Fin f) v0 n) c con.

Let loop := Editor360.runMultiViewAnalysis_loop drawSource extractCubemapFace
              extractPerspectiveView video interval total totalOperations views0.

(** Frame [j] is decoded and every view of it is extracted and scored. *)
Let frameOk (j : nat) : Prop :=
  exists src, drawSource (sampleTime (Fin f) j) = Ok src
              /\ forall view, In view views0 -> exists x, score src view = Ok x.






End MultiViewRun.

Section Runs.
Import JS.
Import Sampling.





End Runs.

(* ================================================================== *)
(** * The samples of a run, on binary64 *)
(* ================================================================== *)

Section Binary64Order.
Import SpecFloat.

Lemma SFleb_ltb_trans (x y z : spec_float) :
  SFleb x y = true -> SFltb y z = true -> SFltb x z = true.
Proof.
  unfold SFleb, SFltb, SFcompare.
  destruct x as [sx|sx| |sx mx ex], y as [sy|sy| |sy my ey], z as [sz|sz| |sz mz ez];
    try discriminate; try reflexivity;
    try destruct sx; try destruct sy; try destruct sz;
    try discriminate; try reflexivity.
  all: change (Pos.compare_cont Eq mx my) with (Pos.compare mx my);
       change (Pos.compare_cont Eq my mz) with (Pos.compare my mz);
       change (Pos.compare_cont Eq mx mz) with (Pos.compare mx mz).
  all: destruct (Z.compare_spec ex ey); destruct (Z.compare_spec ey ez);
       destruct (Z.compare_spec ex ez); try lia; try discriminate; try reflexivity;
       subst.
  all: destruct (Pos.compare_spec mx my); destruct (Pos.compare_spec my mz);
       destruct (Pos.compare_spec mx mz); simpl; try lia; try discriminate; try reflexivity.
Qed.

(** [x <= y] and [y < z] give [x < z] on binary64. *)
Lemma leb_ltb_trans (x y z : PrimFloat.float) :
  PrimFloat.leb x y = true -> PrimFloat.ltb y z = true -> PrimFloat.ltb x z = true.
Proof.
  rewrite FloatAxioms.leb_spec, !FloatAxioms.ltb_spec. apply SFleb_ltb_trans.
Qed.

End Binary64Order.

Section Schedule64.
Import PrimFloat.
Import Binary64.
Import Sampling64.

(** A test that fails at [K] fails first at some index up to [K]. *)
Lemma first_refused (p : nat -> bool) :
  forall K, p K = false ->
    exists k, (k <= K)%nat /\ (forall j, (j < k)%nat -> p j = true) /\ p k = false.
Proof.
  induction K as [K IH] using lt_wf_ind. intros HK.
  destruct (forallb p (seq 0 K)) eqn:E.
  - exists K. split; [lia|]. split; [|exact HK].
    intros j Hj. rewrite forallb_forall in E. apply E. apply in_seq. lia.
  - assert (Hex : exists j, (j < K)%nat /\ p j = false).
    { clear IH HK. induction K as [|K IHK]; [discriminate E|].
      rewrite seq_S, forallb_app in E. cbn [forallb Nat.add] in E.
      destruct (forallb p (seq 0 K)) eqn:E'.
      - exists K. split; [lia|]. destruct (p K); [discriminate E | reflexivity].
      - destruct (IHK eq_refl) as [j [Hj Hp]]. exists j. split; [lia | exact Hp]. }
    destruct Hex as [j [Hj Hp]].
    destruct (IH j Hj Hp) as [k [Hk H]]. exists k. split; [lia | exact H].
Qed.

Lemma increasingFrom_sound (fps : float) :
  forall (fuel a : nat),
    increasingFrom fuel fps (Z.of_nat a) = true ->
    forall i, (a <= i < a + fuel)%nat ->
      (sampleTime fps i <? sampleTime fps (S i))%float = true.
Proof.
  induction fuel as [|fuel IH]; intros a H i Hi; [lia|].
  cbn [increasingFrom] in H.
  destruct (timeOf fps (Z.of_nat a) <? timeOf fps (Z.of_nat a + 1))%float eqn:E;
    [|discriminate H].
  replace (Z.of_nat a + 1)%Z with (Z.of_nat (S a)) in * by lia.
  destruct (Nat.eq_dec i a) as [-> | Hne]; [exact E|].
  apply (IH (S a) H). lia.
Qed.

(** For the rates of the menu the sample times of a day are strictly
    increasing, and the first index past the day is past any duration
    of at most a day. *)
Lemma menu_increasing (r : nat) :
  In r menu ->
  forall i, (i < pastDay r)%nat ->
    (sampleTime (ofNat r) i <? sampleTime (ofNat r) (S i))%float = true.
Proof.
  intros Hr i Hi.
  assert (H : increasingFrom (pastDay r) (ofNat r) (Z.of_nat 0) = true).
  { destruct Hr as [<- | [<- | [<- | []]]]; vm_compute; reflexivity. }
  apply (increasingFrom_sound (ofNat r) _ 0 H). lia.
Qed.

Lemma menu_past_day (r : nat) (duration : float) :
  In r menu -> (duration <=? day)%float = true ->
  taken duration (ofNat r) (pastDay r) = false.
Proof.
  intros Hr Hd. unfold taken.
  assert (H : (day <? sampleTime (ofNat r) (pastDay r))%float = true).
  { destruct Hr as [<- | [<- | [<- | []]]]; vm_compute; reflexivity. }
  rewrite (leb_ltb_trans _ _ _ Hd H). apply andb_false_r.
Qed.

Lemma increasing_map (t v : nat -> float) :
  forall n a,
    (forall i, (a <= i)%nat -> (S i < a + n)%nat -> (t i <? t (S i))%float = true) ->
    increasing (map (fun i => {| FrameData64.time := t i; FrameData64.variance := v i |})
                    (seq a n)).
Proof.
  induction n as [|n IH]; intros a H; [exact I|].
  cbn [seq map increasing]. split.
  - destruct n as [|n]; [exact I|]. cbn [seq map FrameData64.time]. apply H; lia.
  - apply IH. intros i H1 H2. apply H; lia.
Qed.

(** The schedule of a day at a rate of the menu. *)
Lemma menu_schedule (r : nat) (duration : float) :
  In r menu -> (duration <=? day)%float = true ->
  exists k, (k <= pastDay r)%nat /\ stopsAt duration (ofNat r) k
    /\ (forall i, (S i < k)%nat ->
          (sampleTime (ofNat r) i <? sampleTime (ofNat r) (S i))%float = true).
Proof.
  intros Hr Hd.
  destruct (first_refused (taken duration (ofNat r)) _ (menu_past_day r duration Hr Hd))
    as [k [Hk Hstop]].
  exists k. split; [exact Hk|]. split; [exact Hstop|].
  intros i Hi. apply (menu_increasing r Hr). lia.
Qed.

End Schedule64.

Section PlanarRun64.
Import PrimFloat.
Import Binary64.
Import Sampling64.

Variable seeked : float -> bool.
Variable analyseFrame : float -> result float.
Variable video : Video64.t.
Variable fps : float.

Let d : float := Video64.duration video.
Let interval : float := (1 / fps)%float.
Let total : float := totalFrames d fps.

(** Frame [j] is reached and scored. *)
Let frameOk (j : nat) : Prop :=
  seeked (sampleTime fps j) = true
  /\ exists v, analyseFrame (sampleTime fps j) = Ok v.

(** The world while the loop runs, [n] samples taken. *)
Let running (b : bool) (st0 : Editor64.EditorState) (v0 : Video64.t) (c : bool)
    (con : list string) (n : nat) : Editor64.World :=
  planarWorld
    (analysed b (progressReport total n) (planarSamples analyseFrame fps n) st0)
    (videoAfter fps v0 n) c con.

Lemma planarSamples64_S (n : nat) :
  planarSamples analyseFrame fps (S n)
  = planarSamples analyseFrame fps n
    ++ [ {| FrameData64.time := sampleTime fps n;
            FrameData64.variance := valueOf (analyseFrame (sampleTime fps n)) |} ].
Proof. unfold planarSamples. rewrite seq_S, map_app. reflexivity. Qed.

Lemma taken_tests (i : nat) :
  taken d fps i = true ->
  (ofNat i <=? total)%float = true /\ (d <? sampleTime fps i)%float = false.
Proof.
  unfold taken. intros H. apply andb_true_iff in H. destruct H as [H1 H2].
  split; [exact H1|]. apply negb_true_iff in H2. exact H2.
Qed.

Lemma runAnalysis64_loop_step (fuel i : nat) (b : bool)
      (st0 : Editor64.EditorState) (v0 : Video64.t) (c : bool) (con : list string) :
  taken d fps i = true -> frameOk i ->
  Editor64.runAnalysis_loop seeked analyseFrame video interval total (S fuel) i
    (planarSamples analyseFrame fps i) (running b st0 v0 c con i)
  = Editor64.runAnalysis_loop seeked analyseFrame video interval total fuel (S i)
      (planarSamples analyseFrame fps (S i)) (running b st0 v0 c con (S i)).
Proof.
  intros Ht [Hseek [v Hv]]. destruct (taken_tests i Ht) as [H1 H2].
  unfold running. cbn [Editor64.runAnalysis_loop].
  rewrite H1. change (ofNat i * interval)%float with (sampleTime fps i).
  fold d. rewrite H2, Hseek, Hv.
  rewrite !planarSamples64_S, Hv. cbn [valueOf].
  unfold Run.bind, Run.modify, Run.lift, Run.ret. cbv beta iota.
  rewrite Nat.add_1_r. destruct i; reflexivity.
Qed.

(** The loop ends at [k]: it has taken the samples below [k]. *)
Lemma runAnalysis64_loop_completes (k : nat) (b : bool)
      (st0 : Editor64.EditorState) (v0 : Video64.t) (c : bool) (con : list string) :
  stopsAt d fps k ->
  forall (m i fuel : nat),
    (i + m = k)%nat -> (m < fuel)%nat ->
    (forall j, (i <= j < k)%nat -> frameOk j) ->
    Editor64.runAnalysis_loop seeked analyseFrame video interval total fuel i
      (planarSamples analyseFrame fps i) (running b st0 v0 c con i)
    = Some (Ok tt, running b st0 v0 c con k).
Proof.
  intros [Hbelow Hk].
  induction m as [|m IH]; intros i fuel Him Hfuel Hok.
  - destruct fuel as [|fuel]; [lia|].
    assert (i = k) by lia. subst i.
    cbn [Editor64.runAnalysis_loop].
    unfold taken in Hk. fold total in Hk.
    destruct (ofNat k <=? total)%float; [|reflexivity].
    cbn [andb] in Hk. apply negb_false_iff in Hk.
    change (ofNat k * interval)%float with (sampleTime fps k).
    fold d. rewrite Hk. reflexivity.
  - destruct fuel as [|fuel]; [lia|].
    rewrite (runAnalysis64_loop_step fuel i) by (try apply Hbelow; try apply Hok; lia).
    apply IH; [lia | lia |]. intros j Hj. apply Hok. lia.
Qed.

Lemma runAnalysis64_completes (k : nat) (st : Editor64.EditorState) (con : list string)
      (extra : nat) :
  Editor64.fps st = fps ->
  stopsAt d fps k ->
  (forall j, (j < k)%nat -> frameOk j) ->
  Editor64.runAnalysis seeked analyseFrame (k + 1 + extra) (planarWorld st video true con)
  = Some (Ok tt,
          planarWorld
            (analysed false (progressReport total k)
                      (planarSamples analyseFrame fps k) st)
            (Video64.setCurrentTime (Video64.currentTime video) (Video64.pause video))
            true con).
Proof.
  intros Hfps Hstop Hok.
  unfold Editor64.runAnalysis, planarWorld.
  cbn [Editor64.videoRef Editor64.canvasRef Editor64.state].
  rewrite Hfps. fold d interval. change (floor (d * fps)%float) with total.
  unfold Run.bind at 1. unfold Run.modify at 1.
  unfold Run.bind at 1. unfold Run.modify at 1.
  unfold Run.bind at 1. unfold Run.modify at 1.
  unfold Run.bind at 1. unfold Run.modify at 1.
  unfold Run.tryCatchFinally.
  change (Editor64.onVideo Video64.pause _)
    with (running true st (Video64.pause video) true con 0).
  change (@nil FrameData64.t) with (planarSamples analyseFrame fps 0).
  rewrite (runAnalysis64_loop_completes k true st (Video64.pause video) true con Hstop k 0)
    by (try lia; intros j Hj; apply Hok; lia).
  destruct k; reflexivity.
Qed.

End PlanarRun64.

Section MultiViewRun64.
Import PrimFloat.
Import Binary64.
Import Sampling64.

Variable seeked : float -> bool.
Variable drawSource : float -> result DOM.Canvas.
Variable viewVariance : DOM.Canvas -> MultiView64.FrameView -> result float.
Variable video : Video64.t.
Variable fps : float.
Variable views0 : list MultiView64.FrameView.
Hypothesis Hids : NoDup (map MultiView64.id views0).

Let d : float := Video64.duration video.
Let interval : float := (1 / fps)%float.
Let total : float := totalFrames d fps.
Let totalOperations : float := (total * ofNat (List.length views0))%float.

(** A view with its first [n] samples. *)
Let sampled (n : nat) (view : MultiView64.FrameView) : MultiView64.FrameView :=
  MultiView64.withFrameData (viewSamples drawSource viewVariance fps n view) view.

Lemma sampled64_S (i : nat) (src : DOM.Canvas) (x : float) (view : MultiView64.FrameView) :
  drawSource (sampleTime fps i) = Ok src ->
  viewVariance src view = Ok x ->
  MultiView64.withFrameData
    (MultiView64.frameData (sampled i view)
     ++ [ {| FrameData64.time := sampleTime fps i; FrameData64.variance := x |} ])
    (sampled i view)
  = sampled (S i) view.
Proof.
  intros Hsrc Hx. unfold sampled, viewSamples.
  assert (Hv : varianceAt drawSource viewVariance view (sampleTime fps i) = x).
  { unfold varianceAt. rewrite Hsrc, Hx. reflexivity. }
  rewrite seq_S, map_app. cbn [map Nat.add]. rewrite Hv. reflexivity.
Qed.

Lemma append64_elsewhere (id : string) (s : FrameData64.t) (n : nat)
      (l : list MultiView64.FrameView) :
  ~ In id (map MultiView64.id l) ->
  map (fun v => if String.eqb (MultiView64.id v) id
                then MultiView64.withFrameData (MultiView64.frameData v ++ [s]) v else v)
      (map (sampled n) l)
  = map (sampled n) l.
Proof.
  induction l as [|a l IH]; intros Hn; [reflexivity|].
  cbn [map] in *. rewrite IH by (intro H; apply Hn; right; exact H).
  replace (String.eqb (MultiView64.id (sampled n a)) id) with false; [reflexivity|].
  symmetry. apply String.eqb_neq. intro E. apply Hn. left. exact E.
Qed.

(** The views of one frame, all extracted and scored. *)
Lemma analyseViews64_completes (i : nat) (src : DOM.Canvas) (b : bool)
      (st0 : MultiView64.Editor360State) (v : Video64.t) (c : bool) (con : list string) :
  drawSource (sampleTime fps i) = Ok src ->
  forall (todo done : list MultiView64.FrameView) (ops : nat),
    NoDup (map MultiView64.id (done ++ todo)) ->
    (forall view, In view todo -> exists x, viewVariance src view = Ok x) ->
    MultiView64.analyseViews viewVariance totalOperations
      (sampleTime fps i) src todo ops
      (world360 (analysed360 b (progressReport totalOperations ops)
                             (map (sampled (S i)) done ++ map (sampled i) todo) st0)
                v c con)
    = Some (Ok (ops + List.length todo)%nat,
            world360 (analysed360 b (progressReport totalOperations (ops + List.length todo))
                                  (map (sampled (S i)) (done ++ todo)) st0)
                     v c con).
Proof.
  intros Hsrc. induction todo as [|view rest IH]; intros done ops Hnd Hok.
  - cbn [MultiView64.analyseViews List.length map]. rewrite Nat.add_0_r, !app_nil_r.
    reflexivity.
  - destruct (Hok view) as [x Hx]; [left; reflexivity|].
    cbn [MultiView64.analyseViews].
    unfold Run.bind, Run.lift, Run.modify, Run.ret, Run.throw.
    rewrite Hx. cbv beta iota.
    assert (Hnd' := Hnd). rewrite map_app in Hnd'. cbn [map] in Hnd'.
    apply NoDup_remove_2 in Hnd'.
    assert (Hdone : ~ In (MultiView64.id view) (map MultiView64.id done))
      by (intro H; apply Hnd'; apply in_or_app; left; exact H).
    assert (Hrest : ~ In (MultiView64.id view) (map MultiView64.id rest))
      by (intro H; apply Hnd'; apply in_or_app; right; exact H).
    specialize (IH (done ++ [view]) (S ops)).
    rewrite <- app_assoc in IH. cbn [app] in IH.
    specialize (IH Hnd (fun vw Hvw => Hok vw (or_intror Hvw))).
    rewrite map_app in IH. cbn [map] in IH. rewrite <- app_assoc in IH. cbn [app] in IH.
    cbn [List.length]. rewrite <- Nat.add_succ_comm. rewrite <- IH.
    f_equal. unfold world360. f_equal.
    unfold MultiView64.onState.
    cbn [MultiView64.state MultiView64.videoRef MultiView64.canvasRef MultiView64.console].
    f_equal.
    transitivity
      (analysed360 b (progressReport totalOperations (S ops))
         (map (fun v0 => if String.eqb (MultiView64.id v0) (MultiView64.id view)
                         then MultiView64.withFrameData
                                (MultiView64.frameData v0
                                 ++ [ {| FrameData64.time := sampleTime fps i;
                                         FrameData64.variance := x |} ]) v0
                         else v0)
              (map (sampled (S i)) done ++ map (sampled i) (view :: rest))) st0);
      [reflexivity|].
    f_equal.
    rewrite map_app. cbn [map].
    rewrite (append64_elsewhere (MultiView64.id view) _ (S i) done Hdone).
    rewrite (append64_elsewhere (MultiView64.id view) _ i rest Hrest).
    replace (String.eqb (MultiView64.id (sampled i view)) (MultiView64.id view)) with true
      by (symmetry; apply String.eqb_refl).
    rewrite (sampled64_S i src x view Hsrc Hx). reflexivity.
Qed.

(** The world while the loop runs, [n] frames analysed. *)
Let running (b : bool) (st0 : MultiView64.Editor360State) (v0 : Video64.t) (c : bool)
    (con : list string) (n : nat) : MultiView64.World :=
  world360
    (analysed360 b (progressReport totalOperations (n * List.length views0))
                 (map (sampled n) views0) st0)
    (videoAfter fps v0 n) c con.

Let loop := MultiView64.runMultiViewAnalysis_loop seeked drawSource viewVariance
              video interval total totalOperations views0.

(** Frame [j] is reached and decoded, and every view of it is
    extracted and scored. *)
Let frameOk (j : nat) : Prop :=
  seeked (sampleTime fps j) = true
  /\ exists src, drawSource (sampleTime fps j) = Ok src
                 /\ forall view, In view views0 -> exists x, viewVariance src view = Ok x.

Lemma runMultiViewAnalysis64_loop_step (fuel i : nat) (b : bool)
      (st0 : MultiView64.Editor360State) (v0 : Video64.t) (c : bool) (con : list string) :
  taken d fps i = true -> frameOk i ->
  loop (S fuel) i (i * List.length views0)%nat (running b st0 v0 c con i)
  = loop fuel (S i) (S i * List.length views0)%nat (running b st0 v0 c con (S i)).
Proof.
  intros Ht [Hseek [src [Hsrc Hok]]]. unfold loop, running.
  destruct (taken_tests video fps i Ht) as [H1 H2].
  cbn [MultiView64.runMultiViewAnalysis_loop].
  fold d total in H1, H2. rewrite H1.
  change (ofNat i * interval)%float with (sampleTime fps i).
  fold d. rewrite H2, Hseek.
  unfold Run.bind at 1. unfold Run.modify at 1.
  unfold Run.bind at 1. unfold Run.ret at 1.
  unfold Run.bind at 1. unfold Run.lift at 1. rewrite Hsrc. unfold Run.ret at 1.
  unfold Run.bind at 1.
  change (MultiView64.onVideo (Video64.setCurrentTime (sampleTime fps i))
            (world360
               (analysed360 b (progressReport totalOperations (i * List.length views0))
                            (map (sampled i) views0) st0)
               (videoAfter fps v0 i) c con))
    with (world360
            (analysed360 b (progressReport totalOperations (i * List.length views0))
                         (map (sampled (S i)) [] ++ map (sampled i) views0) st0)
            (Video64.setCurrentTime (sampleTime fps i) (videoAfter fps v0 i)) c con).
  rewrite (analyseViews64_completes i src b st0 _ c con Hsrc views0 [] _ Hids Hok).
  cbn [app]. rewrite <- Nat.mul_succ_l.
  destruct i; reflexivity.
Qed.

Lemma runMultiViewAnalysis64_loop_completes (k : nat) (b : bool)
      (st0 : MultiView64.Editor360State) (v0 : Video64.t) (c : bool) (con : list string) :
  stopsAt d fps k ->
  forall (m i fuel : nat),
    (i + m = k)%nat -> (m < fuel)%nat ->
    (forall j, (i <= j < k)%nat -> frameOk j) ->
    loop fuel i (i * List.length views0)%nat (running b st0 v0 c con i)
    = Some (Ok tt, running b st0 v0 c con k).
Proof.
  intros [Hbelow Hk].
  induction m as [|m IH]; intros i fuel Him Hfuel Hok.
  - destruct fuel as [|fuel]; [lia|].
    assert (i = k) by lia. subst i.
    unfold loop. cbn [MultiView64.runMultiViewAnalysis_loop].
    unfold taken in Hk. fold total in Hk.
    destruct (ofNat k <=? total)%float; [|reflexivity].
    cbn [andb] in Hk. apply negb_false_iff in Hk.
    change (ofNat k * interval)%float with (sampleTime fps k).
    fold d. rewrite Hk. reflexivity.
  - destruct fuel as [|fuel]; [lia|].
    rewrite (runMultiViewAnalysis64_loop_step fuel i)
      by (try apply Hbelow; try apply Hok; lia).
    apply IH; [lia | lia |]. intros j Hj. apply Hok. lia.
Qed.

Lemma runMultiViewAnalysis64_completes (k : nat) (st : MultiView64.Editor360State)
      (con : list string) (extra : nat) :
  MultiView64.fps st = fps ->
  MultiView64.frameViews st = views0 ->
  stopsAt d fps k ->
  (forall j, (j < k)%nat -> frameOk j) ->
  MultiView64.runMultiViewAnalysis seeked drawSource viewVariance
    (k + 1 + extra) (world360 st video true con)
  = Some (Ok tt,
          world360
            (analysed360 false
                         (progressReport totalOperations (k * List.length views0))
                         (map (sampled k) views0) st)
            (Video64.setCurrentTime (Video64.currentTime video) (Video64.pause video))
            true con).
Proof.
  intros Hfps Hviews Hstop Hok.
  unfold MultiView64.runMultiViewAnalysis, world360.
  cbn [MultiView64.videoRef MultiView64.canvasRef MultiView64.state].
  rewrite Hfps, Hviews. fold d interval. change (floor (d * fps)%float) with total.
  fold totalOperations.
  unfold Run.bind at 1. unfold Run.modify at 1.
  unfold Run.bind at 1. unfold Run.modify at 1.
  unfold Run.bind at 1. unfold Run.modify at 1.
  unfold Run.bind at 1. unfold Run.modify at 1.
  unfold Run.tryCatchFinally. fold loop.
  change 0%nat with (0 * List.length views0)%nat at 2.
  match goal with
  | |- context [loop _ _ _ ?w] => set (w0 := w)
  end.
  assert (E : w0 = running true st (Video64.pause video) true con 0).
  { subst w0.
    unfold running, world360, analysed360, MultiView64.onVideo, MultiView64.onState,
      MultiView64.resetFrameData, MultiView64.setProgress, MultiView64.setIsProcessing,
      MultiView64.withFrameViews.
    cbn [MultiView64.state MultiView64.videoRef MultiView64.canvasRef MultiView64.console
         MultiView64.fps MultiView64.isProcessing MultiView64.progress
         MultiView64.frameViews option_map videoAfter Nat.mul progressReport].
    rewrite ?Hviews. reflexivity. }
  rewrite E. clear E w0.
  rewrite (runMultiViewAnalysis64_loop_completes k true st (Video64.pause video) true con
             Hstop k 0)
    by (try lia; intros j Hj; apply Hok; lia).
  unfold running, world360, analysed360. destruct k; reflexivity.
Qed.

End MultiViewRun64.

Section Runs64.
Import PrimFloat.
Import Binary64.
Import Sampling64.

(** The loop ends at [k] when an evaluation says so. *)
Lemma stopsAt_check (d fps : float) (k : nat) :
  forallb (taken d fps) (seq 0 k) && negb (taken d fps k) = true -> stopsAt d fps k.
Proof.
  intros H. apply andb_true_iff in H. destruct H as [H1 H2]. split.
  - intros j Hj. rewrite forallb_forall in H1. apply H1. apply in_seq. lia.
  - apply negb_true_iff. exact H2.
Qed.

(** Counterexample to C5: a clip of 4/3 seconds sampled at 6 per
    second.  In binary64 [duration * fps] rounds to 8 and
    [8 * (1 / 6)] to the duration itself, so the run takes the nine
    samples [0 .. 8], the last at the very end of the clip, where the
    exact [floor(d * fps) + 1] of the same duration is 8; and the time
    of sample 5, [5 * (1 / 6)], is not [5 / 6]. *)
Lemma rounded_sample_count :
  Scenes64.sampleCount
    (Editor64.runAnalysis Scenes64.everySeek Scenes64.steadyScore 10
                          (Scenes64.session (4 / 3)%float))
  = Some 9%nat
  /\ Scenes64.sampleCounts
       (MultiView64.runMultiViewAnalysis Scenes64.everySeek Scenes64.steadySource
          Scenes64.steadyView 10 (Scenes64.session360 (4 / 3)%float))
     = Some [9; 9]%nat
  /\ totalFrames (4 / 3)%float 6%float = 8%float
  /\ sampleTime 6%float 8 = (4 / 3)%float
  /\ S (Sampling.lastIndex (toNumber (4 / 3)%float) (num 6)) = 8%nat
  /\ (sampleTime 6%float 5 =? 5 / 6)%float = false.
Proof. repeat split; vm_compute; reflexivity. Qed.

(** C5, amended.  All arithmetic is that of binary64.  Over a video of
    duration [d] sampled at rate [fps] the loop visits [i = 0, 1, ...]
    and takes sample [i] at the time [i * (1 / fps)] as long as
    [i <= floor(d * fps)] and the time is not beyond [d]; it ends at
    the first index [k] that fails one of the two tests.  When every
    seek completes and every frame is decoded and scored, a run of the
    planar editor leaves exactly the [k] samples of the indices below
    [k], in this order, as the frame data, and a run of the 360 editor
    leaves them in every view, whatever frame data was there before:
    running once more leaves the same samples, not twice as many.  For
    a rate of the menu (3, 6 or 12) and a duration of at most a day
    the loop does end, and the times of the samples are strictly
    increasing.  For [d = 2] and [fps = 6] there are 13 samples. *)
Theorem analysis_samples :
  (forall (seeked : float -> bool) (analyseFrame : float -> result float)
          (video : Video64.t) (st : Editor64.EditorState)
          (con : list string) (extra k : nat),
      stopsAt (Video64.duration video) (Editor64.fps st) k ->
      (forall j, (j < k)%nat ->
         seeked (sampleTime (Editor64.fps st) j) = true
         /\ exists v, analyseFrame (sampleTime (Editor64.fps st) j) = Ok v) ->
      exists w' w'',
        Editor64.runAnalysis seeked analyseFrame (k + 1 + extra)
                             (planarWorld st video true con) = Some (Ok tt, w')
        /\ Editor64.frameData (Editor64.state w')
           = planarSamples analyseFrame (Editor64.fps st) k
        /\ map FrameData64.time (Editor64.frameData (Editor64.state w'))
           = map (sampleTime (Editor64.fps st)) (seq 0 k)
        /\ Editor64.runAnalysis seeked analyseFrame (k + 1 + extra) w'
           = Some (Ok tt, w'')
        /\ Editor64.frameData (Editor64.state w'')
           = Editor64.frameData (Editor64.state w'))
  /\
  (forall (seeked : float -> bool) (drawSource : float -> result DOM.Canvas)
          (viewVariance : DOM.Canvas -> MultiView64.FrameView -> result float)
          (video : Video64.t) (st : MultiView64.Editor360State)
          (con : list string) (extra k : nat),
      NoDup (map MultiView64.id (MultiView64.frameViews st)) ->
      stopsAt (Video64.duration video) (MultiView64.fps st) k ->
      (forall j, (j < k)%nat ->
         seeked (sampleTime (MultiView64.fps st) j) = true
         /\ exists src, drawSource (sampleTime (MultiView64.fps st) j) = Ok src
              /\ forall view, In view (MultiView64.frameViews st) ->
                   exists x, viewVariance src view = Ok x) ->
      exists w',
        MultiView64.runMultiViewAnalysis seeked drawSource viewVariance (k + 1 + extra)
          (world360 st video true con) = Some (Ok tt, w')
        /\ MultiView64.frameViews (MultiView64.state w')
           = map (fun view =>
                    MultiView64.withFrameData
                      (viewSamples drawSource viewVariance (MultiView64.fps st) k view)
                      view)
                 (MultiView64.frameViews st)
        /\ Forall (fun view =>
                     map FrameData64.time (MultiView64.frameData view)
                     = map (sampleTime (MultiView64.fps st)) (seq 0 k))
                  (MultiView64.frameViews (MultiView64.state w')))
  /\
  (forall (r : nat) (d : float),
      In r menu -> (d <=? day)%float = true ->
      exists k, (k <= pastDay r)%nat /\ stopsAt d (ofNat r) k
        /\ (forall j, (j < k)%nat -> (d <? sampleTime (ofNat r) j)%float = false)
        /\ (forall analyseFrame, increasing (planarSamples analyseFrame (ofNat r) k))
        /\ (forall drawSource viewVariance view,
              increasing (viewSamples drawSource viewVariance (ofNat r) k view)))
  /\ stopsAt 2%float 6%float 13.
Proof.
  split; [|split; [|split]].
  - intros seeked analyseFrame video st con extra k Hstop Hok.
    eexists. eexists.
    split; [apply (runAnalysis64_completes seeked analyseFrame video (Editor64.fps st)
                     k st con extra eq_refl Hstop Hok)|].
    cbn [Editor64.state planarWorld Editor64.frameData analysed].
    split; [reflexivity|].
    split; [unfold planarSamples; rewrite map_map; reflexivity|].
    split; [apply (runAnalysis64_completes seeked analyseFrame
                     (Video64.setCurrentTime (Video64.currentTime video)
                                             (Video64.pause video))
                     (Editor64.fps st) k _ con extra eq_refl Hstop Hok)
           | reflexivity].
  - intros seeked drawSource viewVariance video st con extra k Hids Hstop Hok.
    eexists.
    split; [apply (runMultiViewAnalysis64_completes seeked drawSource viewVariance video
                     (MultiView64.fps st) (MultiView64.frameViews st) Hids
                     k st con extra eq_refl eq_refl Hstop Hok)|].
    cbn [MultiView64.state world360 analysed360 MultiView64.frameViews].
    split; [reflexivity|].
    apply Forall_forall. intros view Hin. apply in_map_iff in Hin.
    destruct Hin as [v0 [<- _]].
    cbn [MultiView64.frameData MultiView64.withFrameData].
    unfold viewSamples. rewrite map_map. reflexivity.
  - intros r d Hr Hd.
    destruct (menu_schedule r d Hr Hd) as [k [Hk [Hstop Hinc]]].
    exists k. split; [exact Hk|]. split; [exact Hstop|]. split; [|split].
    + intros j Hj. destruct Hstop as [Hbelow _].
      specialize (Hbelow j Hj). unfold taken in Hbelow.
      apply andb_true_iff in Hbelow. destruct Hbelow as [_ H2].
      apply negb_true_iff in H2. exact H2.
    + intros analyseFrame. unfold planarSamples. apply increasing_map.
      intros i _ Hi. apply Hinc. exact Hi.
    + intros drawSource viewVariance view. unfold viewSamples.
      apply (increasing_map (sampleTime (ofNat r))
               (fun i => varianceAt drawSource viewVariance view (sampleTime (ofNat r) i))).
      intros i _ Hi. apply Hinc. exact Hi.
  - apply stopsAt_check. vm_compute. reflexivity.
Qed.

(** A clip of two seconds at 6 samples per second: 13 samples replace
    the stale one, in increasing order, and 13 in each view. *)
Lemma analysis_samples_witness :
  (exists w',
      Editor64.runAnalysis Scenes64.everySeek Scenes64.steadyScore 14
                           (Scenes64.session 2%float) = Some (Ok tt, w')
      /\ List.length (Editor64.frameData (Editor64.state w')) = 13%nat
      /\ Sampling64.increasing (Editor64.frameData (Editor64.state w')))
  /\ (exists w',
        MultiView64.runMultiViewAnalysis Scenes64.everySeek Scenes64.steadySource
          Scenes64.steadyView 14 (Scenes64.session360 2%float) = Some (Ok tt, w')
        /\ map (fun v => List.length (MultiView64.frameData v))
               (MultiView64.frameViews (MultiView64.state w')) = [13; 13]%nat).
Proof.
  destruct analysis_samples as [Hplanar [H360 [Hmenu Hstop]]].
  split.
  - destruct (Hplanar Scenes64.everySeek Scenes64.steadyScore (Scenes64.clip 2%float)
                {| Editor64.fps := 6%float; Editor64.isProcessing := false;
                   Editor64.progress := 0%float; Editor64.frameData := Scenes64.stale |}
                [] 0%nat 13%nat Hstop
                (fun j _ => conj eq_refl (ex_intro _ 1040400%float eq_refl)))
      as [w' [_ [Hrun [Hdata _]]]].
    exists w'. split; [exact Hrun|]. split.
    + rewrite Hdata. reflexivity.
    + rewrite Hdata.
      destruct (Hmenu 6%nat 2%float (or_intror (or_introl eq_refl)) eq_refl)
        as [k [_ [[Hbelow Hk] [_ [Hinc _]]]]].
      assert (E : k = 13%nat).
      { destruct Hstop as [Hb13 Hk13].
        destruct (Nat.lt_trichotomy k 13) as [H | [H | H]]; [|exact H|].
        - exfalso. exact (eq_true_false_abs _ (Hb13 k H) Hk).
        - exfalso. exact (eq_true_false_abs _ (Hbelow 13%nat H) Hk13). }
      subst k. apply Hinc.
  - destruct (H360 Scenes64.everySeek Scenes64.steadySource Scenes64.steadyView
                (Scenes64.clip 2%float)
                {| MultiView64.fps := 6%float; MultiView64.isProcessing := false;
                   MultiView64.progress := 0%float;
                   MultiView64.frameViews := Scenes64.twoViews |}
                [] 0%nat 13%nat)
      as [w' [Hrun [Hviews _]]].
    + repeat constructor; simpl; intuition discriminate.
    + exact Hstop.
    + intros j _. split; [reflexivity|].
      exists (Examples.checker 4). split; [reflexivity|].
      intros view _. exists 1040400%float. reflexivity.
    + exists w'. split; [exact Hrun|]. rewrite Hviews. reflexivity.
Defined.

End Runs64.

Section Clamping.
Import JS.

(** [Math.max(lo, Math.min(hi, x))] for finite bounds [lo <= hi]. *)
Lemma clamp_between (lo hi : Q) (x : number) :
  lo <= hi -> isNaN x = false ->
  exists y, max (Fin lo) (min (Fin hi) x) = Fin y /\ lo <= y <= hi
            /\ (forall q, x = Fin q -> lo <= q <= hi -> y == q).
Proof.
  intros Hlh Hx. destruct x as [| |q|]; try discriminate.
  - exists lo. cbn. split; [reflexivity|]. split; [lra|]. intros; discriminate.
  - rewrite min_Fin, max_Fin. exists (Qmax lo (Qmin hi q)). split; [reflexivity|].
    split.
    + split; [apply Q.le_max_l|]. apply Q.max_lub; [exact Hlh | apply Q.le_min_l].
    + intros q' E [H1 H2]. inversion E; subst q'.
      rewrite (Q.min_r hi q H2). apply Q.max_r. exact H1.
  - exists (Qmax lo hi). split; [exact (max_Fin lo hi)|]. split.
    + split; [apply Q.le_max_l|]. apply Q.max_lub; [exact Hlh | lra].
    + intros; discriminate.
Qed.

Lemma ofZ_leb (a b : Z) : (ofZ a <=? ofZ b)%js = (a <=? b)%Z.
Proof.
  unfold ofZ. cbn. unfold Qle_bool. cbn. rewrite !Z.mul_1_r. reflexivity.
Qed.

Lemma ofZ_ltb (a b : Z) : (ofZ a <? ofZ b)%js = (a <? b)%Z.
Proof.
  unfold ofZ. cbn. unfold Qltb, Qcompare. cbn. rewrite !Z.mul_1_r.
  unfold Z.ltb. reflexivity.
Qed.

Lemma min_ofZ (a b : Z) : min (ofZ a) (ofZ b) = ofZ (Z.min a b).
Proof.
  unfold min. change (ofZ a) with (Fin (inject_Z a)) at 1.
  change (ofZ b) with (Fin (inject_Z b)) at 1. cbv beta iota.
  fold (ofZ a). fold (ofZ b). rewrite ofZ_ltb.
  destruct (Z.ltb_spec b a).
  - rewrite Z.min_r by lia. reflexivity.
  - rewrite Z.min_l by lia. reflexivity.
Qed.

Lemma max_ofZ (a b : Z) : max (ofZ a) (ofZ b) = ofZ (Z.max a b).
Proof.
  unfold max. change (ofZ a) with (Fin (inject_Z a)) at 1.
  change (ofZ b) with (Fin (inject_Z b)) at 1. cbv beta iota.
  fold (ofZ a). fold (ofZ b). rewrite ofZ_ltb.
  destruct (Z.ltb_spec a b).
  - rewrite Z.max_r by lia. reflexivity.
  - rewrite Z.max_l by lia. reflexivity.
Qed.
End Clamping.

(* ================================================================== *)
(** * Display settings *)
(* ================================================================== *)

Section DisplaySettings.
Import JS.

(** X1. [setTimelineZoom] and [setExportFps] of both hooks store the
    argument clamped: for every argument that is not [NaN] the zoom
    stored lies in [0.1, 10] and the export rate in [1, 60], and an
    argument already inside the interval is stored as it is.  [NaN] is
    not caught: it is stored as [NaN]. *)
Theorem display_settings_clamped :
  (forall (x : number) (st : Editor.EditorState) (st360 : Editor360.Editor360State),
      isNaN x = false ->
      (exists z, Editor.timelineZoom (EditorHook.setTimelineZoom x st) = Fin z
                 /\ Editor360.timelineZoom (Editor360Hook.setTimelineZoom x st360) = Fin z
                 /\ (1 # 10) <= z <= 10
                 /\ (forall q, x = Fin q -> (1 # 10) <= q <= 10 -> z == q))
      /\ (exists f, Editor.exportFps (EditorHook.setExportFps x st) = Fin f
                    /\ Editor360.exportFps (Editor360Hook.setExportFps x st360) = Fin f
                    /\ 1 <= f <= 60
                    /\ (forall q, x = Fin q -> 1 <= q <= 60 -> f == q)))
  /\ (forall (st : Editor.EditorState) (st360 : Editor360.Editor360State),
      Editor.timelineZoom (EditorHook.setTimelineZoom NaN st) = NaN
      /\ Editor.exportFps (EditorHook.setExportFps NaN st) = NaN
      /\ Editor360.timelineZoom (Editor360Hook.setTimelineZoom NaN st360) = NaN
      /\ Editor360.exportFps (Editor360Hook.setExportFps NaN st360) = NaN).
Proof.
  split.
  - intros x st st360 Hx. split.
    + destruct (clamp_between (1 # 10) 10 x) as [z [E [B K]]]; [lra | exact Hx |].
      exists z. cbn [EditorHook.setTimelineZoom EditorHook.withDisplay Editor.timelineZoom
                     Editor360Hook.setTimelineZoom Editor360Hook.withSession
                     Editor360.timelineZoom].
      change (dec (1 # 10)) with (Fin (1 # 10)). change (num 10) with (Fin 10).
      rewrite E. repeat split; try reflexivity; try apply B. exact K.
    + destruct (clamp_between 1 60 x) as [z [E [B K]]]; [lra | exact Hx |].
      exists z. cbn [EditorHook.setExportFps EditorHook.withDisplay Editor.exportFps
                     Editor360Hook.setExportFps Editor360Hook.withSession
                     Editor360.exportFps].
      change (num 1) with (Fin 1). change (num 60) with (Fin 60).
      rewrite E. repeat split; try reflexivity; try apply B. exact K.
  - intros st st360. repeat split.
Qed.

Lemma parseInt_integer (s : string) :
  PlayerControls.parseInt s = NaN \/ exists z, PlayerControls.parseInt s = ofZ z.
Proof.
  unfold PlayerControls.parseInt.
  destruct (Editor360Page.readSign (Editor360Page.trimStart s)) as [sign body].
  destruct (PlayerControls.hasHexPrefix body) as [digits|].
  - destruct (PlayerControls.readHexDigits digits 0 0) as [n [|k]];
      [left; reflexivity | right; eexists; reflexivity].
  - destruct (Editor360Page.readDigits body 0 0) as [[n [|k]] rest];
      [left; reflexivity | right; eexists; reflexivity].
Qed.

Lemma or_one_integer (a : number) :
  a = NaN \/ (exists z, a = ofZ z) ->
  exists z, JS.or a (num 1) = ofZ z /\ (z <> 0)%Z.
Proof.
  intros [E | [z E]]; subst a.
  - exists 1%Z. split; [reflexivity | lia].
  - destruct (Z.eq_dec z 0) as [Hz | Hz].
    + subst z. exists 1%Z. split; [reflexivity | lia].
    + exists z. split; [|exact Hz].
      unfold JS.or, truthy, ofZ. 
      assert (Hq : Qeq_bool (inject_Z z) 0 = false).
      { apply not_true_is_false. intro H. apply Qeq_bool_iff in H.
        unfold Qeq in H. cbn in H. lia. }
      rewrite Hq. reflexivity.
Qed.

(** X2. Whatever text the export rate field holds, the rate stored by
    its change handler is a whole number between 1 and 60: text that
    does not start with a number, and zero, count as 1. *)
Theorem exportFps_field_integer (value : string) (st : Editor.EditorState) :
  exists z : Z,
    Editor.exportFps (PlayerControls.exportFpsChanged value st) = ofZ z
    /\ (1 <= z <= 60)%Z.
Proof.
  destruct (or_one_integer _ (parseInt_integer value)) as [z [E _]].
  exists (Z.max 1 (Z.min 60 z)). split; [|lia].
  unfold PlayerControls.exportFpsChanged.
  cbn [EditorHook.setExportFps EditorHook.withDisplay Editor.exportFps].
  rewrite E. unfold num. rewrite min_ofZ, max_ofZ. reflexivity.
Qed.

End DisplaySettings.

(* ================================================================== *)
(** * Removing ranges; loading a video *)
(* ================================================================== *)

Section Removal.
Import JS.

Lemma filter_other_ids (id : string) (ranges : list TimelineRange.t) :
  ~ In id (map TimelineRange.id ranges) ->
  filter (fun range => negb (String.eqb (TimelineRange.id range) id)) ranges = ranges.
Proof.
  induction ranges as [|r rest IH]; intro Hn; [reflexivity|].
  cbn [filter]. cbn [map In] in Hn.
  destruct (String.eqb_spec (TimelineRange.id r) id) as [E | N].
  - exfalso. apply Hn. left. exact E.
  - cbn [negb]. f_equal. apply IH. intro H. apply Hn. right. exact H.
Qed.

(** X3. [removeRange id] of the planar hook removes every range with
    that identifier and no other; it clears the selection exactly when
    the selected range is the one removed.  Removing a range just added under a fresh identifier
    gives back the ranges as they were, with nothing selected. *)
Theorem removeRange_removes :
  (forall (id : string) (st : Editor.EditorState),
      (forall r, In r (Editor.ranges (Editor.removeRange id st))
                 <-> In r (Editor.ranges st) /\ TimelineRange.id r <> id)
      /\ (Editor.selectedRangeId st = Some id ->
          Editor.selectedRangeId (Editor.removeRange id st) = None)
      /\ (Editor.selectedRangeId st <> Some id ->
          Editor.selectedRangeId (Editor.removeRange id st) = Editor.selectedRangeId st))
  /\ (forall (id : string) (s e : number) (a : RangeAction) (st : Editor.EditorState),
      ~ In id (map TimelineRange.id (Editor.ranges st)) ->
      Editor.ranges (Editor.removeRange id (Editor.addRange id s e a st))
      = Editor.ranges st
      /\ Editor.selectedRangeId (Editor.removeRange id (Editor.addRange id s e a st))
         = None).
Proof.
  split.
  - intros id st. split; [|split].
    + intro r. cbn [Editor.removeRange Editor.withRanges Editor.ranges].
      rewrite filter_In, negb_true_iff.
      destruct (String.eqb_spec (TimelineRange.id r) id); split; intros [H1 H2];
        split; auto; try discriminate; contradiction.
    + intro H. cbn [Editor.removeRange Editor.withRanges Editor.selectedRangeId].
      rewrite H, String.eqb_refl. reflexivity.
    + intro H. cbn [Editor.removeRange Editor.withRanges Editor.selectedRangeId].
      destruct (Editor.selectedRangeId st) as [sel|]; [|reflexivity].
      destruct (String.eqb_spec sel id) as [E | N]; [|reflexivity].
      exfalso. apply H. rewrite E. reflexivity.
  - intros id s e a st Hfresh. split.
    + cbn [Editor.removeRange Editor.addRange Editor.withRanges Editor.ranges].
      rewrite filter_app. cbn [filter TimelineRange.id].
      rewrite String.eqb_refl. cbn [negb]. rewrite app_nil_r.
      apply filter_other_ids. exact Hfresh.
    + cbn [Editor.removeRange Editor.addRange Editor.withRanges Editor.selectedRangeId].
      rewrite String.eqb_refl. reflexivity.
Qed.

End Removal.

Section Loading.
Import JS.
Import EditorHook.
Local Open Scope string_scope.

Lemma allOf_app (p : ascii -> bool) (a b : string) :
  allOf p (a ++ b) = allOf p a && allOf p b.
Proof.
  induction a as [|c a IH]; [reflexivity|].
  cbn [append allOf]. rewrite IH, andb_assoc. reflexivity.
Qed.

(** A string that still holds a dot is not a run of [[^/.]]. *)
Lemma allOf_dot (a b : string) : allOf notSlashOrDot (a ++ String "." b) = false.
Proof.
  rewrite allOf_app. cbn [allOf]. 
  change (notSlashOrDot ".") with false. cbn [andb]. apply andb_false_r.
Qed.

Lemma matchesExtension_inv (s : string) :
  matchesExtension s = true ->
  exists e, s = String "." e /\ e <> EmptyString /\ allOf notSlashOrDot e = true.
Proof.
  destruct s as [|c rest]; [discriminate|]. cbn [matchesExtension].
  intro H. apply andb_true_iff in H. destruct H as [H H3].
  apply andb_true_iff in H. destruct H as [H1 H2].
  apply Ascii.eqb_eq in H1. subst c. exists rest. split; [reflexivity|].
  split; [|exact H3]. intro E. subst rest. discriminate.
Qed.

Lemma removeExtension_strips (e : string) :
  e <> EmptyString -> allOf notSlashOrDot e = true ->
  forall p, removeExtension (p ++ String "." e) = p.
Proof.
  intros He Ha. induction p as [|c p IH].
  - cbn [append]. 
    assert (M : matchesExtension (String "." e) = true).
    { cbn [matchesExtension]. rewrite Ha.
      destruct e; [contradiction | reflexivity]. }
    destruct e; [contradiction|].
    unfold removeExtension. rewrite M. reflexivity.
  - cbn [append].
    assert (M : matchesExtension (String c (p ++ String "." e)) = false).
    { cbn [matchesExtension]. rewrite allOf_dot. apply andb_false_r. }
    change (removeExtension (String c (p ++ String "." e)))
      with (if matchesExtension (String c (p ++ String "." e)) then EmptyString
            else String c (removeExtension (p ++ String "." e))).
    rewrite M, IH. reflexivity.
Qed.

Lemma removeExtension_keeps (s : string) :
  (forall p e, s = p ++ String "." e ->
               e = EmptyString \/ allOf notSlashOrDot e = false) ->
  removeExtension s = s.
Proof.
  induction s as [|c s IH]; intro H; [reflexivity|].
  assert (M : matchesExtension (String c s) = false).
  { apply not_true_is_false. intro M. apply matchesExtension_inv in M.
    destruct M as [e [E [Hne Ha]]].
    destruct (H EmptyString e E) as [K | K]; [contradiction | congruence]. }
  change (removeExtension (String c s))
    with (if matchesExtension (String c s) then EmptyString
          else String c (removeExtension s)).
  rewrite M. f_equal. apply IH. intros p e E.
  apply (H (String c p) e). cbn [append]. rewrite E. reflexivity.
Qed.

Lemma cleared_views (views : list FrameView.t) :
  Forall (fun v => FrameView.frameData v = [] /\ FrameView.ranges v = [])
         (map Editor360Hook.cleared views)
  /\ map FrameView.id (map Editor360Hook.cleared views) = map FrameView.id views
  /\ map FrameView.threshold (map Editor360Hook.cleared views)
     = map FrameView.threshold views.
Proof.
  induction views as [|v rest [IH1 [IH2 IH3]]]; [repeat split; constructor|].
  cbn [map]. split; [|split].
  - constructor; [split; reflexivity | exact IH1].
  - cbn [map] in IH2. rewrite IH2. reflexivity.
  - cbn [map] in IH3. rewrite IH3. reflexivity.
Qed.

(** X4. Loading a video names it after the file without its last
    extension: a name [p.e] whose extension [e] is not empty and holds
    neither a dot nor a slash becomes [p], and every other name is kept
    whole (so [a.tar.gz] becomes [a.tar], [.mp4] becomes the empty
    name, [clip.] stays).  Both editors reset samples, progress and
    playhead; the planar editor keeps the ranges, the selection and the
    threshold set on the previous video, the 360 editor empties the
    ranges of every view and keeps its views, their thresholds and the
    active view. *)
Theorem loadVideo_resets :
  (forall p e : string,
      e <> EmptyString -> allOf notSlashOrDot e = true ->
      removeExtension (p ++ String "." e) = p)
  /\ (forall s : string,
      (forall p e, s = p ++ String "." e ->
                   e = EmptyString \/ allOf notSlashOrDot e = false) ->
      removeExtension s = s)
  /\ (removeExtension "clip.mp4" = "clip"
      /\ removeExtension "a.tar.gz" = "a.tar"
      /\ removeExtension ".mp4" = ""
      /\ removeExtension "clip." = "clip."
      /\ removeExtension "take.1/clip" = "take.1/clip")%string
  /\ (forall (url name : string) (st : Editor.EditorState),
      let st' := loadVideo url name st in
      Editor.videoFileName st' = removeExtension name
      /\ Editor.frameData st' = [] /\ Editor.progress st' = num 0
      /\ Editor.currentTime st' = num 0
      /\ Editor.ranges st' = Editor.ranges st
      /\ Editor.selectedRangeId st' = Editor.selectedRangeId st
      /\ Editor.threshold st' = Editor.threshold st)
  /\ (forall (url name : string) (st : Editor360.Editor360State),
      let st' := Editor360Hook.loadVideo url name st in
      Editor360.videoFileName st' = removeExtension name
      /\ Editor360.progress st' = num 0 /\ Editor360.currentTime st' = num 0
      /\ Forall (fun v => FrameView.frameData v = [] /\ FrameView.ranges v = [])
                (Editor360.frameViews st')
      /\ map FrameView.id (Editor360.frameViews st')
         = map FrameView.id (Editor360.frameViews st)
      /\ map FrameView.threshold (Editor360.frameViews st')
         = map FrameView.threshold (Editor360.frameViews st)
      /\ Editor360.activeFrameViewId st' = Editor360.activeFrameViewId st).
Proof.
  split; [intros p e He Ha; apply removeExtension_strips; assumption|].
  split; [exact removeExtension_keeps|].
  split; [repeat split|].
  split; [intros url name st; repeat split|].
  intros url name st. cbv zeta.
  destruct (cleared_views (Editor360.frameViews st)) as [H1 [H2 H3]].
  repeat split; assumption.
Qed.

End Loading.

(* ================================================================== *)
(** * The views of the 360 editor *)
(* ================================================================== *)

Section ViewIdentifiers.
Import JS.
Import Editor360Api.

Lemma showNat_inj (n m : nat) : showNat n = showNat m -> n = m.
Proof.
  unfold showNat. intro H.
  assert (Hnn : forall k, Nat.to_uint k <> Decimal.Nil).
  { intro k. rewrite <- (DecimalNat.Unsigned.of_to k) at 1.
    rewrite DecimalNat.Unsigned.to_of. apply DecimalFacts.unorm_nonnil. }
  apply DecimalNat.Unsigned.to_uint_inj.
  pose proof (NilZero.usu _ (Hnn n)) as Hn.
  pose proof (NilZero.usu _ (Hnn m)) as Hm.
  rewrite H in Hn. rewrite Hn in Hm. inversion Hm. reflexivity.
Qed.

Lemma append_inj (p a b : string) : (p ++ a = p ++ b)%string -> a = b.
Proof.
  induction p as [|c p IH]; cbn [append]; intro H; [exact H|].
  inversion H. apply IH. assumption.
Qed.

Lemma customFrameViewsFrom_ids (views : list Video360.View) :
  forall i,
    map FrameView.id (Editor360.customFrameViewsFrom i views)
    = map (fun k => ("custom_" ++ showNat k)%string) (seq i (List.length views)).
Proof.
  induction views as [|v rest IH]; intro i; [reflexivity|].
  cbn [Editor360.customFrameViewsFrom map List.length seq FrameView.id].
  rewrite IH. reflexivity.
Qed.

Lemma NoDup_map_inj {A B : Type} (f : A -> B) (l : list A) :
  (forall a b, f a = f b -> a = b) -> NoDup l -> NoDup (map f l).
Proof.
  intros Hinj Hl. induction Hl as [|a l Hn Hl IH]; [constructor|].
  cbn [map]. constructor; [|exact IH].
  intro H. apply in_map_iff in H. destruct H as [b [E Hb]].
  apply Hinj in E. subst b. contradiction.
Qed.

Lemma customFrameViewsFrom_NoDup (views : list Video360.View) (i : nat) :
  NoDup (map FrameView.id (Editor360.customFrameViewsFrom i views)).
Proof.
  rewrite customFrameViewsFrom_ids. apply NoDup_map_inj; [|apply seq_NoDup].
  intros a b H. apply append_inj in H. apply showNat_inj. exact H.
Qed.

Lemma createSkyboxFrameViews_NoDup :
  NoDup (map FrameView.id Editor360.createSkyboxFrameViews).
Proof.
  cbv [Editor360.createSkyboxFrameViews Video360.CUBEMAP_FACES map FrameView.id
       Video360.face Video360.faceTag append].
  repeat constructor; cbn [In]; intuition discriminate.
Qed.

Lemma map_if_ids (c : FrameView.t -> bool) (f : FrameView.t -> FrameView.t)
      (l : list FrameView.t) :
  (forall v, FrameView.id (f v) = FrameView.id v) ->
  map FrameView.id (map (fun v => if c v then f v else v) l) = map FrameView.id l.
Proof.
  intro Hf. induction l as [|v rest IH]; [reflexivity|].
  cbn [map]. rewrite IH. destruct (c v); [rewrite Hf|]; reflexivity.
Qed.

Lemma map_ids (f : FrameView.t -> FrameView.t) (l : list FrameView.t) :
  (forall v, FrameView.id (f v) = FrameView.id v) ->
  map FrameView.id (map f l) = map FrameView.id l.
Proof.
  intro Hf. induction l as [|v rest IH]; [reflexivity|].
  cbn [map]. rewrite IH, Hf. reflexivity.
Qed.

Lemma onView_ids (viewId : string) (f : FrameView.t -> FrameView.t)
      (st : Editor360.Editor360State) :
  (forall v, FrameView.id (f v) = FrameView.id v) ->
  viewIds (Editor360.onView viewId f st) = viewIds st.
Proof.
  intro Hf. unfold viewIds, Editor360.onView.
  cbn [Editor360.withFrameViews Editor360.withViews Editor360.frameViews].
  apply map_if_ids. exact Hf.
Qed.

Lemma updateFrameView_ids (id : string) (u : FrameView.updates)
      (st : Editor360.Editor360State) :
  viewIds (Editor360.updateFrameView id u st) = viewIds st.
Proof.
  unfold viewIds, Editor360.updateFrameView.
  cbn [Editor360.withFrameViews Editor360.withViews Editor360.frameViews].
  apply map_if_ids. reflexivity.
Qed.

Lemma call_ids (fuel : nat) (c : Call) (st st' : Editor360.Editor360State) :
  NoDup (viewIds st) -> call fuel c st = Some st' -> NoDup (viewIds st').
Proof.
  intros Hst Hc. destruct c; cbn [call] in Hc;
    try (injection Hc as <-;
         unfold Editor360Hook.renameFrameView, Editor360.setThreshold,
           Editor360.clearAllRanges, Editor360.addRange, Editor360.updateRange,
           Editor360.removeRange;
         first [ exact Hst
               | rewrite updateFrameView_ids; exact Hst
               | rewrite onView_ids; [exact Hst | reflexivity] ]).
  - (* loadVideo *)
    injection Hc as <-. unfold viewIds, Editor360Hook.loadVideo.
    cbn [Editor360.withPlayback Editor360.withFrameViews Editor360.withViews
         Editor360.frameViews Editor360Hook.withSession].
    rewrite map_ids; [exact Hst | reflexivity].
  - (* setEditorMode *)
    unfold Editor360.setEditorMode in Hc. destruct mode.
    + injection Hc as <-. exact createSkyboxFrameViews_NoDup.
    + unfold Editor360.createCustomFrameViews in Hc.
      destruct (Video360.generateCustomViews _ _ _ _ _) as [views|]; [|discriminate].
      injection Hc as <-. apply customFrameViewsFrom_NoDup.
  - (* setCustomConfig *)
    unfold Editor360.setCustomConfig in Hc.
    destruct (Editor360.editorMode st).
    + injection Hc as <-. exact Hst.
    + unfold Editor360.createCustomFrameViews in Hc.
      destruct (Video360.generateCustomViews _ _ _ _ _) as [views|]; [|discriminate].
      injection Hc as <-. apply customFrameViewsFrom_NoDup.
  - (* updateActiveFrameViewAngle *)
    injection Hc as <-. unfold Editor360Hook.updateActiveFrameViewAngle.
    destruct (Editor360.activeFrameViewId st) as [active|]; [|exact Hst].
    destruct (Editor360.editorMode st); [exact Hst|].
    destruct (String.eqb active ""); [exact Hst|].
    unfold viewIds. cbn [Editor360.withFrameViews Editor360.withViews Editor360.frameViews].
    rewrite map_if_ids; [exact Hst | reflexivity].
Qed.

Lemma NoDup_ids_unique (l : list FrameView.t) :
  NoDup (map FrameView.id l) ->
  forall v1 v2, In v1 l -> In v2 l -> FrameView.id v1 = FrameView.id v2 -> v1 = v2.
Proof.
  induction l as [|v rest IH]; intros Hn v1 v2 H1 H2 E; [contradiction|].
  cbn [map] in Hn. inversion Hn as [|x xs Hnotin Hrest]; subst.
  destruct H1 as [H1 | H1], H2 as [H2 | H2].
  - congruence.
  - subst v1. exfalso. apply Hnotin. rewrite E. apply in_map. exact H2.
  - subst v2. exfalso. apply Hnotin. rewrite <- E. apply in_map. exact H1.
  - apply IH; assumption.
Qed.

(** X5. No two views of the 360 editor ever share an identifier.  The
    six views of the initial state have distinct identifiers; every
    state update the hook hands out keeps the identifiers distinct
    (switching the mode and reconfiguring the rig number the views
    anew, all other updates leave the identifiers as they are), and so
    do the updates an analysis run performs.  Hence in every state
    reached from the initial one an identifier names at most one
    view. *)
Theorem view_ids_unique :
  NoDup (viewIds Editor360.initialState)
  /\ (forall (fuel : nat) (cs : list Call) (st st' : Editor360.Editor360State),
      NoDup (viewIds st) -> calls fuel cs st = Some st' -> NoDup (viewIds st'))
  /\ (forall (st : Editor360.Editor360State) (viewId : string) (sample : FrameData.t),
      viewIds (Editor360.appendSample viewId sample st) = viewIds st
      /\ viewIds (Editor360.resetFrameData st) = viewIds st)
  /\ (forall (fuel : nat) (cs : list Call) (st' : Editor360.Editor360State),
      calls fuel cs Editor360.initialState = Some st' ->
      forall v1 v2, In v1 (Editor360.frameViews st') -> In v2 (Editor360.frameViews st') ->
                    FrameView.id v1 = FrameView.id v2 -> v1 = v2).
Proof.
  assert (Hcalls : forall fuel cs st st',
             NoDup (viewIds st) -> calls fuel cs st = Some st' -> NoDup (viewIds st')).
  { intros fuel cs. induction cs as [|c rest IH]; intros st st' Hst H.
    - injection H as <-. exact Hst.
    - cbn [calls] in H. destruct (call fuel c st) as [st1|] eqn:E; [|discriminate].
      apply (IH st1); [|exact H]. apply (call_ids fuel c st); assumption. }
  split; [exact createSkyboxFrameViews_NoDup|].
  split; [exact Hcalls|].
  split.
  - intros st viewId sample. split.
    + apply onView_ids. reflexivity.
    + unfold viewIds, Editor360.resetFrameData.
      cbn [Editor360.withFrameViews Editor360.withViews Editor360.frameViews].
      apply map_ids. reflexivity.
  - intros fuel cs st' H. apply NoDup_ids_unique.
    apply (Hcalls fuel cs Editor360.initialState); [|exact H].
    exact createSkyboxFrameViews_NoDup.
Qed.

End ViewIdentifiers.

Section ModeSwitch.
Import JS.
Import Editor360Api.

Lemma customFrameViewsFrom_default (views : list Video360.View) :
  forall i,
    Forall (fun v => FrameView.frameData v = [] /\ FrameView.ranges v = []
                     /\ FrameView.threshold v = num 300)
           (Editor360.customFrameViewsFrom i views).
Proof.
  induction views as [|v rest IH]; intro i; constructor;
    [repeat split | apply IH].
Qed.

Lemma createSkyboxFrameViews_default :
  Forall (fun v => FrameView.frameData v = [] /\ FrameView.ranges v = []
                   /\ FrameView.threshold v = num 300)
         Editor360.createSkyboxFrameViews.
Proof. repeat constructor. Qed.

(** X6. [setEditorMode] replaces the views by fresh ones, also when
    the mode asked for is the one already active: every view comes
    back without samples and ranges and with the threshold 300.
    Skybox mode gives the six faces with [skybox_pz] active.  Custom
    mode with a whole frame count [n] gives the views [custom_0] to
    [custom_(n-1)] with [custom_0] active, and for [n <= 0] no view
    and no active view.  The custom configuration is kept. *)
Theorem setEditorMode_fresh_views :
  (forall (fuel : nat) (st : Editor360.Editor360State),
      exists st', Editor360.setEditorMode fuel Editor360.skybox st = Some st'
        /\ Editor360.editorMode st' = Editor360.skybox
        /\ Editor360.frameViews st' = Editor360.createSkyboxFrameViews
        /\ viewIds st' = [ "skybox_pz"; "skybox_px"; "skybox_nz";
                           "skybox_nx"; "skybox_py"; "skybox_ny" ]%string
        /\ Forall (fun v => FrameView.frameData v = [] /\ FrameView.ranges v = []
                         /\ FrameView.threshold v = num 300)
                  (Editor360.frameViews st')
        /\ Editor360.activeFrameViewId st' = Some "skybox_pz"%string
        /\ Editor360.customConfig st' = Editor360.customConfig st)
  /\ (forall (st : Editor360.Editor360State) (n : Z) (extra : nat),
      CustomConfig.frameCount (Editor360.customConfig st) = ofZ n ->
      exists st',
        Editor360.setEditorMode (S (Z.to_nat n) + extra) Editor360.custom st = Some st'
        /\ Editor360.editorMode st' = Editor360.custom
        /\ viewIds st'
           = map (fun k => ("custom_" ++ showNat k)%string) (seq 0 (Z.to_nat n))
        /\ Forall (fun v => FrameView.frameData v = [] /\ FrameView.ranges v = []
                         /\ FrameView.threshold v = num 300)
                  (Editor360.frameViews st')
        /\ Editor360.activeFrameViewId st'
           = (if (0 <? n)%Z then Some "custom_0"%string else None)
        /\ Editor360.customConfig st' = Editor360.customConfig st).
Proof.
  split.
  - intros fuel st. eexists. split; [reflexivity|].
    repeat split. exact createSkyboxFrameViews_default.
  - intros st n extra Hn.
    unfold Editor360.setEditorMode.
    rewrite (createCustomFrameViews_runs _ n extra Hn).
    eexists. split; [reflexivity|].
    split; [reflexivity|]. split; [|split; [|split; [|reflexivity]]].
    + unfold viewIds. cbn [Editor360.withViews Editor360.frameViews].
      rewrite customFrameViewsFrom_ids, length_map, length_seq. reflexivity.
    + cbn [Editor360.withViews Editor360.frameViews].
      apply customFrameViewsFrom_default.
    + cbn [Editor360.withViews Editor360.activeFrameViewId].
      destruct (Z.ltb_spec 0 n) as [Hpos | Hneg].
      * destruct (Z.to_nat n) as [|k] eqn:E; [lia|]. reflexivity.
      * replace (Z.to_nat n) with 0%nat by lia. reflexivity.
Qed.

End ModeSwitch.

Section Angles.
Import JS.

Lemma Qtrunc_nonpos (q : Q) : q <= 0 -> Qtrunc q = (- Qfloor (- q))%Z.
Proof.
  intros H. destruct q as [a b]. unfold Qtrunc, Qfloor, Qopp. cbn [Qnum Qden].
  unfold Qle in H. cbn in H.
  rewrite <- (Z.quot_div_nonneg (- a) (Zpos b)) by lia.
  rewrite Z.quot_opp_l by lia. lia.
Qed.

(** The remainder of a finite dividend by a positive divisor [m] lies
    strictly between [-m] and [m], has the sign of the dividend, and
    differs from the dividend by a multiple of [m]. *)
Lemma rem_range (x m : Q) :
  0 < m ->
  exists y, rem (Fin x) (Fin m) = Fin y /\ - m < y /\ y < m
            /\ (0 <= x -> 0 <= y) /\ (x <= 0 -> y <= 0)
            /\ exists k : Z, x == y + m * inject_Z k.
Proof.
  intros Hm. destruct (Qlt_le_dec x 0) as [Hneg | Hpos].
  - unfold rem.
    assert (Hm0 : Qeq_bool m 0 = false).
    { destruct (Qeq_bool m 0) eqn:E; [|reflexivity].
      apply Qeq_bool_iff in E. rewrite E in Hm. discriminate Hm. }
    rewrite Hm0. unfold fin.
    assert (Hq : x / m <= 0).
    { apply Qle_shift_div_r; [exact Hm|]. rewrite Qmult_0_l. apply Qlt_le_weak. exact Hneg. }
    rewrite (Qtrunc_nonpos _ Hq).
    pose proof (Qfloor_le (- (x / m))) as Hlo.
    pose proof (Qlt_floor (- (x / m))) as Hhi.
    set (k := Qfloor (- (x / m))) in *.
    assert (Hx' : x == (x / m) * m) by (field; intro E; rewrite E in Hm; discriminate Hm).
    rewrite inject_Z_plus in Hhi. change (inject_Z 1) with 1 in Hhi.
    set (q := x / m) in *. clearbody q k.
    rewrite inject_Z_opp.
    assert (Hlo' : m * inject_Z k <= - x) by nra.
    assert (Hhi' : - x < m * inject_Z k + m) by nra.
    exists (Qred (x - m * - inject_Z k)). split; [reflexivity|].
    rewrite !Qred_correct. split; [lra|]. split; [lra|].
    split; [intro; lra|]. split; [intro; lra|].
    exists (- k)%Z. rewrite Qred_correct, inject_Z_opp. lra.
  - destruct (rem_nonneg x m Hpos Hm) as [y [E [H0 [H1 K]]]].
    exists y. split; [exact E|]. split; [lra|]. split; [exact H1|].
    split; [intro; exact H0|]. split; [|exact K].
    intro Hx. assert (Hx0 : x == 0) by lra.
    destruct K as [k K].
    (* x = 0: the remainder is 0 *)
    assert (Hk : inject_Z k == - y / m).
    { field_simplify_eq; [lra | intro Em; rewrite Em in Hm; discriminate Hm]. }
    destruct (Z_lt_le_dec k 0) as [Hk0 | Hk0].
    + assert (inject_Z k <= -1).
      { change (-1) with (inject_Z (-1)). rewrite <- Zle_Qle. lia. }
      nra.
    + assert (0 <= inject_Z k).
      { change 0 with (inject_Z 0). rewrite <- Zle_Qle. lia. }
      nra.
Qed.

Lemma wrapYaw_range (x : Q) :
  exists y, CanvasPlayer360.wrapYaw (Fin x) = Fin y /\ 0 <= y /\ y < 360
            /\ exists k : Z, x == y + 360 * inject_Z k.
Proof.
  unfold CanvasPlayer360.wrapYaw. change (num 360) with (Fin 360).
  destruct (rem_range x 360) as [r [E [Hlo [Hhi [_ [_ [k K]]]]]]]; [reflexivity|].
  rewrite E. cbn [add]. unfold fin.
  destruct (rem_nonneg (Qred (r + 360)) 360) as [y [E2 [H0 [H1 [k2 K2]]]]];
    [rewrite Qred_correct; lra | reflexivity |].
  exists y. split; [exact E2|]. split; [exact H0|]. split; [exact H1|].
  exists (k + k2 + -1)%Z. rewrite Qred_correct in K2.
  rewrite !inject_Z_plus. change (inject_Z (-1)) with (-1). lra.
Qed.

End Angles.

Section SphereDrag.
Import JS.
Import CanvasPlayer360.

Lemma turned_keeps (yaw pitch : number) (c : FrameView.t -> bool) (l : list FrameView.t) :
  Forall2 (fun v v' => FrameView.id v' = FrameView.id v
                       /\ FrameView.frameData v' = FrameView.frameData v
                       /\ FrameView.ranges v' = FrameView.ranges v
                       /\ FrameView.threshold v' = FrameView.threshold v)
          l (map (fun v => if c v then Editor360Hook.turned yaw pitch v else v) l).
Proof.
  induction l as [|v rest IH]; [constructor|].
  cbn [map]. constructor; [|exact IH].
  destruct (c v); repeat split.
Qed.

(** X7. Turning the sphere: a drag from a finite start to a finite
    pointer position stores a yaw in [0, 360) that is congruent modulo
    360 to the start yaw plus half the horizontal distance, and a pitch
    in [-90, 90], equal to the start pitch minus half the vertical
    distance whenever that lies in the interval.  In skybox mode the
    views are left alone.  In custom mode the active view takes the new
    yaw and pitch, the other views are left alone, and every view keeps
    its identifier, samples, ranges and threshold. *)
Theorem sphere_drag_angles (x0 y0 yaw0 pitch0 cx cy : Q) (st : Editor360.Editor360State) :
  let start := {| x := Fin x0; y := Fin y0; yaw := Fin yaw0; pitch := Fin pitch0 |} in
  let st' := handleMouseMove (Some start) (Fin cx) (Fin cy) st in
  exists newYaw newPitch : Q,
    Editor360.sphereViewAngle st' = (Fin newYaw, Fin newPitch)
    /\ 0 <= newYaw /\ newYaw < 360
    /\ (exists k : Z, yaw0 + (cx - x0) * (1 # 2) == newYaw + 360 * inject_Z k)
    /\ -90 <= newPitch <= 90
    /\ (-90 <= pitch0 - (cy - y0) * (1 # 2) <= 90 ->
        newPitch == pitch0 - (cy - y0) * (1 # 2))
    /\ (Editor360.editorMode st = Editor360.skybox ->
        Editor360.frameViews st' = Editor360.frameViews st)
    /\ (forall active, Editor360.editorMode st = Editor360.custom ->
          Editor360.activeFrameViewId st = Some active -> active <> ""%string ->
          Editor360.frameViews st'
          = map (fun v => if String.eqb (FrameView.id v) active
                          then Editor360Hook.turned (Fin newYaw) (Fin newPitch) v else v)
                (Editor360.frameViews st))
    /\ Forall2 (fun v v' => FrameView.id v' = FrameView.id v
                            /\ FrameView.frameData v' = FrameView.frameData v
                            /\ FrameView.ranges v' = FrameView.ranges v
                            /\ FrameView.threshold v' = FrameView.threshold v)
               (Editor360.frameViews st) (Editor360.frameViews st').
Proof.
  intros start st'.
  assert (Ha : exists a, (Fin yaw0 + (Fin cx - Fin x0) * dec (1 # 2))%js = Fin a
                         /\ a == yaw0 + (cx - x0) * (1 # 2)).
  { eexists. split; [reflexivity|]. rewrite !Qred_correct. ring. }
  assert (Hb : exists b, (Fin pitch0 - (Fin cy - Fin y0) * dec (1 # 2))%js = Fin b
                         /\ b == pitch0 - (cy - y0) * (1 # 2)).
  { eexists. split; [reflexivity|]. rewrite !Qred_correct. ring. }
  destruct Ha as [a [Ea Ha]]. destruct Hb as [b [Eb Hb]].
  destruct (wrapYaw_range a) as [newYaw [Ey [Hy0 [Hy1 [k Hk]]]]].
  destruct (clamp_between (-90) 90 (Fin b)) as [newPitch [Ep [Bp Kp]]];
    [lra | reflexivity |].
  assert (Eyaw : wrapYaw (yaw start + (Fin cx - x start) * dec (1 # 2))%js = Fin newYaw).
  { subst start. cbn [yaw x]. rewrite Ea. exact Ey. }
  assert (Epitch : clampPitch (pitch start - (Fin cy - y start) * dec (1 # 2))%js
                   = Fin newPitch).
  { subst start. cbn [pitch y]. rewrite Eb. exact Ep. }
  assert (Est : st' = match Editor360.editorMode st with
                      | Editor360.custom =>
                          Editor360Hook.updateActiveFrameViewAngle (Fin newYaw) (Fin newPitch)
                            (Editor360Hook.setSphereViewAngle (Fin newYaw) (Fin newPitch) st)
                      | Editor360.skybox =>
                          Editor360Hook.setSphereViewAngle (Fin newYaw) (Fin newPitch) st
                      end).
  { subst st'. unfold handleMouseMove. cbv zeta. rewrite Eyaw, Epitch. reflexivity. }
  clearbody st'. subst st'.
  exists newYaw, newPitch.
  split.
  { destruct (Editor360.editorMode st) eqn:Em; [reflexivity|].
    unfold Editor360Hook.updateActiveFrameViewAngle.
    cbn [Editor360Hook.setSphereViewAngle Editor360Hook.withSession
         Editor360.activeFrameViewId Editor360.editorMode].
    rewrite Em. destruct (Editor360.activeFrameViewId st) as [active|]; [|reflexivity].
    destruct (String.eqb active ""); reflexivity. }
  split; [exact Hy0|]. split; [exact Hy1|].
  split; [exists k; rewrite <- Ha; exact Hk|].
  split; [exact Bp|].
  split; [intro H; rewrite <- Hb; apply (Kp b eq_refl); rewrite Hb; exact H|].
  split; [intro Em; rewrite Em; reflexivity|].
  split.
  { intros active Em Eact Hne. rewrite Em.
    unfold Editor360Hook.updateActiveFrameViewAngle.
    cbn [Editor360Hook.setSphereViewAngle Editor360Hook.withSession
         Editor360.activeFrameViewId Editor360.editorMode Editor360.frameViews].
    rewrite Em, Eact.
    destruct (String.eqb_spec active "") as [E | _]; [contradiction|]. reflexivity. }
  destruct (Editor360.editorMode st) eqn:Em.
  - cbn [Editor360Hook.setSphereViewAngle Editor360Hook.withSession Editor360.frameViews].
    apply Forall2_flip. apply Forall2_flip.
    induction (Editor360.frameViews st); constructor; [repeat split | assumption].
  - unfold Editor360Hook.updateActiveFrameViewAngle.
    cbn [Editor360Hook.setSphereViewAngle Editor360Hook.withSession
         Editor360.activeFrameViewId Editor360.editorMode Editor360.frameViews].
    rewrite Em.
    assert (Hsame : Forall2 (fun v v' => FrameView.id v' = FrameView.id v
                            /\ FrameView.frameData v' = FrameView.frameData v
                            /\ FrameView.ranges v' = FrameView.ranges v
                            /\ FrameView.threshold v' = FrameView.threshold v)
               (Editor360.frameViews st) (Editor360.frameViews st)).
    { induction (Editor360.frameViews st); constructor; [repeat split | assumption]. }
    destruct (Editor360.activeFrameViewId st) as [active|]; [|exact Hsame].
    destruct (String.eqb active ""); [exact Hsame|].
    cbn [Editor360.withFrameViews Editor360.withViews Editor360.frameViews].
    apply turned_keeps.
Qed.

End SphereDrag.

Section YawRange.
Import JS.

(** X8. The yaws [generateCustomViews] computes are not brought into
    [0, 360): a view's yaw is [(startAngle + i * step) % 360] with the
    sign of the dividend, so for a finite start angle and a positive
    whole frame count every yaw lies strictly between -360 and 360 and
    is negative or zero when [startAngle + i * step] is.  A rig of four
    views started at -90 has the yaws [-90, 0, 90, 180]. *)
Theorem generateCustomViews_yaw_range :
  (forall (m extra : nat) (rigPitch fov : number) (q : Q),
      let n := S m in
      exists views,
        Video360.generateCustomViews (S n + extra) (ofNat n) rigPitch (Fin q) fov
        = Some views
        /\ forall i v, nth_error views i = Some v ->
             exists y, Video360.v_yaw v = Fin y /\ -360 < y /\ y < 360
               /\ (q + inject_Z (Z.of_nat i) * (360 / inject_Z (Z.of_nat n)) <= 0 ->
                   y <= 0)
               /\ exists k : Z,
                    q + inject_Z (Z.of_nat i) * (360 / inject_Z (Z.of_nat n))
                    == y + 360 * inject_Z k)
  /\ option_map (map Video360.v_yaw)
       (Video360.generateCustomViews 5 (num 4) (num 0) (num (-90)) (num 90))
     = Some [num (-90); num 0; num 90; num 180].
Proof.
  split; [|vm_compute; reflexivity].
  intros m extra rigPitch fov q n.
  pose proof (generateCustomViews_runs (Z.of_nat n) rigPitch (Fin q) fov extra) as H.
  rewrite Nat2Z.id in H. fold (ofNat n) in H.
  eexists. split; [exact H|].
  intros i v Hv.
  assert (Hi : (i < n)%nat).
  { assert (Hs : nth_error (map (Spec.customView (ofNat n) rigPitch (Fin q) fov) (seq 0 n)) i
                 <> None) by congruence.
    apply nth_error_Some in Hs. rewrite length_map, length_seq in Hs. exact Hs. }
  rewrite nth_error_map in Hv. rewrite nth_error_seq in Hv.
  destruct (Nat.ltb_spec i n) as [_ | Hge]; [|lia].
  cbn [option_map] in Hv. injection Hv as <-. cbn [Nat.add].
  unfold Spec.customView. cbn [Video360.v_yaw].
  destruct (view_angle_finite q n i) as [a [Ea Ha]]; [lia|].
  fold (ofNat n). rewrite Ea. change (num 360) with (Fin 360).
  destruct (rem_range a 360) as [y [Ey [Hlo [Hhi [_ [Hneg [k Hk]]]]]]]; [reflexivity|].
  exists y. split; [exact Ey|]. split; [exact Hlo|]. split; [exact Hhi|].
  split.
  - intro Hle. apply Hneg. rewrite Ha. exact Hle.
  - exists k. rewrite <- Ha. exact Hk.
Qed.

End YawRange.

(* ================================================================== *)
(** * The analysis canvas *)
(* ================================================================== *)

Section AnalysisCanvas.
Import JS.

Lemma toNat_round (x : Q) : toNat (round (Fin x)) = Z.to_nat (Qfloor (x + (1 # 2))).
Proof.
  unfold round, toNat, ofZ, Qtrunc, inject_Z. cbn [Qnum Qden].
  rewrite Z.quot_1_r. reflexivity.
Qed.

Lemma ofNat_gtb (a : nat) (b : Z) : (ofNat a >? ofZ b)%js = (b <? Z.of_nat a)%Z.
Proof. unfold gtb, ofNat. apply ofZ_ltb. Qed.

Lemma scaled_value (a w h : nat) :
  (0 < w)%nat -> (0 < h)%nat ->
  exists r : Q,
    (ofNat a * min (num 1080 / ofNat w) (num 1080 / ofNat h))%js = Fin r
    /\ r == inject_Z (Z.of_nat a)
            * Qmin (1080 / inject_Z (Z.of_nat w)) (1080 / inject_Z (Z.of_nat h)).
Proof.
  intros Hw Hh. unfold ofNat, ofZ, num, ofZ. cbn [div].
  assert (Hz : forall n, (0 < n)%nat -> Qeq_bool (inject_Z (Z.of_nat n)) 0 = false).
  { intros n Hn. destruct (Qeq_bool (inject_Z (Z.of_nat n)) 0) eqn:E; [|reflexivity].
    apply Qeq_bool_iff in E. unfold Qeq in E. simpl in E. lia. }
  rewrite (Hz w Hw), (Hz h Hh). unfold fin. rewrite min_Fin. cbn [mul]. unfold fin.
  eexists. split; [reflexivity|].
  rewrite Qred_correct.
  apply Qmult_comp; [reflexivity|].
  apply Q.min_compat; apply Qred_correct.
Qed.

Lemma Qfloor_half_le (x : Q) (b : Z) : x <= inject_Z b -> (Qfloor (x + (1 # 2)) <= b)%Z.
Proof.
  intro H. apply Z.lt_succ_r. rewrite Zlt_Qlt.
  apply Qle_lt_trans with (x + (1 # 2)); [apply Qfloor_le|].
  unfold Z.succ. rewrite inject_Z_plus. change (inject_Z 1) with 1. lra.
Qed.

Lemma Qfloor_half_eq_0 (x : Q) : 0 <= x -> x < (1 # 2) -> Qfloor (x + (1 # 2)) = 0%Z.
Proof.
  intros H0 H1.
  assert (Hlo : (0 <= Qfloor (x + (1 # 2)))%Z).
  { rewrite <- (Qfloor_Z 0). apply Qfloor_resp_le. change (inject_Z 0) with 0. lra. }
  assert (Hhi : (Qfloor (x + (1 # 2)) < 1)%Z).
  { rewrite Zlt_Qlt. apply Qle_lt_trans with (x + (1 # 2)); [apply Qfloor_le|].
    change (inject_Z 1) with 1. lra. }
  lia.
Qed.

Lemma Qfloor_half_eq (x : Q) (b : Z) : x == inject_Z b -> Qfloor (x + (1 # 2)) = b.
Proof.
  intro H.
  assert (H1 : (Qfloor (x + (1 # 2)) <= b)%Z) by (apply Qfloor_half_le; lra).
  assert (H2 : (b <= Qfloor (x + (1 # 2)))%Z).
  { rewrite <- (Qfloor_Z b). apply Qfloor_resp_le. lra. }
  lia.
Qed.


Lemma analysisSize_scaled (w h : nat) :
  ((w <= 1080)%nat -> (h <= 1080)%nat -> analysisSize w h = (w, h))
  /\ ((0 < w)%nat -> (0 < h)%nat -> (1080 < w \/ 1080 < h)%nat ->
      (fst (analysisSize w h) <= 1080)%nat
      /\ (snd (analysisSize w h) <= 1080)%nat
      /\ ((h <= w)%nat -> fst (analysisSize w h) = 1080%nat)
      /\ ((w <= h)%nat -> snd (analysisSize w h) = 1080%nat)
      /\ ((2160 * h < w)%nat -> snd (analysisSize w h) = 0%nat)
      /\ ((2160 * w < h)%nat -> fst (analysisSize w h) = 0%nat)).
Proof.
  split.
  - intros Hw Hh. unfold analysisSize. unfold num. rewrite !ofNat_gtb.
    destruct (Z.ltb_spec 1080 (Z.of_nat w)); [lia|].
    destruct (Z.ltb_spec 1080 (Z.of_nat h)); [lia|]. reflexivity.
  - intros Hw Hh Hbig. unfold analysisSize.
    assert (Hc : ((ofNat w >? num 1080)%js || (ofNat h >? num 1080)%js)%bool = true).
    { unfold num. rewrite !ofNat_gtb. apply orb_true_iff.
      destruct Hbig; [left | right]; apply Z.ltb_lt; lia. }
    rewrite Hc. cbn [fst snd].
    destruct (scaled_value w w h Hw Hh) as [rw [Ew Hrw]].
    destruct (scaled_value h w h Hw Hh) as [rh [Eh Hrh]].
    rewrite Ew, Eh, !toNat_round.
    set (W := inject_Z (Z.of_nat w)) in *. set (H := inject_Z (Z.of_nat h)) in *.
    assert (HW : 0 < W) by (unfold W; change 0 with (inject_Z 0); rewrite <- Zlt_Qlt; lia).
    assert (HH : 0 < H) by (unfold H; change 0 with (inject_Z 0); rewrite <- Zlt_Qlt; lia).
    assert (Hmw : W * Qmin (1080 / W) (1080 / H) <= 1080).
    { apply Qle_trans with (W * (1080 / W)).
      - apply Qmult_le_l; [exact HW | apply Q.le_min_l].
      - apply Qle_lteq. right. field. lra. }
    assert (Hmh : H * Qmin (1080 / W) (1080 / H) <= 1080).
    { apply Qle_trans with (H * (1080 / H)).
      - apply Qmult_le_l; [exact HH | apply Q.le_min_r].
      - apply Qle_lteq. right. field. lra. }
    assert (HWH : (h <= w)%nat -> 1080 / W <= 1080 / H).
    { intro Hle. assert (H <= W) by (unfold W, H; rewrite <- Zle_Qle; lia).
      apply Qle_shift_div_l; [exact HH|].
      setoid_replace (1080 / W * H) with (1080 * (H / W)) by (field; lra).
      assert (H / W <= 1) by (apply Qle_shift_div_r; [exact HW | lra]).
      lra. }
    assert (HHW : (w <= h)%nat -> 1080 / H <= 1080 / W).
    { intro Hle. assert (W <= H) by (unfold W, H; rewrite <- Zle_Qle; lia).
      apply Qle_shift_div_l; [exact HW|].
      setoid_replace (1080 / H * W) with (1080 * (W / H)) by (field; lra).
      assert (W / H <= 1) by (apply Qle_shift_div_r; [exact HH | lra]).
      lra. }
    assert (Hnn : forall x : Q, 0 <= x -> (0 <= Qfloor (x + (1 # 2)))%Z).
    { intros x Hx. rewrite <- (Qfloor_Z 0). apply Qfloor_resp_le. change (inject_Z 0) with 0. lra. }
    split; [|split; [|split; [|split; [|split]]]].
    + apply Nat2Z.inj_le. rewrite Z2Nat.id.
      * apply (Qfloor_half_le rw 1080). rewrite Hrw. exact Hmw.
      * apply Hnn. rewrite Hrw. apply Qmult_le_0_compat; [lra|].
        apply Q.min_glb; apply Qlt_le_weak; apply Qlt_shift_div_l; lra.
    + apply Nat2Z.inj_le. rewrite Z2Nat.id.
      * apply (Qfloor_half_le rh 1080). rewrite Hrh. exact Hmh.
      * apply Hnn. rewrite Hrh. apply Qmult_le_0_compat; [lra|].
        apply Q.min_glb; apply Qlt_le_weak; apply Qlt_shift_div_l; lra.
    + intro Hle. rewrite (Qfloor_half_eq rw 1080); [reflexivity|].
      rewrite Hrw, (Q.min_l _ _ (HWH Hle)). change (inject_Z 1080) with 1080. field. lra.
    + intro Hle. rewrite (Qfloor_half_eq rh 1080); [reflexivity|].
      rewrite Hrh, (Q.min_r _ _ (HHW Hle)). change (inject_Z 1080) with 1080. field. lra.
    + intro Hs. rewrite (Qfloor_half_eq_0 rh); [reflexivity| |].
      * rewrite Hrh. apply Qmult_le_0_compat; [lra|].
        apply Q.min_glb; apply Qlt_le_weak; apply Qlt_shift_div_l; lra.
      * rewrite Hrh.
        assert (Hlt : 2160 * H < W).
        { unfold W, H. change 2160 with (inject_Z 2160). rewrite <- inject_Z_mult, <- Zlt_Qlt. lia. }
        apply Qle_lt_trans with (H * (1080 / W)).
        -- apply Qmult_le_l; [exact HH | apply Q.le_min_l].
        -- assert (2160 * H / W < 1) by (apply Qlt_shift_div_r; [exact HW | lra]).
           setoid_replace (H * (1080 / W)) with ((2160 * H / W) * (1 # 2)) by (field; lra).
           lra.
    + intro Hs. rewrite (Qfloor_half_eq_0 rw); [reflexivity| |].
      * rewrite Hrw. apply Qmult_le_0_compat; [lra|].
        apply Q.min_glb; apply Qlt_le_weak; apply Qlt_shift_div_l; lra.
      * rewrite Hrw.
        assert (Hlt : 2160 * W < H).
        { unfold W, H. change 2160 with (inject_Z 2160). rewrite <- inject_Z_mult, <- Zlt_Qlt. lia. }
        apply Qle_lt_trans with (W * (1080 / H)).
        -- apply Qmult_le_l; [exact HW | apply Q.le_min_r].
        -- assert (2160 * W / H < 1) by (apply Qlt_shift_div_r; [exact HH | lra]).
           setoid_replace (W * (1080 / H)) with ((2160 * W / H) * (1 # 2)) by (field; lra).
           lra.
Qed.

(** X9. The size of the analysis canvas.  A frame of at most 1080
    pixels on either edge is analysed at its own size.  A larger frame
    is scaled so that its longer edge becomes exactly 1080 pixels, and
    neither edge exceeds 1080.  The shorter edge is rounded, and it is
    rounded to zero when the frame is more than 2160 times longer than
    it is high (or high than long). *)
Theorem analysisSize_bounds (w h : nat) :
  ((w <= 1080)%nat -> (h <= 1080)%nat -> analysisSize w h = (w, h))
  /\ ((0 < w)%nat -> (0 < h)%nat -> (1080 < w \/ 1080 < h)%nat ->
      (fst (analysisSize w h) <= 1080)%nat
      /\ (snd (analysisSize w h) <= 1080)%nat
      /\ ((h <= w)%nat -> fst (analysisSize w h) = 1080%nat)
      /\ ((w <= h)%nat -> snd (analysisSize w h) = 1080%nat)
      /\ ((2160 * h < w)%nat -> snd (analysisSize w h) = 0%nat)
      /\ ((2160 * w < h)%nat -> fst (analysisSize w h) = 0%nat)).
Proof. exact (analysisSize_scaled w h). Qed.

End AnalysisCanvas.

Section EmptyCanvas.
Import JS.
Import Sampling.

Lemma scaled_zero (r : number) : toNat (round (ofNat 0 * r)%js) = 0%nat.
Proof.
  destruct r; reflexivity.
Qed.

Lemma planarScore_empty_canvas
      (drawFrame : number -> nat -> nat -> result DOM.Canvas)
      (video : Video.t) (time : number) :
  fst (analysisSize (Video.videoWidth video) (Video.videoHeight video)) = 0%nat
  \/ snd (analysisSize (Video.videoWidth video) (Video.videoHeight video)) = 0%nat ->
  exists e, planarScore drawFrame video time = Throw e.
Proof.
  intro Hz. unfold planarScore.
  destruct (analysisSize (Video.videoWidth video) (Video.videoHeight video)) as [w h].
  cbn [fst snd] in Hz.
  destruct (drawFrame time w h) as [ctx | e]; [|exists e; reflexivity].
  exists (DOMException "IndexSizeError").
  unfold Scorer.computeLaplacianVariance, DOM.getImageData.
  destruct Hz as [Hz | Hz]; subst; [reflexivity|].
  rewrite orb_true_r. reflexivity.
Qed.

(** X10. A video whose analysis canvas has no pixels is not analysed:
    the first read-back fails, the run logs the error and ends with no
    sample, the progress at 0, the processing flag cleared and the
    playback position restored.  The canvas has no pixels when the
    video has no picture (a width or height of 0) and when the frame
    is more than 2160 times longer than it is high. *)
Theorem empty_canvas_run
        (drawFrame : number -> nat -> nat -> result DOM.Canvas)
        (video : Video.t) (d f : Q) (st : Editor.EditorState)
        (con : list string) (extra : nat)
        (Hdur : Video.duration video = Fin d) (Hd : 0 <= d) (Hf : 0 < f)
        (Hfps : Editor.fps st = Fin f)
        (Hempty : Video.videoWidth video = 0%nat \/ Video.videoHeight video = 0%nat
                  \/ ((0 < Video.videoHeight video)%nat
                      /\ (2160 * Video.videoHeight video < Video.videoWidth video)%nat)) :
  Editor.runAnalysis drawFrame (1 + extra) (planarWorld st video true con)
  = Some (Ok tt,
          planarWorld (Editor.withAnalysis false (num 0) [] st)
                      (Video.setCurrentTime (Video.currentTime video) (Video.pause video))
                      true (con ++ ["Error processing video:"%string])).
Proof.
  assert (Hz : fst (analysisSize (Video.videoWidth video) (Video.videoHeight video)) = 0%nat
               \/ snd (analysisSize (Video.videoWidth video) (Video.videoHeight video))
                  = 0%nat).
  { destruct (analysisSize_scaled (Video.videoWidth video) (Video.videoHeight video))
      as [Hsmall Hbig].
    destruct Hempty as [Hw | [Hh | [Hh Hs]]].
    - left. unfold analysisSize. rewrite Hw. unfold num. rewrite !ofNat_gtb.
      destruct (Z.ltb_spec 1080 (Z.of_nat (Video.videoHeight video))) as [Hlt | Hge].
      + cbn [orb fst]. apply scaled_zero.
      + reflexivity.
    - right. unfold analysisSize. rewrite Hh. unfold num. rewrite !ofNat_gtb.
      destruct (Z.ltb_spec 1080 (Z.of_nat (Video.videoWidth video))) as [Hlt | Hge].
      + cbn [orb snd]. apply scaled_zero.
      + rewrite orb_false_r.
        destruct (Z.ltb_spec 1080 (Z.of_nat 0)); [lia | reflexivity].
    - right. apply Hbig; lia. }
  destruct (planarScore_empty_canvas drawFrame video (sampleTime (Fin f) 0) Hz) as [e He].
  exact (runAnalysis_aborts drawFrame video d f Hdur Hd Hf st con extra 0 e Hfps
           (Nat.le_0_l _) He (fun j Hj => ltac:(lia))).
Qed.

End EmptyCanvas.

Lemma empty_canvas_run_witness :
  Editor.runAnalysis Examples.steady 1
    (Sampling.planarWorld Editor.initialState Scenes.noPicture true [])
  = Some (Ok tt,
          Sampling.planarWorld (Editor.withAnalysis false (num 0) [] Editor.initialState)
            (Video.setCurrentTime (num 1) (Video.pause Scenes.noPicture))
            true ["Error processing video:"%string]).
Proof.
  exact (empty_canvas_run Examples.steady Scenes.noPicture 2 6 Editor.initialState [] 0
           eq_refl (Qle_bool_imp_le 0 2 eq_refl) eq_refl eq_refl (or_introl eq_refl)).
Defined.

(* ================================================================== *)
(** * The score of a frame without detail *)
(* ================================================================== *)

Section FlatFrame.
Import JS.
Import Scorer.
Import Facts.

Lemma nth_error_update {A : Type} (l : list A) (v : A) :
  forall n k,
    nth_error (update l n v) k
    = if (k =? n)%nat && (n <? List.length l)%nat then Some v else nth_error l k.
Proof.
  induction l as [|a l IH]; intros n k.
  - cbn [update List.length]. change (n <? 0)%nat with false.
    rewrite andb_false_r. reflexivity.
  - destruct n as [|n]; destruct k as [|k]; cbn [update nth_error List.length]; try reflexivity.
    rewrite IH. cbn [Nat.eqb]. 
    change (S n <? S (List.length l))%nat with (n <? List.length l)%nat. reflexivity.
Qed.

(** A buffer of [n] equal pixels. *)
Lemma flat_map_const {A B : Type} (px : list B) (l : list A) :
  flat_map (fun _ => px) l = List.concat (repeat px (List.length l)).
Proof.
  induction l as [|a l IH]; [reflexivity|].
  cbn [flat_map List.length repeat List.concat]. rewrite IH. reflexivity.
Qed.

Lemma concat_repeat_mul {B : Type} (px : list B) (w : nat) :
  forall h, List.concat (repeat (List.concat (repeat px w)) h) = List.concat (repeat px (h * w)).
Proof.
  induction h as [|h IH]; [reflexivity|].
  cbn [repeat List.concat Nat.mul]. rewrite IH, repeat_app, concat_app. reflexivity.
Qed.

Lemma nth_error_blocks {B : Type} (px : list B) :
  List.length px = 4%nat ->
  forall n k j, (k < n)%nat -> (j < 4)%nat ->
    nth_error (List.concat (repeat px n)) (4 * k + j) = nth_error px j.
Proof.
  intros Hpx. induction n as [|n IH]; intros k j Hk Hj; [lia|].
  cbn [repeat List.concat]. destruct k as [|k].
  - rewrite Nat.mul_0_r, Nat.add_0_l. apply nth_error_app1. lia.
  - rewrite nth_error_app2 by lia. rewrite Hpx.
    replace (4 * S k + j - 4)%nat with (4 * k + j)%nat by lia.
    apply IH; lia.
Qed.

Lemma length_blocks {B : Type} (px : list B) :
  List.length px = 4%nat -> forall n, List.length (List.concat (repeat px n)) = (4 * n)%nat.
Proof.
  intros Hpx. induction n as [|n IH]; [reflexivity|].
  cbn [repeat List.concat]. rewrite length_app, IH, Hpx. lia.
Qed.

Lemma flat_map_ext_in {A B : Type} (f g : A -> list B) (l : list A) :
  (forall a, In a l -> f a = g a) -> flat_map f l = flat_map g l.
Proof.
  intro H. induction l as [|a l IH]; [reflexivity|].
  cbn [flat_map]. rewrite (H a (or_introl eq_refl)), IH; [reflexivity|].
  intros b Hb. apply H. right. exact Hb.
Qed.

(** The read-back of a rectangle of one colour. *)
Lemma getImageData_flat (ctx : DOM.Canvas) (width height : nat) (r g b a : Z) :
  (0 < width)%nat -> (0 < height)%nat ->
  (width <= DOM.c_width ctx)%nat -> (height <= DOM.c_height ctx)%nat ->
  (forall x y, (x < width)%nat -> (y < height)%nat -> DOM.c_pixel ctx x y = (r, g, b, a)) ->
  DOM.getImageData ctx width height
  = Ok (List.concat (repeat [DOM.channel r; DOM.channel g; DOM.channel b; DOM.channel a]
                       (height * width))).
Proof.
  intros Hw Hh Hcw Hch Hpx. unfold DOM.getImageData.
  destruct (Nat.eqb_spec width 0); [lia|]. destruct (Nat.eqb_spec height 0); [lia|].
  cbn [orb]. f_equal.
  rewrite (flat_map_ext_in _
             (fun _ => List.concat (repeat [DOM.channel r; DOM.channel g;
                                       DOM.channel b; DOM.channel a] width))).
  - rewrite flat_map_const, length_seq. apply concat_repeat_mul.
  - intros y Hy. apply in_seq in Hy.
    rewrite (flat_map_ext_in _
               (fun _ => [DOM.channel r; DOM.channel g; DOM.channel b; DOM.channel a])).
    + rewrite flat_map_const, length_seq. reflexivity.
    + intros x Hx. apply in_seq in Hx. unfold DOM.rgbaAt.
      destruct (Nat.ltb_spec x (DOM.c_width ctx)); [|lia].
      destruct (Nat.ltb_spec y (DOM.c_height ctx)); [|lia].
      cbn [andb]. rewrite Hpx by lia. reflexivity.
Qed.

Lemma grayStep_nth (data gd : list Z) (m k : nat) :
  nth_error (grayStep data gd m) k
  = if (k =? m)%nat && (m <? List.length gd)%nat then Some (grayOf data m)
    else nth_error gd k.
Proof.
  unfold grayStep, setU8.
  replace (4 * Z.of_nat m / 4)%Z with (Z.of_nat m)
    by (rewrite Z.mul_comm, Z.div_mul; lia).
  destruct (Z.ltb_spec (Z.of_nat m) 0); [lia|].
  rewrite Nat2Z.id, nth_error_update. reflexivity.
Qed.

Lemma length_grayStep (data gd : list Z) (m : nat) :
  List.length (grayStep data gd m) = List.length gd.
Proof.
  unfold grayStep, setU8. destruct (_ <? 0)%Z; [reflexivity | apply length_update].
Qed.

Lemma toGray_nth (data : list Z) (n : nat) :
  forall (m : nat) (gd : list Z),
    List.length gd = n ->
    forall k, (k < n)%nat ->
      nth_error (fold_left (grayStep data) (seq 0 m) gd) k
      = if (k <? m)%nat then Some (grayOf data k) else nth_error gd k.
Proof.
  induction m as [|m IH]; intros gd Hgd k Hk.
  - reflexivity.
  - rewrite seq_S, fold_left_app. cbn [fold_left Nat.add].
    rewrite grayStep_nth.
    assert (Hlen : List.length (fold_left (grayStep data) (seq 0 m) gd) = n).
    { clear IH. revert gd Hgd. generalize 0%nat. induction m as [|m IHm]; intros s gd Hgd;
        [exact Hgd|]. cbn [seq fold_left]. apply IHm. rewrite length_grayStep. exact Hgd. }
    rewrite Hlen, (IH gd Hgd k Hk).
    destruct (Nat.eqb_spec k m) as [E | N].
    + subst k. destruct (Nat.ltb_spec m n); [|lia]. cbn [andb].
      destruct (Nat.ltb_spec m (S m)); [reflexivity | lia].
    + cbn [andb]. destruct (Nat.ltb_spec k m); destruct (Nat.ltb_spec k (S m));
        try reflexivity; lia.
Qed.

Lemma laplacian_flat (x : Q) :
  (Fin x + Fin x + Fin x + Fin x - num 4 * Fin x)%js = num 0.
Proof.
  cbv [add sub neg mul fin num ofZ]. f_equal.
  change (inject_Z 0) with (Qred 0). apply Qred_complete. rewrite !Qred_correct.
  change (inject_Z 4) with 4. ring.
Qed.

Lemma update_repeat {A : Type} (v : A) :
  forall n i, update (repeat v n) i v = repeat v n.
Proof.
  induction n as [|n IH]; intro i; [reflexivity|].
  destruct i as [|i]; cbn [repeat update]; [reflexivity|]. rewrite IH. reflexivity.
Qed.

Lemma zero_div_count (c : nat) : (0 < c)%nat -> (num 0 / ofNat c)%js = num 0.
Proof.
  intro Hc. unfold ofNat, ofZ, num, ofZ. cbn [div].
  assert (Hz : Qeq_bool (inject_Z (Z.of_nat c)) 0 = false).
  { destruct (Qeq_bool (inject_Z (Z.of_nat c)) 0) eqn:E; [|reflexivity].
    apply Qeq_bool_iff in E. unfold Qeq in E. simpl in E. lia. }
  rewrite Hz. reflexivity.
Qed.

Lemma getU8_nth (arr : list Z) (i : nat) (v : Z) :
  nth_error arr i = Some v -> getU8 arr (Z.of_nat i) = ofZ v.
Proof.
  intro H. unfold getU8. destruct (Z.ltb_spec (Z.of_nat i) 0); [lia|].
  rewrite Nat2Z.id, H. reflexivity.
Qed.

(** The gray buffer of a rectangle of one colour holds one value. *)
Lemma toGray_flat (width height : nat) (r g b a : Z) :
  let px := [DOM.channel r; DOM.channel g; DOM.channel b; DOM.channel a] in
  let g0 := toUint8 (dec (299 # 1000) * ofZ (DOM.channel r)
                     + dec (587 # 1000) * ofZ (DOM.channel g)
                     + dec (114 # 1000) * ofZ (DOM.channel b))%js in
  forall k, (k < width * height)%nat ->
    nth_error (toGray (List.concat (repeat px (height * width))) width height) k
    = Some g0.
Proof.
  intros px g0 k Hk. unfold toGray.
  assert (Hpx : List.length px = 4%nat) by reflexivity.
  rewrite (length_blocks px Hpx).
  replace ((4 * (height * width) + 3) / 4)%nat with (width * height)%nat.
  2:{ symmetry. rewrite (Nat.mul_comm 4).
      rewrite Nat.div_add_l by lia. cbn. lia. }
  rewrite (toGray_nth _ (width * height) (width * height)); [|apply repeat_length | exact Hk].
  destruct (Nat.ltb_spec k (width * height)); [|lia].
  f_equal. unfold grayOf, g0.
  assert (Hj : forall j v, (j < 4)%nat -> nth_error px j = Some v ->
                 getU8 (List.concat (repeat px (height * width)))
                       (4 * Z.of_nat k + Z.of_nat j) = ofZ v).
  { intros j v Hj Hv.
    replace (4 * Z.of_nat k + Z.of_nat j)%Z with (Z.of_nat (4 * k + j)) by lia.
    apply getU8_nth. rewrite nth_error_blocks; [exact Hv | exact Hpx | lia | exact Hj]. }
  pose proof (Hj 0%nat _ ltac:(lia) eq_refl) as H0.
  pose proof (Hj 1%nat _ ltac:(lia) eq_refl) as H1.
  pose proof (Hj 2%nat _ ltac:(lia) eq_refl) as H2.
  cbn [Z.of_nat Pos.of_succ_nat Pos.succ] in H0, H1, H2.
  rewrite Z.add_0_r in H0. rewrite H0, H1, H2. reflexivity.
Qed.

Lemma laplacianPass_flat (grayData : list Z) (width height : nat) (g0 : Z) :
  (forall k, (k < width * height)%nat -> nth_error grayData k = Some g0) ->
  laplacianData (laplacianPass grayData width height) = repeat (num 0) (width * height)
  /\ sum (laplacianPass grayData width height) = num 0.
Proof.
  intro Hg. unfold laplacianPass.
  apply (fold_left_invariant
           (fun acc => laplacianData acc = repeat (num 0) (width * height)
                       /\ sum acc = num 0)); [|split; reflexivity].
  intros acc y Hy Hacc.
  apply (fold_left_invariant
           (fun acc => laplacianData acc = repeat (num 0) (width * height)
                       /\ sum acc = num 0)); [|exact Hacc].
  intros acc' x Hx [Hl Hs].
  pose proof (interior_index width height y x Hy Hx) as Hi. cbv zeta in Hi.
  assert (Hget : forall i : Z, (0 <= i < Z.of_nat (width * height))%Z ->
                               getU8 grayData i = Fin (inject_Z g0)).
  { intros i Hr. rewrite <- (Z2Nat.id i) by lia. apply getU8_nth. apply Hg. lia. }
  unfold laplacianStep. cbn [laplacianData sum].
  rewrite !Hget by lia. rewrite laplacian_flat, Hl, Hs.
  split; [|reflexivity].
  unfold setF32. destruct (_ <? 0)%Z; [reflexivity | apply update_repeat].
Qed.

Lemma variancePass_flat (width height : nat) :
  variancePass (repeat (num 0) (width * height)) (num 0) width height = num 0.
Proof.
  unfold variancePass.
  apply (fold_left_invariant (fun acc => acc = num 0)); [|reflexivity].
  intros acc y Hy Hacc.
  apply (fold_left_invariant (fun acc => acc = num 0)); [|exact Hacc].
  intros acc' x Hx ->.
  pose proof (interior_index width height y x Hy Hx) as Hi. cbv zeta in Hi.
  unfold varianceStep, getF32.
  destruct (Z.ltb_spec (Z.of_nat (y * width + x)) 0); [lia|].
  rewrite Nat2Z.id, nth_repeat_lt by lia. reflexivity.
Qed.

Lemma flat_frame_score (ctx : DOM.Canvas) (width height : nat) (r g b a : Z) :
  (3 <= width)%nat -> (3 <= height)%nat ->
  (width <= DOM.c_width ctx)%nat -> (height <= DOM.c_height ctx)%nat ->
  (forall x y, (x < width)%nat -> (y < height)%nat -> DOM.c_pixel ctx x y = (r, g, b, a)) ->
  computeLaplacianVariance ctx width height = Ok (num 0).
Proof.
  intros Hw Hh Hcw Hch Hpx. unfold computeLaplacianVariance.
  rewrite (getImageData_flat ctx width height r g b a) by (assumption || lia).
  destruct (laplacianPass_flat _ width height _ (toGray_flat width height r g b a))
    as [Hl Hs].
  rewrite Hl, Hs, count_laplacianPass.
  assert (Hc : (0 < (height - 2) * (width - 2))%nat) by nia.
  rewrite (zero_div_count _ Hc), variancePass_flat, (zero_div_count _ Hc). reflexivity.
Qed.

(** X12. A frame of one flat colour has no edge: whatever the colour
    and its alpha, on an analysis rectangle of at least 3 by 3 pixels
    inside the canvas the score is exactly 0. *)
Theorem flat_frame_scores_zero (ctx : DOM.Canvas) (width height : nat) (r g b a : Z) :
  (3 <= width)%nat -> (3 <= height)%nat ->
  (width <= DOM.c_width ctx)%nat -> (height <= DOM.c_height ctx)%nat ->
  (forall x y, (x < width)%nat -> (y < height)%nat -> DOM.c_pixel ctx x y = (r, g, b, a)) ->
  computeLaplacianVariance ctx width height = Ok (num 0).
Proof. exact (flat_frame_score ctx width height r g b a). Qed.

End FlatFrame.

Lemma flat_frame_scores_zero_witness :
  Scorer.computeLaplacianVariance (Scenes.grey 4) 4 4 = Ok (num 0).
Proof.
  apply (flat_frame_scores_zero (Scenes.grey 4) 4 4 128 128 128 255);
    [lia | lia | cbn; lia | cbn; lia | reflexivity].
Defined.

(* ================================================================== *)
(** * The planar timeline: pointer positions, ranges, threshold *)
(* ================================================================== *)

Section PointerTimes.
Import JS.
Import Within.

Lemma min_cases (a b : number) : min a b = NaN \/ min a b = a \/ min a b = b.
Proof.
  destruct a, b; cbn; auto;
    match goal with |- context [if ?c then _ else _] => destruct c; auto end.
Qed.

Lemma min_not_NaN (a b : number) :
  isNaN a = false -> isNaN b = false -> isNaN (min a b) = false.
Proof.
  destruct a, b; intros Ha Hb; try discriminate; cbn; try reflexivity;
    match goal with |- context [if ?c then _ else _] => destruct c; reflexivity end.
Qed.

Lemma max_not_NaN (a b : number) :
  isNaN a = false -> isNaN b = false -> isNaN (max a b) = false.
Proof.
  destruct a, b; intros Ha Hb; try discriminate; cbn; try reflexivity;
    match goal with |- context [if ?c then _ else _] => destruct c; reflexivity end.
Qed.

Lemma min_pick (a b : number) :
  isNaN a = false -> isNaN b = false -> min a b = a \/ min a b = b.
Proof.
  intros Ha Hb. destruct (min_cases a b) as [E | E]; [|exact E].
  pose proof (min_not_NaN a b Ha Hb) as H. rewrite E in H. discriminate.
Qed.

Lemma max_pick (a b : number) :
  isNaN a = false -> isNaN b = false -> max a b = a \/ max a b = b.
Proof.
  intros Ha Hb. destruct (max_cases a b) as [E | E]; [|exact E].
  pose proof (max_not_NaN a b Ha Hb) as H. rewrite E in H. discriminate.
Qed.


Lemma share_times_duration (p : Q) (d : number) :
  0 <= p <= 1 -> (num 0 <=? d)%js = true -> timeOk d (Fin p * d)%js.
Proof.
  intros [Hp0 Hp1] Hd. destruct d as [| |dq|]; try discriminate.
  - right. cbn [mul]. unfold fin, num, ofZ. rewrite !leb_Fin, Qred_correct.
    apply leb_Fin in Hd. change (inject_Z 0) with 0 in *. split; nra.
  - cbn [mul]. unfold scaleInf.
    destruct (p ?= 0) eqn:E; [left; reflexivity | | right; split; reflexivity].
    apply Qlt_alt in E. lra.
Qed.

Lemma positionToTime_ok (trackRef : option DOMRect.t) (d clientX : number) :
  (num 0 <=? d)%js = true ->
  timeOk d (TimelineGeometry.positionToTime trackRef d clientX).
Proof.
  intro Hd. unfold TimelineGeometry.positionToTime.
  assert (H0 : timeOk d (num 0)) by (right; split; [reflexivity | exact Hd]).
  destruct trackRef as [rect|]; [|exact H0].
  destruct (truthy d); [|exact H0]. cbn [negb].
  set (q := ((clientX - DOMRect.left rect) / DOMRect.width rect)%js).
  destruct (isNaN q) eqn:Eq.
  - destruct q; try discriminate. left. reflexivity.
  - destruct (clamp_between 0 1 q) as [p [E [B _]]]; [lra | exact Eq |].
    change (num 0) with (Fin 0). change (num 1) with (Fin 1). rewrite E.
    apply share_times_duration; assumption.
Qed.

End PointerTimes.

Section DrawnRanges.
Import JS.
Import TimelineComponent.
Import Within.


Lemma longer_lt (s e : number) :
  ((e - s) >? dec (1 # 10))%js = true -> (s <? e)%js = true.
Proof.
  unfold gtb. destruct s as [| |x|], e as [| |y|];
    try (cbn; first [discriminate | reflexivity]).
  cbv [sub add neg fin dec ltb]. intro H. apply Qltb_lt in H.
  apply Qltb_lt. rewrite !Qred_correct in H. lra.
Qed.

Lemma ltb_asym (a b : number) : (a <? b)%js = true -> (b <? a)%js = false.
Proof.
  intro H. apply ltb_leb_false. apply ltb_leb. exact H.
Qed.

Lemma ordered_min_max (s e : number) :
  (s <? e)%js = true -> min s e = s /\ max s e = e.
Proof.
  intro H. pose proof (ltb_asym s e H) as H'.
  destruct (ltb_not_NaN s e H) as [Hs He].
  destruct s, e; try discriminate; cbn [min max]; rewrite ?H, ?H'; split; reflexivity.
Qed.

Lemma drawn_range_ok (d a b : number) (id : string) :
  timeOk d a -> timeOk d b ->
  ((max a b - min a b) >? dec (1 # 10))%js = true ->
  rangeOk d {| TimelineRange.id := id;
               TimelineRange.start := min (min a b) (max a b);
               TimelineRange.end_ := max (min a b) (max a b);
               TimelineRange.action := None;
               TimelineRange.maskPrompt := None |}.
Proof.
  intros Ha Hb Hlong.
  destruct (ordered_min_max _ _ (longer_lt _ _ Hlong)) as [Emin Emax].
  assert (Hna : isNaN a = false).
  { destruct a; try reflexivity. cbn in Hlong. discriminate. }
  assert (Hnb : isNaN b = false).
  { destruct b; try reflexivity. destruct a; cbn in Hlong; discriminate. }
  destruct Ha as [Ha | [Ha0 Ha1]]; [congruence|].
  destruct Hb as [Hb | [Hb0 Hb1]]; [congruence|].
  unfold rangeOk. cbn [TimelineRange.start TimelineRange.end_].
  rewrite Emin, Emax. split; [|split; [|exact Hlong]].
  - destruct (min_pick a b Hna Hnb) as [E | E]; rewrite E; assumption.
  - destruct (max_pick a b Hna Hnb) as [E | E]; rewrite E; assumption.
Qed.

Lemma handleMouseUp_ok (d : number) (id : string) (state : Editor.EditorState) (l : Local) :
  Forall (rangeOk d) (Editor.ranges state) -> localOk d l ->
  Forall (rangeOk d) (Editor.ranges (fst (handleMouseUp id state l)))
  /\ localOk d (snd (handleMouseUp id state l)).
Proof.
  intros Hr [Hl1 Hl2]. unfold handleMouseUp. cbn [fst snd]. split.
  - destruct (isCreatingRange l); [|exact Hr].
    destruct (rangeCreationStart l) as [a|] eqn:Ea; [|exact Hr].
    destruct (tempRangeEnd l) as [b|] eqn:Eb; [|exact Hr].
    destruct ((max a b - min a b >? dec (1 # 10))%js) eqn:Hlong; [|exact Hr].
    cbn [Editor.addRange Editor.withRanges Editor.ranges].
    apply Forall_app. split; [exact Hr|]. constructor; [|constructor].
    apply drawn_range_ok; [apply Hl1; reflexivity | apply Hl2; reflexivity | exact Hlong].
  - split; intros t H; discriminate.
Qed.

Lemma removeRange_ok (d : number) (id : string) (state : Editor.EditorState) :
  Forall (rangeOk d) (Editor.ranges state) ->
  Forall (rangeOk d) (Editor.ranges (Editor.removeRange id state)).
Proof. intro H. apply Forall_filter. exact H. Qed.

Lemma setRangeAction_ok (d : number) (id : string) (a : RangeAction)
      (state : Editor.EditorState) :
  Forall (rangeOk d) (Editor.ranges state) ->
  Forall (rangeOk d) (Editor.ranges (Editor.setRangeAction id a state)).
Proof.
  intro H. unfold Editor.setRangeAction. cbn [Editor.withRanges Editor.ranges].
  apply Forall_map_if; [exact H|]. intros r Hin _.
  rewrite Forall_forall in H. exact (H r Hin).
Qed.

Lemma updateRange_dropPrompt_ok (d : number) (id : string) (state : Editor.EditorState) :
  Forall (rangeOk d) (Editor.ranges state) ->
  Forall (rangeOk d) (Editor.ranges (Editor.updateRange id dropPrompt state)).
Proof.
  intro H. unfold Editor.updateRange. cbn [Editor.withRanges Editor.ranges].
  apply Forall_map_if; [exact H|]. intros r Hin _.
  rewrite Forall_forall in H. exact (H r Hin).
Qed.

Lemma handle_ok (d : number) (trackRef : option DOMRect.t) (e : Event)
      (state : Editor.EditorState) (l : Local) :
  (num 0 <=? d)%js = true -> Editor.videoDuration state = d ->
  Forall (rangeOk d) (Editor.ranges state) -> localOk d l ->
  Editor.videoDuration (fst (handle trackRef e state l)) = d
  /\ Forall (rangeOk d) (Editor.ranges (fst (handle trackRef e state l)))
  /\ localOk d (snd (handle trackRef e state l)).
Proof.
  intros Hd Hdur Hr Hl. destruct e; cbn [handle].
  - (* mouse down on the track *)
    unfold handleMouseDown.
    destruct (negb (button =? 0)%Z); [auto|]. destruct onRange; [auto|].
    cbn [fst snd]. split; [|split].
    + destruct (Editor.selectedRangeId state) as [sel|]; [|exact Hdur].
      destruct (String.eqb sel ""); [exact Hdur|].
      destruct (find _ _) as [cur|]; [|exact Hdur].
      destruct (TimelineRange.action cur); exact Hdur.
    + cbn [Editor.selectRange Editor.withRanges Editor.ranges].
      destruct (Editor.selectedRangeId state) as [sel|]; [|exact Hr].
      destruct (String.eqb sel ""); [exact Hr|].
      destruct (find _ _) as [cur|]; [|exact Hr].
      destruct (TimelineRange.action cur); [exact Hr|]. apply removeRange_ok. exact Hr.
    + rewrite Hdur. split; intros t H; injection H as <-;
        apply positionToTime_ok; exact Hd.
  - auto.
  - destruct (Editor.frameData state); auto.
  - (* mouse move *)
    destruct (listening l); [|auto]. unfold handleMouseMove. cbn [fst snd].
    split; [|split].
    + destruct (isDraggingThreshold l), trackRef, (isDraggingPlayhead l); exact Hdur.
    + destruct (isDraggingThreshold l), trackRef, (isDraggingPlayhead l); exact Hr.
    + pose proof Hl as [Hl1 Hl2].
      destruct (isCreatingRange l); [|exact Hl].
      destruct (rangeCreationStart l) eqn:Es; [|exact Hl].
      split; cbn [rangeCreationStart tempRangeEnd].
      * exact Hl1.
      * intros t H. injection H as <-. rewrite Hdur. apply positionToTime_ok. exact Hd.
  - (* mouse up *)
    destruct (listening l); [|auto].
    destruct (handleMouseUp_ok d newRangeId state l Hr Hl) as [H1 H2].
    split; [|split; assumption].
    unfold handleMouseUp. cbn [fst].
    destruct (isCreatingRange l); [|exact Hdur].
    destruct (rangeCreationStart l); [|exact Hdur].
    destruct (tempRangeEnd l); [|exact Hdur].
    destruct ((_ >? _)%js); exact Hdur.
  - (* click on a range *)
    destruct (existsb _ _); auto.
  - (* action *)
    destruct (selectedRange state) as [sel|]; [|auto].
    assert (Hact : forall a,
      Forall (rangeOk d)
        (Editor.ranges (Editor.updateRange (TimelineRange.id sel) dropPrompt
                          (Editor.setRangeAction (TimelineRange.id sel) a state)))).
    { intro a. apply updateRange_dropPrompt_ok. apply setRangeAction_ok. exact Hr. }
    destruct value; cbn [fst snd]; auto.
  - destruct (selectedRange state) as [sel|]; [|auto].
    cbn [fst snd]. split; [exact Hdur | split; [|exact Hl]].
    apply removeRange_ok. exact Hr.
  - match goal with
    | |- context [fst ?x] =>
        assert (E : x = (state, l) \/ x = (Editor.clearAllRanges state, l))
          by (destruct (selectedRange state), (Editor.ranges state); auto)
    end.
    destruct E as [E | E]; rewrite E; cbn [fst snd]; auto.
  - destruct ((Editor.timelineZoom state <=? dec (2 # 10))%js); auto.
  - destruct ((Editor.timelineZoom state >=? num 10)%js); auto.
Qed.

Lemma handleAll_ok (d : number) (es : list (option DOMRect.t * Event)) :
  (num 0 <=? d)%js = true ->
  forall (state : Editor.EditorState) (l : Local),
  Editor.videoDuration state = d ->
  Forall (rangeOk d) (Editor.ranges state) -> localOk d l ->
  Forall (rangeOk d) (Editor.ranges (fst (handleAll es state l))).
Proof.
  intro Hd. induction es as [|[trackRef e] rest IH]; intros state l Hdur Hr Hl.
  - exact Hr.
  - cbn [handleAll].
    destruct (handle_ok d trackRef e state l Hd Hdur Hr Hl) as [H1 [H2 H3]].
    destruct (handle trackRef e state l) as [state' l'].
    apply IH; assumption.
Qed.

Lemma initialLocal_ok (d : number) : localOk d initialLocal.
Proof. split; intros t H; discriminate. Qed.

Lemma rangeOk_ordered (d : number) (r : TimelineRange.t) :
  rangeOk d r ->
  (num 0 <=? TimelineRange.start r)%js = true
  /\ (TimelineRange.start r <? TimelineRange.end_ r)%js = true
  /\ (TimelineRange.end_ r <=? d)%js = true.
Proof.
  intros [H0 [H1 H2]]. split; [exact H0 | split; [|exact H1]].
  apply longer_lt. exact H2.
Qed.

(** X13. Whatever the user does on the planar timeline (pressing,
    dragging and releasing on the track, dragging the playhead or the
    threshold, selecting a range, the action, delete and clear buttons,
    zooming), every range of the editor lies inside the video, starts
    before it ends and is longer than a tenth of a second, provided
    the duration is not negative and the ranges were so at the
    start. *)
Theorem timeline_ranges_within_video
        (es : list (option DOMRect.t * Event)) (state : Editor.EditorState) :
  (num 0 <=? Editor.videoDuration state)%js = true ->
  Forall (rangeOk (Editor.videoDuration state)) (Editor.ranges state) ->
  Forall (fun r =>
            (num 0 <=? TimelineRange.start r)%js = true
            /\ (TimelineRange.start r <? TimelineRange.end_ r)%js = true
            /\ (TimelineRange.end_ r <=? Editor.videoDuration state)%js = true
            /\ ((TimelineRange.end_ r - TimelineRange.start r) >? dec (1 # 10))%js = true)
         (Editor.ranges (fst (handleAll es state initialLocal))).
Proof.
  intros Hd Hr.
  pose proof (handleAll_ok (Editor.videoDuration state) es Hd state initialLocal
                eq_refl Hr (initialLocal_ok _)) as H.
  eapply Forall_impl; [|exact H]. intros r Hok.
  destruct (rangeOk_ordered _ r Hok) as [H0 [H1 H2]].
  destruct Hok as [_ [_ H3]]. auto.
Qed.

Lemma timeline_ranges_within_video_witness :
  Forall (fun r =>
            (num 0 <=? TimelineRange.start r)%js = true
            /\ (TimelineRange.start r <? TimelineRange.end_ r)%js = true
            /\ (TimelineRange.end_ r <=? Editor.videoDuration Examples.loaded)%js = true
            /\ ((TimelineRange.end_ r - TimelineRange.start r) >? dec (1 # 10))%js = true)
         (Editor.ranges
            (fst (handleAll (Scenes.drag (num 350) (num 100) (num 0) "range_1")
                            Examples.loaded initialLocal))).
Proof.
  apply (timeline_ranges_within_video
           (Scenes.drag (num 350) (num 100) (num 0) "range_1") Examples.loaded).
  - reflexivity.
  - constructor.
Defined.






End DrawnRanges.

(* ================================================================== *)
(** * Dragging the threshold line *)
(* ================================================================== *)

Section ThresholdDrag.
Import JS.

Lemma max_ge_l (a b : number) :
  isNaN (max a b) = true \/ (a <=? max a b)%js = true.
Proof.
  destruct (isNaN (max a b)) eqn:E; [left; reflexivity | right].
  unfold max in *. destruct a, b; try discriminate; try reflexivity;
    try (destruct (ltb _ _) eqn:L; [apply ltb_leb; exact L | apply leb_refl; reflexivity]).
Qed.

Lemma fold_max_nonneg (frameData : list FrameData.t) :
  forall init : number,
    isNaN init = true \/ (num 0 <=? init)%js = true ->
    let m := fold_left (fun m item => max m (FrameData.variance item)) frameData init in
    isNaN m = true \/ (num 0 <=? m)%js = true.
Proof.
  induction frameData as [|f rest IH]; intros init Hinit; [exact Hinit|].
  cbn [fold_left]. apply IH.
  destruct Hinit as [Hn | H0].
  - left. destruct init; try discriminate. reflexivity.
  - destruct (max_ge_l init (FrameData.variance f)) as [Hn | Hge]; [left; exact Hn|].
    right. eapply leb_trans; eassumption.
Qed.

(** The highest score the timelines scale by is positive. *)
Lemma maxVarianceOf_positive (frameData : list FrameData.t) :
  (num 0 <? maxVarianceOf frameData)%js = true.
Proof.
  unfold maxVarianceOf.
  destruct (fold_max_nonneg frameData (num 0) (or_intror eq_refl)) as [Hn | H0].
  - cbv zeta in Hn.
    destruct (fold_left _ frameData (num 0)); try discriminate. reflexivity.
  - cbv zeta in H0. unfold JS.or.
    destruct (fold_left _ frameData (num 0)) as [| |q|]; try discriminate; try reflexivity.
    cbn [truthy]. destruct (Qeq_bool q 0) eqn:E; cbn [negb]; [reflexivity|].
    apply leb_Fin in H0. apply ltb_Fin. change (inject_Z 0) with 0 in *.
    apply Qeq_bool_neq in E. destruct (Qlt_le_dec 0 q) as [L | L]; [exact L|].
    exfalso. apply E. lra.
Qed.

(** The share of the track above the pointer is between 0 and 1. *)
Lemma thresholdShare_range (rect : DOMRect.t) (clientY : number) :
  isNaN (TimelineGeometry.thresholdShare rect clientY) = true
  \/ exists p, TimelineGeometry.thresholdShare rect clientY = Fin p /\ 0 <= p <= 1.
Proof.
  unfold TimelineGeometry.thresholdShare. cbv zeta.
  set (q := ((clientY - DOMRect.top rect) / DOMRect.height rect)%js).
  destruct (isNaN q) eqn:Eq.
  - left. destruct q; try discriminate. reflexivity.
  - right. destruct (clamp_between 0 1 q) as [p [E [B _]]]; [lra | exact Eq |].
    change (num 0) with (Fin 0). change (num 1) with (Fin 1). rewrite E.
    exists (Qred (1 + Qred (- p))). split; [reflexivity|]. rewrite !Qred_correct. lra.
Qed.

(** A share of a positive maximum is [NaN] or between 0 and the
    maximum, and then the clamp leaves it alone. *)
Lemma share_of_max (s m : number) :
  (isNaN s = true \/ exists p, s = Fin p /\ 0 <= p <= 1) ->
  (num 0 <? m)%js = true ->
  isNaN (s * m)%js = true
  \/ ((num 0 <=? s * m)%js = true /\ (s * m <=? m)%js = true /\ min (s * m)%js m = (s * m)%js).
Proof.
  intros [Hn | [p [-> [Hp0 Hp1]]]] Hm.
  - left. destruct s; try discriminate. reflexivity.
  - assert (H : isNaN (Fin p * m)%js = true
                \/ ((num 0 <=? Fin p * m)%js = true /\ (Fin p * m <=? m)%js = true)).
    { destruct m as [| |mq|]; try discriminate.
      - right. cbn [mul]. unfold fin, num, ofZ. rewrite !leb_Fin, Qred_correct.
        apply ltb_Fin in Hm. change (inject_Z 0) with 0 in *. split; nra.
      - cbn [mul]. unfold scaleInf.
        destruct (p ?= 0) eqn:E; [left; reflexivity | | right; split; reflexivity].
        apply Qlt_alt in E. lra. }
    destruct H as [H | [H0 H1]]; [left; exact H | right].
    split; [exact H0 | split; [exact H1|]].
    pose proof (ltb_leb_false _ _ H1) as L. unfold min.
    destruct (Fin p * m)%js eqn:Et, m; try discriminate; rewrite ?L; reflexivity.
Qed.

(** X15. Dragging the threshold line of the planar timeline stores a
    threshold that is [NaN] or lies between 0 and the highest score, so
    that the clamp to the highest score, which the timeline and the
    export apply, leaves it as it is; the samples are untouched. *)
Theorem threshold_drag_planar (rect : DOMRect.t) (clientX clientY : number)
        (state : Editor.EditorState) (l : TimelineComponent.Local) :
  TimelineComponent.isDraggingThreshold l = true ->
  let state' :=
    fst (TimelineComponent.handle (Some rect) (TimelineComponent.MouseMove clientX clientY)
           state l) in
  let t := Editor.threshold state' in
  Editor.frameData state' = Editor.frameData state
  /\ (isNaN t = true
      \/ ((num 0 <=? t)%js = true
          /\ (t <=? Timeline.maxVariance (Editor.frameData state'))%js = true
          /\ Timeline.effectiveThreshold (Editor.frameData state') t = t
          /\ EditorPage.effectiveThreshold state' = t)).
Proof.
  intros Hdrag state' t.
  assert (E : state' = Editor.setThreshold
                         (TimelineGeometry.thresholdShare rect clientY
                          * Timeline.maxVariance (Editor.frameData state))%js
                         (if TimelineComponent.isDraggingPlayhead l
                          then Editor.seek
                                 (TimelineGeometry.positionToTime (Some rect)
                                    (Editor.videoDuration state) clientX) state
                          else state)).
  { unfold state'. cbn [TimelineComponent.handle]. unfold TimelineComponent.listening.
    rewrite Hdrag, orb_true_r. unfold TimelineComponent.handleMouseMove.
    rewrite Hdrag. reflexivity. }
  assert (Hfd : Editor.frameData state' = Editor.frameData state).
  { rewrite E. destruct (TimelineComponent.isDraggingPlayhead l); reflexivity. }
  split; [exact Hfd|].
  assert (Ht : t = (TimelineGeometry.thresholdShare rect clientY
                    * maxVarianceOf (Editor.frameData state))%js).
  { unfold t. rewrite E. reflexivity. }
  unfold Timeline.effectiveThreshold, EditorPage.effectiveThreshold, EditorPage.maxVariance,
    Timeline.maxVariance. fold t. rewrite Hfd, Ht.
  destruct (share_of_max _ _ (thresholdShare_range rect clientY)
              (maxVarianceOf_positive (Editor.frameData state))) as [H | [H0 [H1 H2]]].
  - left. exact H.
  - right. auto.
Qed.

Lemma threshold_drag_planar_witness :
  Editor.threshold
    (fst (TimelineComponent.handle (Some Scenes.track)
            (TimelineComponent.MouseMove (num 0) (num 20))
            Examples.planarSelection
            (TimelineComponent.withDragging false true TimelineComponent.initialLocal)))
  = num 375.
Proof.
  destruct (threshold_drag_planar Scenes.track (num 0) (num 20) Examples.planarSelection
              (TimelineComponent.withDragging false true TimelineComponent.initialLocal)
              eq_refl) as [_ [H | [_ [_ [_ H]]]]].
  - discriminate H.
  - rewrite <- H. reflexivity.
Defined.

Lemma find_updated (a : string) (u : FrameView.updates) (views : list FrameView.t) :
  find (fun v => String.eqb (FrameView.id v) a)
       (map (fun v => if String.eqb (FrameView.id v) a then FrameView.spread v u else v)
            views)
  = option_map (fun v => FrameView.spread v u)
               (find (fun v => String.eqb (FrameView.id v) a) views).
Proof.
  induction views as [|v rest IH]; [reflexivity|].
  cbn [map find]. destruct (String.eqb (FrameView.id v) a) eqn:E.
  - cbn [FrameView.spread FrameView.id]. rewrite E. reflexivity.
  - rewrite E. exact IH.
Qed.

(** X16. Dragging the threshold line of the 360 timeline stores, on
    the active view, the pointer's share of the highest score and
    leaves the samples and ranges of the view alone.  Unless that
    threshold is 0 or [NaN], the timeline's clamped threshold equals
    the stored one, so a frame passes the test of the export exactly
    when the timeline counts it. *)
Theorem threshold_drag_360 (rect : DOMRect.t) (clientX clientY : number)
        (state : Editor360.Editor360State) (l : Timeline360Component.Local)
        (active : string) (v : FrameView.t) :
  Timeline360Component.isDraggingThreshold l = true ->
  Editor360.activeFrameViewId state = Some active -> active <> ""%string ->
  Timeline360Component.activeView state = Some v ->
  let state' :=
    fst (Timeline360Component.handle (Some rect)
           (Timeline360Component.MouseMove clientX clientY) state l) in
  exists v',
    Timeline360Component.activeView state' = Some v'
    /\ FrameView.frameData v' = FrameView.frameData v
    /\ FrameView.ranges v' = FrameView.ranges v
    /\ FrameView.threshold v'
       = (TimelineGeometry.thresholdShare rect clientY
          * maxVarianceOf (FrameView.frameData v))%js
    /\ (truthy (FrameView.threshold v') = true ->
        Timeline360.effectiveThreshold (Some v') = FrameView.threshold v'
        /\ (FrameView.threshold v' <=? maxVarianceOf (FrameView.frameData v'))%js = true
        /\ (FrameView.ranges v = [] ->
            List.length (Editor360Page.sharpFrames v')
            = Timeline360Component.framesAboveThreshold state')).
Proof.
  intros Hdrag Hid Hne Hv state'.
  set (t := (TimelineGeometry.thresholdShare rect clientY
             * maxVarianceOf (FrameView.frameData v))%js).
  set (u := {| FrameView.u_name := None; FrameView.u_face := None; FrameView.u_yaw := None;
               FrameView.u_pitch := None; FrameView.u_fov := None;
               FrameView.u_frameData := None; FrameView.u_threshold := Some t;
               FrameView.u_ranges := None |}).
  assert (Hviews : Editor360.frameViews state'
                   = map (fun w => if String.eqb (FrameView.id w) active
                                   then FrameView.spread w u else w)
                         (Editor360.frameViews state)
                   /\ Editor360.activeFrameViewId state' = Some active).
  { unfold state'. cbn [Timeline360Component.handle].
    unfold Timeline360Component.listening. rewrite Hdrag, orb_true_r. cbn [fst].
    unfold Timeline360Component.handleMouseMove. rewrite Hdrag, Hid.
    apply String.eqb_neq in Hne. rewrite Hne.
    unfold Timeline360Component.maxVariance. rewrite Hv. cbn [Timeline360.frameData].
    fold t. destruct (Timeline360Component.isDraggingPlayhead l);
      (split; [reflexivity | exact Hid]). }
  destruct Hviews as [Hviews Hactive].
  assert (Hv' : Timeline360Component.activeView state' = Some (FrameView.spread v u)).
  { unfold Timeline360Component.activeView, Timeline360.activeView in *.
    rewrite Hactive, Hviews, find_updated. rewrite Hid in Hv. rewrite Hv. reflexivity. }
  exists (FrameView.spread v u). split; [exact Hv'|].
  split; [reflexivity|]. split; [reflexivity|]. split; [reflexivity|].
  cbn [FrameView.spread FrameView.threshold FrameView.frameData TimelineRange.override
       FrameView.u_threshold FrameView.u_frameData u]. intro Htruthy.
  destruct (share_of_max _ _ (thresholdShare_range rect clientY)
              (maxVarianceOf_positive (FrameView.frameData v))) as [H | [H0 [H1 H2]]].
  { fold t in H. destruct t; discriminate. }
  fold t in H0, H1, H2.
  assert (Heff : Timeline360.effectiveThreshold (Some (FrameView.spread v u)) = t).
  { unfold Timeline360.effectiveThreshold, Timeline360.threshold, JS.or.
    cbn [FrameView.spread FrameView.threshold FrameView.frameData TimelineRange.override
         FrameView.u_threshold FrameView.u_frameData u Timeline360.frameData].
    rewrite Htruthy. exact H2. }
  split; [exact Heff | split; [exact H1|]]. intro Hranges.
  unfold Timeline360Component.framesAboveThreshold, Timeline360.framesAboveThreshold.
  rewrite Hv', Heff. unfold Editor360Page.sharpFrames.
  cbn [FrameView.spread FrameView.threshold FrameView.frameData TimelineRange.override
       FrameView.u_threshold FrameView.u_frameData u Timeline360.frameData].
  f_equal. apply filter_ext. intro f.
  unfold Editor360Page.isTimeExcluded, Editor360Page.excludedRanges.
  cbn [FrameView.spread FrameView.ranges TimelineRange.override FrameView.u_ranges u].
  rewrite Hranges. cbn [filter existsb negb]. apply andb_true_r.
Qed.

Lemma threshold_drag_360_witness :
  exists v',
    Timeline360Component.activeView
      (fst (Timeline360Component.handle (Some Scenes.track)
              (Timeline360Component.MouseMove (num 0) (num 20)) Scenes.scored360
              (Timeline360Component.withDragging false true
                 Timeline360Component.initialLocal)))
    = Some v'
    /\ FrameView.threshold v' = num 375
    /\ List.length (Editor360Page.sharpFrames v') = 2%nat
    /\ Timeline360Component.framesAboveThreshold
         (fst (Timeline360Component.handle (Some Scenes.track)
                 (Timeline360Component.MouseMove (num 0) (num 20)) Scenes.scored360
                 (Timeline360Component.withDragging false true
                    Timeline360Component.initialLocal)))
       = 2%nat.
Proof.
  destruct (threshold_drag_360 Scenes.track (num 0) (num 20) Scenes.scored360
              (Timeline360Component.withDragging false true
                 Timeline360Component.initialLocal)
              "skybox_pz" (Examples.view360 Examples.fourSamples (num 300) [])
              eq_refl eq_refl ltac:(discriminate) eq_refl)
    as [v' [Hv' [Hfd [Hr [Ht Hagree]]]]].
  exists v'. split; [exact Hv'|]. split; [rewrite Ht; reflexivity|].
  assert (Htruthy : truthy (FrameView.threshold v') = true) by (rewrite Ht; reflexivity).
  destruct (Hagree Htruthy) as [_ [_ Hcount]].
  rewrite <- (Hcount eq_refl).
  inversion Hv' as [Ev]. split; reflexivity.
Defined.

End ThresholdDrag.

(* ================================================================== *)
(** * The 360 timeline leaves samples and ranges alone *)
(* ================================================================== *)

Section Timeline360Scenes.
Import JS.
Import Timeline360Component.

Lemma updateFrameView_keeps (id : string) (u : FrameView.updates)
      (state : Editor360.Editor360State) :
  FrameView.u_frameData u = None -> FrameView.u_ranges u = None ->
  map FrameView.ranges (Editor360.frameViews (Editor360.updateFrameView id u state))
  = map FrameView.ranges (Editor360.frameViews state)
  /\ map FrameView.frameData (Editor360.frameViews (Editor360.updateFrameView id u state))
     = map FrameView.frameData (Editor360.frameViews state).
Proof.
  intros Hfd Hr. unfold Editor360.updateFrameView.
  cbn [Editor360.withFrameViews Editor360.withViews Editor360.frameViews].
  rewrite !map_map. split; apply map_ext; intro v;
    destruct (String.eqb (FrameView.id v) id); try reflexivity;
    cbn [FrameView.spread FrameView.ranges FrameView.frameData];
    rewrite ?Hfd, ?Hr; reflexivity.
Qed.

Lemma handle_keeps (trackRef : option DOMRect.t) (e : Event)
      (state : Editor360.Editor360State) (l : Local) :
  map FrameView.ranges (Editor360.frameViews (fst (handle trackRef e state l)))
  = map FrameView.ranges (Editor360.frameViews state)
  /\ map FrameView.frameData (Editor360.frameViews (fst (handle trackRef e state l)))
     = map FrameView.frameData (Editor360.frameViews state).
Proof.
  destruct e; cbn [handle].
  - unfold handleMouseDown. destruct (negb (button =? 0)%Z); split; reflexivity.
  - split; reflexivity.
  - destruct (Timeline360.frameData (activeView state)); split; reflexivity.
  - destruct (listening l); [|split; reflexivity]. cbn [fst]. unfold handleMouseMove.
    assert (Hseek : forall t,
              Editor360.frameViews (Editor360.seek t state) = Editor360.frameViews state)
      by reflexivity.
    destruct (isDraggingThreshold l), trackRef as [rect|],
      (Editor360.activeFrameViewId state) as [active|];
      try (destruct (isDraggingPlayhead l); split; reflexivity).
    destruct (String.eqb active "");
      [destruct (isDraggingPlayhead l); split; reflexivity|].
    unfold Editor360.setThreshold.
    destruct (isDraggingPlayhead l).
    + match goal with
      | |- context [Editor360.updateFrameView ?a ?u ?st] =>
          destruct (updateFrameView_keeps a u st eq_refl eq_refl) as [K1 K2]
      end.
      rewrite K1, K2. split; reflexivity.
    + apply updateFrameView_keeps; reflexivity.
  - destruct (listening l); split; reflexivity.
  - destruct (existsb _ _); split; reflexivity.
  - destruct (existsb _ _); split; reflexivity.
  - unfold handleRenameSubmit. cbn [fst].
    destruct (editingViewId l) as [id|]; [|split; reflexivity].
    destruct (String.eqb id "" || String.eqb trimmedName ""); [split; reflexivity|].
    apply updateFrameView_keeps; reflexivity.
  - destruct ((Editor360.timelineZoom state <=? dec (2 # 10))%js); split; reflexivity.
  - destruct ((Editor360.timelineZoom state >=? num 10)%js); split; reflexivity.
Qed.

(** X17. No gesture on the 360 timeline (seeking, dragging the playhead
    or the threshold, choosing or renaming a tab, zooming) adds,
    changes or removes a range or a sample of any view. *)
Theorem timeline360_keeps_ranges (es : list (option DOMRect.t * Event))
        (state : Editor360.Editor360State) (l : Local) :
  map FrameView.ranges (Editor360.frameViews (fst (handleAll es state l)))
  = map FrameView.ranges (Editor360.frameViews state)
  /\ map FrameView.frameData (Editor360.frameViews (fst (handleAll es state l)))
     = map FrameView.frameData (Editor360.frameViews state).
Proof.
  revert state l. induction es as [|[trackRef e] rest IH]; intros state l.
  - split; reflexivity.
  - cbn [handleAll]. destruct (handle_keeps trackRef e state l) as [H1 H2].
    destruct (handle trackRef e state l) as [state' l']. cbn [fst] in H1, H2.
    destruct (IH state' l') as [I1 I2]. rewrite I1, I2. split; assumption.
Qed.

End Timeline360Scenes.

(* ================================================================== *)
(** * Keyboard shortcuts *)
(* ================================================================== *)

Section Shortcuts.
Import JS.
Import Keyboard.

Lemma arrowStep_finite (e : KeyboardEvent) : exists s, arrowStep e = Fin s.
Proof. unfold arrowStep. destruct (shiftKey e); eexists; reflexivity. Qed.

Lemma seek_finite (x d : Q) :
  0 <= d ->
  exists c', max (num 0) (min (Fin x) (Fin d)) = Fin c' /\ 0 <= c' <= d.
Proof.
  intro Hd. destruct (clamp_finite x d Hd) as [E B]. eauto.
Qed.

Lemma seek_start (d : Q) : 0 <= d -> max (num 0) (min (num 0) (Fin d)) = num 0.
Proof.
  intro Hd. change (num 0) with (Fin 0). unfold min.
  destruct (ltb (Fin d) (Fin 0)) eqn:E.
  - apply ltb_Fin in E. lra.
  - unfold max. destruct (ltb (Fin 0) (Fin 0)); reflexivity.
Qed.

Lemma seek_end (d : Q) :
  0 <= d -> eqb (max (num 0) (min (Fin d) (Fin d))) (Fin d) = true.
Proof.
  intro Hd. rewrite min_Fin. change (num 0) with (Fin 0). rewrite max_Fin.
  cbn [eqb]. apply Qeq_bool_iff.
  rewrite (Q.min_l d d) by lra. apply Q.max_r. exact Hd.
Qed.

Lemma handleKeyDown_within (e : KeyboardEvent) (state : Editor.EditorState) (d : Q) :
  Editor.videoDuration state = Fin d -> 0 <= d ->
  (exists c, Editor.currentTime state = Fin c /\ 0 <= c <= d) ->
  Editor.videoDuration (handleKeyDown e state) = Fin d
  /\ (exists c', Editor.currentTime (handleKeyDown e state) = Fin c' /\ 0 <= c' <= d)
  /\ Editor.ranges (handleKeyDown e state) = Editor.ranges state
  /\ Editor.frameData (handleKeyDown e state) = Editor.frameData state.
Proof.
  intros Hdur Hd [c [Hc Hcb]]. unfold handleKeyDown.
  destruct (targetIsField e); [eauto 6|].
  destruct (arrowStep_finite e) as [s Hs].
  destruct (code e); cbn [Editor.seek Editor.withCurrentTime Editor.videoDuration
    Editor.currentTime Editor.ranges Editor.frameData EditorHook.togglePlay
    EditorHook.withDisplay]; rewrite ?Hdur, ?Hc, ?Hs;
    (split; [reflexivity | split; [|split; reflexivity]]); eauto;
    cbn [add sub neg]; unfold fin, num, ofZ; apply seek_finite; exact Hd.
Qed.

Lemma handleKeyDown360_within (e : KeyboardEvent) (state : Editor360.Editor360State)
      (d : Q) :
  Editor360.videoDuration state = Fin d -> 0 <= d ->
  (exists c, Editor360.currentTime state = Fin c /\ 0 <= c <= d) ->
  Editor360.videoDuration (handleKeyDown360 e state) = Fin d
  /\ (exists c', Editor360.currentTime (handleKeyDown360 e state) = Fin c'
                 /\ 0 <= c' <= d)
  /\ Editor360.frameViews (handleKeyDown360 e state) = Editor360.frameViews state.
Proof.
  intros Hdur Hd [c [Hc Hcb]]. unfold handleKeyDown360.
  destruct (targetIsField e); [eauto 6|].
  destruct (arrowStep_finite e) as [s Hs].
  destruct (code e); cbn [Editor360.seek Editor360.withPlayback Editor360.videoDuration
    Editor360.currentTime Editor360.frameViews Editor360Hook.togglePlay
    Editor360Hook.withPlaying Editor360Hook.withSession]; rewrite ?Hdur, ?Hc, ?Hs;
    (split; [reflexivity | split; [|reflexivity]]); eauto;
    cbn [add sub neg]; unfold fin, num, ofZ; apply seek_finite; exact Hd.
Qed.

(** X18. Keyboard shortcuts of both editor pages.  In a video of
    finite duration whose cursor is inside the video, any sequence of
    key presses (space, the arrows with or without shift, Home, End,
    other keys, keys typed into a field) leaves the cursor inside the
    video and the duration, ranges, samples and views unchanged; after
    it, Home puts the cursor at 0 and End at the duration. *)
Theorem keyboard_keeps_time_in_video (ks : list KeyboardEvent) (d c : Q) :
  0 <= d -> 0 <= c <= d ->
  (forall state : Editor.EditorState,
      Editor.videoDuration state = Fin d -> Editor.currentTime state = Fin c ->
      let state' := fold_left (fun st e => handleKeyDown e st) ks state in
      (exists c', Editor.currentTime state' = Fin c' /\ 0 <= c' <= d)
      /\ Editor.videoDuration state' = Fin d
      /\ Editor.ranges state' = Editor.ranges state
      /\ Editor.frameData state' = Editor.frameData state
      /\ (forall shift,
            Editor.currentTime
              (handleKeyDown {| code := Home; shiftKey := shift; targetIsField := false |}
                             state') = num 0
            /\ eqb (Editor.currentTime
                      (handleKeyDown {| code := End_; shiftKey := shift;
                                        targetIsField := false |} state'))
                   (Fin d) = true))
  /\ (forall state : Editor360.Editor360State,
        Editor360.videoDuration state = Fin d -> Editor360.currentTime state = Fin c ->
        let state' := fold_left (fun st e => handleKeyDown360 e st) ks state in
        (exists c', Editor360.currentTime state' = Fin c' /\ 0 <= c' <= d)
        /\ Editor360.videoDuration state' = Fin d
        /\ Editor360.frameViews state' = Editor360.frameViews state
        /\ (forall shift,
              Editor360.currentTime
                (handleKeyDown360 {| code := Home; shiftKey := shift;
                                     targetIsField := false |} state') = num 0
              /\ eqb (Editor360.currentTime
                        (handleKeyDown360 {| code := End_; shiftKey := shift;
                                             targetIsField := false |} state'))
                     (Fin d) = true)).
Proof.
  intros Hd Hc. split.
  - intros state Hdur Hcur state'.
    assert (H : Editor.videoDuration state' = Fin d
                /\ (exists c', Editor.currentTime state' = Fin c' /\ 0 <= c' <= d)
                /\ Editor.ranges state' = Editor.ranges state
                /\ Editor.frameData state' = Editor.frameData state).
    { unfold state'. clear state'.
      assert (Hin : exists c0, Editor.currentTime state = Fin c0 /\ 0 <= c0 <= d)
        by eauto.
      clear Hcur. revert state Hdur Hin.
      induction ks as [|e rest IH]; intros state Hdur Hin; [auto|].
      cbn [fold_left].
      destruct (handleKeyDown_within e state d Hdur Hd Hin) as [K1 [K2 [K3 K4]]].
      destruct (IH _ K1 K2) as [I1 [I2 [I3 I4]]].
      rewrite I3, I4. auto. }
    destruct H as [H1 [H2 [H3 H4]]].
    split; [exact H2 | split; [exact H1 | split; [exact H3 | split; [exact H4|]]]].
    intro shift. unfold handleKeyDown.
    cbn [targetIsField code Editor.seek Editor.withCurrentTime Editor.currentTime].
    rewrite H1. split; [apply seek_start | apply seek_end]; exact Hd.
  - intros state Hdur Hcur state'.
    assert (H : Editor360.videoDuration state' = Fin d
                /\ (exists c', Editor360.currentTime state' = Fin c' /\ 0 <= c' <= d)
                /\ Editor360.frameViews state' = Editor360.frameViews state).
    { unfold state'. clear state'.
      assert (Hin : exists c0, Editor360.currentTime state = Fin c0 /\ 0 <= c0 <= d)
        by eauto.
      clear Hcur. revert state Hdur Hin.
      induction ks as [|e rest IH]; intros state Hdur Hin; [auto|].
      cbn [fold_left].
      destruct (handleKeyDown360_within e state d Hdur Hd Hin) as [K1 [K2 K3]].
      destruct (IH _ K1 K2) as [I1 [I2 I3]].
      rewrite I3. auto. }
    destruct H as [H1 [H2 H3]].
    split; [exact H2 | split; [exact H1 | split; [exact H3|]]].
    intro shift. unfold handleKeyDown360.
    cbn [targetIsField code Editor360.seek Editor360.withPlayback Editor360.currentTime].
    rewrite H1. split; [apply seek_start | apply seek_end]; exact Hd.
Qed.

Lemma keyboard_keeps_time_in_video_witness :
  exists c',
    Editor.currentTime
      (fold_left (fun st e => handleKeyDown e st)
         [ {| code := End_; shiftKey := false; targetIsField := false |};
           {| code := ArrowRight; shiftKey := true; targetIsField := false |};
           {| code := ArrowLeft; shiftKey := false; targetIsField := false |} ]
         Examples.loaded) = Fin c'
    /\ 0 <= c' <= 10.
Proof.
  destruct (keyboard_keeps_time_in_video
              [ {| code := End_; shiftKey := false; targetIsField := false |};
                {| code := ArrowRight; shiftKey := true; targetIsField := false |};
                {| code := ArrowLeft; shiftKey := false; targetIsField := false |} ]
              10 0) as [H _].
  - discriminate.
  - split; discriminate.
  - destruct (H Examples.loaded eq_refl eq_refl) as [Hc _]. exact Hc.
Defined.

End Shortcuts.

(* ================================================================== *)
(** * The ticks of the time ruler *)
(* ================================================================== *)

Section Ticks.
Import JS.
Import TimelineGeometry.
Import Within.


Lemma niceIntervalFor_nice (interval : number) :
  exists s, niceIntervalFor interval = Fin s /\ In (Fin s) niceIntervals /\ 1 # 2 <= s.
Proof.
  unfold niceIntervalFor.
  destruct (find (fun i => (i >=? interval)%js) niceIntervals) as [i|] eqn:E.
  - apply find_some in E. destruct E as [Hin _].
    cbn in Hin.
    repeat (destruct Hin as [<- | Hin];
            [eexists; split; [reflexivity | split; [cbn; tauto | discriminate]]|]).
    destruct Hin.
  - exists (inject_Z 600). split; [reflexivity|]. split; [cbn; tauto | discriminate].
Qed.

Lemma tick_next (s : Q) (i : nat) : (tick s i + Fin s)%js = tick s (S i).
Proof.
  unfold tick. cbn [add]. unfold fin. f_equal. apply Qred_complete.
  rewrite Qred_correct. rewrite Nat2Z.inj_succ. unfold Z.succ.
  rewrite inject_Z_plus. change (inject_Z 1) with 1. ring.
Qed.

Lemma tick_0 (s : Q) : tick s 0 = num 0.
Proof.
  reflexivity.
Qed.

Lemma loop_ticks (d s : Q) (n : nat) :
  inject_Z (Z.of_nat n) * s <= d -> d < inject_Z (Z.of_nat (S n)) * s -> 0 < s ->
  forall (k i fuel : nat) (acc : list number),
    (i + k = S n)%nat -> (k < fuel)%nat ->
    generateTicks_loop fuel (Fin d) (Fin s) (tick s i) acc
    = Some (acc ++ map (tick s) (seq i k)).
Proof.
  intros Hn Hn1 Hs. induction k as [|k IH]; intros i fuel acc Hik Hfuel.
  - destruct fuel as [|fuel]; [lia|]. cbn [generateTicks_loop seq map].
    rewrite app_nil_r.
    assert (E : (tick s i <=? Fin d)%js = false).
    { unfold tick. destruct (Fin (Qred _) <=? Fin d)%js eqn:L; [|reflexivity].
      apply leb_Fin in L. rewrite Qred_correct in L.
      replace i with (S n) in L by lia. lra. }
    rewrite E. reflexivity.
  - destruct fuel as [|fuel]; [lia|]. cbn [generateTicks_loop seq map].
    assert (E : (tick s i <=? Fin d)%js = true).
    { unfold tick. apply leb_Fin. rewrite Qred_correct.
      assert (inject_Z (Z.of_nat i) <= inject_Z (Z.of_nat n)).
      { rewrite <- Zle_Qle. lia. }
      nra. }
    rewrite E, tick_next. rewrite (IH (S i) fuel (acc ++ [tick s i])) by lia.
    rewrite <- app_assoc. reflexivity.
Qed.

Lemma floor_multiples (d s : Q) :
  0 < d -> 0 < s ->
  let n := Z.to_nat (Qfloor (d / s)) in
  inject_Z (Z.of_nat n) * s <= d /\ d < inject_Z (Z.of_nat (S n)) * s.
Proof.
  intros Hd Hs n.
  assert (Hpos : 0 <= d / s).
  { apply Qle_shift_div_l; [exact Hs | lra]. }
  assert (Hz : (0 <= Qfloor (d / s))%Z).
  { rewrite <- (Qfloor_Z 0). apply Qfloor_resp_le. exact Hpos. }
  assert (En : Z.of_nat n = Qfloor (d / s)) by (unfold n; lia).
  pose proof (Qfloor_le (d / s)) as Hle. pose proof (Qlt_floor (d / s)) as Hlt.
  rewrite Nat2Z.inj_succ, En. unfold Z.succ.
  rewrite inject_Z_plus in *. change (inject_Z 1) with 1 in *.
  assert (Hds : d == (d / s) * s) by (field; lra).
  split.
  - rewrite Hds at 2. apply Qmult_le_compat_r; [exact Hle | lra].
  - rewrite Hds at 1. apply Qmult_lt_compat_r; [exact Hs | exact Hlt].
Qed.

Lemma floor_count (d s : Q) :
  0 < d -> 1 # 2 <= s ->
  (Z.to_nat (Qfloor (d / s)) <= Z.to_nat (Qfloor (2 * d)))%nat.
Proof.
  intros Hd Hs. apply Z2Nat.inj_le.
  - rewrite <- (Qfloor_Z 0). apply Qfloor_resp_le. change (inject_Z 0) with 0.
    apply Qle_shift_div_l; lra.
  - rewrite <- (Qfloor_Z 0). apply Qfloor_resp_le. change (inject_Z 0) with 0. lra.
  - apply Qfloor_resp_le. apply Qle_shift_div_r; [lra|]. nra.
Qed.

(** X19. The ticks of the time ruler of a video of finite positive
    duration: the loop ends, and the ticks are the multiples
    0, s, 2s, ... of one of the eleven tick intervals, up to the last
    multiple that does not exceed the duration.  The first tick is at
    0 and there are at most 2 * duration + 1 of them. *)
Theorem generateTicks_multiples (clientWidth : option number) (zoom : number)
        (d : Q) (fuel : nat) :
  0 < d -> (Z.to_nat (Qfloor (2 * d)) + 1 < fuel)%nat ->
  exists (s : Q) (n : nat),
    In (Fin s) niceIntervals
    /\ generateTicks fuel clientWidth (Fin d) zoom = Some (map (tick s) (seq 0 (S n)))
    /\ inject_Z (Z.of_nat n) * s <= d < inject_Z (Z.of_nat (S n)) * s
    /\ (n <= Z.to_nat (Qfloor (2 * d)))%nat.
Proof.
  intros Hd Hfuel. unfold generateTicks.
  assert (Ht : truthy (Fin d) = true).
  { cbn [truthy]. destruct (Qeq_bool d 0) eqn:E; [|reflexivity].
    apply Qeq_bool_iff in E. lra. }
  rewrite Ht. cbn [negb]. cbv zeta.
  match goal with
  | |- context [niceIntervalFor ?i] =>
      destruct (niceIntervalFor_nice i) as [s [Es [Hin Hs]]]; rewrite Es
  end.
  assert (Hs0 : 0 < s) by lra.
  destruct (floor_multiples d s Hd Hs0) as [Hn Hn1].
  pose proof (floor_count d s Hd Hs) as Hcount.
  set (n := Z.to_nat (Qfloor (d / s))) in *.
  exists s, n. split; [exact Hin|]. split; [|split; [split; assumption | exact Hcount]].
  rewrite <- (tick_0 s).
  rewrite (loop_ticks d s n Hn Hn1 Hs0 (S n) 0%nat fuel []) by lia.
  reflexivity.
Qed.

Lemma generateTicks_multiples_witness :
  exists (s : Q) (n : nat),
    In (Fin s) niceIntervals
    /\ generateTicks 30 (Some (num 800)) (Fin 10) (num 1) = Some (map (tick s) (seq 0 (S n)))
    /\ inject_Z (Z.of_nat n) * s <= 10 < inject_Z (Z.of_nat (S n)) * s
    /\ (n <= Z.to_nat (Qfloor (2 * 10)))%nat.
Proof.
  apply (generateTicks_multiples (Some (num 800)) (num 1) 10 30).
  - reflexivity.
  - vm_compute. lia.
Defined.

Lemma loop_endless (s : Q) :
  forall (fuel : nat) (t : Q) (acc : list number),
    generateTicks_loop fuel PosInf (Fin s) (Fin t) acc = None.
Proof.
  induction fuel as [|fuel IH]; intros t acc; [reflexivity|].
  cbn [generateTicks_loop leb add]. unfold fin. apply IH.
Qed.

(** X20. The time ruler at the edges.  Without a duration (0 or
    [NaN]) there are no ticks, and none for a negative duration; for a
    video that reports the duration [+Infinity] the condition of the loop
    that collects the ticks never fails: no number of iterations yields
    the list of ticks, whatever the width and the zoom. *)
Theorem generateTicks_edges (clientWidth : option number) (zoom : number) :
  (forall fuel, generateTicks fuel clientWidth (num 0) zoom = Some [])
  /\ (forall fuel, generateTicks fuel clientWidth NaN zoom = Some [])
  /\ (forall fuel d, d < 0 -> generateTicks (S fuel) clientWidth (Fin d) zoom = Some [])
  /\ (forall fuel, generateTicks fuel clientWidth PosInf zoom = None).
Proof.
  split; [reflexivity|]. split; [reflexivity|]. split.
  - intros fuel d Hd. unfold generateTicks.
    assert (Ht : truthy (Fin d) = true).
    { cbn [truthy]. destruct (Qeq_bool d 0) eqn:E; [|reflexivity].
      apply Qeq_bool_iff in E. lra. }
    rewrite Ht. cbn [negb generateTicks_loop]. cbv zeta.
    assert (E : (num 0 <=? Fin d)%js = false).
    { destruct (num 0 <=? Fin d)%js eqn:L; [|reflexivity].
      apply leb_Fin in L. change (inject_Z 0) with 0 in L. lra. }
    rewrite E. reflexivity.
  - intro fuel. unfold generateTicks. cbn [truthy negb]. cbv zeta.
    match goal with
    | |- context [niceIntervalFor ?i] =>
        destruct (niceIntervalFor_nice i) as [s [Es _]]; rewrite Es
    end.
    apply loop_endless.
Qed.

End Ticks.

(* ================================================================== *)
(** * The archive of an export *)
(* ================================================================== *)

Section Archive.
Import Download.
Import Facts.

Variable Blob : Type.

Lemma put_get (n m : string) (d : Blob) (zip : Archive Blob) :
  get m (put n d zip) = if String.eqb n m then Some d else get m zip.
Proof.
  induction zip as [|[k e] rest IH]; cbn [put get].
  - reflexivity.
  - destruct (String.eqb k n) eqn:Ekn; cbn [get].
    + apply String.eqb_eq in Ekn. subst k.
      destruct (String.eqb n m); reflexivity.
    + destruct (String.eqb k m) eqn:Ekm; [|exact IH].
      apply String.eqb_eq in Ekm. subst k. rewrite String.eqb_sym, Ekn. reflexivity.
Qed.

Lemma put_names (n m : string) (d : Blob) (zip : Archive Blob) :
  In m (map fst (put n d zip)) <-> m = n \/ In m (map fst zip).
Proof.
  induction zip as [|[k e] rest IH]; cbn [put map fst In].
  - split; [intros [H|[]]; left; symmetry; exact H | intros [H|[]]; left; symmetry; exact H].
  - destruct (String.eqb k n) eqn:Ekn; cbn [map fst In].
    + apply String.eqb_eq in Ekn. subst k. split.
      * intros [H|H]; [left; symmetry; exact H | right; right; exact H].
      * intros [H|[H|H]]; [left; symmetry; exact H | left; exact H | right; exact H].
    + rewrite IH. tauto.
Qed.

Lemma put_NoDup (n : string) (d : Blob) (zip : Archive Blob) :
  NoDup (map fst zip) -> NoDup (map fst (put n d zip)).
Proof.
  induction zip as [|[k e] rest IH]; cbn [put map fst]; intro H.
  - constructor; [intros [] | constructor].
  - destruct (String.eqb k n) eqn:Ekn; cbn [map fst]; [exact H|].
    inversion H as [|x l Hk Hrest]; subst. constructor; [|exact (IH Hrest)].
    intro Hin. apply put_names in Hin. destruct Hin as [Hin|Hin]; [|exact (Hk Hin)].
    subst k. rewrite String.eqb_refl in Ekn. discriminate.
Qed.

Lemma put_length (n : string) (d : Blob) (zip : Archive Blob) :
  (List.length zip <= List.length (put n d zip) <= S (List.length zip))%nat.
Proof.
  induction zip as [|[k e] rest IH]; cbn [put List.length]; [lia|].
  destruct (String.eqb k n); cbn [List.length]; lia.
Qed.

Lemma put_fresh (n : string) (d : Blob) (zip : Archive Blob) :
  ~ In n (map fst zip) -> put n d zip = zip ++ [(n, d)].
Proof.
  induction zip as [|[k e] rest IH]; cbn [put map fst In app]; intro H; [reflexivity|].
  destruct (String.eqb k n) eqn:Ekn.
  - apply String.eqb_eq in Ekn. exfalso. apply H. left. exact Ekn.
  - rewrite IH; [reflexivity | intro Hin; apply H; right; exact Hin].
Qed.

Lemma get_app (m : string) (l1 l2 : list (string * Blob)) :
  get m (l1 ++ l2) = match get m l1 with Some d => Some d | None => get m l2 end.
Proof.
  induction l1 as [|[k e] rest IH]; cbn [app get]; [reflexivity|].
  destruct (String.eqb k m); [reflexivity | exact IH].
Qed.

Lemma store_app (l1 l2 : list (string * Blob)) (zip : Archive Blob) :
  store (l1 ++ l2) zip = store l2 (store l1 zip).
Proof. apply fold_left_app. Qed.

Lemma store_get (m : string) (calls : list (string * Blob)) :
  forall zip : Archive Blob,
    get m (store calls zip)
    = match get m (rev calls) with Some d => Some d | None => get m zip end.
Proof.
  induction calls as [|[n d] rest IH]; intro zip; [reflexivity|].
  change (store ((n, d) :: rest) zip) with (store rest (put n d zip)).
  rewrite IH. cbn [rev]. rewrite get_app. cbn [get].
  destruct (get m (rev rest)); [reflexivity|].
  rewrite put_get. destruct (String.eqb n m); reflexivity.
Qed.

Lemma store_names (m : string) (calls : list (string * Blob)) :
  forall zip : Archive Blob,
    In m (map fst (store calls zip)) <-> In m (map fst zip) \/ In m (map fst calls).
Proof.
  induction calls as [|[n d] rest IH]; intro zip.
  - cbn. tauto.
  - change (store ((n, d) :: rest) zip) with (store rest (put n d zip)).
    rewrite IH, put_names. cbn [map fst In]. intuition congruence.
Qed.

Lemma store_NoDup (calls : list (string * Blob)) :
  forall zip : Archive Blob, NoDup (map fst zip) -> NoDup (map fst (store calls zip)).
Proof.
  induction calls as [|[n d] rest IH]; intros zip H; [exact H|].
  change (store ((n, d) :: rest) zip) with (store rest (put n d zip)).
  apply IH, put_NoDup, H.
Qed.

Lemma store_length (calls : list (string * Blob)) :
  forall zip : Archive Blob,
    (List.length (store calls zip) <= List.length zip + List.length calls)%nat.
Proof.
  induction calls as [|[n d] rest IH]; intro zip; [cbn; lia|].
  change (store ((n, d) :: rest) zip) with (store rest (put n d zip)).
  specialize (IH (put n d zip)). pose proof (put_length n d zip). cbn [List.length]. lia.
Qed.

Lemma store_fresh (calls : list (string * Blob)) :
  forall zip : Archive Blob,
    NoDup (map fst (zip ++ calls)) -> store calls zip = zip ++ calls.
Proof.
  induction calls as [|[n d] rest IH]; intros zip H; [symmetry; apply app_nil_r|].
  change (store ((n, d) :: rest) zip) with (store rest (put n d zip)).
  assert (Hn : ~ In n (map fst zip)).
  { rewrite map_app in H. cbn [map fst] in H. apply NoDup_remove_2 in H.
    intro Hin. apply H. apply in_or_app. left. exact Hin. }
  rewrite (put_fresh n d zip Hn). rewrite IH.
  - rewrite <- app_assoc. reflexivity.
  - rewrite <- app_assoc. exact H.
Qed.

(** The archive made by a sequence of calls: no two files of the same
    name; the names are those of the calls; the data under a name are
    those of the last call of that name; no more files than calls;
    and with calls of different names, one file for each call, in the
    order of the calls. *)
Lemma pack_files (calls : list (string * Blob)) :
  NoDup (map fst (pack calls))
  /\ (forall name, In name (map fst (pack calls)) <-> In name (map fst calls))
  /\ (forall name, get name (pack calls) = get name (rev calls))
  /\ (List.length (pack calls) <= List.length calls)%nat
  /\ (NoDup (map fst calls) -> pack calls = calls).
Proof.
  unfold pack. split; [apply store_NoDup; constructor|].
  split; [intro name; rewrite store_names; cbn; tauto|].
  split; [intro name; rewrite store_get; destruct (get name (rev calls)); reflexivity|].
  split; [exact (store_length calls [])|].
  intro H. exact (store_fresh calls [] H).
Qed.

End Archive.

Lemma allSought_spec (seeked : JS.number -> bool) (frames : list FrameData.t) :
  Facts.allSought seeked frames = true
  <-> forall frame, In frame frames -> seeked (FrameData.time frame) = true.
Proof. unfold Facts.allSought. apply forallb_forall. Qed.

Lemma allSought_cons (seeked : JS.number -> bool) (frame : FrameData.t)
      (rest : list FrameData.t) :
  Facts.allSought seeked (frame :: rest)
  = seeked (FrameData.time frame) && Facts.allSought seeked rest.
Proof. reflexivity. Qed.

(* ================================================================== *)
(** * The export of the planar editor *)
(* ================================================================== *)

Section PlanarExport.
Import JS.
Import Download.
Import EditorDownload.
Import Facts.

Variable Blob : Type.
Variable toString : number -> string.
Variable seeked : number -> bool.
Variable drawFrame : number -> nat -> nat -> result (option DOM.Canvas).
Variable toBlob : DOM.Canvas -> number -> result (option Blob).
Variable toDataURL : DOM.Canvas -> number -> result string.
Variable generateAsync : Archive Blob -> result Blob.

Lemma alike_refl (p : World Blob) : alike p p.
Proof. repeat split. Qed.

Lemma alike_trans (p q r : World Blob) : alike p q -> alike q r -> alike p r.
Proof.
  intros [A1 [A2 [A3 [A4 A5]]]] [B1 [B2 [B3 [B4 B5]]]].
  unfold alike, alikeEditor. repeat split; congruence.
Qed.

Lemma alike_seek (t : number) (p : World Blob) :
  alike p (onEditor (Editor.onVideo (Video.setCurrentTime t)) p).
Proof.
  repeat split. cbn. destruct (Editor.videoRef (editor p)); reflexivity.
Qed.

Lemma alike_progress (x : number) (p : World Blob) :
  alike p (onEditor (Editor.onState (Editor.setProgress x)) p).
Proof. repeat split. Qed.

Lemma alike_console (msg : string) (p : World Blob) :
  alike p (onEditor (Editor.consoleError msg) p).
Proof. repeat split. Qed.

(** The loop either ends, normally or by an exception, on a page like
    the one it started from, and normally only when every seek has
    completed; or it waits for ever for the seek of one of the
    frames. *)
Lemma loop_alike (video : Video.t) (state : Editor.EditorState) (total : nat)
      (frames : list FrameData.t) :
  forall (processedCount : nat) (zip : Archive Blob) (p : World Blob),
    match handleDownload_loop Blob toString seeked drawFrame toBlob toDataURL video state
                              total frames processedCount zip p with
    | Some (r, p') =>
        alike p p' /\ (forall z, r = Ok z -> allSought seeked frames = true)
    | None => exists frame, In frame frames /\ seeked (FrameData.time frame) = false
    end.
Proof.
  induction frames as [|frame rest IH]; intros processedCount zip p.
  - split; [apply alike_refl | reflexivity].
  - cbn [handleDownload_loop]. unfold Run.bind at 1. cbn [Run.modify].
    set (p1 := onEditor (Editor.onVideo (Video.setCurrentTime (FrameData.time frame))) p).
    assert (A1 : alike p p1) by apply alike_seek.
    unfold Run.bind at 1. rewrite allSought_cons.
    destruct (seeked (FrameData.time frame)) eqn:Es; cbn [Run.ret Run.pending andb].
    2:{ exists frame. split; [left; reflexivity | exact Es]. }
    unfold Run.bind at 1.
    destruct (drawFrame (FrameData.time frame) (Video.videoWidth video)
                        (Video.videoHeight video)) as [[canvas|]|e];
      cbn [Run.lift Run.ret Run.throw].
    + unfold Run.bind at 1.
      destruct (toBlob canvas (num 1)) as [blob|e]; cbn [Run.lift Run.ret Run.throw].
      * unfold Run.bind at 1.
        set (zip' := match blob with Some b => _ | None => zip end).
        assert (Hmask : exists p2,
                  (match getMaskPromptForTime state (FrameData.time frame) with
                   | Some _ =>
                       match toDataURL canvas (dec (8 # 10)) with
                       | Ok _ => Run.ret tt
                       | Throw _ =>
                           Run.modify
                             (onEditor (Editor.consoleError
                                ("Failed to generate mask for frame at "
                                 ++ toString (FrameData.time frame) ++ ":")%string))
                       end
                   | None => Run.ret tt
                   end) p1 = Some (Ok tt, p2) /\ alike p1 p2).
        { destruct (getMaskPromptForTime state (FrameData.time frame));
            [destruct (toDataURL canvas (dec (8 # 10)))|];
            eexists; (split; [reflexivity|]);
            first [apply alike_refl | apply alike_console]. }
        destruct Hmask as [p2 [E2 A2]]. rewrite E2.
        unfold Run.bind at 1. cbn [Run.modify].
        match goal with
        | |- context [handleDownload_loop _ _ _ _ _ _ _ _ _ _ _ _ ?q] =>
            specialize (IH (S processedCount) zip' q);
            assert (A3 : alike p2 q) by apply alike_progress;
            destruct (handleDownload_loop Blob toString seeked drawFrame toBlob toDataURL
                        video state total rest (S processedCount) zip' q)
              as [[r p']|]
        end.
        -- destruct IH as [A Hz]. split; [|exact Hz].
           eapply alike_trans; [exact A1|]. eapply alike_trans; [exact A2|].
           eapply alike_trans; [exact A3 | exact A].
        -- destruct IH as [g [Hin Hg]]. exists g. split; [right; exact Hin | exact Hg].
      * split; [exact A1|]. intros z Hz. discriminate Hz.
    + specialize (IH processedCount zip p1).
      destruct (handleDownload_loop Blob toString seeked drawFrame toBlob toDataURL
                  video state total rest processedCount zip p1) as [[r p']|].
      * destruct IH as [A Hz]. split; [|exact Hz]. eapply alike_trans; eassumption.
      * destruct IH as [g [Hin Hg]]. exists g. split; [right; exact Hin | exact Hg].
    + split; [exact A1|]. intros z Hz. discriminate Hz.
Qed.

Lemma selection_video (w : Editor.World) (frames : list FrameData.t) :
  EditorPage.handleDownload_selection w = EditorPage.Export frames ->
  exists video, Editor.videoRef w = Some video.
Proof.
  unfold EditorPage.handleDownload_selection.
  destruct (Editor.videoRef w) as [video|]; [eauto | discriminate].
Qed.

(** What the [finally] block leaves, from an editor like the one the
    export started on. *)
Lemma cleanup_alike (video : Video.t) (w q : Editor.World) :
  Editor.videoRef w = Some video ->
  alikeEditor (Editor.onVideo Video.pause
                 (Editor.onState (Editor.setIsProcessing true) w)) q ->
  let q' :=
    Editor.onState (Editor.setProgress (num 0))
      (Editor.onVideo (Video.setCurrentTime (Video.currentTime video))
         (Editor.onState (Editor.setIsProcessing false) q)) in
  Editor.state q'
  = Editor.setProgress (num 0) (Editor.setIsProcessing false (Editor.state w))
  /\ Editor.videoRef q' = Some (Video.pause video).
Proof.
  intros Hv [A3 [A4 A5]] q'. unfold q'. cbn in *.
  rewrite Hv in A5. cbn in A5. split.
  - change (Editor.setIsProcessing false (Editor.setProgress (num 0) (Editor.state q))
            = Editor.setIsProcessing false
                (Editor.setProgress (num 0)
                   (Editor.setIsProcessing true (Editor.state w)))).
    rewrite A4. reflexivity.
  - destruct (Editor.videoRef q) as [v|]; [|discriminate].
    cbn in *. inversion A5 as [[H1 H2 H3 H4]]. unfold Video.pause, Video.setCurrentTime.
    cbn. rewrite H1, H2, H3, H4. reflexivity.
Qed.

(** X21. The export of the planar editor, once it has frames to
    export, waits without a limit for the [seeked] event of each
    frame.  Either it comes to an end without an exception, whatever
    the browser does while frames are drawn, encoded and packed: the
    editor is then left not processing, with progress 0 and all else
    as before, and the video paused at the time it had, and either one
    archive named after the video was saved and no alert shown, every
    seek having completed, or nothing was saved and the alert "Failed
    to create zip file." was shown.  Or it never settles, waiting for
    the seek of one of the frames.  It does settle when the seek of
    every frame completes, and it never settles when the seek of the
    first frame does not. *)
Theorem download_cleanup (p : World Blob) (frames : list FrameData.t) :
  EditorPage.handleDownload_selection (editor p) = EditorPage.Export frames ->
  exists video,
    Editor.videoRef (editor p) = Some video
    /\ ((exists p',
            handleDownload Blob toString seeked drawFrame toBlob toDataURL generateAsync p
            = Some (Ok tt, p')
            /\ Editor.state (editor p')
               = Editor.setProgress (num 0)
                   (Editor.setIsProcessing false (Editor.state (editor p)))
            /\ Editor.videoRef (editor p') = Some (Video.pause video)
            /\ ((exists content,
                    saved p' = saved p
                               ++ [ ((Editor.videoFileName (Editor.state (editor p))
                                      ++ "_frames.zip")%string, content) ]
                    /\ alerts p' = alerts p
                    /\ allSought seeked frames = true)
                \/ (saved p' = saved p
                    /\ alerts p' = alerts p ++ [ "Failed to create zip file."%string ])))
        \/ (handleDownload Blob toString seeked drawFrame toBlob toDataURL generateAsync p
            = None
            /\ exists frame, In frame frames /\ seeked (FrameData.time frame) = false))
    /\ (allSought seeked frames = true ->
        handleDownload Blob toString seeked drawFrame toBlob toDataURL generateAsync p
        <> None)
    /\ (forall frame rest,
          frames = frame :: rest -> seeked (FrameData.time frame) = false ->
          handleDownload Blob toString seeked drawFrame toBlob toDataURL generateAsync p
          = None).
Proof.
  intro Hsel. destruct (selection_video _ _ Hsel) as [video Hv].
  exists video. split; [exact Hv|].
  assert (Hrun :
    match handleDownload Blob toString seeked drawFrame toBlob toDataURL generateAsync p
    with
    | Some (r, p') =>
        r = Ok tt
        /\ Editor.state (editor p')
           = Editor.setProgress (num 0)
               (Editor.setIsProcessing false (Editor.state (editor p)))
        /\ Editor.videoRef (editor p') = Some (Video.pause video)
        /\ ((exists content,
                saved p' = saved p
                           ++ [ ((Editor.videoFileName (Editor.state (editor p))
                                  ++ "_frames.zip")%string, content) ]
                /\ alerts p' = alerts p
                /\ allSought seeked frames = true)
            \/ (saved p' = saved p
                /\ alerts p' = alerts p ++ [ "Failed to create zip file."%string ]))
    | None => exists frame, In frame frames /\ seeked (FrameData.time frame) = false
    end).
  { unfold handleDownload. cbv zeta. rewrite Hsel, Hv.
    unfold Run.bind at 1. cbn [Run.modify]. unfold Run.bind at 1. cbn [Run.modify].
    set (p0 := onEditor (Editor.onVideo Video.pause)
                 (onEditor (Editor.onState (Editor.setIsProcessing true)) p)).
    unfold Run.tryCatchFinally. unfold Run.bind at 1.
    pose proof (loop_alike video (Editor.state (editor p)) (List.length frames) frames
                  0%nat [] p0) as Hloop.
    destruct (handleDownload_loop Blob toString seeked drawFrame toBlob toDataURL video
                (Editor.state (editor p)) (List.length frames) frames 0%nat [] p0)
      as [[r p1]|]; [|exact Hloop].
    destruct Hloop as [[Ha1 [Hs1 A]] Hz].
    assert (A' : alikeEditor (editor p0)
                   (Editor.consoleError "Error creating zip:" (editor p1)))
      by (destruct A as [B3 [B4 B5]]; repeat split; assumption).
    destruct r as [zip|e].
    - unfold Run.bind at 1.
      destruct (generateAsync zip) as [content|e];
        cbn [Run.lift Run.ret Run.throw Run.modify].
      + unfold Run.bind. cbn [Run.modify]. split; [reflexivity|].
        destruct (cleanup_alike video (editor p) (editor p1) Hv A) as [C1 C2].
        cbn [onEditor saveAs editor saved alerts]. rewrite Ha1, Hs1.
        split; [exact C1|]. split; [exact C2|].
        left. exists content. split; [reflexivity|]. split; [reflexivity|].
        exact (Hz zip eq_refl).
      + unfold Run.bind. cbn [Run.modify]. split; [reflexivity|].
        destruct (cleanup_alike video (editor p) _ Hv A') as [C1 C2].
        cbn [onEditor alert editor saved alerts]. rewrite Ha1, Hs1.
        split; [exact C1|]. split; [exact C2|]. right. split; reflexivity.
    - unfold Run.bind. cbn [Run.modify]. split; [reflexivity|].
      destruct (cleanup_alike video (editor p) _ Hv A') as [C1 C2].
      cbn [onEditor alert editor saved alerts]. rewrite Ha1, Hs1.
      split; [exact C1|]. split; [exact C2|]. right. split; reflexivity. }
  split; [|split].
  - destruct (handleDownload Blob toString seeked drawFrame toBlob toDataURL
                generateAsync p) as [[r p']|].
    + left. exists p'. destruct Hrun as [-> H]. split; [reflexivity | exact H].
    + right. split; [reflexivity | exact Hrun].
  - intros Hall Hnone. rewrite Hnone in Hrun. destruct Hrun as [frame [Hin Hf]].
    rewrite (proj1 (allSought_spec seeked frames) Hall frame Hin) in Hf.
    discriminate Hf.
  - intros frame rest Hfr Hf. subst frames.
    unfold handleDownload. cbv zeta. rewrite Hsel, Hv.
    unfold Run.bind at 1. cbn [Run.modify]. unfold Run.bind at 1. cbn [Run.modify].
    unfold Run.tryCatchFinally. unfold Run.bind at 1.
    cbn [handleDownload_loop]. unfold Run.bind at 1. cbn [Run.modify].
    unfold Run.bind at 1. rewrite Hf. reflexivity.
Qed.

(** With a browser that completes every seek and draws and encodes the
    picture of every frame, the loop stores each picture under the
    name of its frame, in order. *)
Lemma loop_entries (video : Video.t) (state : Editor.EditorState) (total : nat)
      (picture : FrameData.t -> Blob) (frames : list FrameData.t) :
  (forall f, In f frames ->
     seeked (FrameData.time f) = true
     /\ exists canvas,
          drawFrame (FrameData.time f) (Video.videoWidth video) (Video.videoHeight video)
          = Ok (Some canvas)
          /\ toBlob canvas (num 1) = Ok (Some (picture f))) ->
  forall (processedCount : nat) (zip : Archive Blob) (p : World Blob),
  exists p',
    handleDownload_loop Blob toString seeked drawFrame toBlob toDataURL video state total
                        frames processedCount zip p
    = Some (Ok (store (map (fun f => (frameFile toString f, picture f)) frames) zip), p').
Proof.
  induction frames as [|frame rest IH]; intros Hok processedCount zip p.
  - exists p. reflexivity.
  - destruct (Hok frame (or_introl eq_refl)) as [Es [canvas [Ec Eb]]].
    cbn [handleDownload_loop]. unfold Run.bind at 1. cbn [Run.modify].
    unfold Run.bind at 1. rewrite Es. cbn [Run.ret].
    unfold Run.bind at 1. rewrite Ec. cbn [Run.lift Run.ret]. unfold Run.bind at 1.
    rewrite Eb. cbn [Run.lift Run.ret].
    unfold Run.bind at 1.
    match goal with
    | |- context [match ?m ?q with _ => _ end] =>
        assert (Hmask : exists q', m q = Some (Ok tt, q'))
    end.
    { destruct (getMaskPromptForTime state (FrameData.time frame));
        [destruct (toDataURL canvas (dec (8 # 10)))|]; eexists; reflexivity. }
    destruct Hmask as [q' Eq]. rewrite Eq. unfold Run.bind at 1. cbn [Run.modify].
    match goal with
    | |- context [handleDownload_loop _ _ _ _ _ _ _ _ _ _ _ ?z ?q] =>
        destruct (IH (fun f Hf => Hok f (or_intror Hf)) (S processedCount) z q)
          as [p' E]
    end.
    exists p'. rewrite E. reflexivity.
Qed.

(** X22. The archive of the planar export.  When the browser completes
    the seek to every selected frame, draws and encodes its picture,
    and packs the archive, the export saves one archive, named after
    the video.  Its files are those left by storing, for each selected
    frame in the order of the samples, the picture of the frame at the
    root of the archive under the name "frame_", the time label with a
    dash, "_", the rounded score, ".jpg", where a picture stored under
    a name already in the archive replaces the one that was there.  So
    no two files have the same name, the names are those of the
    frames, under each name are the data of the last frame of that
    name, there are no more files than frames, and when the names of
    the frames differ the archive has exactly one file for each frame,
    in the order of the samples. *)
Theorem download_entries (p : World Blob) (frames : list FrameData.t) (video : Video.t)
        (picture : FrameData.t -> Blob) :
  EditorPage.handleDownload_selection (editor p) = EditorPage.Export frames ->
  Editor.videoRef (editor p) = Some video ->
  (forall f, In f frames ->
     seeked (FrameData.time f) = true
     /\ exists canvas,
          drawFrame (FrameData.time f) (Video.videoWidth video) (Video.videoHeight video)
          = Ok (Some canvas)
          /\ toBlob canvas (num 1) = Ok (Some (picture f))) ->
  (forall zip, exists content, generateAsync zip = Ok content) ->
  let calls :=
    map (fun f => ((baseFileName toString f ++ ".jpg")%string, picture f)) frames in
  exists zip content p',
    handleDownload Blob toString seeked drawFrame toBlob toDataURL generateAsync p
    = Some (Ok tt, p')
    /\ generateAsync zip = Ok content
    /\ saved p' = saved p
                  ++ [ ((Editor.videoFileName (Editor.state (editor p))
                         ++ "_frames.zip")%string, content) ]
    /\ frames = EditorPage.sharpFrames (Editor.state (editor p))
    /\ zip = fold_left (fun z call => put (fst call) (snd call) z) calls []
    /\ NoDup (map fst zip)
    /\ (forall name, In name (map fst zip) <-> In name (map fst calls))
    /\ (forall name, get name zip = get name (rev calls))
    /\ (List.length zip <= List.length frames)%nat
    /\ (NoDup (map fst calls) -> zip = calls).
Proof.
  intros Hsel Hv Hok Hgen calls.
  destruct (pack_files Blob calls) as [F1 [F2 [F3 [F4 F5]]]].
  exists (pack calls).
  destruct (Hgen (pack calls)) as [content Ec]. exists content.
  assert (Hrun : exists p',
    handleDownload Blob toString seeked drawFrame toBlob toDataURL generateAsync p
    = Some (Ok tt, p')
    /\ saved p' = saved p
                  ++ [ ((Editor.videoFileName (Editor.state (editor p))
                         ++ "_frames.zip")%string, content) ]).
  { unfold handleDownload. cbv zeta. rewrite Hsel, Hv.
    unfold Run.bind at 1. cbn [Run.modify]. unfold Run.bind at 1. cbn [Run.modify].
    unfold Run.tryCatchFinally. unfold Run.bind at 1.
    match goal with
    | |- context [handleDownload_loop _ _ _ _ _ _ ?v ?st ?n ?fs ?c ?z ?q] =>
        destruct (loop_entries v st n picture fs Hok c z q) as [p1 E];
        pose proof (loop_alike v st n fs c z q) as Hloop
    end.
    rewrite E in Hloop. destruct Hloop as [[_ [Hs _]] _].
    rewrite E. unfold Run.bind at 1.
    change (store (map (fun f => (frameFile toString f, picture f)) frames) [])
      with (pack calls).
    rewrite Ec. cbn [Run.lift Run.ret Run.modify].
    unfold Run.bind. cbn [Run.modify].
    eexists. split; [reflexivity|]. cbn [onEditor saveAs saved]. rewrite Hs. reflexivity. }
  destruct Hrun as [p' [Hrun Hsaved]]. exists p'.
  split; [exact Hrun|]. split; [exact Ec|]. split; [exact Hsaved|].
  split.
  { unfold EditorPage.handleDownload_selection in Hsel.
    destruct (Editor.videoRef (editor p)), (Editor.canvasRef (editor p)),
      (Editor.frameData (Editor.state (editor p))); try discriminate.
    destruct (EditorPage.sharpFrames (Editor.state (editor p))); [discriminate|].
    inversion Hsel. reflexivity. }
  split; [reflexivity|]. split; [exact F1|]. split; [exact F2|]. split; [exact F3|].
  split; [|exact F5].
  unfold calls in F4. rewrite length_map in F4. exact F4.
Qed.

End PlanarExport.

Lemma download_cleanup_witness :
  (exists p',
      EditorDownload.handleDownload string Scenes.showNumber Scenes.everySeek
        Scenes.drawFrame Scenes.toBlob Scenes.toDataURL Scenes.generateAsync
        Scenes.burstPage = Some (Ok tt, p')
      /\ Editor.isProcessing (Editor.state (Download.editor p')) = false
      /\ Editor.progress (Editor.state (Download.editor p')) = num 0
      /\ option_map Video.currentTime (Editor.videoRef (Download.editor p'))
         = Some (num 0))
  /\ EditorDownload.handleDownload string Scenes.showNumber (Scenes.stalledAt (num 1))
       Scenes.drawFrame Scenes.toBlob Scenes.toDataURL Scenes.generateAsync
       Scenes.burstPage = None.
Proof.
  split.
  - destruct (download_cleanup string Scenes.showNumber Scenes.everySeek Scenes.drawFrame
                Scenes.toBlob Scenes.toDataURL Scenes.generateAsync Scenes.burstPage
                Scenes.burst eq_refl)
      as [video [Hv [[[p' [Hrun [Hst [Hvid _]]]] | [Hnone _]] _]]].
    + exists p'. split; [exact Hrun|]. rewrite Hst, Hvid.
      inversion Hv. repeat split.
    + discriminate Hnone.
  - destruct (download_cleanup string Scenes.showNumber (Scenes.stalledAt (num 1))
                Scenes.drawFrame Scenes.toBlob Scenes.toDataURL Scenes.generateAsync
                Scenes.burstPage Scenes.burst eq_refl)
      as [video [_ [_ [_ Hstall]]]].
    exact (Hstall _ _ eq_refl eq_refl).
Defined.

Lemma download_entries_witness :
  exists (zip : Download.Archive string) p',
    EditorDownload.handleDownload string Scenes.showNumber Scenes.everySeek
      Scenes.drawFrame Scenes.toBlob Scenes.toDataURL Scenes.generateAsync
      Scenes.burstPage = Some (Ok tt, p')
    /\ Download.saved p' = [ ("video_frames.zip"%string, "zip"%string) ]
    /\ zip = [ ("frame_0-01_400.jpg", "jpeg4"); ("frame_0-03_500.jpg", "jpeg9") ]%string.
Proof.
  destruct (download_entries string Scenes.showNumber Scenes.everySeek Scenes.drawFrame
              Scenes.toBlob Scenes.toDataURL Scenes.generateAsync Scenes.burstPage
              Scenes.burst Examples.clip Scenes.picture eq_refl eq_refl)
    as [zip [content [p' [Hrun [Hgen [Hsaved [_ [Hzip _]]]]]]]].
  - intros f [<-|[<-|[<-|[]]]]; (split; [reflexivity|]); eexists; split; reflexivity.
  - intro zip. eexists. reflexivity.
  - exists zip, p'. split; [exact Hrun|]. split; [|exact Hzip].
    rewrite Hsaved. inversion Hgen. reflexivity.
Defined.

(* ================================================================== *)
(** * The export of the 360 editor *)
(* ================================================================== *)

Section Export360.
Import JS.
Import Download.
Import Editor360Download.
Import Facts.

Variable Blob : Type.
Variable toString : number -> string.
Variable seeked : number -> bool.
Variable drawSource : number -> result DOM.Canvas.
Variable extractCubemapFace :
  DOM.Canvas -> Video360.CubemapFace -> nat -> result DOM.Canvas.
Variable extractPerspectiveView :
  DOM.Canvas -> number -> number -> number -> nat -> nat -> result DOM.Canvas.
Variable toBlob : DOM.Canvas -> number -> result (option Blob).
Variable generateAsync : Archive Blob -> result Blob.

Lemma exportFaces_runs (sourceCtx : DOM.Canvas) (frameFolder : string)
      (faces : list Video360.CubemapFaceInfo) :
  forall (zip : Archive Blob) (p : World Blob),
  exists r,
    exportFaces Blob extractCubemapFace toBlob sourceCtx frameFolder faces zip p
    = Some (r, p).
Proof.
  induction faces as [|info rest IH]; intros zip p; [eexists; reflexivity|].
  cbn [exportFaces]. unfold Run.bind at 1.
  destruct (extractCubemapFace sourceCtx (Video360.face info) faceSize) as [c|e];
    cbn [Run.lift Run.ret Run.throw]; [|eexists; reflexivity].
  unfold Run.bind at 1.
  destruct (toBlob c (dec (95 # 100))) as [b|e];
    cbn [Run.lift Run.ret Run.throw]; [|eexists; reflexivity].
  apply IH.
Qed.

Lemma exportViews_runs (sourceCtx : DOM.Canvas) (timeStr : string) (frame : FrameData.t)
      (views : list FrameView.t) :
  forall (zip : Archive Blob) (p : World Blob),
  exists r,
    exportViews Blob toString extractPerspectiveView toBlob sourceCtx timeStr frame
                views zip p = Some (r, p).
Proof.
  induction views as [|view rest IH]; intros zip p; [eexists; reflexivity|].
  cbn [exportViews]. cbv zeta. unfold Run.bind at 1.
  destruct (extractPerspectiveView sourceCtx (FrameView.yaw view) (FrameView.pitch view)
              (FrameView.fov view) faceSize faceSize) as [c|e];
    cbn [Run.lift Run.ret Run.throw]; [|eexists; reflexivity].
  unfold Run.bind at 1.
  destruct (toBlob c (dec (95 # 100))) as [b|e];
    cbn [Run.lift Run.ret Run.throw]; [|eexists; reflexivity].
  apply IH.
Qed.

Lemma last_cons {A : Type} (l : list A) :
  forall a d : A, last (a :: l) d = last l a.
Proof.
  induction l as [|b rest IH]; intros a d; [reflexivity|].
  change (last (a :: b :: rest) d) with (last (b :: rest) d).
  rewrite !IH. reflexivity.
Qed.

Lemma soughtThrough_last (frames : list FrameData.t) (frame : FrameData.t)
      (v : option Video.t) :
  soughtThrough (frame :: frames) v
  = option_map (Video.setCurrentTime (FrameData.time (last frames frame))) v.
Proof.
  revert frame v. induction frames as [|g rest IH]; intros frame v; [reflexivity|].
  change (soughtThrough (frame :: g :: rest) v)
    with (soughtThrough (g :: rest)
            (option_map (Video.setCurrentTime (FrameData.time frame)) v)).
  rewrite IH, last_cons. destruct v; reflexivity.
Qed.

(** The loop either ends, normally or by an exception, with the alerts
    and the saved files it started with and an editor like the one it
    started from, and normally only when every seek has completed, the
    video then being where the seeks have left it; or it waits for
    ever for the seek of one of the frames. *)
Lemma loop_alike360 (state : Editor360.Editor360State) (total : nat)
      (frames : list FrameData.t) :
  forall (processedCount : nat) (zip : Archive Blob) (p : World Blob),
    match handleDownload_loop Blob toString seeked drawSource extractCubemapFace
                              extractPerspectiveView toBlob state total frames
                              processedCount zip p with
    | Some (r, p') =>
        alerts p' = alerts p /\ saved p' = saved p
        /\ alike360 (editor p) (editor p')
        /\ (forall z, r = Ok z ->
            Editor360.videoRef (editor p')
            = soughtThrough frames (Editor360.videoRef (editor p))
            /\ allSought seeked frames = true)
    | None => exists frame, In frame frames /\ seeked (FrameData.time frame) = false
    end.
Proof.
  induction frames as [|frame rest IH]; intros processedCount zip p.
  - repeat split.
  - cbn [handleDownload_loop]. unfold Run.bind at 1. cbn [Run.modify].
    set (p1 := onEditor (Editor360.onVideo (Video.setCurrentTime (FrameData.time frame))) p).
    unfold Run.bind at 1. rewrite allSought_cons.
    destruct (seeked (FrameData.time frame)) eqn:Es; cbn [Run.ret Run.pending andb].
    2:{ exists frame. split; [left; reflexivity | exact Es]. }
    unfold Run.bind at 1.
    destruct (drawSource (FrameData.time frame)) as [sourceCtx|e];
      cbn [Run.lift Run.ret Run.throw].
    2:{ split; [reflexivity|]. split; [reflexivity|]. split; [split; reflexivity|].
        intros z Hz. discriminate Hz. }
    cbv zeta. unfold Run.bind at 1.
    assert (Hinner : exists r,
              (match Editor360.editorMode state with
               | Editor360.skybox =>
                   exportFaces Blob extractCubemapFace toBlob sourceCtx
                     (folder "" ("frame_" ++ formatTime toString (FrameData.time frame)))
                     Video360.CUBEMAP_FACES zip
               | Editor360.custom =>
                   exportViews Blob toString extractPerspectiveView toBlob sourceCtx
                     (formatTime toString (FrameData.time frame)) frame
                     (Editor360.frameViews state) zip
               end) p1 = Some (r, p1)).
    { destruct (Editor360.editorMode state);
        [apply exportFaces_runs | apply exportViews_runs]. }
    destruct Hinner as [r Er]. rewrite Er.
    destruct r as [zip'|e].
    2:{ split; [reflexivity|]. split; [reflexivity|]. split; [split; reflexivity|].
        intros z Hz. discriminate Hz. }
    unfold Run.bind at 1. cbn [Run.modify].
    match goal with
    | |- context [handleDownload_loop _ _ _ _ _ _ _ _ _ _ _ _ ?q] =>
        specialize (IH (S processedCount) zip' q);
        destruct (handleDownload_loop Blob toString seeked drawSource extractCubemapFace
                    extractPerspectiveView toBlob state total rest (S processedCount)
                    zip' q) as [[r p']|]
    end.
    + destruct IH as [Ha [Hs [[A1 A2] Hv]]].
      split; [exact Ha|]. split; [exact Hs|].
      split; [split; [exact A1 | exact A2]|].
      intros z Hz. destruct (Hv z Hz) as [Hv1 Hv2]. split; [|exact Hv2].
      rewrite Hv1. reflexivity.
    + destruct IH as [g [Hin Hg]]. exists g. split; [right; exact Hin | exact Hg].
Qed.

Lemma cleanup_alike360 (w q : Editor360.World) :
  alike360 (Editor360.onState (Editor360.setIsProcessing true) w) q ->
  Editor360.state
    (Editor360.onState (Editor360.setProgress (num 0))
       (Editor360.onState (Editor360.setIsProcessing false) q))
  = Editor360.setProgress (num 0)
      (Editor360.setIsProcessing false (Editor360.state w)).
Proof.
  intros [_ A]. cbn in *.
  change (Editor360.setIsProcessing false
            (Editor360.setProgress (num 0) (Editor360.state q))
          = Editor360.setIsProcessing false
              (Editor360.setProgress (num 0)
                 (Editor360.setIsProcessing true (Editor360.state w)))).
  rewrite A. reflexivity.
Qed.

(** X23. The export of the 360 editor, for an active view with
    samples, waits without a limit for the [seeked] event of each
    frame at or above the threshold.  Either it comes to an end
    without an exception and leaves the editor not processing, with
    progress 0 and all else as before: with no frame at or above the
    threshold it shows "No frames meet the criteria." and leaves the
    video alone; otherwise either one archive named after the video
    was saved, no alert shown, every seek having completed and the
    video element left at the time of the last exported frame, or
    nothing was saved and "Failed to create zip file." was shown.  Or
    it never settles, waiting for the seek of one of the frames.  It
    does settle when the seek of every frame completes, and it never
    settles when the seek of the first frame does not. *)
Theorem download360_cleanup (p : World Blob) (video : Video.t) (activeView : FrameView.t) :
  Editor360.videoRef (editor p) = Some video ->
  Editor360.canvasRef (editor p) = true ->
  Timeline360.activeView (Editor360.frameViews (Editor360.state (editor p)))
    (Editor360.activeFrameViewId (Editor360.state (editor p))) = Some activeView ->
  FrameView.frameData activeView <> [] ->
  ((exists p',
       handleDownload Blob toString seeked drawSource extractCubemapFace
                      extractPerspectiveView toBlob generateAsync p = Some (Ok tt, p')
       /\ Editor360.state (editor p')
          = Editor360.setProgress (num 0)
              (Editor360.setIsProcessing false (Editor360.state (editor p)))
       /\ match Editor360Page.sharpFrames activeView with
          | [] =>
              alerts p' = alerts p ++ [ "No frames meet the criteria."%string ]
              /\ saved p' = saved p
              /\ Editor360.videoRef (editor p') = Some video
          | frame :: rest =>
              (exists content,
                  saved p' = saved p
                             ++ [ ((Editor360.videoFileName (Editor360.state (editor p))
                                    ++ "_360_frames.zip")%string, content) ]
                  /\ alerts p' = alerts p
                  /\ Editor360.videoRef (editor p')
                     = Some (Video.setCurrentTime (FrameData.time (last rest frame))
                                                  video)
                  /\ allSought seeked (frame :: rest) = true)
              \/ (saved p' = saved p
                  /\ alerts p' = alerts p ++ [ "Failed to create zip file."%string ])
          end)
   \/ (handleDownload Blob toString seeked drawSource extractCubemapFace
                      extractPerspectiveView toBlob generateAsync p = None
       /\ exists frame,
            In frame (Editor360Page.sharpFrames activeView)
            /\ seeked (FrameData.time frame) = false))
  /\ (allSought seeked (Editor360Page.sharpFrames activeView) = true ->
      handleDownload Blob toString seeked drawSource extractCubemapFace
                     extractPerspectiveView toBlob generateAsync p <> None)
  /\ (forall frame rest,
        Editor360Page.sharpFrames activeView = frame :: rest ->
        seeked (FrameData.time frame) = false ->
        handleDownload Blob toString seeked drawSource extractCubemapFace
                       extractPerspectiveView toBlob generateAsync p = None).
Proof.
  intros Hv Hc Hactive Hfd.
  assert (Hrun :
    match handleDownload Blob toString seeked drawSource extractCubemapFace
                         extractPerspectiveView toBlob generateAsync p with
    | Some (r, p') =>
        r = Ok tt
        /\ Editor360.state (editor p')
           = Editor360.setProgress (num 0)
               (Editor360.setIsProcessing false (Editor360.state (editor p)))
        /\ match Editor360Page.sharpFrames activeView with
           | [] =>
               alerts p' = alerts p ++ [ "No frames meet the criteria."%string ]
               /\ saved p' = saved p
               /\ Editor360.videoRef (editor p') = Some video
           | frame :: rest =>
               (exists content,
                   saved p' = saved p
                              ++ [ ((Editor360.videoFileName (Editor360.state (editor p))
                                     ++ "_360_frames.zip")%string, content) ]
                   /\ alerts p' = alerts p
                   /\ Editor360.videoRef (editor p')
                      = Some (Video.setCurrentTime (FrameData.time (last rest frame))
                                                   video)
                   /\ allSought seeked (frame :: rest) = true)
               \/ (saved p' = saved p
                   /\ alerts p' = alerts p ++ [ "Failed to create zip file."%string ])
           end
    | None =>
        exists frame,
          In frame (Editor360Page.sharpFrames activeView)
          /\ seeked (FrameData.time frame) = false
    end).
  { unfold handleDownload. cbv zeta. rewrite Hv, Hc, Hactive.
    destruct (FrameView.frameData activeView) as [|f0 fs] eqn:Efd; [contradiction|].
    unfold Run.bind at 1. cbn [Run.modify].
    set (p0 := onEditor (Editor360.onState (Editor360.setIsProcessing true)) p).
    unfold Run.tryCatchFinally.
    destruct (Editor360Page.sharpFrames activeView) as [|frame rest] eqn:Esharp.
    - unfold Run.bind. cbn [Run.modify]. split; [reflexivity|].
      split; [reflexivity|]. split; [reflexivity | split; [reflexivity | exact Hv]].
    - unfold Run.bind at 1.
      pose proof (loop_alike360 (Editor360.state (editor p))
                    (List.length (frame :: rest)) (frame :: rest) 0%nat [] p0) as Hloop.
      destruct (handleDownload_loop Blob toString seeked drawSource extractCubemapFace
                  extractPerspectiveView toBlob (Editor360.state (editor p))
                  (List.length (frame :: rest)) (frame :: rest) 0%nat [] p0)
        as [[r p1]|]; [|exact Hloop].
      destruct Hloop as [Ha [Hs [A Hvid]]].
      destruct r as [zip|e].
      + unfold Run.bind at 1.
        destruct (generateAsync zip) as [content|e];
          cbn [Run.lift Run.ret Run.throw Run.modify].
        * unfold Run.bind. cbn [Run.modify]. split; [reflexivity|].
          split; [exact (cleanup_alike360 (editor p) (editor p1) A)|].
          left. exists content. cbn [onEditor saveAs editor saved alerts].
          rewrite Ha, Hs. split; [reflexivity|]. split; [reflexivity|].
          destruct (Hvid zip eq_refl) as [Hvid1 Hvid2]. split; [|exact Hvid2].
          cbn [Editor360.onState Editor360.videoRef].
          rewrite Hvid1, soughtThrough_last. cbn [p0 onEditor editor
            Editor360.onState Editor360.videoRef]. rewrite Hv. reflexivity.
        * unfold Run.bind. cbn [Run.modify]. split; [reflexivity|].
          split.
          -- apply (cleanup_alike360 (editor p)).
             destruct A as [A1 A2]. split; assumption.
          -- right. cbn [onEditor alert editor saved alerts]. rewrite Ha, Hs.
             split; reflexivity.
      + unfold Run.bind. cbn [Run.modify]. split; [reflexivity|].
        split.
        * apply (cleanup_alike360 (editor p)).
          destruct A as [A1 A2]. split; assumption.
        * right. cbn [onEditor alert editor saved alerts]. rewrite Ha, Hs.
          split; reflexivity. }
  split; [|split].
  - destruct (handleDownload Blob toString seeked drawSource extractCubemapFace
                extractPerspectiveView toBlob generateAsync p) as [[r p']|].
    + left. exists p'. destruct Hrun as [-> H]. split; [reflexivity | exact H].
    + right. split; [reflexivity | exact Hrun].
  - intros Hall Hnone. rewrite Hnone in Hrun. destruct Hrun as [frame [Hin Hf]].
    rewrite (proj1 (allSought_spec seeked _) Hall frame Hin) in Hf.
    discriminate Hf.
  - intros frame rest Hsharp Hf.
    unfold handleDownload. cbv zeta. rewrite Hv, Hc, Hactive.
    destruct (FrameView.frameData activeView) as [|f0 fs] eqn:Efd; [contradiction|].
    unfold Run.bind at 1. cbn [Run.modify]. unfold Run.tryCatchFinally. rewrite Hsharp.
    unfold Run.bind at 1.
    cbn [handleDownload_loop]. unfold Run.bind at 1. cbn [Run.modify].
    unfold Run.bind at 1. rewrite Hf. reflexivity.
Qed.

Section Encoded.

(** The pictures of a frame, of each face and of each view, that a
    browser and a projection engine which never fail give. *)
Variable facePicture : FrameData.t -> Video360.CubemapFaceInfo -> Blob.
Variable viewPicture : FrameData.t -> FrameView.t -> Blob.

Lemma exportFaces_entries (sourceCtx : DOM.Canvas) (frame : FrameData.t)
      (faces : list Video360.CubemapFaceInfo) :
  (forall info, exists c,
      extractCubemapFace sourceCtx (Video360.face info) faceSize = Ok c
      /\ toBlob c (dec (95 # 100)) = Ok (Some (facePicture frame info))) ->
  forall (zip : Archive Blob) (p : World Blob),
    exportFaces Blob extractCubemapFace toBlob sourceCtx
      (folder "" ("frame_" ++ formatTime toString (FrameData.time frame))) faces zip p
    = Some (Ok (store (map (fun info => (faceFile toString frame info,
                                         facePicture frame info)) faces) zip), p).
Proof.
  intro Hok. induction faces as [|info rest IH]; intros zip p; [reflexivity|].
  cbn [exportFaces]. unfold Run.bind at 1.
  destruct (Hok info) as [c [Ec Eb]].
  rewrite Ec. cbn [Run.lift Run.ret]. unfold Run.bind at 1.
  rewrite Eb. cbn [Run.lift Run.ret]. rewrite IH. reflexivity.
Qed.

Lemma exportViews_entries (sourceCtx : DOM.Canvas) (frame : FrameData.t)
      (views : list FrameView.t) :
  (forall view, exists c,
      extractPerspectiveView sourceCtx (FrameView.yaw view) (FrameView.pitch view)
                             (FrameView.fov view) faceSize faceSize = Ok c
      /\ toBlob c (dec (95 # 100)) = Ok (Some (viewPicture frame view))) ->
  forall (zip : Archive Blob) (p : World Blob),
    exportViews Blob toString extractPerspectiveView toBlob sourceCtx
      (formatTime toString (FrameData.time frame)) frame views zip p
    = Some (Ok (store (map (fun view => (viewFile toString frame view,
                                         viewPicture frame view)) views) zip), p).
Proof.
  intro Hok. induction views as [|view rest IH]; intros zip p; [reflexivity|].
  cbn [exportViews]. cbv zeta. unfold Run.bind at 1.
  destruct (Hok view) as [c [Ec Eb]].
  rewrite Ec. cbn [Run.lift Run.ret]. unfold Run.bind at 1.
  rewrite Eb. cbn [Run.lift Run.ret]. rewrite IH. reflexivity.
Qed.

Lemma loop_entries360 (state : Editor360.Editor360State) (total : nat)
      (frames : list FrameData.t) :
  (forall f, In f frames ->
     seeked (FrameData.time f) = true
     /\ exists sourceCtx,
          drawSource (FrameData.time f) = Ok sourceCtx
          /\ (forall info, exists c,
                 extractCubemapFace sourceCtx (Video360.face info) faceSize = Ok c
                 /\ toBlob c (dec (95 # 100)) = Ok (Some (facePicture f info)))
          /\ (forall view, exists c,
                 extractPerspectiveView sourceCtx (FrameView.yaw view)
                                        (FrameView.pitch view) (FrameView.fov view)
                                        faceSize faceSize = Ok c
                 /\ toBlob c (dec (95 # 100)) = Ok (Some (viewPicture f view)))) ->
  forall (processedCount : nat) (zip : Archive Blob) (p : World Blob),
  exists p',
    handleDownload_loop Blob toString seeked drawSource extractCubemapFace
                        extractPerspectiveView toBlob state total frames processedCount
                        zip p
    = Some (Ok (store (flat_map (frameCalls toString state facePicture viewPicture)
                                frames) zip), p').
Proof.
  induction frames as [|frame rest IH]; intros Hok processedCount zip p.
  - exists p. reflexivity.
  - destruct (Hok frame (or_introl eq_refl)) as [Es [sourceCtx [Ec [Hf Hw]]]].
    cbn [handleDownload_loop]. unfold Run.bind at 1. cbn [Run.modify].
    unfold Run.bind at 1. rewrite Es. cbn [Run.ret].
    unfold Run.bind at 1. rewrite Ec.
    cbn [Run.lift Run.ret]. cbv zeta. unfold Run.bind at 1.
    match goal with
    | |- context [match ?m ?q with _ => _ end] =>
        assert (Hinner :
                  m q = Some (Ok (store (frameCalls toString state facePicture
                                                    viewPicture frame) zip), q))
    end.
    { unfold frameCalls. destruct (Editor360.editorMode state);
        [apply exportFaces_entries; exact Hf | apply exportViews_entries; exact Hw]. }
    rewrite Hinner.
    unfold Run.bind at 1. cbn [Run.modify].
    match goal with
    | |- context [handleDownload_loop _ _ _ _ _ _ _ _ _ _ _ ?z ?q] =>
        destruct (IH (fun f Hf => Hok f (or_intror Hf)) (S processedCount) z q)
          as [p' E]
    end.
    exists p'. rewrite E. cbn [flat_map]. rewrite store_app. reflexivity.
Qed.

(** X24. The archive of the 360 export.  When the browser completes
    the seek to every exported frame and, with the projection engine,
    gives every picture of it, and packs the archive, the export saves
    one archive, named after the video.  Its files are those left by
    storing, for each exported frame in the order of the samples: in
    skybox mode the six faces front, right, back, left, top, bottom as
    "pz.jpg", "px.jpg", "nz.jpg", "nx.jpg", "py.jpg", "ny.jpg" in the
    folder "frame_" followed by the time label; in custom mode one
    picture for each view, in the folder named after the view, called
    "frame_", the time label, "_", the rounded score of the frame in
    the active view, ".jpg"; where a picture stored under a name
    already in the archive replaces the one that was there.  So no two
    files have the same name, the names are those of the pictures,
    under each name are the data of the last picture of that name,
    there are no more files than pictures, and when the names of the
    pictures differ the archive has exactly one file for each picture,
    in this order. *)
Theorem download360_entries (p : World Blob) (video : Video.t) (activeView : FrameView.t)
        (frame : FrameData.t) (rest : list FrameData.t) :
  Editor360.videoRef (editor p) = Some video ->
  Editor360.canvasRef (editor p) = true ->
  Timeline360.activeView (Editor360.frameViews (Editor360.state (editor p)))
    (Editor360.activeFrameViewId (Editor360.state (editor p))) = Some activeView ->
  Editor360Page.sharpFrames activeView = frame :: rest ->
  (forall f, In f (frame :: rest) ->
     seeked (FrameData.time f) = true
     /\ exists sourceCtx,
          drawSource (FrameData.time f) = Ok sourceCtx
          /\ (forall info, exists c,
                 extractCubemapFace sourceCtx (Video360.face info) faceSize = Ok c
                 /\ toBlob c (dec (95 # 100)) = Ok (Some (facePicture f info)))
          /\ (forall view, exists c,
                 extractPerspectiveView sourceCtx (FrameView.yaw view)
                                        (FrameView.pitch view) (FrameView.fov view)
                                        faceSize faceSize = Ok c
                 /\ toBlob c (dec (95 # 100)) = Ok (Some (viewPicture f view)))) ->
  (forall zip, exists content, generateAsync zip = Ok content) ->
  let calls :=
    flat_map
      (fun f =>
         match Editor360.editorMode (Editor360.state (editor p)) with
         | Editor360.skybox =>
             map (fun info =>
                    ((folder "" ("frame_" ++ formatTime toString (FrameData.time f))
                      ++ Video360.faceTag (Video360.face info) ++ ".jpg")%string,
                     facePicture f info))
                 Video360.CUBEMAP_FACES
         | Editor360.custom =>
             map (fun view =>
                    ((folder "" (FrameView.name view)
                      ++ "frame_" ++ formatTime toString (FrameData.time f) ++ "_"
                      ++ toString (round (FrameData.variance f)) ++ ".jpg")%string,
                     viewPicture f view))
                 (Editor360.frameViews (Editor360.state (editor p)))
         end)
      (frame :: rest) in
  exists zip content p',
    handleDownload Blob toString seeked drawSource extractCubemapFace
                   extractPerspectiveView toBlob generateAsync p = Some (Ok tt, p')
    /\ generateAsync zip = Ok content
    /\ saved p' = saved p
                  ++ [ ((Editor360.videoFileName (Editor360.state (editor p))
                         ++ "_360_frames.zip")%string, content) ]
    /\ zip = fold_left (fun z call => put (fst call) (snd call) z) calls []
    /\ NoDup (map fst zip)
    /\ (forall name, In name (map fst zip) <-> In name (map fst calls))
    /\ (forall name, get name zip = get name (rev calls))
    /\ (List.length zip <= List.length calls)%nat
    /\ (NoDup (map fst calls) -> zip = calls).
Proof.
  intros Hv Hc Hactive Hsharp Hok Hgen calls.
  destruct (pack_files Blob calls) as [F1 [F2 [F3 [F4 F5]]]].
  exists (pack calls).
  destruct (Hgen (pack calls)) as [content Ec]. exists content.
  assert (Hrun : exists p',
    handleDownload Blob toString seeked drawSource extractCubemapFace
                   extractPerspectiveView toBlob generateAsync p = Some (Ok tt, p')
    /\ saved p' = saved p
                  ++ [ ((Editor360.videoFileName (Editor360.state (editor p))
                         ++ "_360_frames.zip")%string, content) ]).
  { unfold handleDownload. cbv zeta. rewrite Hv, Hc, Hactive.
    destruct (FrameView.frameData activeView) as [|f0 fs] eqn:Efd.
    { unfold Editor360Page.sharpFrames in Hsharp. rewrite Efd in Hsharp. discriminate. }
    unfold Run.bind at 1. cbn [Run.modify]. unfold Run.tryCatchFinally. rewrite Hsharp.
    unfold Run.bind at 1.
    match goal with
    | |- context [handleDownload_loop _ _ _ _ _ _ _ ?st ?n ?fs ?c ?z ?q] =>
        destruct (loop_entries360 st n fs Hok c z q) as [p1 E];
        pose proof (loop_alike360 st n fs c z q) as Hloop
    end.
    rewrite E in Hloop. destruct Hloop as [_ [Hs _]].
    rewrite E. unfold Run.bind at 1.
    change (store (flat_map (frameCalls toString (Editor360.state (editor p)) facePicture
                                        viewPicture) (frame :: rest)) [])
      with (pack calls).
    rewrite Ec. cbn [Run.lift Run.ret Run.modify].
    unfold Run.bind. cbn [Run.modify].
    eexists. split; [reflexivity|]. cbn [onEditor saveAs saved]. rewrite Hs. reflexivity. }
  destruct Hrun as [p' [Hrun Hsaved]]. exists p'.
  split; [exact Hrun|]. split; [exact Ec|]. split; [exact Hsaved|].
  split; [reflexivity|]. split; [exact F1|]. split; [exact F2|]. split; [exact F3|].
  split; [exact F4 | exact F5].
Qed.

End Encoded.

End Export360.

Lemma download360_cleanup_witness :
  (exists p',
      Editor360Download.handleDownload string Scenes.showNumber Scenes.everySeek
        Scenes.drawSource Examples.sameFace Examples.samePerspective Scenes.toBlob
        Scenes.generateAsync Scenes.burstPage360 = Some (Ok tt, p')
      /\ Editor360.isProcessing (Editor360.state (Download.editor p')) = false
      /\ Editor360.progress (Editor360.state (Download.editor p')) = num 0)
  /\ Editor360Download.handleDownload string Scenes.showNumber (Scenes.stalledAt (num 1))
       Scenes.drawSource Examples.sameFace Examples.samePerspective Scenes.toBlob
       Scenes.generateAsync Scenes.burstPage360 = None.
Proof.
  split.
  - destruct (download360_cleanup string Scenes.showNumber Scenes.everySeek
                Scenes.drawSource Examples.sameFace Examples.samePerspective Scenes.toBlob
                Scenes.generateAsync Scenes.burstPage360 Examples.clip
                (Examples.view360 Scenes.burst (num 300) [])
                eq_refl eq_refl eq_refl ltac:(discriminate))
      as [[[p' [Hrun [Hst _]]] | [Hnone _]] _].
    + exists p'. split; [exact Hrun|]. rewrite Hst. split; reflexivity.
    + discriminate Hnone.
  - destruct (download360_cleanup string Scenes.showNumber (Scenes.stalledAt (num 1))
                Scenes.drawSource Examples.sameFace Examples.samePerspective Scenes.toBlob
                Scenes.generateAsync Scenes.burstPage360 Examples.clip
                (Examples.view360 Scenes.burst (num 300) [])
                eq_refl eq_refl eq_refl ltac:(discriminate))
      as [_ [_ Hstall]].
    exact (Hstall _ _ eq_refl eq_refl).
Defined.

Lemma download360_entries_witness :
  exists (zip : Download.Archive string) p',
    Editor360Download.handleDownload string Scenes.showNumber Scenes.everySeek
      Scenes.drawSource Examples.sameFace Examples.samePerspective Scenes.toBlob
      Scenes.generateAsync Scenes.burstPage360 = Some (Ok tt, p')
    /\ zip
       = [ ("frame_0-01/pz.jpg", "jpeg4"); ("frame_0-01/px.jpg", "jpeg4");
           ("frame_0-01/nz.jpg", "jpeg4"); ("frame_0-01/nx.jpg", "jpeg4");
           ("frame_0-01/py.jpg", "jpeg4"); ("frame_0-01/ny.jpg", "jpeg4");
           ("frame_0-03/pz.jpg", "jpeg9"); ("frame_0-03/px.jpg", "jpeg9");
           ("frame_0-03/nz.jpg", "jpeg9"); ("frame_0-03/nx.jpg", "jpeg9");
           ("frame_0-03/py.jpg", "jpeg9"); ("frame_0-03/ny.jpg", "jpeg9") ]%string.
Proof.
  destruct (download360_entries string Scenes.showNumber Scenes.everySeek
              Scenes.drawSource Examples.sameFace Examples.samePerspective Scenes.toBlob
              Scenes.generateAsync
              (fun f _ => Scenes.picture f) (fun f _ => Scenes.picture f)
              Scenes.burstPage360 Examples.clip
              (Examples.view360 Scenes.burst (num 300) [])
              {| FrameData.time := num 1; FrameData.variance := dec (4002 # 10) |}
              [ {| FrameData.time := dec (4 # 3); FrameData.variance := dec (4004 # 10) |};
                {| FrameData.time := num 3; FrameData.variance := num 500 |} ]
              eq_refl eq_refl eq_refl eq_refl)
    as [zip [content [p' [Hrun [_ [_ [Hzip _]]]]]]].
  - intros f [<-|[<-|[<-|[]]]]; (split; [reflexivity|]); eexists;
      (split; [reflexivity|]); split; intro; eexists; split; reflexivity.
  - intro zip. eexists. reflexivity.
  - exists zip, p'. split; [exact Hrun | exact Hzip].
Defined.

(* ================================================================== *)
(** * Time labels and the names of exported frames *)
(* ================================================================== *)

Section Names.
Import JS.

Variable toString : number -> string.

Lemma Qfloor_unique (z : Z) (x : Q) :
  inject_Z z <= x -> x < inject_Z z + 1 -> Qfloor x = z.
Proof.
  intros Hlo Hhi.
  assert (H1 : (z <= Qfloor x)%Z).
  { rewrite <- (Qfloor_Z z). apply Qfloor_resp_le. exact Hlo. }
  assert (H2 : (Qfloor x < z + 1)%Z).
  { rewrite Zlt_Qlt. rewrite inject_Z_plus. change (inject_Z 1) with 1.
    pose proof (Qfloor_le x). lra. }
  lia.
Qed.

Lemma whole_second (t : Q) :
  let n := Qfloor t in
  inject_Z n <= t /\ t < inject_Z n + 1
  /\ inject_Z n == 60 * inject_Z (n / 60) + inject_Z (n mod 60)
  /\ 0 <= inject_Z (n mod 60) /\ inject_Z (n mod 60) + 1 <= 60.
Proof.
  intro n. pose proof (Qfloor_le t) as Hlo. pose proof (Qlt_floor t) as Hhi.
  fold n in Hlo, Hhi. rewrite inject_Z_plus in Hhi. change (inject_Z 1) with 1 in Hhi.
  pose proof (Z.div_mod n 60 ltac:(lia)) as Hdm.
  pose proof (Z.mod_pos_bound n 60 ltac:(lia)) as Hb.
  split; [exact Hlo|]. split; [exact Hhi|]. split; [|split].
  - rewrite Hdm at 1. rewrite inject_Z_plus, inject_Z_mult. reflexivity.
  - change 0 with (inject_Z 0). rewrite <- Zle_Qle. lia.
  - change 1 with (inject_Z 1). change 60 with (inject_Z 60).
    rewrite <- inject_Z_plus, <- Zle_Qle. lia.
Qed.

(** The minutes and the seconds of a time label. *)
Lemma time_parts (t : Q) :
  0 <= t ->
  floor (Fin t / num 60)%js = ofZ (Qfloor t / 60)
  /\ floor (rem (Fin t) (num 60)) = ofZ (Qfloor t mod 60).
Proof.
  intro Ht. destruct (whole_second t) as [Hlo [Hhi [Hdm [Hr0 Hr1]]]].
  set (n := Qfloor t) in *. set (q := (n / 60)%Z) in *. set (r := (n mod 60)%Z) in *.
  assert (Hq : Qfloor (t / 60) = q).
  { apply Qfloor_unique.
    - apply Qle_shift_div_l; [reflexivity | lra].
    - apply Qlt_shift_div_r; [reflexivity | lra]. }
  split.
  - unfold num, ofZ. cbn [div]. change (Qeq_bool (inject_Z 60) 0) with false. cbn iota.
    unfold fin, floor, ofZ. do 2 f_equal.
    rewrite (Qfloor_comp _ _ (Qred_correct _)). exact Hq.
  - unfold rem, num, ofZ. change (Qeq_bool (inject_Z 60) 0) with false. cbn iota.
    unfold fin, floor, ofZ. do 2 f_equal.
    rewrite (Qfloor_comp _ _ (Qred_correct _)).
    assert (H0 : 0 <= t / inject_Z 60).
    { apply Qle_shift_div_l; [reflexivity | lra]. }
    rewrite (Qtrunc_floor _ H0). change (inject_Z 60) with 60. rewrite Hq.
    apply Qfloor_unique; lra.
Qed.

(** X25. Time labels and the names of exported frames see a time only
    through its whole second.  For a time [t] that is not negative the
    label of both timelines is the whole minutes, a colon and the two
    digit seconds of the whole second of [t]; two times in the same
    whole second have the same label on the timelines and in the 360
    export, and two frames in the same whole second whose scores round
    to the same integer get the same file name in the planar export. *)
Theorem names_by_second (t1 t2 : Q) (v1 v2 : number) :
  0 <= t1 -> 0 <= t2 -> Qfloor t1 = Qfloor t2 ->
  TimelineGeometry.formatTime toString (Fin t1)
  = (toString (ofZ (Qfloor t1 / 60)) ++ ":"
     ++ padStart2 (toString (ofZ (Qfloor t1 mod 60))))%string
  /\ TimelineGeometry.formatTime toString (Fin t1)
     = TimelineGeometry.formatTime toString (Fin t2)
  /\ Editor360Download.formatTime toString (Fin t1)
     = Editor360Download.formatTime toString (Fin t2)
  /\ (round v1 = round v2 ->
      EditorDownload.baseFileName toString
        {| FrameData.time := Fin t1; FrameData.variance := v1 |}
      = EditorDownload.baseFileName toString
          {| FrameData.time := Fin t2; FrameData.variance := v2 |}).
Proof.
  intros H1 H2 Hsame.
  destruct (time_parts t1 H1) as [M1 S1]. destruct (time_parts t2 H2) as [M2 S2].
  unfold TimelineGeometry.formatTime, Editor360Download.formatTime,
    EditorDownload.baseFileName, TimelineGeometry.formatTime.
  cbn [FrameData.time FrameData.variance]. cbv zeta.
  rewrite M1, S1, M2, S2, Hsame.
  split; [reflexivity|]. split; [reflexivity|]. split; [reflexivity|].
  intro Hv. rewrite Hv. reflexivity.
Qed.

End Names.

Lemma names_by_second_witness :
  EditorDownload.baseFileName Scenes.showNumber
    {| FrameData.time := JS.Fin 1; FrameData.variance := JS.Fin (1002 # 10) |}
  = "frame_0-01_100"%string
  /\ EditorDownload.baseFileName Scenes.showNumber
       {| FrameData.time := JS.Fin (3 # 2); FrameData.variance := JS.Fin (1004 # 10) |}
     = "frame_0-01_100"%string.
Proof.
  destruct (names_by_second Scenes.showNumber 1 (3 # 2)
              (JS.Fin (1002 # 10)) (JS.Fin (1004 # 10)))
    as [_ [_ [_ H]]]; [discriminate | discriminate | reflexivity |].
  split; [reflexivity|]. rewrite <- (H eq_refl). reflexivity.
Defined.

(* ================================================================== *)
(** * The configuration in the URL *)
(* ================================================================== *)

Section UrlRoundTrip.
Import JS.
Import Editor360Page.
Import Editor360Url.

(** Reading back the digits of a printed natural number. *)
Lemma readDigits_uint (d : Decimal.uint) :
  forall (acc : nat) (n : nat),
    readDigits (NilEmpty.string_of_uint d) (Z.of_nat acc) n
    = (Z.of_nat (Nat.of_uint_acc d acc), (n + Decimal.nb_digits d)%nat, EmptyString).
Proof.
  induction d; intros acc n; cbn [NilEmpty.string_of_uint readDigits Nat.of_uint_acc
                                  Decimal.nb_digits];
    try (rewrite Nat.add_0_r; reflexivity);
    change (digitOf _) with (Some 0%Z) || change (digitOf _) with (Some 1%Z)
    || change (digitOf _) with (Some 2%Z) || change (digitOf _) with (Some 3%Z)
    || change (digitOf _) with (Some 4%Z) || change (digitOf _) with (Some 5%Z)
    || change (digitOf _) with (Some 6%Z) || change (digitOf _) with (Some 7%Z)
    || change (digitOf _) with (Some 8%Z) || change (digitOf _) with (Some 9%Z);
    cbv iota;
    match goal with
    | |- readDigits _ ?a _ = (Z.of_nat (Nat.of_uint_acc _ ?b), _, _) =>
        replace a with (Z.of_nat b) by (rewrite Nat.tail_mul_spec; lia)
    end;
    rewrite IHd; f_equal; f_equal; lia.
Qed.

Lemma Qred_inject_Z (z : Z) : Qred (inject_Z z) = inject_Z z.
Proof.
  unfold Qred, inject_Z.
  pose proof (Z.ggcd_gcd z 1) as Hg. pose proof (Z.ggcd_correct_divisors z 1) as Hd.
  destruct (Z.ggcd z 1) as [g [aa bb]]. cbn [fst snd] in *.
  rewrite Z.gcd_1_r in Hg. subst g. destruct Hd as [Ha Hb].
  rewrite Z.mul_1_l in Ha, Hb. subst aa bb. reflexivity.
Qed.

Lemma fin_integer (q : Q) (z : Z) : q == inject_Z z -> fin q = ofZ z.
Proof.
  intro H. unfold fin, ofZ. f_equal.
  rewrite (Qred_complete _ _ H). apply Qred_inject_Z.
Qed.

Lemma to_uint_nonnil (k : nat) : Nat.to_uint k <> Decimal.Nil.
Proof.
  rewrite <- (DecimalNat.Unsigned.of_to k) at 1.
  rewrite DecimalNat.Unsigned.to_of. apply DecimalFacts.unorm_nonnil.
Qed.

Lemma digit_first (c : ascii) (rest : string) :
  digitOf c <> None ->
  trimStart (String c rest) = String c rest
  /\ readSign (String c rest) = (1%Z, String c rest)
  /\ String.prefix "Infinity" (String c rest) = false.
Proof.
  destruct c as [[] [] [] [] [] [] [] []]; intro H;
    try (exfalso; apply H; reflexivity); repeat split.
Qed.

Lemma showNat_digits (k : nat) :
  exists c rest m,
    showNat k = String c rest /\ digitOf c <> None
    /\ readDigits (showNat k) 0 0 = (Z.of_nat k, S m, EmptyString).
Proof.
  unfold showNat, NilZero.string_of_uint.
  pose proof (DecimalNat.Unsigned.of_to k) as Hk. unfold Nat.of_uint in Hk.
  pose proof (to_uint_nonnil k) as Hnn.
  pose proof (readDigits_uint (Nat.to_uint k) 0 0) as Hread.
  rewrite Hk in Hread. change (Z.of_nat 0) with 0%Z in Hread.
  destruct (Nat.to_uint k) as [|d|d|d|d|d|d|d|d|d|d]; [contradiction| ..];
    cbn [NilEmpty.string_of_uint Decimal.nb_digits Nat.add] in *;
    do 3 eexists; (split; [reflexivity|]); (split; [|exact Hread]);
    vm_compute; discriminate.
Qed.

(** A string of digits, with or without a minus sign in front, is
    read back by [parseInt] and [parseFloat]. *)
Lemma parse_digits (c : ascii) (rest : string) (m : nat) (z : Z) :
  digitOf c <> None ->
  readDigits (String c rest) 0 0 = (z, S m, EmptyString) ->
  parseInt (String c rest) = ofZ z
  /\ parseFloat (String c rest) = ofZ z
  /\ parseInt (String "-" (String c rest)) = ofZ (- z)
  /\ parseFloat (String "-" (String c rest)) = ofZ (- z).
Proof.
  intros Hc Hread. destruct (digit_first c rest Hc) as [Ht [Hs Hp]].
  assert (Ht' : trimStart (String "-" (String c rest)) = String "-" (String c rest))
    by reflexivity.
  assert (Hs' : readSign (String "-" (String c rest)) = ((-1)%Z, String c rest))
    by reflexivity.
  unfold parseInt, parseFloat. rewrite Ht, Hs, Ht', Hs', Hp, Hread.
  cbn [readExponent Z.ltb]. change (pow10 0) with 1.
  split; [f_equal; lia|].
  split; [apply fin_integer; change (10 ^ Z.of_nat 0)%Z with 1%Z;
          change (inject_Z 1) with 1; change (inject_Z 0) with 0; field|].
  split; [f_equal; lia|].
  apply fin_integer. change (10 ^ Z.of_nat 0)%Z with 1%Z.
  rewrite inject_Z_opp. change (inject_Z (-1)) with (-1).
  change (inject_Z 1) with 1. change (inject_Z 0) with 0. field.
Qed.

(** The decimal notation of a whole number is read back. *)
Lemma parse_showZ (z : Z) :
  parseInt (showZ z) = ofZ z /\ parseFloat (showZ z) = ofZ z
  /\ showZ z <> EmptyString.
Proof.
  unfold showZ. destruct (Z.ltb_spec z 0) as [Hneg | Hpos].
  - destruct (showNat_digits (Z.to_nat (- z))) as [c [rest [m [E [Hc Hread]]]]].
    rewrite E in *. destruct (parse_digits c rest m _ Hc Hread) as [_ [_ [H1 H2]]].
    rewrite H1, H2. replace (- Z.of_nat (Z.to_nat (- z)))%Z with z by lia.
    repeat split. discriminate.
  - destruct (showNat_digits (Z.to_nat z)) as [c [rest [m [E [Hc Hread]]]]].
    rewrite E in *. destruct (parse_digits c rest m _ Hc Hread) as [H1 [H2 _]].
    rewrite H1, H2. replace (Z.of_nat (Z.to_nat z)) with z by lia.
    repeat split. discriminate.
Qed.

Lemma generateUrlParams_pairs (toString : number -> string)
      (mode : Editor360.EditorMode) (config : CustomConfig.t) :
  generateUrlParams toString mode config
  = match mode with
    | Editor360.skybox => [ ("mode", "skybox") ]
    | Editor360.custom =>
        [ ("mode", "custom");
          ("frames", toString (CustomConfig.frameCount config));
          ("pitch", toString (CustomConfig.rigPitch config));
          ("angle", toString (CustomConfig.startAngle config));
          ("fov", toString (CustomConfig.fov config)) ]
    end%string.
Proof. destruct mode; reflexivity. Qed.

Lemma present_parsed (parse : string -> number) (v : string) :
  v <> EmptyString ->
  present (Some v) = true /\ parsed parse (Some v) = Some (parse v).
Proof.
  intro H. unfold present, parsed.
  destruct (String.eqb_spec v ""); [contradiction | split; reflexivity].
Qed.

(** X26. The configuration survives the URL.  For a mode and a custom
    configuration of four whole numbers that print in decimal
    notation, the parameters the page writes to the URL are read back
    as that mode and, in custom mode, exactly that configuration; and
    a freshly mounted page initialised from them is in that mode, with
    that configuration in custom mode and the default one in skybox
    mode. *)
Theorem url_round_trip (toString : number -> string) (mode : Editor360.EditorMode)
        (n p a f : Z) (extra : nat) :
  toString (ofZ n) = showZ n -> toString (ofZ p) = showZ p ->
  toString (ofZ a) = showZ a -> toString (ofZ f) = showZ f ->
  let config :=
    {| CustomConfig.frameCount := ofZ n; CustomConfig.rigPitch := ofZ p;
       CustomConfig.startAngle := ofZ a; CustomConfig.fov := ofZ f |} in
  let params := generateUrlParams toString mode config in
  parseUrlConfig params
  = {| Editor360Page.mode := Some mode;
       Editor360Page.config :=
         match mode with
         | Editor360.custom =>
             Some {| CustomConfig.p_frameCount := Some (ofZ n);
                     CustomConfig.p_rigPitch := Some (ofZ p);
                     CustomConfig.p_startAngle := Some (ofZ a);
                     CustomConfig.p_fov := Some (ofZ f) |}
         | Editor360.skybox => None
         end |}
  /\ exists st,
      initializeFromUrl (S (Z.to_nat (Z.max 4 n)) + extra) params Editor360.initialState
      = Some st
      /\ Editor360.editorMode st = mode
      /\ Editor360.customConfig st
         = match mode with
           | Editor360.custom => config
           | Editor360.skybox => Editor360.DEFAULT_CUSTOM_CONFIG
           end.
Proof.
  intros Hn Hp Ha Hf config params.
  destruct (parse_showZ n) as [In [_ Nn]]. destruct (parse_showZ p) as [_ [Fp Np]].
  destruct (parse_showZ a) as [_ [Fa Na]]. destruct (parse_showZ f) as [_ [Ff Nf]].
  assert (Hparse : parseUrlConfig params
          = {| Editor360Page.mode := Some mode;
               Editor360Page.config :=
                 match mode with
                 | Editor360.custom =>
                     Some {| CustomConfig.p_frameCount := Some (ofZ n);
                             CustomConfig.p_rigPitch := Some (ofZ p);
                             CustomConfig.p_startAngle := Some (ofZ a);
                             CustomConfig.p_fov := Some (ofZ f) |}
                 | Editor360.skybox => None
                 end |}).
  { unfold params. rewrite generateUrlParams_pairs. destruct mode; [reflexivity|].
    unfold config. cbn [CustomConfig.frameCount CustomConfig.rigPitch
      CustomConfig.startAngle CustomConfig.fov]. rewrite Hn, Hp, Ha, Hf.
    unfold parseUrlConfig.
    change (get _ "mode") with (Some "custom"%string).
    change (get _ "frames") with (Some (showZ n)).
    change (get _ "pitch") with (Some (showZ p)).
    change (get _ "angle") with (Some (showZ a)).
    change (get _ "fov") with (Some (showZ f)).
    cbv zeta.
    destruct (present_parsed parseInt _ Nn) as [P1 Q1].
    destruct (present_parsed parseFloat _ Np) as [P2 Q2].
    destruct (present_parsed parseFloat _ Na) as [P3 Q3].
    destruct (present_parsed parseFloat _ Nf) as [P4 Q4].
    rewrite P1, Q1, Q2, Q3, Q4, In, Fp, Fa, Ff. reflexivity. }
  split; [exact Hparse|].
  unfold initializeFromUrl. rewrite Hparse.
  cbn [Editor360Page.mode Editor360Page.config]. destruct mode.
  - eexists. split; [reflexivity|]. split; reflexivity.
  - unfold Editor360.setEditorMode.
    change (Editor360.customConfig Editor360.initialState)
      with Editor360.DEFAULT_CUSTOM_CONFIG.
    set (fuel := (S (Z.to_nat (Z.max 4 n)) + extra)%nat).
    assert (E1 : fuel = (S (Z.to_nat 4) + (fuel - 5))%nat) by (unfold fuel; lia).
    assert (E2 : fuel = (S (Z.to_nat n) + (fuel - S (Z.to_nat n)))%nat)
      by (unfold fuel; lia).
    clearbody fuel.
    assert (C1 : exists views,
              Editor360.createCustomFrameViews fuel Editor360.DEFAULT_CUSTOM_CONFIG
              = Some views).
    { rewrite E1. eexists.
      apply (createCustomFrameViews_runs Editor360.DEFAULT_CUSTOM_CONFIG 4 _ eq_refl). }
    assert (C2 : exists views, Editor360.createCustomFrameViews fuel config = Some views).
    { rewrite E2. eexists. apply (createCustomFrameViews_runs config n _ eq_refl). }
    destruct C1 as [views1 C1]. destruct C2 as [views2 C2]. rewrite C1.
    unfold Editor360.setCustomConfig.
    cbn [Editor360.withViews Editor360.editorMode Editor360.customConfig].
    change (CustomConfig.spread Editor360.DEFAULT_CUSTOM_CONFIG _) with config.
    rewrite C2. eexists. split; [reflexivity|]. split; reflexivity.
Qed.

End UrlRoundTrip.

Lemma url_round_trip_witness :
  Editor360Page.parseUrlConfig
    (Editor360Url.generateUrlParams Scenes.showNumber Editor360.custom
       {| CustomConfig.frameCount := JS.ofZ 13; CustomConfig.rigPitch := JS.ofZ 0;
          CustomConfig.startAngle := JS.ofZ 45; CustomConfig.fov := JS.ofZ 90 |})
  = {| Editor360Page.mode := Some Editor360.custom;
       Editor360Page.config :=
         Some {| CustomConfig.p_frameCount := Some (JS.ofZ 13);
                 CustomConfig.p_rigPitch := Some (JS.ofZ 0);
                 CustomConfig.p_startAngle := Some (JS.ofZ 45);
                 CustomConfig.p_fov := Some (JS.ofZ 90) |} |}.
Proof.
  destruct (url_round_trip Scenes.showNumber Editor360.custom 13 0 45 90 0
              eq_refl eq_refl eq_refl eq_refl) as [H _].
  exact H.
Defined.
